(** * libliftoff (Raspberry Pi fork): plane allocation, shallow embedding

    The development follows the C sources file by file: [layer.c],
    [plane.c], [output.c], [device.c] and [alloc.c].  C structs are
    records, pointers to layers, planes and outputs are addresses into
    finite maps, the intrusive lists are lists of addresses in list
    order, and the DRM boundary (libdrm and the kernel) is a set of
    section variables.

    Integers.  Fixed-width values are [Z].  Conversions between widths
    or signedness are written out with [to_int], [to_uint32], ...;
    arithmetic on signed [int] is the arithmetic of [Z] (signed overflow
    is undefined in C and the quantities involved are plane and layer
    counts and [zpos] values). *)

From Stdlib Require Import ZArith Bool String.
From stdpp Require Import base decidable option list numbers strings sorting gmap.

#[local] Set Warnings "-clear-no-such-hyp".

Local Open Scope Z_scope.

(** ** Machine integers *)

Definition wrap_unsigned (w x : Z) : Z := x mod 2 ^ w.
Definition wrap_signed (w x : Z) : Z :=
  (x + 2 ^ (w - 1)) mod 2 ^ w - 2 ^ (w - 1).

Definition to_uint32 : Z → Z := wrap_unsigned 32.
Definition to_uint64 : Z → Z := wrap_unsigned 64.
Definition to_int : Z → Z := wrap_signed 32.
Definition to_int64 : Z → Z := wrap_signed 64.

Definition INT_MAX : Z := 2147483647.
Definition INT_MIN : Z := -2147483648.

(** ** errno values ([errno.h], Linux) *)

Definition EINTR : Z := 4.
Definition EAGAIN : Z := 11.
Definition ENOMEM : Z := 12.
Definition EEXIST : Z := 17.
Definition EINVAL : Z := 22.
Definition ENOSPC : Z := 28.
Definition ERANGE : Z := 34.

(** ** [enum liftoff_rpi_property_name] ([libliftoff_rpi.h]) *)

Definition LIFTOFF_RPI_PROP_TYPE : Z := 1.
Definition LIFTOFF_RPI_PROP_FB_ID : Z := 2.
Definition LIFTOFF_RPI_PROP_CRTC_ID : Z := 3.
Definition LIFTOFF_RPI_PROP_CRTC_X : Z := 4.
Definition LIFTOFF_RPI_PROP_CRTC_Y : Z := 5.
Definition LIFTOFF_RPI_PROP_CRTC_W : Z := 6.
Definition LIFTOFF_RPI_PROP_CRTC_H : Z := 7.
Definition LIFTOFF_RPI_PROP_SRC_X : Z := 8.
Definition LIFTOFF_RPI_PROP_SRC_Y : Z := 9.
Definition LIFTOFF_RPI_PROP_SRC_W : Z := 10.
Definition LIFTOFF_RPI_PROP_SRC_H : Z := 11.
Definition LIFTOFF_RPI_PROP_ZPOS : Z := 12.
Definition LIFTOFF_RPI_PROP_ALPHA : Z := 13.
Definition LIFTOFF_RPI_PROP_ROTATION : Z := 14.
Definition LIFTOFF_RPI_PROP_SCALING_FILTER : Z := 15.
Definition LIFTOFF_RPI_PROP_PIXEL_BLEND_MODE : Z := 16.
Definition LIFTOFF_RPI_PROP_FB_DAMAGE_CLIPS : Z := 17.
Definition LIFTOFF_RPI_PROP_IN_FENCE_FD : Z := 18.
Definition LIFTOFF_RPI_PROP_IN_FORMATS : Z := 19.

(** ** DRM constants used by the sources

    These come from the kernel's [drm_mode.h] and [drm_fourcc.h], which
    are not part of the repository; the values are those of the DRM
    userspace API. *)

Definition DRM_PLANE_TYPE_OVERLAY : Z := 0.
Definition DRM_PLANE_TYPE_PRIMARY : Z := 1.
Definition DRM_PLANE_TYPE_CURSOR : Z := 2.

Definition DRM_MODE_PROP_RANGE : Z := 2.
Definition DRM_MODE_PROP_IMMUTABLE : Z := 4.
Definition DRM_MODE_PROP_ENUM : Z := 8.
Definition DRM_MODE_PROP_BLOB : Z := 16.
Definition DRM_MODE_PROP_BITMASK : Z := 32.
Definition DRM_MODE_PROP_LEGACY_TYPE : Z := 58.
Definition DRM_MODE_PROP_EXTENDED_TYPE : Z := 65472.
Definition DRM_MODE_PROP_SIGNED_RANGE : Z := 128.

Definition DRM_MODE_ROTATE_0 : Z := 1.
Definition DRM_MODE_FB_MODIFIERS : Z := 2.
Definition DRM_MODE_PAGE_FLIP_EVENT : Z := 1.
Definition DRM_MODE_ATOMIC_TEST_ONLY : Z := 256.

(** ** Addresses *)

Definition layer_ptr := nat.
Definition plane_ptr := nat.
Definition output_ptr := nat.

(** ** libdrm structures *)

Record drm_mode_property_enum := {
  enum_value : Z;
}.

Record drmModePropertyRes := {
  dprop_prop_id : Z;
  dprop_flags : Z;
  dprop_name : string;
  dprop_values : list Z;
  dprop_enums : list drm_mode_property_enum;
}.

Record drmModeFB2 := {
  fb_id : Z;
  width : Z;
  height : Z;
  pixel_format : Z;
  modifier : Z;
  flags : Z;
}.

Definition drmModeFB2_zero : drmModeFB2 :=
  {| fb_id := 0; width := 0; height := 0; pixel_format := 0;
     modifier := 0; flags := 0 |}.

Record drm_format_modifier := {
  dfm_formats : Z;
  dfm_offset : Z;
  dfm_modifier : Z;
}.

(** The [IN_FORMATS] blob: the format array found at [formats_offset]
    and the modifier array found at [modifiers_offset], with their
    counts as the lengths. *)
Record drm_format_modifier_blob := {
  blob_formats : list Z;
  blob_modifiers : list drm_format_modifier;
}.

(** ** [struct liftoff_rpi_property] ([private.h]) *)

Record liftoff_rpi_property := {
  index : Z;
  id : Z;
  dprop : option drmModePropertyRes;
  value : Z;
  prev_value : Z;
}.

Definition property_zero : liftoff_rpi_property :=
  {| index := 0; id := 0; dprop := None; value := 0; prev_value := 0 |}.

Global Instance liftoff_rpi_property_inhabited : Inhabited liftoff_rpi_property :=
  populate property_zero.

(** ** [struct liftoff_rpi_layer] ([private.h])

    [layer_props] is the array [props]; its length is [props_len]. *)

Record liftoff_rpi_layer := {
  layer_output : output_ptr;
  layer_plane : option plane_ptr;
  layer_props : list liftoff_rpi_property;
  candidate_planes : list Z;
  current_priority : Z;
  pending_priority : Z;
  force_comp : bool;
  changed : bool;
  fb_info : drmModeFB2;
  prev_fb_info : drmModeFB2;
}.

Definition layer_zero : liftoff_rpi_layer :=
  {| layer_output := 0%nat; layer_plane := None; layer_props := [];
     candidate_planes := []; current_priority := 0; pending_priority := 0;
     force_comp := false; changed := false;
     fb_info := drmModeFB2_zero; prev_fb_info := drmModeFB2_zero |}.

Global Instance liftoff_rpi_layer_inhabited : Inhabited liftoff_rpi_layer :=
  populate layer_zero.

(** Field updates. *)

Definition layer_with_props (l : liftoff_rpi_layer) ps : liftoff_rpi_layer :=
  {| layer_output := layer_output l; layer_plane := layer_plane l;
     layer_props := ps; candidate_planes := candidate_planes l;
     current_priority := current_priority l;
     pending_priority := pending_priority l;
     force_comp := force_comp l; changed := changed l;
     fb_info := fb_info l; prev_fb_info := prev_fb_info l |}.

Definition layer_with_changed (l : liftoff_rpi_layer) b : liftoff_rpi_layer :=
  {| layer_output := layer_output l; layer_plane := layer_plane l;
     layer_props := layer_props l; candidate_planes := candidate_planes l;
     current_priority := current_priority l;
     pending_priority := pending_priority l;
     force_comp := force_comp l; changed := b;
     fb_info := fb_info l; prev_fb_info := prev_fb_info l |}.

Definition layer_with_force_comp (l : liftoff_rpi_layer) b : liftoff_rpi_layer :=
  {| layer_output := layer_output l; layer_plane := layer_plane l;
     layer_props := layer_props l; candidate_planes := candidate_planes l;
     current_priority := current_priority l;
     pending_priority := pending_priority l;
     force_comp := b; changed := changed l;
     fb_info := fb_info l; prev_fb_info := prev_fb_info l |}.

Definition layer_with_plane (l : liftoff_rpi_layer) p : liftoff_rpi_layer :=
  {| layer_output := layer_output l; layer_plane := p;
     layer_props := layer_props l; candidate_planes := candidate_planes l;
     current_priority := current_priority l;
     pending_priority := pending_priority l;
     force_comp := force_comp l; changed := changed l;
     fb_info := fb_info l; prev_fb_info := prev_fb_info l |}.

Definition layer_with_candidates (l : liftoff_rpi_layer) c : liftoff_rpi_layer :=
  {| layer_output := layer_output l; layer_plane := layer_plane l;
     layer_props := layer_props l; candidate_planes := c;
     current_priority := current_priority l;
     pending_priority := pending_priority l;
     force_comp := force_comp l; changed := changed l;
     fb_info := fb_info l; prev_fb_info := prev_fb_info l |}.

Definition layer_with_priority (l : liftoff_rpi_layer) cur pend : liftoff_rpi_layer :=
  {| layer_output := layer_output l; layer_plane := layer_plane l;
     layer_props := layer_props l; candidate_planes := candidate_planes l;
     current_priority := cur; pending_priority := pend;
     force_comp := force_comp l; changed := changed l;
     fb_info := fb_info l; prev_fb_info := prev_fb_info l |}.

Definition layer_with_fb_info (l : liftoff_rpi_layer) fb : liftoff_rpi_layer :=
  {| layer_output := layer_output l; layer_plane := layer_plane l;
     layer_props := layer_props l; candidate_planes := candidate_planes l;
     current_priority := current_priority l;
     pending_priority := pending_priority l;
     force_comp := force_comp l; changed := changed l;
     fb_info := fb; prev_fb_info := prev_fb_info l |}.

Definition layer_with_prev_fb_info (l : liftoff_rpi_layer) fb : liftoff_rpi_layer :=
  {| layer_output := layer_output l; layer_plane := layer_plane l;
     layer_props := layer_props l; candidate_planes := candidate_planes l;
     current_priority := current_priority l;
     pending_priority := pending_priority l;
     force_comp := force_comp l; changed := changed l;
     fb_info := fb_info l; prev_fb_info := fb |}.

Definition prop_with_value (p : liftoff_rpi_property) v : liftoff_rpi_property :=
  {| index := index p; id := id p; dprop := dprop p; value := v;
     prev_value := prev_value p |}.

Definition prop_with_prev_value (p : liftoff_rpi_property) v : liftoff_rpi_property :=
  {| index := index p; id := id p; dprop := dprop p; value := value p;
     prev_value := v |}.

(** * layer.c *)

(** [layer_property_get]: the first entry of [props] whose [index] is
    [prop], as its position in the array together with the entry. *)
Definition layer_property_get (layer : liftoff_rpi_layer) (prop : Z)
  : option (nat * liftoff_rpi_property) :=
  list_find (λ p, index p = prop) (layer_props layer).

Definition layer_fb_get (layer : liftoff_rpi_layer) : bool :=
  match layer_property_get layer LIFTOFF_RPI_PROP_FB_ID with
  | Some (_, fb) => negb (value fb =? 0)
  | None => false
  end.

Definition layer_visible_get (layer : liftoff_rpi_layer) : bool :=
  let alpha_zero :=
    match layer_property_get layer LIFTOFF_RPI_PROP_ALPHA with
    | Some (_, prop) => value prop =? 0
    | None => false
    end in
  if alpha_zero then false
  else if force_comp layer then true
  else
    match layer_property_get layer LIFTOFF_RPI_PROP_FB_ID with
    | Some (_, fb) => negb (value fb =? 0)
    | None => false
    end.

Record liftoff_rpi_rect := { rx : Z; ry : Z; rw : Z; rh : Z }.

Definition prop_int_or_zero (layer : liftoff_rpi_layer) (prop : Z) : Z :=
  match layer_property_get layer prop with
  | Some (_, p) => to_int (value p)
  | None => 0
  end.

Definition layer_rect_get (layer : liftoff_rpi_layer) : liftoff_rpi_rect :=
  {| rx := prop_int_or_zero layer LIFTOFF_RPI_PROP_CRTC_X;
     ry := prop_int_or_zero layer LIFTOFF_RPI_PROP_CRTC_Y;
     rw := prop_int_or_zero layer LIFTOFF_RPI_PROP_CRTC_W;
     rh := prop_int_or_zero layer LIFTOFF_RPI_PROP_CRTC_H |}.

(** The four sums are additions of [int]s: a sum that does not fit an
    [int] wraps around, as it does in the compiled code. *)
Definition layer_intersects (a b : liftoff_rpi_layer) : bool :=
  if negb (layer_visible_get a) || negb (layer_visible_get b) then false
  else
    let ra := layer_rect_get a in
    let rb := layer_rect_get b in
    (rx ra <? to_int (rx rb + rw rb)) && (ry ra <? to_int (ry rb + rh rb)) &&
    (to_int (rx ra + rw ra) >? rx rb) && (to_int (ry ra + rh ra) >? ry rb).

Definition layer_clean (layer : liftoff_rpi_layer) : liftoff_rpi_layer :=
  let l1 := layer_with_changed layer false in
  let l2 := layer_with_prev_fb_info l1 (fb_info l1) in
  layer_with_props l2
    (map (λ p, prop_with_prev_value p (value p)) (layer_props l2)).

Definition layer_priority_update (layer : liftoff_rpi_layer) (current : bool)
  : liftoff_rpi_layer :=
  let pend :=
    match layer_property_get layer LIFTOFF_RPI_PROP_FB_ID with
    | Some (_, prop) =>
        if negb (prev_value prop =? value prop)
        then pending_priority layer + 1
        else pending_priority layer
    | None => pending_priority layer
    end in
  if current
  then layer_with_priority layer pend 0
  else layer_with_priority layer (current_priority layer) pend.

(** The tail of [liftoff_rpi_layer_property_set], once [prop] points at
    entry [i] of [props]: store the value, and leave forced composition
    when a framebuffer is given. *)
Definition layer_property_store (layer : liftoff_rpi_layer) (i : nat)
    (property value : Z) : liftoff_rpi_layer :=
  let l1 :=
    layer_with_props layer
      (alter (λ p, prop_with_value p value) i (layer_props layer)) in
  if (property =? LIFTOFF_RPI_PROP_FB_ID) && force_comp l1
  then layer_with_changed (layer_with_force_comp l1 false) true
  else l1.

(** [liftoff_rpi_layer_property_set].  [realloc_ok] tells whether the
    [realloc] that grows [props] succeeds; it is consulted only when the
    property is new.  The result is the return value and the layer. *)
Definition liftoff_rpi_layer_property_set (layer : liftoff_rpi_layer)
    (property value : Z) (realloc_ok : bool) : Z * liftoff_rpi_layer :=
  if property =? LIFTOFF_RPI_PROP_CRTC_ID then (- EINVAL, layer)
  else
    match layer_property_get layer property with
    | Some (i, _) => (0, layer_property_store layer i property value)
    | None =>
        if negb realloc_ok then (- ENOMEM, layer)
        else
          let fresh :=
            {| index := property; id := 0; dprop := None;
               value := 0; prev_value := 0 |} in
          let l1 :=
            layer_with_changed
              (layer_with_props layer (layer_props layer ++ [fresh])) true in
          (0, layer_property_store l1 (length (layer_props layer))
                property value)
    end.

(** [liftoff_rpi_layer_property_unset] *)
Definition liftoff_rpi_layer_property_unset (layer : liftoff_rpi_layer)
    (property : Z) : liftoff_rpi_layer :=
  match layer_property_get layer property with
  | None => layer
  | Some (i, _) =>
      let n := length (layer_props layer) in
      let last := layer_props layer !!! (n - 1)%nat in
      let ps :=
        if bool_decide (i ≠ (n - 1)%nat)
        then <[i := last]> (layer_props layer)
        else layer_props layer in
      layer_with_changed (layer_with_props layer (take (n - 1) ps)) true
  end.

(** [liftoff_rpi_layer_fb_composited_set] *)
Definition liftoff_rpi_layer_fb_composited_set (layer : liftoff_rpi_layer)
    (realloc_ok : bool) : liftoff_rpi_layer :=
  if force_comp layer then layer
  else
    let l1 :=
      snd (liftoff_rpi_layer_property_set layer LIFTOFF_RPI_PROP_FB_ID 0
             realloc_ok) in
    layer_with_changed (layer_with_force_comp l1 true) true.

(** * Planes, outputs, the device and the heap *)

(** [struct liftoff_rpi_plane].  [plane_props] is the array allocated
    with one slot per DRM property of the plane; [plane_props_len] is
    the field [props_len]. *)
Record liftoff_rpi_plane := {
  plane_layer : option layer_ptr;
  plane_props : list liftoff_rpi_property;
  in_formats_blob : option drm_format_modifier_blob;
  plane_props_len : nat;
  plane_id : Z;
  plane_type : Z;
  possible_crtcs : Z;
  zpos : Z;
}.

Definition plane_zero : liftoff_rpi_plane :=
  {| plane_layer := None; plane_props := []; in_formats_blob := None;
     plane_props_len := 0; plane_id := 0; plane_type := 0;
     possible_crtcs := 0; zpos := 0 |}.

Global Instance liftoff_rpi_plane_inhabited : Inhabited liftoff_rpi_plane :=
  populate plane_zero.

Definition plane_with_layer (p : liftoff_rpi_plane) l : liftoff_rpi_plane :=
  {| plane_layer := l; plane_props := plane_props p;
     in_formats_blob := in_formats_blob p;
     plane_props_len := plane_props_len p; plane_id := plane_id p;
     plane_type := plane_type p; possible_crtcs := possible_crtcs p;
     zpos := zpos p |}.

(** [struct liftoff_rpi_output].  [output_layers] is the list [layers]
    in list order. *)
Record liftoff_rpi_output := {
  output_layers : list layer_ptr;
  comp_layer : option layer_ptr;
  crtc_id : Z;
  crtc_index : Z;
  alloc_reused_counter : Z;
  layers_changed : bool;
}.

Definition output_zero : liftoff_rpi_output :=
  {| output_layers := []; comp_layer := None; crtc_id := 0; crtc_index := 0;
     alloc_reused_counter := 0; layers_changed := false |}.

Global Instance liftoff_rpi_output_inhabited : Inhabited liftoff_rpi_output :=
  populate output_zero.

Definition output_with_layers_changed (o : liftoff_rpi_output) b
  : liftoff_rpi_output :=
  {| output_layers := output_layers o; comp_layer := comp_layer o;
     crtc_id := crtc_id o; crtc_index := crtc_index o;
     alloc_reused_counter := alloc_reused_counter o; layers_changed := b |}.

Definition output_with_comp_layer (o : liftoff_rpi_output) c
  : liftoff_rpi_output :=
  {| output_layers := output_layers o; comp_layer := c;
     crtc_id := crtc_id o; crtc_index := crtc_index o;
     alloc_reused_counter := alloc_reused_counter o;
     layers_changed := layers_changed o |}.

Definition output_with_alloc_reused_counter (o : liftoff_rpi_output) n
  : liftoff_rpi_output :=
  {| output_layers := output_layers o; comp_layer := comp_layer o;
     crtc_id := crtc_id o; crtc_index := crtc_index o;
     alloc_reused_counter := n; layers_changed := layers_changed o |}.

(** [struct liftoff_rpi_device].  [dev_planes] and [dev_outputs] are the
    lists [planes] and [outputs] in list order. *)
Record liftoff_rpi_device := {
  dev_planes : list plane_ptr;
  dev_outputs : list output_ptr;
  crtcs : list Z;
  planes_cap : nat;
  test_commit_counter : Z;
  page_flip_counter : Z;
}.

Definition device_with_planes (d : liftoff_rpi_device) ps : liftoff_rpi_device :=
  {| dev_planes := ps; dev_outputs := dev_outputs d; crtcs := crtcs d;
     planes_cap := planes_cap d;
     test_commit_counter := test_commit_counter d;
     page_flip_counter := page_flip_counter d |}.

Definition device_with_test_commit_counter (d : liftoff_rpi_device) n
  : liftoff_rpi_device :=
  {| dev_planes := dev_planes d; dev_outputs := dev_outputs d;
     crtcs := crtcs d; planes_cap := planes_cap d;
     test_commit_counter := n;
     page_flip_counter := page_flip_counter d |}.

Definition device_with_page_flip_counter (d : liftoff_rpi_device) n
  : liftoff_rpi_device :=
  {| dev_planes := dev_planes d; dev_outputs := dev_outputs d;
     crtcs := crtcs d; planes_cap := planes_cap d;
     test_commit_counter := test_commit_counter d;
     page_flip_counter := n |}.

(** The memory the library works on: one device and the planes, outputs
    and layers that hang off it. *)
Record heap := {
  device : liftoff_rpi_device;
  planes : gmap plane_ptr liftoff_rpi_plane;
  outputs : gmap output_ptr liftoff_rpi_output;
  layers : gmap layer_ptr liftoff_rpi_layer;
}.

Definition get_plane (h : heap) (p : plane_ptr) : liftoff_rpi_plane :=
  planes h !!! p.
Definition get_output (h : heap) (o : output_ptr) : liftoff_rpi_output :=
  outputs h !!! o.
Definition get_layer (h : heap) (l : layer_ptr) : liftoff_rpi_layer :=
  layers h !!! l.

Definition upd_device (h : heap) (f : liftoff_rpi_device → liftoff_rpi_device)
  : heap :=
  {| device := f (device h); planes := planes h; outputs := outputs h;
     layers := layers h |}.
Definition upd_plane (h : heap) (p : plane_ptr)
    (f : liftoff_rpi_plane → liftoff_rpi_plane) : heap :=
  {| device := device h; planes := <[p := f (planes h !!! p)]> (planes h);
     outputs := outputs h; layers := layers h |}.
Definition upd_output (h : heap) (o : output_ptr)
    (f : liftoff_rpi_output → liftoff_rpi_output) : heap :=
  {| device := device h; planes := planes h;
     outputs := <[o := f (outputs h !!! o)]> (outputs h);
     layers := layers h |}.
Definition upd_layer (h : heap) (l : layer_ptr)
    (f : liftoff_rpi_layer → liftoff_rpi_layer) : heap :=
  {| device := device h; planes := planes h; outputs := outputs h;
     layers := <[l := f (layers h !!! l)]> (layers h) |}.

(** * The DRM boundary

    An atomic request is the array of its items up to the cursor; the
    cursor is the number of items.  [drmModeAtomicSetCursor] is only
    ever called with a cursor taken earlier from the same request, so
    it truncates. *)

Record drmModeAtomicReqItem := {
  item_object_id : Z;
  item_property_id : Z;
  item_value : Z;
}.

Definition drmModeAtomicReq := list drmModeAtomicReqItem.

Definition drmModeAtomicGetCursor (req : drmModeAtomicReq) : nat :=
  length req.
Definition drmModeAtomicSetCursor (req : drmModeAtomicReq) (cursor : nat)
  : drmModeAtomicReq :=
  take cursor req.

Record drmModePlane := {
  dplane_plane_id : Z;
  dplane_possible_crtcs : Z;
}.

(** What libdrm and the kernel answer.  Each field is the answer as a
    function of what the call is given:
    - [drm_atomic_add_property req object property value] is the return
      value of [drmModeAtomicAddProperty] (negative on failure);
    - [drm_atomic_commit req flags n] is the return value of the
      [drmModeAtomicCommit] that [device_test_commit] makes after [n]
      calls of its retry loop were answered [-EINTR] or [-EAGAIN];
      [drm_commit_retries] is the number of repetitions the model
      follows (the loop of the code has no bound);
    - [drm_get_fb2 fb_id] is the framebuffer description, if any;
    - [drm_get_plane], [drm_object_get_properties], [drm_get_property]
      and [drm_get_property_blob] are the plane queries of
      [liftoff_rpi_plane_create]. *)
Record drm_boundary := {
  drm_atomic_add_property : drmModeAtomicReq → Z → Z → Z → Z;
  drm_atomic_commit : drmModeAtomicReq → Z → nat → Z;
  drm_commit_retries : nat;
  drm_get_fb2 : Z → option drmModeFB2;
  drm_get_plane : Z → option drmModePlane;
  drm_object_get_properties : Z → option (list (Z * Z));
  drm_get_property : Z → option drmModePropertyRes;
  drm_get_property_blob : Z → option drm_format_modifier_blob;
}.

Section Library.

Context (drm : drm_boundary).

Definition drmModeAtomicAddProperty (req : drmModeAtomicReq)
    (object_id property_id value : Z) : Z * drmModeAtomicReq :=
  let ret := drm_atomic_add_property drm req object_id property_id value in
  if ret <? 0 then (ret, req)
  else (ret, req ++ [{| item_object_id := object_id;
                        item_property_id := property_id;
                        item_value := value |}]).

Definition drmModeGetPropertyType (prop : drmModePropertyRes) : Z :=
  Z.land (dprop_flags prop)
    (Z.lor DRM_MODE_PROP_LEGACY_TYPE DRM_MODE_PROP_EXTENDED_TYPE).

(** * plane.c *)

(** [plane_zpos_guess]; [first] is the plane at the head of the device's
    list, if the list is not empty. *)
Definition plane_zpos_guess (first : option liftoff_rpi_plane) (id type : Z)
  : Z :=
  if type =? DRM_PLANE_TYPE_PRIMARY then 0
  else if type =? DRM_PLANE_TYPE_CURSOR then 2
  else if type =? DRM_PLANE_TYPE_OVERLAY then
    match first with
    | None => 0
    | Some primary => if id <? plane_id primary then -1 else 1
    end
  else 0.

Definition plane_prop_range_check (prop : drmModePropertyRes) (value : Z) : Z :=
  if (value <? dprop_values prop !!! 0%nat) ||
     (value >? dprop_values prop !!! 1%nat)
  then - EINVAL else 0.

Definition plane_prop_signed_range_check (prop : drmModePropertyRes)
    (value : Z) : Z :=
  if (to_int64 value <? to_int64 (dprop_values prop !!! 0%nat)) ||
     (to_int64 value >? to_int64 (dprop_values prop !!! 1%nat))
  then - EINVAL else 0.

Definition plane_prop_enum_check (prop : drmModePropertyRes) (value : Z) : Z :=
  if existsb (λ e, enum_value e =? value) (dprop_enums prop)
  then 0 else - EINVAL.

(** [1 << prop->enums[i].value] is a shift of the [int] constant 1,
    converted to [uint64_t] when or-ed into the mask.  A 32-bit shift
    takes its count modulo 32 in the compiled code. *)
Definition plane_prop_bitmask_check (prop : drmModePropertyRes) (value : Z)
  : Z :=
  let mask :=
    fold_left
      (λ mask e,
         Z.lor mask
           (to_uint64 (to_int (Z.shiftl 1 (enum_value e mod 32)))))
      (dprop_enums prop) 0 in
  if negb (Z.land value (to_uint64 (Z.lnot mask)) =? 0)
  then - EINVAL else 0.

(** [plane_property_get] looks at the first [props_len] slots. *)
Definition plane_property_get (plane : liftoff_rpi_plane) (prop : Z)
  : option (nat * liftoff_rpi_property) :=
  list_find (λ p, index p = prop)
    (take (plane_props_len plane) (plane_props plane)).

Definition plane_property_set (plane : liftoff_rpi_plane)
    (req : drmModeAtomicReq) (id value : Z) : Z * drmModeAtomicReq :=
  let '(ret, req') := drmModeAtomicAddProperty req (plane_id plane) id value in
  if ret <? 0 then (ret, req') else (0, req').

Definition dprop_immutable (d : option drmModePropertyRes) : bool :=
  match d with
  | Some d => negb (Z.land (dprop_flags d) DRM_MODE_PROP_IMMUTABLE =? 0)
  | None => false
  end.

Definition plane_prop_check (d : option drmModePropertyRes) (value : Z) : Z :=
  match d with
  | Some d =>
      let t := drmModeGetPropertyType d in
      if t =? DRM_MODE_PROP_RANGE then plane_prop_range_check d value
      else if t =? DRM_MODE_PROP_ENUM then plane_prop_enum_check d value
      else if t =? DRM_MODE_PROP_BITMASK then plane_prop_bitmask_check d value
      else if t =? DRM_MODE_PROP_SIGNED_RANGE
           then plane_prop_signed_range_check d value
      else 0
  | None => 0
  end.

(** [plane_prop_set]: look the property up on the plane, refuse an
    immutable one, check the value against the property's kind, then add
    it to the request. *)
Definition plane_prop_set (plane : liftoff_rpi_plane) (req : drmModeAtomicReq)
    (index value : Z) : Z * drmModeAtomicReq :=
  match plane_property_get plane index with
  | None => (- EINVAL, req)
  | Some (_, prop) =>
      if dprop_immutable (dprop prop) then (- EINVAL, req)
      else
        let ret := plane_prop_check (dprop prop) value in
        if negb (ret =? 0) then (ret, req)
        else plane_property_set plane req (id prop) value
  end.

(** The loop of [plane_apply] over the layer's properties; [c] is the
    cursor taken on entry. *)
Fixpoint plane_apply_props (plane : liftoff_rpi_plane) (c : nat)
    (lprops : list liftoff_rpi_property) (req : drmModeAtomicReq)
  : Z * drmModeAtomicReq :=
  match lprops with
  | [] => (0, req)
  | lprop :: rest =>
      if index lprop =? LIFTOFF_RPI_PROP_ZPOS
      then plane_apply_props plane c rest req
      else
        match plane_property_get plane (index lprop) with
        | None =>
            if ((index lprop =? LIFTOFF_RPI_PROP_ALPHA) &&
                (value lprop =? 65535))
               || ((index lprop =? LIFTOFF_RPI_PROP_ROTATION) &&
                   (value lprop =? DRM_MODE_ROTATE_0))
               || ((index lprop =? LIFTOFF_RPI_PROP_SCALING_FILTER) &&
                   (value lprop =? 0))
               || ((index lprop =? LIFTOFF_RPI_PROP_PIXEL_BLEND_MODE) &&
                   (value lprop =? 0))
               || (index lprop =? LIFTOFF_RPI_PROP_FB_DAMAGE_CLIPS)
            then plane_apply_props plane c rest req
            else (- EINVAL, drmModeAtomicSetCursor req c)
        | Some (_, pprop) =>
            let '(ret, req') :=
              plane_property_set plane req (id pprop) (value lprop) in
            if negb (ret =? 0)
            then (ret, drmModeAtomicSetCursor req' c)
            else plane_apply_props plane c rest req'
        end
  end.

(** [plane_apply plane layer req]; [layer_crtc_id] is
    [layer->output->crtc_id] when [layer] is not null. *)
Definition plane_apply_with (plane : liftoff_rpi_plane)
    (layer : option liftoff_rpi_layer) (layer_crtc_id : Z)
    (req : drmModeAtomicReq) : Z * drmModeAtomicReq :=
  let c := drmModeAtomicGetCursor req in
  match layer with
  | None =>
      let '(ret, req1) := plane_prop_set plane req LIFTOFF_RPI_PROP_FB_ID 0 in
      if negb (ret =? 0) then (ret, req1)
      else plane_prop_set plane req1 LIFTOFF_RPI_PROP_CRTC_ID 0
  | Some layer =>
      let '(ret, req1) :=
        plane_prop_set plane req LIFTOFF_RPI_PROP_CRTC_ID layer_crtc_id in
      if negb (ret =? 0) then (ret, req1)
      else plane_apply_props plane c (layer_props layer) req1
  end.

Definition plane_apply (h : heap) (plane : plane_ptr)
    (layer : option layer_ptr) (req : drmModeAtomicReq)
  : Z * drmModeAtomicReq :=
  plane_apply_with (get_plane h plane) (get_layer h <$> layer)
    (match layer with
     | Some l => crtc_id (get_output h (layer_output (get_layer h l)))
     | None => 0
     end) req.

(** [plane_check_layer_fb] *)
Definition plane_check_layer_fb (plane : liftoff_rpi_plane)
    (layer : liftoff_rpi_layer) : bool :=
  if (fb_id (fb_info layer) =? 0) ||
     (Z.land (flags (fb_info layer)) DRM_MODE_FB_MODIFIERS =? 0) ||
     bool_decide (in_formats_blob plane = None)
  then true
  else
    match in_formats_blob plane with
    | None => true
    | Some set =>
        match list_find (λ f, f = pixel_format (fb_info layer))
                (blob_formats set) with
        | None => false
        | Some (format_index, _) =>
            match list_find (λ m, dfm_modifier m = modifier (fb_info layer))
                    (blob_modifiers set) with
            | None => false
            | Some (_, m) =>
                if (Z.of_nat format_index <? to_int (dfm_offset m)) ||
                   (Z.of_nat format_index >=? to_int (dfm_offset m) + 64)
                then false
                else
                  let format_shift :=
                    Z.of_nat format_index - to_int (dfm_offset m) in
                  negb (Z.land (dfm_formats m)
                          (to_uint64 (Z.shiftl 1 format_shift)) =? 0)
            end
        end
    end.

(** ** [liftoff_rpi_plane_create] *)

(** list.c: [liftoff_rpi_list_insert list elm] links [elm] right after
    the link [list].  On a list in list order, with the head as link 0
    and the k-th element as link k, this puts [elm] at position [pos]. *)
Definition liftoff_rpi_list_insert {A} (pos : nat) (elm : A) (l : list A)
  : list A :=
  take pos l ++ elm :: drop pos l.

Definition liftoff_rpi_list_length {A} (l : list A) : nat := length l.
Definition liftoff_rpi_list_empty {A} (l : list A) : bool :=
  bool_decide (l = []).

(** The chain of [strcmp] on the property name. *)
Definition plane_prop_index_of_name (name : string) : Z :=
  if String.eqb name "type" then LIFTOFF_RPI_PROP_TYPE
  else if String.eqb name "FB_ID" then LIFTOFF_RPI_PROP_FB_ID
  else if String.eqb name "CRTC_ID" then LIFTOFF_RPI_PROP_CRTC_ID
  else if String.eqb name "CRTC_X" then LIFTOFF_RPI_PROP_CRTC_X
  else if String.eqb name "CRTC_Y" then LIFTOFF_RPI_PROP_CRTC_Y
  else if String.eqb name "CRTC_W" then LIFTOFF_RPI_PROP_CRTC_W
  else if String.eqb name "CRTC_H" then LIFTOFF_RPI_PROP_CRTC_H
  else if String.eqb name "SRC_X" then LIFTOFF_RPI_PROP_SRC_X
  else if String.eqb name "SRC_Y" then LIFTOFF_RPI_PROP_SRC_Y
  else if String.eqb name "SRC_W" then LIFTOFF_RPI_PROP_SRC_W
  else if String.eqb name "SRC_H" then LIFTOFF_RPI_PROP_SRC_H
  else if String.eqb name "zpos" then LIFTOFF_RPI_PROP_ZPOS
  else if String.eqb name "alpha" then LIFTOFF_RPI_PROP_ALPHA
  else if String.eqb name "rotation" then LIFTOFF_RPI_PROP_ROTATION
  else if String.eqb name "SCALING FILTER" then LIFTOFF_RPI_PROP_SCALING_FILTER
  else if String.eqb name "pixel blend mode"
       then LIFTOFF_RPI_PROP_PIXEL_BLEND_MODE
  else if String.eqb name "FB_DAMAGE_CLIPS"
       then LIFTOFF_RPI_PROP_FB_DAMAGE_CLIPS
  else if String.eqb name "IN_FENCE_FD" then LIFTOFF_RPI_PROP_IN_FENCE_FD
  else if String.eqb name "IN_FORMATS" then LIFTOFF_RPI_PROP_IN_FORMATS
  else -1.

(** The plane under construction together with the locals [has_type]
    and [has_zpos]. *)
Record plane_scan := {
  scan_plane : liftoff_rpi_plane;
  scan_has_type : bool;
  scan_has_zpos : bool;
}.

(** The loop over [dprops->props]; [i] is the loop index and [dprops]
    what is left of the pairs (property id, property value).  [None]
    when a query fails. *)
Fixpoint plane_create_props (i : nat) (dprops : list (Z * Z))
    (sc : plane_scan) : option plane_scan :=
  match dprops with
  | [] => Some sc
  | (prop_id, prop_value) :: rest =>
      match drm_get_property drm prop_id with
      | None => None
      | Some dprop =>
          let plane := scan_plane sc in
          let x := plane_prop_index_of_name (dprop_name dprop) in
          let plane1 :=
            if x =? LIFTOFF_RPI_PROP_TYPE then
              Some {| plane_layer := plane_layer plane;
                      plane_props := plane_props plane;
                      in_formats_blob := in_formats_blob plane;
                      plane_props_len := plane_props_len plane;
                      plane_id := plane_id plane;
                      plane_type := to_uint32 prop_value;
                      possible_crtcs := possible_crtcs plane;
                      zpos := zpos plane |}
            else if x =? LIFTOFF_RPI_PROP_ZPOS then
              Some {| plane_layer := plane_layer plane;
                      plane_props := plane_props plane;
                      in_formats_blob := in_formats_blob plane;
                      plane_props_len := plane_props_len plane;
                      plane_id := plane_id plane;
                      plane_type := plane_type plane;
                      possible_crtcs := possible_crtcs plane;
                      zpos := to_int prop_value |}
            else if x =? LIFTOFF_RPI_PROP_IN_FORMATS then
              match drm_get_property_blob drm prop_value with
              | None => None
              | Some blob =>
                  Some {| plane_layer := plane_layer plane;
                          plane_props := plane_props plane;
                          in_formats_blob := Some blob;
                          plane_props_len := plane_props_len plane;
                          plane_id := plane_id plane;
                          plane_type := plane_type plane;
                          possible_crtcs := possible_crtcs plane;
                          zpos := zpos plane |}
              end
            else Some plane in
          match plane1 with
          | None => None
          | Some plane1 =>
              let has_type :=
                scan_has_type sc || (x =? LIFTOFF_RPI_PROP_TYPE) in
              let has_zpos :=
                scan_has_zpos sc || (x =? LIFTOFF_RPI_PROP_ZPOS) in
              if x <? 0 then
                plane_create_props (S i) rest
                  {| scan_plane := plane1; scan_has_type := has_type;
                     scan_has_zpos := has_zpos |}
              else
                let prop :=
                  {| index := x; id := dprop_prop_id dprop;
                     dprop := Some dprop; value := 0; prev_value := 0 |} in
                plane_create_props (S i) rest
                  {| scan_plane :=
                       {| plane_layer := plane_layer plane1;
                          plane_props := <[i := prop]> (plane_props plane1);
                          in_formats_blob := in_formats_blob plane1;
                          plane_props_len := S (plane_props_len plane1);
                          plane_id := plane_id plane1;
                          plane_type := plane_type plane1;
                          possible_crtcs := possible_crtcs plane1;
                          zpos := zpos plane1 |};
                     scan_has_type := has_type;
                     scan_has_zpos := has_zpos |}
          end
      end
  end.

(** The loop of [liftoff_rpi_plane_create] over the device's planes,
    [l] being the planes in list order: the position of the first plane
    that is not primary and whose zpos is not above the new plane's, or
    the end of the list when the loop finds none. *)
Definition overlay_insert_position (plane : liftoff_rpi_plane)
    (l : list liftoff_rpi_plane) : nat :=
  match list_find
          (λ cur, plane_type cur ≠ DRM_PLANE_TYPE_PRIMARY ∧
                  zpos plane >= zpos cur) l with
  | Some (k, _) => k
  | None => length l
  end.

(** Where the new plane goes in the device's list: at the head when it
    is a primary plane, otherwise where the loop says. *)
Definition plane_insert_position (h : heap) (plane : liftoff_rpi_plane)
  : nat :=
  if plane_type plane =? DRM_PLANE_TYPE_PRIMARY then 0%nat
  else overlay_insert_position plane (get_plane h <$> dev_planes (device h)).

(** [liftoff_rpi_plane_create dev id].  The two booleans tell whether
    the two [calloc] calls succeed.  The result is the new plane's
    address and the heap, or [None] for a null return. *)
Definition liftoff_rpi_plane_create (h : heap) (id : Z)
    (calloc_plane_ok calloc_props_ok : bool) : option (plane_ptr * heap) :=
  if existsb (λ p, plane_id (get_plane h p) =? id) (dev_planes (device h))
  then None
  else if negb calloc_plane_ok then None
  else
    match drm_get_plane drm id with
    | None => None
    | Some dplane =>
        match drm_object_get_properties drm id with
        | None => None
        | Some dprops =>
            if negb calloc_props_ok then None
            else
              let plane0 :=
                {| plane_layer := None;
                   plane_props := replicate (length dprops) property_zero;
                   in_formats_blob := None;
                   plane_props_len := 0;
                   plane_id := dplane_plane_id dplane;
                   plane_type := 0;
                   possible_crtcs := dplane_possible_crtcs dplane;
                   zpos := 0 |} in
              match plane_create_props 0 dprops
                      {| scan_plane := plane0; scan_has_type := false;
                         scan_has_zpos := false |} with
              | None => None
              | Some sc =>
                  if negb (scan_has_type sc) then None
                  else
                    let plane1 := scan_plane sc in
                    let plane2 :=
                      if negb (scan_has_zpos sc) then
                        {| plane_layer := plane_layer plane1;
                           plane_props := plane_props plane1;
                           in_formats_blob := in_formats_blob plane1;
                           plane_props_len := plane_props_len plane1;
                           plane_id := plane_id plane1;
                           plane_type := plane_type plane1;
                           possible_crtcs := possible_crtcs plane1;
                           zpos :=
                             plane_zpos_guess
                               (get_plane h <$> head (dev_planes (device h)))
                               (plane_id plane1) (plane_type plane1) |}
                      else plane1 in
                    let ptr : plane_ptr := fresh (dom (planes h)) in
                    let pos := plane_insert_position h plane2 in
                    Some (ptr,
                          {| device :=
                               device_with_planes (device h)
                                 (liftoff_rpi_list_insert pos ptr
                                    (dev_planes (device h)));
                             planes := <[ptr := plane2]> (planes h);
                             outputs := outputs h;
                             layers := layers h |})
              end
        end
    end.

(** * device.c *)

(** The loop [do ret = drmModeAtomicCommit(...); while (ret == -EINTR ||
    ret == -EAGAIN)] of [device_test_commit]; [n] is the number of calls
    made so far.  The code repeats the call for as long as the kernel
    interrupts it; the model follows [fuel] repetitions and then returns
    the answer it has. *)
Fixpoint drm_commit_retry (req : drmModeAtomicReq) (flags : Z)
    (fuel n : nat) : Z :=
  let ret := drm_atomic_commit drm req flags n in
  match fuel with
  | O => ret
  | S fuel' =>
      if (ret =? - EINTR) || (ret =? - EAGAIN)
      then drm_commit_retry req flags fuel' (S n)
      else ret
  end.

(** [device_test_commit]: count the commit, strip the page-flip event
    flag, ask the kernel for a test-only commit until it answers. *)
Definition device_test_commit (h : heap) (req : drmModeAtomicReq) (flags : Z)
  : Z * heap :=
  let h' :=
    upd_device h
      (λ d, device_with_test_commit_counter d (test_commit_counter d + 1)) in
  let flags' :=
    Z.land flags (to_uint32 (Z.lnot DRM_MODE_PAGE_FLIP_EVENT)) in
  (drm_commit_retry req (Z.lor DRM_MODE_ATOMIC_TEST_ONLY flags')
     (drm_commit_retries drm) 0,
   h').

(** * output.c *)

(** [liftoff_rpi_output_composition_layer_set] *)
Definition liftoff_rpi_output_composition_layer_set (h : heap)
    (output : output_ptr) (layer : layer_ptr) : heap :=
  if bool_decide (layer_output (get_layer h layer) ≠ output) then h
  else
    let h1 :=
      if bool_decide (Some layer ≠ comp_layer (get_output h output))
      then upd_output h output (λ o, output_with_layers_changed o true)
      else h in
    upd_output h1 output (λ o, output_with_comp_layer o (Some layer)).

(** [liftoff_rpi_layer_needs_composition] *)
Definition liftoff_rpi_layer_needs_composition (layer : liftoff_rpi_layer)
  : bool :=
  if negb (layer_visible_get layer) then false
  else bool_decide (layer_plane layer = None).

(** * layer.c, the functions that reach outside the layer *)

(** [layer_candidate_plane_add]; [cap] is [layer->output->dev->planes_cap]. *)
Definition layer_candidate_plane_add (cap : nat) (layer : liftoff_rpi_layer)
    (plane : liftoff_rpi_plane) : liftoff_rpi_layer :=
  let seen := take cap (candidate_planes layer) in
  if existsb (λ c, c =? plane_id plane) seen then layer
  else
    match list_find (λ c, c = 0) seen with
    | None => layer
    | Some (empty, _) =>
        layer_with_candidates layer
          (<[empty := plane_id plane]> (candidate_planes layer))
    end.

(** [layer_candidate_planes_reset] *)
Definition layer_candidate_planes_reset (cap : nat) (layer : liftoff_rpi_layer)
  : liftoff_rpi_layer :=
  layer_with_candidates layer
    (replicate (min cap (length (candidate_planes layer))) 0
       ++ drop cap (candidate_planes layer)).

(** [layer_cache_fb_info]; the return value is not used by the caller
    and the GEM handles are not part of the model. *)
Definition layer_cache_fb_info (layer : liftoff_rpi_layer) : liftoff_rpi_layer :=
  match layer_property_get layer LIFTOFF_RPI_PROP_FB_ID with
  | None => layer_with_fb_info layer drmModeFB2_zero
  | Some (_, fb_id_prop) =>
      if value fb_id_prop =? 0 then layer_with_fb_info layer drmModeFB2_zero
      else if fb_id (fb_info layer) =? value fb_id_prop then layer
      else
        match drm_get_fb2 drm (to_uint32 (value fb_id_prop)) with
        | None => layer
        | Some info => layer_with_fb_info layer info
        end
  end.

(** * alloc.c *)

(** [struct alloc_result].  [req] and [best] are what the pointers of
    the C struct point at: the request up to its cursor and the array of
    [planes_len] layer addresses. *)
Record alloc_result := {
  req : drmModeAtomicReq;
  result_flags : Z;
  planes_len : nat;
  best : list (option layer_ptr);
  best_score : Z;
  has_comp_layer : bool;
  non_comp_layers_len : nat;
}.

Definition result_with_req (r : alloc_result) q : alloc_result :=
  {| req := q; result_flags := result_flags r; planes_len := planes_len r;
     best := best r; best_score := best_score r;
     has_comp_layer := has_comp_layer r;
     non_comp_layers_len := non_comp_layers_len r |}.

Definition result_with_best (r : alloc_result) b sc : alloc_result :=
  {| req := req r; result_flags := result_flags r; planes_len := planes_len r;
     best := b; best_score := sc;
     has_comp_layer := has_comp_layer r;
     non_comp_layers_len := non_comp_layers_len r |}.

(** [struct alloc_step], without two members: [plink], which is the
    structural argument of the search (the planes from the current one
    to the end of the device's list), and [alloc], which is the same
    pointer in every step and whose array lives in [alloc_mem].  The log
    prefix is not modelled. *)
Record alloc_step := {
  pindex : nat;
  score : Z;
  last_layer_zpos : Z;
  primary_layer_zpos : Z;
  primary_plane_zpos : Z;
  composited : bool;
}.

(** What the search reads and writes: the heap, the result and the
    array [step->alloc]. *)
Record alloc_mem := {
  mem_heap : heap;
  mem_result : alloc_result;
  mem_alloc : list (option layer_ptr);
}.

Definition mem_with_heap (m : alloc_mem) h : alloc_mem :=
  {| mem_heap := h; mem_result := mem_result m; mem_alloc := mem_alloc m |}.
Definition mem_with_result (m : alloc_mem) r : alloc_mem :=
  {| mem_heap := mem_heap m; mem_result := r; mem_alloc := mem_alloc m |}.
Definition mem_with_alloc (m : alloc_mem) a : alloc_mem :=
  {| mem_heap := mem_heap m; mem_result := mem_result m; mem_alloc := a |}.
Definition mem_with_req (m : alloc_mem) q : alloc_mem :=
  mem_with_result m (result_with_req (mem_result m) q).

(** [layer == layer->output->comp_layer] *)
Definition layer_is_comp_layer (h : heap) (layer : layer_ptr) : bool :=
  bool_decide
    (comp_layer (get_output h (layer_output (get_layer h layer)))
     = Some layer).

Definition layer_zprop (h : heap) (layer : layer_ptr)
  : option liftoff_rpi_property :=
  snd <$> layer_property_get (get_layer h layer) LIFTOFF_RPI_PROP_ZPOS.

(** [plane_step_init_next step prev layer]: the next step and the array
    after [step->alloc[prev->pindex] = layer].  [plane] is the plane at
    [prev->plink]. *)
Definition plane_step_init_next (h : heap) (plane : liftoff_rpi_plane)
    (prev : alloc_step) (layer : option layer_ptr)
    (alloc : list (option layer_ptr))
  : alloc_step * list (option layer_ptr) :=
  let is_comp :=
    match layer with
    | Some l => layer_is_comp_layer h l
    | None => false
    end in
  let zprop :=
    match layer with
    | Some l => layer_zprop h l
    | None => None
    end in
  ({| pindex := S (pindex prev);
      composited :=
        if is_comp then true else composited prev;
      score :=
        if bool_decide (is_Some layer) && negb is_comp
        then score prev + 1 else score prev;
      last_layer_zpos :=
        match zprop with
        | Some z =>
            if negb (plane_type plane =? DRM_PLANE_TYPE_PRIMARY)
            then to_int (value z) else last_layer_zpos prev
        | None => last_layer_zpos prev
        end;
      primary_layer_zpos :=
        match zprop with
        | Some z =>
            if plane_type plane =? DRM_PLANE_TYPE_PRIMARY
            then to_int (value z) else primary_layer_zpos prev
        | None => primary_layer_zpos prev
        end;
      primary_plane_zpos :=
        match zprop with
        | Some z =>
            if plane_type plane =? DRM_PLANE_TYPE_PRIMARY
            then zpos plane else primary_plane_zpos prev
        | None => primary_plane_zpos prev
        end |},
   <[pindex prev := layer]> alloc).

Definition layer_allocated_get (step : alloc_step)
    (alloc : list (option layer_ptr)) (layer : layer_ptr) : bool :=
  existsb (λ a, bool_decide (a = Some layer)) (take (pindex step) alloc).

Definition composited_layer_over_get (h : heap) (output : output_ptr)
    (step : alloc_step) (alloc : list (option layer_ptr)) (layer : layer_ptr)
  : bool :=
  match layer_zprop h layer with
  | None => false
  | Some zprop =>
      existsb
        (λ olayer,
           if layer_allocated_get step alloc olayer then false
           else
             match layer_zprop h olayer with
             | None => false
             | Some ozprop =>
                 layer_intersects (get_layer h layer) (get_layer h olayer)
                 && (value ozprop >? value zprop)
             end)
        (output_layers (get_output h output))
  end.

(** The planes before the current one, each with its slot of
    [step->alloc]. *)
Definition allocated_planes (h : heap) (step : alloc_step)
    (alloc : list (option layer_ptr)) : list (plane_ptr * option layer_ptr) :=
  take (pindex step) (zip (dev_planes (device h)) alloc).

Definition allocated_layer_over_get (h : heap) (step : alloc_step)
    (alloc : list (option layer_ptr)) (layer : layer_ptr) : bool :=
  match layer_zprop h layer with
  | None => false
  | Some zprop =>
      existsb
        (λ '(oplane, slot),
           if plane_type (get_plane h oplane) =? DRM_PLANE_TYPE_PRIMARY
           then false
           else
             match slot with
             | None => false
             | Some olayer =>
                 match layer_zprop h olayer with
                 | None => false
                 | Some ozprop =>
                     (value zprop >? value ozprop)
                     && layer_intersects (get_layer h layer)
                          (get_layer h olayer)
                 end
             end)
        (allocated_planes h step alloc)
  end.

Definition allocated_plane_under_get (h : heap) (plane : liftoff_rpi_plane)
    (step : alloc_step) (alloc : list (option layer_ptr)) (layer : layer_ptr)
  : bool :=
  existsb
    (λ '(oplane, slot),
       if plane_type (get_plane h oplane) =? DRM_PLANE_TYPE_PRIMARY
       then false
       else
         match slot with
         | None => false
         | Some olayer =>
             (zpos plane >=? zpos (get_plane h oplane))
             && layer_intersects (get_layer h layer) (get_layer h olayer)
         end)
    (allocated_planes h step alloc).

Definition layer_plane_compatible_get (h : heap) (step : alloc_step)
    (alloc : list (option layer_ptr)) (layer : layer_ptr)
    (plane : liftoff_rpi_plane) : bool :=
  let output := layer_output (get_layer h layer) in
  if layer_allocated_get step alloc layer then false
  else
    let zpos_ok :=
      match layer_zprop h layer with
      | None => true
      | Some zprop =>
          if (to_int (value zprop) >? last_layer_zpos step)
             && allocated_layer_over_get h step alloc layer
          then false
          else if (to_int (value zprop) <? last_layer_zpos step)
                  && allocated_plane_under_get h plane step alloc layer
          then false
          else if negb (plane_type plane =? DRM_PLANE_TYPE_PRIMARY)
                  && (to_int (value zprop) <? primary_layer_zpos step)
                  && (zpos plane >? primary_plane_zpos step)
          then false
          else true
      end in
    if negb zpos_ok then false
    else if negb (plane_type plane =? DRM_PLANE_TYPE_PRIMARY)
            && composited_layer_over_get h output step alloc layer
    then false
    else if negb (plane_type plane =? DRM_PLANE_TYPE_PRIMARY)
            && layer_is_comp_layer h layer
    then false
    else true.

Definition alloc_valid_get (result : alloc_result) (step : alloc_step) : bool :=
  if has_comp_layer result && negb (composited step)
     && negb (score step =? to_int (Z.of_nat (non_comp_layers_len result)))
  then false
  else if composited step
          && (score step =? to_int (Z.of_nat (non_comp_layers_len result)))
  then false
  else true.

(** Loops over a list that may return from the enclosing function:
    the body either goes on with a new state or returns a value. *)
Inductive loop_state (S : Type) : Type :=
  | Continue (s : S)
  | Return (ret : Z) (s : S).
Global Arguments Continue {S} s.
Global Arguments Return {S} ret s.

Fixpoint list_for_each {A S : Type} (body : A → S → loop_state S)
    (l : list A) (s : S) : loop_state S :=
  match l with
  | [] => Continue s
  | x :: l' =>
      match body x s with
      | Continue s' => list_for_each body l' s'
      | Return ret s' => Return ret s'
      end
  end.

(** The body of the loop over the output's layers in
    [output_layers_choose].  [choose_next] is the recursive call on the
    next plane and [cur] the cursor taken on entry. *)
Definition output_layers_choose_layer
    (choose_next : alloc_step → alloc_mem → Z * alloc_mem)
    (plane : plane_ptr) (step : alloc_step) (cur : nat)
    (layer : layer_ptr) (m : alloc_mem) : loop_state alloc_mem :=
  let h := mem_heap m in
  if bool_decide (layer_plane (get_layer h layer) ≠ None) then Continue m
  else if negb (layer_visible_get (get_layer h layer)) then Continue m
  else if negb (layer_plane_compatible_get h step (mem_alloc m) layer
                  (get_plane h plane))
  then Continue m
  else
    let '(ret, req1) :=
      plane_apply h plane (Some layer) (req (mem_result m)) in
    let m1 := mem_with_req m req1 in
    if ret =? - EINVAL then Continue m1
    else if negb (ret =? 0) then Return ret m1
    else
      let h2 :=
        upd_layer h layer
          (λ l, layer_candidate_plane_add (planes_cap (device h)) l
                  (get_plane h plane)) in
      let m2 := mem_with_heap m1 h2 in
      if force_comp (get_layer h2 layer)
         || negb (plane_check_layer_fb (get_plane h2 plane)
                    (get_layer h2 layer))
      then Continue (mem_with_req m2 (drmModeAtomicSetCursor req1 cur))
      else
        let '(ret, h3) :=
          device_test_commit h2 req1 (result_flags (mem_result m2)) in
        let m3 := mem_with_heap m2 h3 in
        if ret =? 0 then
          let '(nstep, alloc') :=
            plane_step_init_next h3 (get_plane h3 plane) step (Some layer)
              (mem_alloc m3) in
          let '(ret, m4) := choose_next nstep (mem_with_alloc m3 alloc') in
          if negb (ret =? 0) then Return ret m4
          else
            Continue
              (mem_with_req m4
                 (drmModeAtomicSetCursor (req (mem_result m4)) cur))
        else if negb (ret =? - EINVAL) && negb (ret =? - ERANGE)
                && negb (ret =? - ENOSPC)
        then Return ret m3
        else Continue (mem_with_req m3 (drmModeAtomicSetCursor req1 cur)).

(** The label [skip] of [output_layers_choose]. *)
Definition output_layers_choose_skip
    (choose_next : alloc_step → alloc_mem → Z * alloc_mem)
    (plane : plane_ptr) (step : alloc_step) (cur : nat) (m : alloc_mem)
  : Z * alloc_mem :=
  let '(nstep, alloc') :=
    plane_step_init_next (mem_heap m) (get_plane (mem_heap m) plane) step
      None (mem_alloc m) in
  let '(ret, m') := choose_next nstep (mem_with_alloc m alloc') in
  if negb (ret =? 0) then (ret, m')
  else (0, mem_with_req m' (drmModeAtomicSetCursor (req (mem_result m')) cur)).

(** [output_layers_choose output result step].  [plink] is
    [step->plink]: the planes from the current one on, empty when the
    step is past the last plane.  With [prune = true] this is the
    function of alloc.c; with [prune = false] it is the same search
    without the early return on the upper bound of the score.
    [1 << output->crtc_index] is a 32-bit shift, which takes its count
    modulo 32 in the compiled code. *)
Fixpoint output_layers_choose_gen (prune : bool) (output : output_ptr)
    (plink : list plane_ptr) (step : alloc_step) (m : alloc_mem)
    {struct plink} : Z * alloc_mem :=
  match plink with
  | [] =>
      let result := mem_result m in
      if (score step >? best_score result) && alloc_valid_get result step
      then
        (0, mem_with_result m
              (result_with_best result
                 (take (planes_len result) (mem_alloc m)
                    ++ drop (planes_len result) (best result))
                 (score step)))
      else (0, m)
  | plane :: plink' =>
      let result := mem_result m in
      let h := mem_heap m in
      let rplanes := Z.of_nat (planes_len result) - Z.of_nat (pindex step) in
      if prune && (best_score result >=? score step + to_int rplanes)
      then (0, m)
      else
        let cur := drmModeAtomicGetCursor (req result) in
        let choose_next := output_layers_choose_gen prune output plink' in
        if bool_decide (plane_layer (get_plane h plane) ≠ None)
        then output_layers_choose_skip choose_next plane step cur m
        else if Z.land (possible_crtcs (get_plane h plane))
                  (to_uint32
                     (Z.shiftl 1 (crtc_index (get_output h output) mod 32)))
                =? 0
        then output_layers_choose_skip choose_next plane step cur m
        else
          match list_for_each
                  (output_layers_choose_layer choose_next plane step cur)
                  (output_layers (get_output h output)) m with
          | Return ret m' => (ret, m')
          | Continue m' =>
              output_layers_choose_skip choose_next plane step cur m'
          end
  end.

Definition output_layers_choose : output_ptr → list plane_ptr → alloc_step →
    alloc_mem → Z * alloc_mem :=
  output_layers_choose_gen true.

(** The search as the specification's law on pruning describes it: the
    same search with the upper-bound pruning step removed. *)
Definition output_layers_choose_unpruned : output_ptr → list plane_ptr →
    alloc_step → alloc_mem → Z * alloc_mem :=
  output_layers_choose_gen false.

(** [apply_current] *)
Definition apply_current (h : heap) (rq : drmModeAtomicReq)
  : Z * drmModeAtomicReq :=
  let cur := drmModeAtomicGetCursor rq in
  match list_for_each
          (λ plane rq,
             let '(ret, rq') :=
               plane_apply h plane (plane_layer (get_plane h plane)) rq in
             if negb (ret =? 0)
             then Return ret (drmModeAtomicSetCursor rq' cur)
             else Continue rq')
          (dev_planes (device h)) rq with
  | Return ret rq' => (ret, rq')
  | Continue rq' => (0, rq')
  end.

Definition layer_fb_info_needs_realloc (a b : drmModeFB2) : bool :=
  negb (width a =? width b) || negb (height a =? height b)
  || negb (pixel_format a =? pixel_format b)
  || negb (modifier a =? modifier b).

Definition layers_fb_info_update (h : heap) (output : output_ptr) : heap :=
  fold_left
    (λ h layer,
       upd_layer h layer
         (λ l, layer_cache_fb_info (layer_with_fb_info l drmModeFB2_zero)))
    (output_layers (get_output h output)) h.

(** The loop of [layer_realloc_get] over the properties. *)
Fixpoint layer_realloc_props (layer : liftoff_rpi_layer)
    (props : list liftoff_rpi_property) : bool :=
  match props with
  | [] => false
  | prop :: rest =>
      if index prop =? LIFTOFF_RPI_PROP_FB_ID then
        if (value prop =? 0) && (prev_value prop =? 0)
        then layer_realloc_props layer rest
        else if (value prop =? 0) || (prev_value prop =? 0) then true
        else if layer_fb_info_needs_realloc (fb_info layer)
                  (prev_fb_info layer)
        then true
        else layer_realloc_props layer rest
      else if value prop =? prev_value prop
      then layer_realloc_props layer rest
      else if index prop =? LIFTOFF_RPI_PROP_ALPHA then
        if (value prop =? 0) || (prev_value prop =? 0)
           || (value prop =? 65535) || (prev_value prop =? 65535)
        then true
        else layer_realloc_props layer rest
      else if (index prop =? LIFTOFF_RPI_PROP_IN_FENCE_FD)
              || (index prop =? LIFTOFF_RPI_PROP_FB_DAMAGE_CLIPS)
      then layer_realloc_props layer rest
      else true
  end.

Definition layer_realloc_get (layer : liftoff_rpi_layer) : bool :=
  if changed layer then true
  else layer_realloc_props layer (layer_props layer).

(** The first part of [reuse_prev_alloc], up to the cursor being taken:
    [true] when the function goes on to restage the current bindings,
    [false] when it returns [-EINVAL] at once. *)
Definition reuse_prev_alloc_guard (h : heap) (output : output_ptr) : bool :=
  if layers_changed (get_output h output) then false
  else
    negb (existsb (λ layer, layer_realloc_get (get_layer h layer))
            (output_layers (get_output h output))).

Definition reuse_prev_alloc (h : heap) (output : output_ptr)
    (rq : drmModeAtomicReq) (flags : Z) : Z * heap * drmModeAtomicReq :=
  if negb (reuse_prev_alloc_guard h output) then (- EINVAL, h, rq)
  else
    let cur := drmModeAtomicGetCursor rq in
    let '(ret, rq1) := apply_current h rq in
    if negb (ret =? 0) then (ret, h, rq1)
    else
      let '(ret, h') := device_test_commit h rq1 flags in
      if negb (ret =? 0) then (ret, h', drmModeAtomicSetCursor rq1 cur)
      else (ret, h', rq1).

Definition layers_mark_clean (h : heap) (output : output_ptr) : heap :=
  fold_left (λ h layer, upd_layer h layer layer_clean)
    (output_layers (get_output h output))
    (upd_output h output (λ o, output_with_layers_changed o false)).

Definition LIFTOFF_RPI_PRIORITY_PERIOD : Z := 60.

Definition layers_priority_update (h : heap) : heap :=
  let counter := page_flip_counter (device h) + 1 in
  let elapsed := counter >=? LIFTOFF_RPI_PRIORITY_PERIOD in
  let h1 :=
    upd_device h
      (λ d, device_with_page_flip_counter d (if elapsed then 0 else counter)) in
  fold_left
    (λ h output,
       fold_left
         (λ h layer,
            upd_layer h layer (λ l, layer_priority_update l elapsed))
         (output_layers (get_output h output)) h)
    (dev_outputs (device h1)) h1.

Definition log_reuse (h : heap) (output : output_ptr) : heap :=
  upd_output h output
    (λ o, output_with_alloc_reused_counter o (alloc_reused_counter o + 1)).

Definition log_no_reuse (h : heap) (output : output_ptr) : heap :=
  if negb (alloc_reused_counter (get_output h output) =? 0)
  then upd_output h output (λ o, output_with_alloc_reused_counter o 0)
  else h.

(** [non_comp_layers_len]: the loop over the output's list that counts
    in [n] the layers for which [layer_visible_get] holds and that are
    not [output->comp_layer]. *)
Definition non_comp_layers_len_get (h : heap) (output : output_ptr) : nat :=
  fold_left
    (λ n layer,
       if layer_visible_get (get_layer h layer)
          && negb (bool_decide
                     (comp_layer (get_output h output) = Some layer))
       then S n else n)
    (output_layers (get_output h output)) 0%nat.

(** The first loop over the planes in [liftoff_rpi_output_apply]: drop
    the bindings of this output. *)
Definition output_unbind_planes (h : heap) (output : output_ptr) : heap :=
  fold_left
    (λ h plane,
       match plane_layer (get_plane h plane) with
       | Some layer =>
           if bool_decide (layer_output (get_layer h layer) = output)
           then
             upd_plane (upd_layer h layer (λ l, layer_with_plane l None))
               plane (λ p, plane_with_layer p None)
           else h
       | None => h
       end)
    (dev_planes (device h)) h.

(** The second loop: stage every unbound plane as disabled. *)
Definition output_disable_planes (h : heap) (rq : drmModeAtomicReq)
  : loop_state drmModeAtomicReq :=
  list_for_each
    (λ plane rq,
       if bool_decide (plane_layer (get_plane h plane) = None) then
         let '(ret, rq') := plane_apply h plane None rq in
         if negb (ret =? 0) then Return ret rq' else Continue rq'
       else Continue rq)
    (dev_planes (device h)) rq.

(** The loop that binds planes and layers as [result.best] says. *)
Definition output_install_best (h : heap) (best : list (option layer_ptr))
  : heap :=
  fold_left
    (λ h '(plane, slot),
       match slot with
       | None => h
       | Some layer =>
           upd_layer (upd_plane h plane (λ p, plane_with_layer p (Some layer)))
             layer (λ l, layer_with_plane l (Some plane))
       end)
    (zip (dev_planes (device h)) best) h.

(** The step [liftoff_rpi_output_apply] starts the search from. *)
Definition alloc_step_first : alloc_step :=
  {| pindex := 0; score := 0; last_layer_zpos := INT_MAX;
     primary_layer_zpos := INT_MIN; primary_plane_zpos := INT_MAX;
     composited := false |}.

(** The result and the array [step.alloc] as
    [liftoff_rpi_output_apply] sets them up before the search.  The
    array comes from [malloc]; every slot is written before the search
    reads it, and the model starts it with null pointers. *)
Definition alloc_mem_first (h : heap) (output : output_ptr)
    (rq : drmModeAtomicReq) (flags : Z) : alloc_mem :=
  let n := liftoff_rpi_list_length (dev_planes (device h)) in
  {| mem_heap := h;
     mem_result :=
       {| req := rq; result_flags := flags; planes_len := n;
          best := replicate n None; best_score := -1;
          has_comp_layer :=
            bool_decide (comp_layer (get_output h output) ≠ None);
          non_comp_layers_len := non_comp_layers_len_get h output |};
     mem_alloc := replicate n None |}.

(** [liftoff_rpi_output_apply output req flags].  [malloc_ok] tells
    whether the two arrays of the search can be allocated.  The result
    is the return value, the heap and the request. *)
Definition liftoff_rpi_output_apply (h : heap) (output : output_ptr)
    (rq : drmModeAtomicReq) (flags : Z) (malloc_ok : bool)
  : Z * heap * drmModeAtomicReq :=
  let h1 := layers_priority_update h in
  let h2 := layers_fb_info_update h1 output in
  let '(ret, h3, rq3) := reuse_prev_alloc h2 output rq flags in
  if ret =? 0 then (0, log_reuse h3 output, rq3)
  else
    let h4 := log_no_reuse h3 output in
    let h5 :=
      fold_left
        (λ h layer,
           upd_layer h layer
             (layer_candidate_planes_reset (planes_cap (device h))))
        (output_layers (get_output h4 output)) h4 in
    let h6 := upd_device h5 (λ d, device_with_test_commit_counter d 0) in
    let h7 := output_unbind_planes h6 output in
    match output_disable_planes h7 rq3 with
    | Return ret rq' => (ret, h7, rq')
    | Continue rq8 =>
        if negb malloc_ok then (- ENOMEM, h7, rq8)
        else
          let '(ret, m) :=
            output_layers_choose output (dev_planes (device h7))
              alloc_step_first (alloc_mem_first h7 output rq8 flags) in
          if negb (ret =? 0) then (ret, mem_heap m, req (mem_result m))
          else
            let h9 := output_install_best (mem_heap m) (best (mem_result m)) in
            let '(ret, rq10) := apply_current h9 (req (mem_result m)) in
            if negb (ret =? 0) then (ret, h9, rq10)
            else (0, layers_mark_clean h9 output, rq10)
    end.

End Library.

(** * The rest of the API

    The functions of [list.c], [layer.c], [output.c], [plane.c] and
    [device.c] that create and destroy objects.  A new object gets an
    address that is not in use; a destroyed object leaves its map. *)

Definition output_with_layers (o : liftoff_rpi_output) ls : liftoff_rpi_output :=
  {| output_layers := ls; comp_layer := comp_layer o;
     crtc_id := crtc_id o; crtc_index := crtc_index o;
     alloc_reused_counter := alloc_reused_counter o;
     layers_changed := layers_changed o |}.

Definition device_with_outputs (d : liftoff_rpi_device) os : liftoff_rpi_device :=
  {| dev_planes := dev_planes d; dev_outputs := os; crtcs := crtcs d;
     planes_cap := planes_cap d;
     test_commit_counter := test_commit_counter d;
     page_flip_counter := page_flip_counter d |}.

(** ** list.c *)

(** [liftoff_rpi_list_init]: the list with no element. *)
Definition liftoff_rpi_list_init {A} : list A := [].

(** [liftoff_rpi_list_remove elm] unlinks [elm] from the list it is
    linked in; an element is linked at one place. *)
Definition liftoff_rpi_list_remove (elm : nat) (l : list nat) : list nat :=
  match list_find (λ x, x = elm) l with
  | Some (i, _) => delete i l
  | None => l
  end.

(** ** layer.c *)

(** [liftoff_rpi_layer_create output].  The booleans tell whether the
    two [calloc]s succeed.  The layer is linked after the last layer of
    the output ([output->layers.prev]). *)
Definition liftoff_rpi_layer_create (h : heap) (output : output_ptr)
    (calloc_layer_ok calloc_candidates_ok : bool)
  : option (layer_ptr * heap) :=
  if negb calloc_layer_ok then None
  else if negb calloc_candidates_ok then None
  else
    let ptr : layer_ptr := fresh (dom (layers h)) in
    let layer :=
      {| layer_output := output; layer_plane := None; layer_props := [];
         candidate_planes := replicate (planes_cap (device h)) 0;
         current_priority := 0; pending_priority := 0;
         force_comp := false; changed := false;
         fb_info := drmModeFB2_zero; prev_fb_info := drmModeFB2_zero |} in
    let h1 :=
      {| device := device h; planes := planes h; outputs := outputs h;
         layers := <[ptr := layer]> (layers h) |} in
    let h2 :=
      upd_output h1 output
        (λ o, output_with_layers o
                (liftoff_rpi_list_insert (length (output_layers o)) ptr
                   (output_layers o))) in
    Some (ptr, upd_output h2 output (λ o, output_with_layers_changed o true)).

(** [liftoff_rpi_layer_destroy layer]; [None] is the null pointer. *)
Definition liftoff_rpi_layer_destroy (h : heap) (layer : option layer_ptr)
  : heap :=
  match layer with
  | None => h
  | Some layer =>
      let output := layer_output (get_layer h layer) in
      let h1 := upd_output h output (λ o, output_with_layers_changed o true) in
      let h2 :=
        match layer_plane (get_layer h1 layer) with
        | Some plane => upd_plane h1 plane (λ p, plane_with_layer p None)
        | None => h1
        end in
      let h3 :=
        if bool_decide (comp_layer (get_output h2 output) = Some layer)
        then upd_output h2 output (λ o, output_with_comp_layer o None)
        else h2 in
      let h4 :=
        upd_output h3 output
          (λ o, output_with_layers o
                  (liftoff_rpi_list_remove layer (output_layers o))) in
      {| device := device h4; planes := planes h4; outputs := outputs h4;
         layers := delete layer (layers h4) |}
  end.

(** [liftoff_rpi_layer_plane_get] *)
Definition liftoff_rpi_layer_plane_get (layer : liftoff_rpi_layer)
  : option plane_ptr :=
  layer_plane layer.

(** [liftoff_rpi_layer_candidate_plane_get]; [cap] is
    [layer->output->dev->planes_cap]. *)
Definition liftoff_rpi_layer_candidate_plane_get (cap : nat)
    (layer : liftoff_rpi_layer) (plane : liftoff_rpi_plane) : bool :=
  existsb (λ c, c =? plane_id plane) (take cap (candidate_planes layer)).

(** ** output.c *)

(** [liftoff_rpi_output_create dev crtc_id]; [calloc_ok] tells whether
    the [calloc] succeeds.  The output is linked at the head of the
    device's list. *)
Definition liftoff_rpi_output_create (h : heap) (crtc : Z) (calloc_ok : bool)
  : option (output_ptr * heap) :=
  match list_find (λ c, c = crtc) (crtcs (device h)) with
  | None => None
  | Some (i, _) =>
      if negb calloc_ok then None
      else
        let ptr : output_ptr := fresh (dom (outputs h)) in
        let output :=
          {| output_layers := liftoff_rpi_list_init; comp_layer := None;
             crtc_id := crtc; crtc_index := Z.of_nat i;
             alloc_reused_counter := 0; layers_changed := false |} in
        Some (ptr,
              {| device :=
                   device_with_outputs (device h)
                     (liftoff_rpi_list_insert 0 ptr (dev_outputs (device h)));
                 planes := planes h;
                 outputs := <[ptr := output]> (outputs h);
                 layers := layers h |})
  end.

(** [liftoff_rpi_output_destroy output]; [None] is the null pointer. *)
Definition liftoff_rpi_output_destroy (h : heap) (output : option output_ptr)
  : heap :=
  match output with
  | None => h
  | Some output =>
      {| device :=
           device_with_outputs (device h)
             (liftoff_rpi_list_remove output (dev_outputs (device h)));
         planes := planes h;
         outputs := delete output (outputs h);
         layers := layers h |}
  end.

(** [liftoff_rpi_output_needs_composition] *)
Definition liftoff_rpi_output_needs_composition (h : heap)
    (output : output_ptr) : bool :=
  existsb (λ layer, liftoff_rpi_layer_needs_composition (get_layer h layer))
    (output_layers (get_output h output)).

(** ** plane.c *)

(** [liftoff_rpi_plane_destroy] *)
Definition liftoff_rpi_plane_destroy (h : heap) (plane : plane_ptr) : heap :=
  let h1 :=
    match plane_layer (get_plane h plane) with
    | Some layer => upd_layer h layer (λ l, layer_with_plane l None)
    | None => h
    end in
  {| device :=
       device_with_planes (device h1)
         (liftoff_rpi_list_remove plane (dev_planes (device h1)));
     planes := delete plane (planes h1);
     outputs := outputs h1; layers := layers h1 |}.

Definition liftoff_rpi_plane_id_get (plane : liftoff_rpi_plane) : Z :=
  plane_id plane.

Definition liftoff_rpi_plane_type_get (plane : liftoff_rpi_plane) : Z :=
  plane_type plane.

(** ** device.c *)

(** [liftoff_rpi_device_create fd].  What the system answers is given:
    whether [calloc] and [malloc] succeed, the result of [dup], the CRTC
    ids of [drmModeGetResources] and the plane count of
    [drmModeGetPlaneResources], [None] for a null answer.  The result is
    the heap with the new device, or [None] for a null return. *)
Definition liftoff_rpi_device_create (calloc_ok : bool) (dup_fd : Z)
    (res : option (list Z)) (malloc_ok : bool) (pres : option nat)
  : option heap :=
  if negb calloc_ok then None
  else if dup_fd <? 0 then None
  else
    match res with
    | None => None
    | Some res_crtcs =>
        if negb malloc_ok then None
        else
          match pres with
          | None => None
          | Some count_planes =>
              Some {| device :=
                        {| dev_planes := liftoff_rpi_list_init;
                           dev_outputs := liftoff_rpi_list_init;
                           crtcs := res_crtcs; planes_cap := count_planes;
                           test_commit_counter := 0;
                           page_flip_counter := 0 |};
                      planes := ∅; outputs := ∅; layers := ∅ |}
          end
    end.

(** [liftoff_rpi_device_destroy]: every plane of the list is destroyed;
    the device itself is then freed.  The outputs and the layers are
    not touched. *)
Definition liftoff_rpi_device_destroy (h : heap) : heap :=
  fold_left liftoff_rpi_plane_destroy (dev_planes (device h)) h.

(** The loop of [liftoff_rpi_device_register_planes] over
    [res->planes]; [i] is the loop index and [calloc_ok i] tells whether
    the two [calloc]s of the i-th [liftoff_rpi_plane_create] succeed.
    The boolean is false when a plane could not be created. *)
Fixpoint device_register_planes_loop (drm : drm_boundary)
    (calloc_ok : nat → bool * bool) (i : nat) (ids : list Z) (h : heap)
  : bool * heap :=
  match ids with
  | [] => (true, h)
  | id :: rest =>
      match liftoff_rpi_plane_create drm h id (fst (calloc_ok i))
              (snd (calloc_ok i)) with
      | None => (false, h)
      | Some (_, h') =>
          device_register_planes_loop drm calloc_ok (S i) rest h'
      end
  end.

(** [liftoff_rpi_device_register_planes]; [res] is the list of plane ids
    of [drmModeGetPlaneResources] and [errno] the value of [errno] when
    the function reads it. *)
Definition liftoff_rpi_device_register_planes (drm : drm_boundary) (h : heap)
    (res : option (list Z)) (calloc_ok : nat → bool * bool) (errno : Z)
  : Z * heap :=
  match res with
  | None => (- errno, h)
  | Some ids =>
      match device_register_planes_loop drm calloc_ok 0 ids h with
      | (true, h') => (0, h')
      | (false, h') => (- errno, h')
      end
  end.

(** * Specification-side definitions *)

(** The four framebuffer attributes the reuse guard compares. *)
Definition fb_same_layout (a b : drmModeFB2) : Prop :=
  width a = width b ∧ height a = height b ∧
  pixel_format a = pixel_format b ∧ modifier a = modifier b.

(** A property of a layer does not stand in the way of reusing the
    previous allocation, as the reuse guard of the specification words
    it: only a property whose value differs from its snapshot is looked
    at. *)
Definition change_harmless_as_specified (layer : liftoff_rpi_layer)
    (prop : liftoff_rpi_property) : Prop :=
  value prop ≠ prev_value prop →
  index prop = LIFTOFF_RPI_PROP_IN_FENCE_FD ∨
  index prop = LIFTOFF_RPI_PROP_FB_DAMAGE_CLIPS ∨
  (index prop = LIFTOFF_RPI_PROP_ALPHA ∧
   value prop ≠ 0 ∧ value prop ≠ 65535 ∧
   prev_value prop ≠ 0 ∧ prev_value prop ≠ 65535) ∨
  (index prop = LIFTOFF_RPI_PROP_FB_ID ∧
   value prop ≠ 0 ∧ prev_value prop ≠ 0 ∧
   fb_same_layout (fb_info layer) (prev_fb_info layer)).

Definition reuse_permitted_as_specified (h : heap) (output : output_ptr)
  : Prop :=
  layers_changed (get_output h output) = false ∧
  ∀ layer, layer ∈ output_layers (get_output h output) →
    changed (get_layer h layer) = false ∧
    ∀ prop, prop ∈ layer_props (get_layer h layer) →
      change_harmless_as_specified (get_layer h layer) prop.

(** The same, with the framebuffer test applied to every [FB_ID]
    property that is not zero on both sides, whether or not its value
    changed. *)
Definition prop_harmless (layer : liftoff_rpi_layer)
    (prop : liftoff_rpi_property) : Prop :=
  if decide (index prop = LIFTOFF_RPI_PROP_FB_ID) then
    (value prop = 0 ∧ prev_value prop = 0) ∨
    (value prop ≠ 0 ∧ prev_value prop ≠ 0 ∧
     fb_same_layout (fb_info layer) (prev_fb_info layer))
  else
    value prop = prev_value prop ∨
    index prop = LIFTOFF_RPI_PROP_IN_FENCE_FD ∨
    index prop = LIFTOFF_RPI_PROP_FB_DAMAGE_CLIPS ∨
    (index prop = LIFTOFF_RPI_PROP_ALPHA ∧
     value prop ≠ 0 ∧ value prop ≠ 65535 ∧
     prev_value prop ≠ 0 ∧ prev_value prop ≠ 65535).

Definition reuse_permitted (h : heap) (output : output_ptr) : Prop :=
  layers_changed (get_output h output) = false ∧
  ∀ layer, layer ∈ output_layers (get_output h output) →
    changed (get_layer h layer) = false ∧
    ∀ prop, prop ∈ layer_props (get_layer h layer) →
      prop_harmless (get_layer h layer) prop.

(** What an [IN_FORMATS] blob lists.  Each modifier entry covers the
    64 formats whose indices start at its [offset]; bit [b] of its mask
    stands for the format at index [offset + b].  The blob lists the
    pair (format, modifier) when some entry for the modifier has the bit
    of some index of the format set. *)
Definition blob_includes (set : drm_format_modifier_blob)
    (format modifier : Z) : Prop :=
  ∃ i m,
    blob_formats set !! i = Some format ∧
    m ∈ blob_modifiers set ∧ dfm_modifier m = modifier ∧
    0 ≤ Z.of_nat i - dfm_offset m < 64 ∧
    Z.testbit (dfm_formats m) (Z.of_nat i - dfm_offset m) = true.

(** [x] is the first element of [l] that satisfies [P], at index [i]. *)
Definition first_such {A} (P : A → Prop) (l : list A) (i : nat) (x : A)
  : Prop :=
  l !! i = Some x ∧ P x ∧ ∀ j y, l !! j = Some y → (j < i)%nat → ¬ P y.

(** The pair is listed by the first entries: the first index of the
    format and the first entry of the modifier. *)
Definition blob_first_includes (set : drm_format_modifier_blob)
    (format modifier : Z) : Prop :=
  ∃ i m k,
    first_such (λ f, f = format) (blob_formats set) i format ∧
    first_such (λ m, dfm_modifier m = modifier) (blob_modifiers set) k m ∧
    0 ≤ Z.of_nat i - dfm_offset m < 64 ∧
    Z.testbit (dfm_formats m) (Z.of_nat i - dfm_offset m) = true.

(** The offsets for which the [int] arithmetic of
    [plane_check_layer_fb] is exact. *)
Definition blob_offsets_in_range (set : drm_format_modifier_blob) : Prop :=
  ∀ m, m ∈ blob_modifiers set → 0 ≤ dfm_offset m ≤ INT_MAX - 64.

(** The layer has a framebuffer with modifiers and the plane a blob. *)
Definition fb_check_applies (plane : liftoff_rpi_plane)
    (layer : liftoff_rpi_layer) (set : drm_format_modifier_blob) : Prop :=
  fb_id (fb_info layer) ≠ 0 ∧
  Z.land (flags (fb_info layer)) DRM_MODE_FB_MODIFIERS ≠ 0 ∧
  in_formats_blob plane = Some set.

(** A sequence of [liftoff_rpi_plane_create] calls, each of which
    succeeds; a call is the plane id and the outcome of its two
    [calloc]s.  [None] when some call returns null. *)
Fixpoint plane_create_seq (drm : drm_boundary) (h : heap)
    (calls : list (Z * bool * bool)) : option heap :=
  match calls with
  | [] => Some h
  | (id, calloc_plane_ok, calloc_props_ok) :: rest =>
      match liftoff_rpi_plane_create drm h id calloc_plane_ok
              calloc_props_ok with
      | Some (_, h') => plane_create_seq drm h' rest
      | None => None
      end
  end.

Definition plane_is_primary (p : liftoff_rpi_plane) : Prop :=
  plane_type p = DRM_PLANE_TYPE_PRIMARY.

Definition zpos_ge (a b : liftoff_rpi_plane) : Prop := zpos a >= zpos b.

(** The order the device's plane list is kept in: the primary planes,
    then the others by descending zpos. *)
Definition planes_ordered (ps : list liftoff_rpi_plane) : Prop :=
  ∃ prims others,
    ps = prims ++ others ∧
    Forall plane_is_primary prims ∧
    Forall (λ p, ¬ plane_is_primary p) others ∧
    StronglySorted zpos_ge others.

(** ** The search, seen from outside *)

(** Two layers that differ at most in their candidate-plane memo, and
    two heaps that differ at most in those memos and in the device's
    counters.  The search writes nothing else to the heap. *)
Definition layer_sim (l1 l2 : liftoff_rpi_layer) : Prop :=
  layer_with_candidates l1 [] = layer_with_candidates l2 [].

Definition heap_sim (h1 h2 : heap) : Prop :=
  dev_planes (device h1) = dev_planes (device h2) ∧
  dev_outputs (device h1) = dev_outputs (device h2) ∧
  planes_cap (device h1) = planes_cap (device h2) ∧
  (∀ p, get_plane h1 p = get_plane h2 p) ∧
  (∀ o, get_output h1 o = get_output h2 o) ∧
  (∀ l, layer_sim (get_layer h1 l) (get_layer h2 l)).

(** The partial assignments the search goes through, each with the step
    that stands for it: the first step with no plane decided, and from a
    step either the next plane left empty, or the next plane given a
    visible layer of the output that [layer_plane_compatible_get]
    accepts.  The list is [step->alloc] up to [step->pindex]. *)
Inductive search_reaches (h : heap) (output : output_ptr)
  : alloc_step → list (option layer_ptr) → Prop :=
  | reaches_first : search_reaches h output alloc_step_first []
  | reaches_skip step pre plane :
      search_reaches h output step pre →
      dev_planes (device h) !! pindex step = Some plane →
      search_reaches h output
        (fst (plane_step_init_next h (get_plane h plane) step None pre))
        (pre ++ [None])
  | reaches_layer step pre plane layer :
      search_reaches h output step pre →
      dev_planes (device h) !! pindex step = Some plane →
      layer ∈ output_layers (get_output h output) →
      layer_visible_get (get_layer h layer) = true →
      layer_plane_compatible_get h step pre layer (get_plane h plane) = true →
      search_reaches h output
        (fst (plane_step_init_next h (get_plane h plane) step (Some layer)
                pre))
        (pre ++ [Some layer]).

(** What the specification says of an assignment [S]: whether it places
    the composition layer, and its score, the number of layers it
    assigns other than the composition layer. *)
Definition assignment_places (S : list (option layer_ptr))
    (c : option layer_ptr) : Prop :=
  ∃ l, c = Some l ∧ Some l ∈ S.

Definition assignment_score (S : list (option layer_ptr))
    (c : option layer_ptr) : Z :=
  Z.of_nat
    (length (filter (λ a, is_Some a ∧ a ≠ c) S)).

(** The [k] of the specification: the number of visible layers of the
    output other than its composition layer. *)
Definition visible_non_comp_layers (h : heap) (output : output_ptr) : nat :=
  length
    (filter
       (λ layer,
          layer_visible_get (get_layer h layer) = true ∧
          Some layer ≠ comp_layer (get_output h output))
       (output_layers (get_output h output))).

(** Every layer in the output's list points back to the output. *)
Definition output_layers_belong (h : heap) (output : output_ptr) : Prop :=
  ∀ l, l ∈ output_layers (get_output h output) →
    layer_output (get_layer h l) = output.

(** What a run of the search leaves as it was: the heap up to
    [heap_sim], the fields of the result other than [best] and
    [best_score] (the request is back at the cursor taken on entry), the
    length of the arrays, and the slots of [step->alloc] before
    [pidx]. *)
Definition same_statics (r r' : alloc_result) : Prop :=
  result_flags r' = result_flags r ∧ planes_len r' = planes_len r ∧
  has_comp_layer r' = has_comp_layer r ∧
  non_comp_layers_len r' = non_comp_layers_len r ∧
  length (best r') = length (best r).

Definition search_frame (pidx : nat) (m m' : alloc_mem) : Prop :=
  heap_sim (mem_heap m) (mem_heap m') ∧
  same_statics (mem_result m) (mem_result m') ∧
  req (mem_result m') = req (mem_result m) ∧
  length (mem_alloc m') = length (mem_alloc m) ∧
  take pidx (mem_alloc m') = take pidx (mem_alloc m).

(** What a run of the search does to the best assignment: nothing, or
    it replaces it by an assignment of a higher score, at most [bound],
    that satisfies [Inv] with a step of that score which
    [alloc_valid_get] accepts. *)
Definition search_progress
    (Inv : alloc_step → list (option layer_ptr) → Prop) (bound : Z)
    (m m' : alloc_mem) : Prop :=
  (best (mem_result m') = best (mem_result m) ∧
   best_score (mem_result m') = best_score (mem_result m)) ∨
  (best_score (mem_result m) < best_score (mem_result m') ≤ bound ∧
   ∃ tstep,
     Inv tstep (best (mem_result m')) ∧
     score tstep = best_score (mem_result m') ∧
     alloc_valid_get (mem_result m) tstep = true).

(** The memory of the search is laid out for the device of [h0]: the
    heap is [h0] up to [heap_sim] and the arrays have one slot per
    plane. *)
Definition mem_ok (h0 : heap) (m : alloc_mem) : Prop :=
  heap_sim h0 (mem_heap m) ∧
  planes_len (mem_result m) = length (dev_planes (device h0)) ∧
  length (mem_alloc m) = planes_len (mem_result m) ∧
  length (best (mem_result m)) = planes_len (mem_result m).

(** Two memories of the search that the search cannot tell apart at a
    step with [pindex = pidx]: heaps equal up to [heap_sim], the same
    result, and arrays [step->alloc] of the same length that agree
    before [pidx]. *)
Definition search_sim (pidx : nat) (m1 m2 : alloc_mem) : Prop :=
  heap_sim (mem_heap m1) (mem_heap m2) ∧
  mem_result m1 = mem_result m2 ∧
  length (mem_alloc m1) = length (mem_alloc m2) ∧
  take pidx (mem_alloc m1) = take pidx (mem_alloc m2).

(** The law on pruning as the specification words it: started as
    [liftoff_rpi_output_apply] starts it, the search ends with the same
    best score with and without the pruning step. *)
Definition pruning_same_best_score (drm : drm_boundary) (h : heap)
    (output : output_ptr) (rq : drmModeAtomicReq) (flags : Z) : Prop :=
  best_score
    (mem_result
       (snd (output_layers_choose drm output (dev_planes (device h))
               alloc_step_first (alloc_mem_first h output rq flags))))
  = best_score
      (mem_result
         (snd (output_layers_choose_unpruned drm output (dev_planes (device h))
                 alloc_step_first (alloc_mem_first h output rq flags)))).

(** A layer is clean: its [changed] flag is down and every property's
    snapshot equals its value. *)
Definition layer_is_clean (layer : liftoff_rpi_layer) : Prop :=
  changed layer = false ∧
  Forall (λ p, prev_value p = value p) (layer_props layer).

Definition output_layers_clean (h : heap) (output : output_ptr) : Prop :=
  ∀ l, l ∈ output_layers (get_output h output) →
    layer_is_clean (get_layer h l).

(** The composition layer of an output, if bound, is bound to a
    PRIMARY plane. *)
Definition comp_on_primary (h : heap) (output : output_ptr) : Prop :=
  ∀ c p, comp_layer (get_output h output) = Some c →
    layer_plane (get_layer h c) = Some p →
    plane_type (get_plane h p) = DRM_PLANE_TYPE_PRIMARY.

(** What the library keeps true of a composition layer between two
    calls: it is a layer of the output it composes for
    ([liftoff_rpi_output_composition_layer_set] refuses any other), and
    when it is bound, the plane is a plane of the device and points back
    to it. *)
Definition comp_layer_belongs (h : heap) (output : output_ptr) : Prop :=
  ∀ c, comp_layer (get_output h output) = Some c →
    layer_output (get_layer h c) = output.

Definition comp_layer_linked (h : heap) (output : output_ptr) : Prop :=
  ∀ c p, comp_layer (get_output h output) = Some c →
    layer_plane (get_layer h c) = Some p →
    p ∈ dev_planes (device h) ∧ plane_layer (get_plane h p) = Some c.

(** What [liftoff_rpi_output_apply] never writes: the plane list, the
    type of a plane, the composition layer of an output, the output of
    a layer.  And two heaps with the same bindings. *)
Definition heap_statics (h h' : heap) : Prop :=
  dev_planes (device h') = dev_planes (device h) ∧
  (∀ p, plane_type (get_plane h' p) = plane_type (get_plane h p)) ∧
  (∀ o, comp_layer (get_output h' o) = comp_layer (get_output h o)) ∧
  (∀ l, layer_output (get_layer h' l) = layer_output (get_layer h l)).

Definition same_bindings (h h' : heap) : Prop :=
  (∀ p, plane_layer (get_plane h' p) = plane_layer (get_plane h p)) ∧
  (∀ l, layer_plane (get_layer h' l) = layer_plane (get_layer h l)).

Definition heap_frame (h h' : heap) : Prop :=
  heap_statics h h' ∧ same_bindings h h'.

(** ** What the rest of the API keeps *)

(** No two entries of a layer's property array have the same index, and
    the entry a layer holds for a property, without its position. *)
Definition layer_props_distinct (layer : liftoff_rpi_layer) : Prop :=
  NoDup (index <$> layer_props layer).

Definition layer_prop_entry (layer : liftoff_rpi_layer) (prop : Z)
  : option liftoff_rpi_property :=
  snd <$> layer_property_get layer prop.

(** The entry [liftoff_rpi_plane_create] writes for a DRM property
    whose name it recognises, and whether it recognises the name. *)
Definition plane_prop_of (dp : drmModePropertyRes) : liftoff_rpi_property :=
  {| index := plane_prop_index_of_name (dprop_name dp);
     id := dprop_prop_id dp; dprop := Some dp; value := 0; prev_value := 0 |}.

Definition plane_prop_recognised (dp : drmModePropertyRes) : bool :=
  negb (plane_prop_index_of_name (dprop_name dp) <? 0).

(** What [plane_apply] stages on success: for a layer, the plane's
    [CRTC_ID] with the CRTC of the layer's output, then in the order of
    the layer's array each property other than [ZPOS] that the plane
    has, with the layer's value; for no layer, [FB_ID] and [CRTC_ID]
    with 0.  [None] when the plane lacks a property that is needed. *)
Definition plane_item (plane : liftoff_rpi_plane) (pid v : Z)
  : drmModeAtomicReqItem :=
  {| item_object_id := plane_id plane; item_property_id := pid;
     item_value := v |}.

Definition plane_layer_items (plane : liftoff_rpi_plane)
    (lprops : list liftoff_rpi_property) : list drmModeAtomicReqItem :=
  omap (λ lprop,
          if index lprop =? LIFTOFF_RPI_PROP_ZPOS then None
          else (λ ip, plane_item plane (id (snd ip)) (value lprop))
                 <$> plane_property_get plane (index lprop))
    lprops.

Definition plane_staged_items (plane : liftoff_rpi_plane)
    (layer : option liftoff_rpi_layer) (layer_crtc_id : Z)
  : option (list drmModeAtomicReqItem) :=
  match layer with
  | None =>
      match plane_property_get plane LIFTOFF_RPI_PROP_FB_ID,
            plane_property_get plane LIFTOFF_RPI_PROP_CRTC_ID with
      | Some (_, fb), Some (_, crtc) =>
          Some [plane_item plane (id fb) 0; plane_item plane (id crtc) 0]
      | _, _ => None
      end
  | Some layer =>
      match plane_property_get plane LIFTOFF_RPI_PROP_CRTC_ID with
      | Some (_, crtc) =>
          Some (plane_item plane (id crtc) layer_crtc_id
                  :: plane_layer_items plane (layer_props layer))
      | None => None
      end
  end.

(** What [apply_current] stages on success: plane after plane of the
    device's list, what [plane_apply] stages for the layer the plane is
    bound to. *)
Definition heap_staged_items (h : heap) (plane : plane_ptr)
  : option (list drmModeAtomicReqItem) :=
  plane_staged_items (get_plane h plane)
    (get_layer h <$> plane_layer (get_plane h plane))
    (match plane_layer (get_plane h plane) with
     | Some l => crtc_id (get_output h (layer_output (get_layer h l)))
     | None => 0
     end).

Definition current_items (h : heap) : option (list drmModeAtomicReqItem) :=
  match mapM (heap_staged_items h) (dev_planes (device h)) with
  | Some per_plane => Some (concat per_plane)
  | None => None
  end.

(** The heap [liftoff_rpi_output_apply] starts a new allocation from,
    [h] being the heap the attempt at reuse leaves: the reuse counter is
    reset, the candidate memos of the output's layers and the
    test-commit counter are cleared, and the planes bound to layers of
    the output are unbound. *)
Definition output_apply_prepared (h : heap) (output : output_ptr) : heap :=
  let h4 := log_no_reuse h output in
  let h5 :=
    fold_left
      (λ h layer,
         upd_layer h layer
           (layer_candidate_planes_reset (planes_cap (device h))))
      (output_layers (get_output h4 output)) h4 in
  let h6 := upd_device h5 (λ d, device_with_test_commit_counter d 0) in
  output_unbind_planes h6 output.

(** What [plane_apply] reads of a layer's properties, and two heaps
    that [apply_current] cannot tell apart. *)
Definition staging_view (props : list liftoff_rpi_property) : list (Z * Z) :=
  (λ p, (index p, value p)) <$> props.


(** The framebuffer description [layers_fb_info_update] leaves in a
    layer: a function of the layer's [FB_ID] and of the kernel's answer.
    And what the guard of [reuse_prev_alloc] reads of a layer. *)
Definition fb_info_of (drm : drm_boundary)
    (props : list liftoff_rpi_property) : drmModeFB2 :=
  match list_find (λ p, index p = LIFTOFF_RPI_PROP_FB_ID) props with
  | None => drmModeFB2_zero
  | Some (_, p) =>
      if value p =? 0 then drmModeFB2_zero
      else
        match drm_get_fb2 drm (to_uint32 (value p)) with
        | None => drmModeFB2_zero
        | Some info => info
        end
  end.

Definition layer_guard_view (layer : liftoff_rpi_layer)
  : bool * list liftoff_rpi_property * drmModeFB2 * drmModeFB2 :=
  (changed layer, layer_props layer, fb_info layer, prev_fb_info layer).

Definition guard_same (h1 h2 : heap) : Prop :=
  (∀ o, output_layers (get_output h1 o) = output_layers (get_output h2 o)) ∧
  (∀ l, layer_guard_view (get_layer h1 l) = layer_guard_view (get_layer h2 l)).

(** Every plane of the device that is bound to a layer is the plane
    that layer points to.  And the bodies of the two loops of
    [liftoff_rpi_output_apply] that unbind and bind planes. *)
Definition planes_point_back (h : heap) : Prop :=
  ∀ p l, p ∈ dev_planes (device h) →
    plane_layer (get_plane h p) = Some l →
    layer_plane (get_layer h l) = Some p.

Definition unbind_step (output : output_ptr) (h : heap) (plane : plane_ptr)
  : heap :=
  match plane_layer (get_plane h plane) with
  | Some layer =>
      if bool_decide (layer_output (get_layer h layer) = output)
      then
        upd_plane (upd_layer h layer (λ l, layer_with_plane l None))
          plane (λ p, plane_with_layer p None)
      else h
  | None => h
  end.

Definition install_step (h : heap) (z : plane_ptr * option layer_ptr)
  : heap :=
  match z.2 with
  | None => h
  | Some layer =>
      upd_layer (upd_plane h z.1 (λ p, plane_with_layer p (Some layer)))
        layer (λ l, layer_with_plane l (Some z.1))
  end.

(** The far edges of a rectangle are within the range of [int]. *)
Definition rect_fits_int (r : liftoff_rpi_rect) : Prop :=
  INT_MIN ≤ rx r + rw r ≤ INT_MAX ∧ INT_MIN ≤ ry r + rh r ≤ INT_MAX.

(** An answer of [drmModeAtomicCommit] after which the call is
    repeated.  And two heaps that differ at most in the device's
    [test_commit_counter]. *)
Definition commit_transient (ret : Z) : Prop :=
  ret = - EINTR ∨ ret = - EAGAIN.

Definition heap_but_test_commit_counter (h h' : heap) : Prop :=
  planes h' = planes h ∧ outputs h' = outputs h ∧ layers h' = layers h ∧
  dev_planes (device h') = dev_planes (device h) ∧
  dev_outputs (device h') = dev_outputs (device h) ∧
  crtcs (device h') = crtcs (device h) ∧
  planes_cap (device h') = planes_cap (device h) ∧
  page_flip_counter (device h') = page_flip_counter (device h).

(** * Worked examples: concrete heaps *)

(** A framebuffer description of the given width. *)
Definition ex_fb (id w : Z) : drmModeFB2 :=
  {| fb_id := id; width := w; height := 100; pixel_format := 875713112;
     modifier := 0; flags := DRM_MODE_FB_MODIFIERS |}.

Definition ex_prop (i v pv : Z) : liftoff_rpi_property :=
  {| index := i; id := 0; dprop := None; value := v; prev_value := pv |}.

Definition ex_device (ps : list plane_ptr) (os : list output_ptr)
  : liftoff_rpi_device :=
  {| dev_planes := ps; dev_outputs := os; crtcs := [40]; planes_cap := 2;
     test_commit_counter := 0; page_flip_counter := 0 |}.

Definition ex_output (ls : list layer_ptr) (c : option layer_ptr)
  : liftoff_rpi_output :=
  {| output_layers := ls; comp_layer := c; crtc_id := 40; crtc_index := 0;
     alloc_reused_counter := 0; layers_changed := false |}.

(** A layer of output 0 that shows framebuffer 5, as it did when it was
    last clean, while the framebuffer behind that id is now 100 wide
    instead of 200. *)
Definition ex_layer_same_fb_id : liftoff_rpi_layer :=
  {| layer_output := 0%nat; layer_plane := None;
     layer_props := [ex_prop LIFTOFF_RPI_PROP_FB_ID 5 5];
     candidate_planes := [0; 0]; current_priority := 0;
     pending_priority := 0; force_comp := false; changed := false;
     fb_info := ex_fb 5 100; prev_fb_info := ex_fb 5 200 |}.

Definition ex_heap_same_fb_id : heap :=
  {| device := ex_device [] [0%nat];
     planes := ∅;
     outputs := {[ 0%nat := ex_output [0%nat] None ]};
     layers := {[ 0%nat := ex_layer_same_fb_id ]} |}.

(** A layer of output 0 whose [ALPHA] moved from 0x8000 to 0x9000. *)
Definition ex_layer_alpha : liftoff_rpi_layer :=
  {| layer_output := 0%nat; layer_plane := None;
     layer_props := [ex_prop LIFTOFF_RPI_PROP_FB_ID 5 5;
                     ex_prop LIFTOFF_RPI_PROP_ALPHA 36864 32768];
     candidate_planes := [0; 0]; current_priority := 0;
     pending_priority := 0; force_comp := false; changed := false;
     fb_info := ex_fb 5 100; prev_fb_info := ex_fb 5 100 |}.

Definition ex_heap_alpha : heap :=
  {| device := ex_device [] [0%nat];
     planes := ∅;
     outputs := {[ 0%nat := ex_output [0%nat] None ]};
     layers := {[ 0%nat := ex_layer_alpha ]} |}.

(** A blob with 65 formats (the format at index [i] is [1000 + i]) and
    two entries for modifier 7: one for the window of indices 0..63 and
    one for the window that starts at index 64, whose mask lists the
    format at index 64. *)
Definition ex_blob_two_windows : drm_format_modifier_blob :=
  {| blob_formats := (λ i : nat, 1000 + Z.of_nat i) <$> seq 0 65;
     blob_modifiers :=
       [ {| dfm_formats := 18446744073709551615; dfm_offset := 0;
            dfm_modifier := 7 |};
         {| dfm_formats := 1; dfm_offset := 64; dfm_modifier := 7 |} ] |}.

Definition ex_plane_with_blob (b : drm_format_modifier_blob)
  : liftoff_rpi_plane :=
  {| plane_layer := None; plane_props := []; in_formats_blob := Some b;
     plane_props_len := 0; plane_id := 31; plane_type := DRM_PLANE_TYPE_OVERLAY;
     possible_crtcs := 1; zpos := 1 |}.

Definition ex_layer_with_fb (format modifier : Z) : liftoff_rpi_layer :=
  {| layer_output := 0%nat; layer_plane := None;
     layer_props := [ex_prop LIFTOFF_RPI_PROP_FB_ID 5 5];
     candidate_planes := [0; 0]; current_priority := 0;
     pending_priority := 0; force_comp := false; changed := false;
     fb_info := {| fb_id := 5; width := 100; height := 100;
                   pixel_format := format; modifier := modifier;
                   flags := DRM_MODE_FB_MODIFIERS |};
     prev_fb_info := drmModeFB2_zero |}.

(** A blob with three formats and one entry per modifier. *)
Definition ex_blob_small : drm_format_modifier_blob :=
  {| blob_formats := [1000; 1001; 1002];
     blob_modifiers :=
       [ {| dfm_formats := 5; dfm_offset := 0; dfm_modifier := 7 |};
         {| dfm_formats := 2; dfm_offset := 0; dfm_modifier := 9 |} ] |}.

(** A DRM boundary for the examples: adding a property to a request
    and test commits always succeed; there are three planes, 30
    (primary), 31 (overlay, zpos 1) and 32 (cursor, zpos 2), each with
    the properties "type" (id 1), "zpos" (id 2), "CRTC_ID" (id 3),
    "FB_ID" (id 4) and an immutable "alpha" (id 5) in the range 0 to
    0xFFFF. *)
Definition ex_dprop (pid : Z) (name : string) (fl : Z) (vals : list Z)
  : drmModePropertyRes :=
  {| dprop_prop_id := pid; dprop_flags := fl; dprop_name := name;
     dprop_values := vals; dprop_enums := [] |}.

Definition ex_drm : drm_boundary :=
  {| drm_atomic_add_property := λ rq _ _ _, Z.of_nat (length rq) + 1;
     drm_atomic_commit := λ _ _ _, 0;
     drm_commit_retries := 0;
     drm_get_fb2 := λ id, Some (ex_fb id 100);
     drm_get_plane := λ id,
       if (30 <=? id) && (id <=? 32)
       then Some {| dplane_plane_id := id; dplane_possible_crtcs := 1 |}
       else None;
     drm_object_get_properties := λ id,
       if id =? 30 then Some [(1, DRM_PLANE_TYPE_PRIMARY); (2, 0); (3, 0);
                              (4, 0); (5, 65535)]
       else if id =? 31 then Some [(1, DRM_PLANE_TYPE_OVERLAY); (2, 1); (3, 0);
                                   (4, 0); (5, 65535)]
       else if id =? 32 then Some [(1, DRM_PLANE_TYPE_CURSOR); (2, 2); (3, 0);
                                   (4, 0); (5, 65535)]
       else None;
     drm_get_property := λ pid,
       if pid =? 1 then
         Some (ex_dprop 1 "type" (Z.lor DRM_MODE_PROP_ENUM
                                    DRM_MODE_PROP_IMMUTABLE) [])
       else if pid =? 2 then
         Some (ex_dprop 2 "zpos" DRM_MODE_PROP_RANGE [0; 2])
       else if pid =? 3 then
         Some (ex_dprop 3 "CRTC_ID" 64 [])
       else if pid =? 4 then
         Some (ex_dprop 4 "FB_ID" 64 [])
       else if pid =? 5 then
         Some (ex_dprop 5 "alpha" (Z.lor DRM_MODE_PROP_RANGE
                                     DRM_MODE_PROP_IMMUTABLE) [0; 65535])
       else None;
     drm_get_property_blob := λ _, None |}.

Definition ex_heap_empty : heap :=
  {| device := ex_device [] []; planes := ∅; outputs := ∅; layers := ∅ |}.

(** The overlay plane 31 of [ex_drm] as [liftoff_rpi_plane_create]
    builds it. *)
Definition ex_plane_prop (i pid : Z) (name : string) (fl : Z) (vals : list Z)
  : liftoff_rpi_property :=
  {| index := i; id := pid; dprop := Some (ex_dprop pid name fl vals);
     value := 0; prev_value := 0 |}.

Definition ex_plane_overlay : liftoff_rpi_plane :=
  {| plane_layer := None;
     plane_props :=
       [ ex_plane_prop LIFTOFF_RPI_PROP_TYPE 1 "type"
           (Z.lor DRM_MODE_PROP_ENUM DRM_MODE_PROP_IMMUTABLE) [];
         ex_plane_prop LIFTOFF_RPI_PROP_ZPOS 2 "zpos" DRM_MODE_PROP_RANGE [0; 2];
         ex_plane_prop LIFTOFF_RPI_PROP_CRTC_ID 3 "CRTC_ID" 64 [];
         ex_plane_prop LIFTOFF_RPI_PROP_FB_ID 4 "FB_ID" 64 [];
         ex_plane_prop LIFTOFF_RPI_PROP_ALPHA 5 "alpha"
           (Z.lor DRM_MODE_PROP_RANGE DRM_MODE_PROP_IMMUTABLE) [0; 65535] ];
     in_formats_blob := None; plane_props_len := 5; plane_id := 31;
     plane_type := DRM_PLANE_TYPE_OVERLAY; possible_crtcs := 1; zpos := 1 |}.

(** A layer that asks for framebuffer 5 and an [ALPHA] of 70000. *)
Definition ex_layer_alpha_out_of_range : liftoff_rpi_layer :=
  {| layer_output := 0%nat; layer_plane := None;
     layer_props := [ex_prop LIFTOFF_RPI_PROP_FB_ID 5 0;
                     ex_prop LIFTOFF_RPI_PROP_ALPHA 70000 0];
     candidate_planes := [0; 0]; current_priority := 0;
     pending_priority := 0; force_comp := false; changed := true;
     fb_info := drmModeFB2_zero; prev_fb_info := drmModeFB2_zero |}.

Definition ex_item (o p v : Z) : drmModeAtomicReqItem :=
  {| item_object_id := o; item_property_id := p; item_value := v |}.

Definition ex_calls : list (Z * bool * bool) :=
  [(31, true, true); (32, true, true); (30, true, true)].

(** Three planes in list order: the primary plane 30, the cursor plane
    32 (zpos 2) and the overlay plane 31 (zpos 1), each with the
    properties of [ex_plane_overlay]. *)
Definition ex_plane (pid type z : Z) : liftoff_rpi_plane :=
  {| plane_layer := None; plane_props := plane_props ex_plane_overlay;
     in_formats_blob := None; plane_props_len := 5; plane_id := pid;
     plane_type := type; possible_crtcs := 1; zpos := z |}.

(** A new layer of output 0 that shows framebuffer [fb]. *)
Definition ex_layer_fb (fb : Z) : liftoff_rpi_layer :=
  {| layer_output := 0%nat; layer_plane := None;
     layer_props := [ex_prop LIFTOFF_RPI_PROP_FB_ID fb 0];
     candidate_planes := [0; 0; 0]; current_priority := 0;
     pending_priority := 0; force_comp := false; changed := true;
     fb_info := drmModeFB2_zero; prev_fb_info := drmModeFB2_zero |}.

(** Output 0 with three layers A, B and C (framebuffers 1, 2 and 3) and
    no composition layer, on the three planes. *)
Definition ex_heap_search : heap :=
  {| device :=
       {| dev_planes := [0%nat; 1%nat; 2%nat]; dev_outputs := [0%nat];
          crtcs := [40]; planes_cap := 3; test_commit_counter := 0;
          page_flip_counter := 0 |};
     planes := {[ 0%nat := ex_plane 30 DRM_PLANE_TYPE_PRIMARY 0;
                  1%nat := ex_plane 32 DRM_PLANE_TYPE_CURSOR 2;
                  2%nat := ex_plane 31 DRM_PLANE_TYPE_OVERLAY 1 ]};
     outputs :=
       {[ 0%nat := {| output_layers := [0%nat; 1%nat; 2%nat];
                      comp_layer := None; crtc_id := 40; crtc_index := 0;
                      alloc_reused_counter := 0; layers_changed := true |} ]};
     layers := {[ 0%nat := ex_layer_fb 1; 1%nat := ex_layer_fb 2;
                  2%nat := ex_layer_fb 3 ]} |}.

(** The framebuffer a request puts on a plane: the value of the last
    [FB_ID] item (property id 4) for the plane, 0 when there is none. *)
Definition ex_fb_on (rq : drmModeAtomicReq) (plane_id : Z) : Z :=
  fold_left
    (λ acc it,
       if (item_object_id it =? plane_id) && (item_property_id it =? 4)
       then item_value it else acc)
    rq 0.

(** A kernel that fails with a hard error ([-EIO], -5) on the
    configuration "A on the primary plane, nothing on plane 32, B on
    plane 31", rejects with [-EINVAL] every configuration that has A on
    the primary plane and C on another plane, and accepts the rest. *)
Definition ex_drm_hard_error : drm_boundary :=
  {| drm_atomic_add_property := drm_atomic_add_property ex_drm;
     drm_commit_retries := 0;
     drm_atomic_commit := λ rq _ _,
       if (ex_fb_on rq 30 =? 1) && (ex_fb_on rq 32 =? 0)
          && (ex_fb_on rq 31 =? 2)
       then -5
       else if (ex_fb_on rq 30 =? 1)
               && ((ex_fb_on rq 32 =? 3) || (ex_fb_on rq 31 =? 3))
       then - EINVAL
       else 0;
     drm_get_fb2 := drm_get_fb2 ex_drm;
     drm_get_plane := drm_get_plane ex_drm;
     drm_object_get_properties := drm_object_get_properties ex_drm;
     drm_get_property := drm_get_property ex_drm;
     drm_get_property_blob := drm_get_property_blob ex_drm |}.

(** The same heap after the client has made layer C the composition
    layer of output 0. *)
Definition ex_heap_comp : heap :=
  liftoff_rpi_output_composition_layer_set ex_heap_search 0%nat 2%nat.

(** Output 0 one frame after a successful allocation: its only layer
    is bound to the primary plane and clean, except that the client has
    since flipped [FB_ID] from framebuffer 5 to framebuffer 6, a buffer
    of the same size, format and modifier. *)
Definition ex_layer_flipped : liftoff_rpi_layer :=
  {| layer_output := 0%nat; layer_plane := Some 0%nat;
     layer_props := [ex_prop LIFTOFF_RPI_PROP_FB_ID 6 5];
     candidate_planes := [30; 0; 0]; current_priority := 0;
     pending_priority := 0; force_comp := false; changed := false;
     fb_info := ex_fb 5 100; prev_fb_info := ex_fb 5 100 |}.

Definition ex_heap_flipped : heap :=
  {| device := device ex_heap_search;
     planes :=
       <[ 0%nat := plane_with_layer (ex_plane 30 DRM_PLANE_TYPE_PRIMARY 0)
                     (Some 0%nat) ]> (planes ex_heap_search);
     outputs := {[ 0%nat := ex_output [0%nat] None ]};
     layers := {[ 0%nat := ex_layer_flipped ]} |}.

(** The heap [ex_heap_comp] on a device that has the primary plane
    only: the two other layers cannot both get a plane, so the
    composition layer is needed. *)
Definition ex_heap_comp_one_plane : heap :=
  {| device :=
       {| dev_planes := [0%nat]; dev_outputs := [0%nat]; crtcs := [40];
          planes_cap := 3; test_commit_counter := 0;
          page_flip_counter := 0 |};
     planes := planes ex_heap_comp; outputs := outputs ex_heap_comp;
     layers := layers ex_heap_comp |}.

(** The three planes of [ex_heap_search] on a device that has no
    output and no layer yet. *)
Definition ex_heap_planes : heap :=
  {| device :=
       {| dev_planes := [0%nat; 1%nat; 2%nat]; dev_outputs := [];
          crtcs := [40]; planes_cap := 3; test_commit_counter := 0;
          page_flip_counter := 0 |};
     planes := planes ex_heap_search; outputs := ∅; layers := ∅ |}.

(** A layer that shows framebuffer 5 in the rectangle of width 100 and
    height 50 at (10, 20). *)
Definition ex_layer_rect : liftoff_rpi_layer :=
  {| layer_output := 0%nat; layer_plane := None;
     layer_props := [ex_prop LIFTOFF_RPI_PROP_FB_ID 5 5;
                     ex_prop LIFTOFF_RPI_PROP_CRTC_X 10 10;
                     ex_prop LIFTOFF_RPI_PROP_CRTC_Y 20 20;
                     ex_prop LIFTOFF_RPI_PROP_CRTC_W 100 100;
                     ex_prop LIFTOFF_RPI_PROP_CRTC_H 50 50];
     candidate_planes := [0; 0]; current_priority := 0;
     pending_priority := 0; force_comp := false; changed := false;
     fb_info := ex_fb 5 100; prev_fb_info := ex_fb 5 100 |}.

(** The kernel of [ex_drm], except that a test commit is interrupted
    twice before it is answered. *)
Definition ex_drm_interrupted : drm_boundary :=
  {| drm_atomic_add_property := drm_atomic_add_property ex_drm;
     drm_atomic_commit := λ _ _ n,
       match n with
       | O => - EINTR
       | S O => - EAGAIN
       | _ => 0
       end;
     drm_commit_retries := 4;
     drm_get_fb2 := drm_get_fb2 ex_drm;
     drm_get_plane := drm_get_plane ex_drm;
     drm_object_get_properties := drm_object_get_properties ex_drm;
     drm_get_property := drm_get_property ex_drm;
     drm_get_property_blob := drm_get_property_blob ex_drm |}.

(** * Theorems *)

(** ** The heap *)

Lemma get_upd_layer h l f l' :
  get_layer (upd_layer h l f) l' =
  if decide (l = l') then f (get_layer h l) else get_layer h l'.
Proof.
  unfold get_layer, upd_layer; simpl.
  destruct (decide (l = l')) as [->|Hne].
  - by rewrite lookup_total_insert_eq.
  - by rewrite lookup_total_insert_ne.
Qed.

Lemma get_upd_plane h p f p' :
  get_plane (upd_plane h p f) p' =
  if decide (p = p') then f (get_plane h p) else get_plane h p'.
Proof.
  unfold get_plane, upd_plane; simpl.
  destruct (decide (p = p')) as [->|Hne].
  - by rewrite lookup_total_insert_eq.
  - by rewrite lookup_total_insert_ne.
Qed.

Lemma get_upd_output h o f o' :
  get_output (upd_output h o f) o' =
  if decide (o = o') then f (get_output h o) else get_output h o'.
Proof.
  unfold get_output, upd_output; simpl.
  destruct (decide (o = o')) as [->|Hne].
  - by rewrite lookup_total_insert_eq.
  - by rewrite lookup_total_insert_ne.
Qed.

(** ** output.c: setting the composition layer *)

(** C9.  [liftoff_rpi_output_composition_layer_set] given a layer of
    another output returns with the heap as it was, so the output's
    [comp_layer] and [layers_changed] are untouched.  Given a layer of
    this output it makes the layer the composition layer; it leaves
    [layers_changed] alone when the layer already was the composition
    layer and sets it when the composition layer changes. *)
Theorem composition_layer_set_frame (h : heap) (output : output_ptr)
    (layer : layer_ptr) :
  let h' := liftoff_rpi_output_composition_layer_set h output layer in
  (layer_output (get_layer h layer) ≠ output → h' = h) ∧
  (layer_output (get_layer h layer) = output →
   comp_layer (get_output h output) = Some layer →
   comp_layer (get_output h' output) = Some layer ∧
   layers_changed (get_output h' output)
     = layers_changed (get_output h output)) ∧
  (layer_output (get_layer h layer) = output →
   comp_layer (get_output h output) ≠ Some layer →
   comp_layer (get_output h' output) = Some layer ∧
   layers_changed (get_output h' output) = true).
Proof.
  unfold liftoff_rpi_output_composition_layer_set.
  repeat split.
  - intros Hne. by rewrite bool_decide_eq_true_2.
  - rewrite bool_decide_eq_false_2 by naive_solver.
    by rewrite get_upd_output, decide_True.
  - rewrite bool_decide_eq_false_2 by naive_solver.
    rewrite bool_decide_eq_false_2 by naive_solver.
    by rewrite get_upd_output, decide_True.
  - rewrite bool_decide_eq_false_2 by naive_solver.
    by rewrite get_upd_output, decide_True.
  - rewrite bool_decide_eq_false_2 by naive_solver.
    rewrite bool_decide_eq_true_2 by naive_solver.
    by rewrite !get_upd_output, !decide_True.
Qed.

(** ** layer.c: setting a property *)

Lemma list_find_alter_index {A} (P : A → Prop) `{!∀ x, Decision (P x)}
    (f : A → A) (l : list A) i x :
  (∀ y, P (f y) ↔ P y) →
  list_find P l = Some (i, x) →
  list_find P (alter f i l) = Some (i, f x).
Proof.
  intros Hf (Hl & HP & Hmin)%list_find_Some.
  apply list_find_Some. split_and!.
  - by rewrite list_lookup_alter_eq, Hl.
  - by apply Hf.
  - intros j y Hj Hlt. rewrite list_lookup_alter_ne in Hj by lia. eauto.
Qed.

Lemma list_find_app_fresh {A} (P : A → Prop) `{!∀ x, Decision (P x)}
    (l : list A) x :
  list_find P l = None → P x →
  list_find P (l ++ [x]) = Some (length l, x).
Proof.
  intros Hn Hx. apply list_find_Some. split_and!.
  - by rewrite lookup_app_r, Nat.sub_diag.
  - done.
  - intros j y Hj Hlt. rewrite lookup_app_l in Hj by done.
    rewrite list_find_None, Forall_forall in Hn.
    apply Hn. by eapply list_elem_of_lookup_2.
Qed.

(** A layer never holds [CRTC_ID]: the setter refuses it, and nothing
    else adds a property. *)
Lemma layer_property_set_no_crtc_id l property v ok :
  layer_property_get l LIFTOFF_RPI_PROP_CRTC_ID = None →
  layer_property_get (snd (liftoff_rpi_layer_property_set l property v ok))
    LIFTOFF_RPI_PROP_CRTC_ID = None.
Proof.
  unfold liftoff_rpi_layer_property_set, layer_property_get.
  intros Hn. destruct (property =? LIFTOFF_RPI_PROP_CRTC_ID) eqn:Hp; [done|].
  apply Z.eqb_neq in Hp.
  assert (Hstore : ∀ l0 i,
    list_find (λ p, index p = LIFTOFF_RPI_PROP_CRTC_ID) (layer_props l0) = None →
    list_find (λ p, index p = LIFTOFF_RPI_PROP_CRTC_ID)
      (layer_props (layer_property_store l0 i property v)) = None).
  { intros l0 i H0. unfold layer_property_store.
    assert (list_find (λ p, index p = LIFTOFF_RPI_PROP_CRTC_ID)
              (alter (λ p, prop_with_value p v) i (layer_props l0)) = None) as Ha.
    { rewrite list_find_None in *. rewrite Forall_forall in *.
      intros x Hx. apply list_elem_of_lookup in Hx as [j Hj].
      destruct (decide (i = j)) as [->|Hij].
      - rewrite list_lookup_alter_eq in Hj.
        destruct (layer_props l0 !! j) as [y|] eqn:Ey; [|done].
        simpl in Hj. injection Hj as <-. simpl.
        apply H0. by eapply list_elem_of_lookup_2.
      - rewrite list_lookup_alter_ne in Hj by done.
        apply H0. by eapply list_elem_of_lookup_2. }
    by destruct (_ && _). }
  destruct (list_find (λ p, index p = property) (layer_props l))
    as [[i p]|] eqn:E; simpl.
  - by apply Hstore.
  - destruct ok; simpl; [|done].
    apply Hstore. simpl.
    rewrite list_find_None in *. rewrite Forall_app. split; [done|].
    by apply Forall_singleton.
Qed.

(** C10.  On a layer as the API builds it (no [CRTC_ID] among its
    properties), [liftoff_rpi_layer_property_set] on a property the
    layer holds returns 0, stores the value in that property's slot and
    leaves the other slots alone; [changed] afterwards is the old flag,
    or true when the property is [FB_ID] and [force_comp] was set, in
    which case [force_comp] is cleared.  On a property the layer does
    not hold, a successful call appends the property with the value and
    sets [changed]; a failed one leaves the layer as it was. *)
Theorem layer_property_set_changed (l : liftoff_rpi_layer)
    (property v : Z) (ok : bool) :
  layer_property_get l LIFTOFF_RPI_PROP_CRTC_ID = None →
  let ret := fst (liftoff_rpi_layer_property_set l property v ok) in
  let l' := snd (liftoff_rpi_layer_property_set l property v ok) in
  let fb_forced :=
    bool_decide (property = LIFTOFF_RPI_PROP_FB_ID) && force_comp l in
  (∀ i p, layer_property_get l property = Some (i, p) →
     ret = 0 ∧
     layer_property_get l' property = Some (i, prop_with_value p v) ∧
     (∀ j, j ≠ i → layer_props l' !! j = layer_props l !! j) ∧
     changed l' = changed l || fb_forced ∧
     force_comp l' = force_comp l && negb fb_forced) ∧
  (layer_property_get l property = None → ok = true →
     property ≠ LIFTOFF_RPI_PROP_CRTC_ID →
     ret = 0 ∧
     (∃ p, layer_property_get l' property = Some (length (layer_props l), p)
           ∧ value p = v) ∧
     (∀ j, (j < length (layer_props l))%nat →
        layer_props l' !! j = layer_props l !! j) ∧
     changed l' = true ∧
     force_comp l' = force_comp l && negb fb_forced) ∧
  (ret ≠ 0 → l' = l) ∧
  (changed l' = true →
     changed l = true ∨
     (ret = 0 ∧ layer_property_get l property = None) ∨
     (ret = 0 ∧ property = LIFTOFF_RPI_PROP_FB_ID ∧ force_comp l = true)).
Proof.
  intros Hwf. cbn zeta.
  unfold liftoff_rpi_layer_property_set.
  destruct (property =? LIFTOFF_RPI_PROP_CRTC_ID) eqn:Hp.
  { apply Z.eqb_eq in Hp. subst property. simpl. rewrite Hwf.
    split_and!; try done; try (by intros _ _ []); by left. }
  apply Z.eqb_neq in Hp.
  assert (Hfb : (property =? LIFTOFF_RPI_PROP_FB_ID)
                = bool_decide (property = LIFTOFF_RPI_PROP_FB_ID)).
  { destruct (Z.eqb_spec property LIFTOFF_RPI_PROP_FB_ID).
    - by rewrite bool_decide_eq_true_2.
    - by rewrite bool_decide_eq_false_2. }
  destruct (layer_property_get l property) as [[i p]|] eqn:E; simpl.
  - unfold layer_property_store. simpl. rewrite Hfb.
    split_and!; try done.
    + intros i' p' [= <- <-]. split_and!; [done|..].
      * assert (layer_property_get
                  (layer_with_props l
                     (alter (λ p0, prop_with_value p0 v) i (layer_props l)))
                  property = Some (i, prop_with_value p v)) as Hg.
        { unfold layer_property_get in *; simpl.
          by apply (list_find_alter_index _ (λ p0, prop_with_value p0 v)). }
        by destruct (_ && _).
      * intros j Hj.
        assert (alter (λ p0, prop_with_value p0 v) i (layer_props l) !! j
                = layer_props l !! j) by by rewrite list_lookup_alter_ne.
        by destruct (_ && _).
      * destruct (bool_decide _), (force_comp l) eqn:Ef; simpl;
          by destruct (changed l).
      * destruct (bool_decide _), (force_comp l) eqn:Ef; simpl;
          by rewrite ?Ef.
    + destruct (bool_decide _) eqn:Eb, (force_comp l) eqn:Ef; simpl;
        intros Hc; try (by left).
      right; right. by apply bool_decide_eq_true_1 in Eb.
  - destruct ok; simpl.
    + unfold layer_property_store. simpl. rewrite Hfb.
      split_and!; try done.
      * intros _ _ _. split_and!; [done|..].
        -- assert (list_find (λ p, index p = property)
                     (alter (λ p0, prop_with_value p0 v)
                        (length (layer_props l))
                        (layer_props l ++
                           [{| index := property; id := 0; dprop := None;
                               value := 0; prev_value := 0 |}]))
                   = Some (length (layer_props l),
                           prop_with_value
                             {| index := property; id := 0; dprop := None;
                                value := 0; prev_value := 0 |} v)) as Hg.
           { apply (list_find_alter_index _ (λ p0, prop_with_value p0 v)); [done|].
             by apply list_find_app_fresh. }
           unfold layer_property_get.
           destruct (_ && _); simpl; rewrite Hg; by eexists.
        -- intros j Hj.
           assert (alter (λ p0, prop_with_value p0 v) (length (layer_props l))
                     (layer_props l ++
                        [{| index := property; id := 0; dprop := None;
                            value := 0; prev_value := 0 |}]) !! j
                   = layer_props l !! j) as Hg.
           { rewrite list_lookup_alter_ne by lia. by rewrite lookup_app_l. }
           by destruct (_ && _).
        -- by destruct (_ && _).
        -- destruct (bool_decide _), (force_comp l) eqn:Ef; simpl;
             by rewrite ?Ef.
      * intros _. right; left. done.
    + split_and!; try done. by left.
Qed.

(** ** alloc.c: the reuse guard *)

Lemma layer_fb_info_needs_realloc_false a b :
  layer_fb_info_needs_realloc a b = false ↔ fb_same_layout a b.
Proof.
  unfold layer_fb_info_needs_realloc, fb_same_layout.
  rewrite !orb_false_iff, !negb_false_iff, !Z.eqb_eq. naive_solver.
Qed.

Lemma layer_realloc_props_false layer props :
  layer_realloc_props layer props = false ↔
  ∀ prop, prop ∈ props → prop_harmless layer prop.
Proof.
  induction props as [|prop rest IH]; simpl.
  { split; [|done]. intros _ prop Hin. by apply elem_of_nil in Hin. }
  assert (Hcons : (∀ p, p ∈ prop :: rest → prop_harmless layer p) ↔
                  prop_harmless layer prop ∧
                  ∀ p, p ∈ rest → prop_harmless layer p).
  { split.
    - intros H. split; [apply H; left|intros p Hp; apply H; by right].
    - intros [H1 H2] p [->|Hp]%elem_of_cons; auto. }
  rewrite Hcons, <- IH. clear Hcons IH.
  unfold prop_harmless.
  destruct (Z.eqb_spec (index prop) LIFTOFF_RPI_PROP_FB_ID) as [Hfb|Hfb].
  - rewrite decide_True by done.
    destruct (Z.eqb_spec (value prop) 0) as [Hv|Hv],
             (Z.eqb_spec (prev_value prop) 0) as [Hp|Hp]; simpl.
    + naive_solver.
    + split; [done|]. intros [[[_ ?]|[? _]] _]; done.
    + split; [done|]. intros [[[? _]|(_ & ? & _)] _]; done.
    + destruct (layer_fb_info_needs_realloc _ _) eqn:Hfbi.
      * split; [done|]. intros [[[? _]|(_ & _ & Hs)] _]; [done|].
        apply layer_fb_info_needs_realloc_false in Hs. congruence.
      * apply layer_fb_info_needs_realloc_false in Hfbi. naive_solver.
  - rewrite decide_False by done.
    destruct (Z.eqb_spec (value prop) (prev_value prop)) as [Heq|Hne].
    { naive_solver. }
    destruct (Z.eqb_spec (index prop) LIFTOFF_RPI_PROP_ALPHA) as [Ha|Ha].
    + destruct (Z.eqb_spec (value prop) 0), (Z.eqb_spec (prev_value prop) 0),
        (Z.eqb_spec (value prop) 65535), (Z.eqb_spec (prev_value prop) 65535);
        simpl; unfold LIFTOFF_RPI_PROP_IN_FENCE_FD,
                 LIFTOFF_RPI_PROP_FB_DAMAGE_CLIPS, LIFTOFF_RPI_PROP_ALPHA in *;
        split; try done; try (intros [[?|[?|[?|?]]] ?]; (done || lia));
        try (intros ?; split; [|done]; right; right; right; done).
    + destruct (Z.eqb_spec (index prop) LIFTOFF_RPI_PROP_IN_FENCE_FD),
        (Z.eqb_spec (index prop) LIFTOFF_RPI_PROP_FB_DAMAGE_CLIPS); simpl;
        naive_solver.
Qed.

Lemma layer_realloc_get_false layer :
  layer_realloc_get layer = false ↔
  changed layer = false ∧
  ∀ prop, prop ∈ layer_props layer → prop_harmless layer prop.
Proof.
  unfold layer_realloc_get. rewrite <- layer_realloc_props_false.
  destruct (changed layer); naive_solver.
Qed.

(** C4, as the code has it.  The guard of [reuse_prev_alloc] lets the
    function go on exactly when [layers_changed] is false and every
    layer of the output is unchanged and holds only harmless properties:
    a property equal to its snapshot, [IN_FENCE_FD], [FB_DAMAGE_CLIPS],
    an [ALPHA] whose old and new values are neither 0 nor 0xFFFF, and an
    [FB_ID] that is 0 on both sides or non-zero on both sides with the
    cached width, height, pixel format and modifier equal to their
    snapshot.  The framebuffer test applies to a non-zero [FB_ID] also
    when its value did not change. *)
Theorem reuse_guard_iff (h : heap) (output : output_ptr) :
  reuse_prev_alloc_guard h output = true ↔ reuse_permitted h output.
Proof.
  unfold reuse_prev_alloc_guard, reuse_permitted.
  destruct (layers_changed (get_output h output)); [naive_solver|].
  rewrite negb_true_iff.
  split.
  - intros Hex. split; [done|]. intros layer Hin.
    apply layer_realloc_get_false.
    destruct (layer_realloc_get (get_layer h layer)) eqn:E; [|done].
    assert (existsb (λ layer, layer_realloc_get (get_layer h layer))
              (output_layers (get_output h output)) = true); [|congruence].
    apply existsb_exists. exists layer. split; [|done].
    by apply list_elem_of_In.
  - intros [_ Hall].
    destruct (existsb _ _) eqn:E; [|done].
    apply existsb_exists in E as (layer & Hin%list_elem_of_In & Hr).
    apply Hall, layer_realloc_get_false in Hin. congruence.
Qed.

(** The guard decides the return value: when it fails,
    [reuse_prev_alloc] returns [-EINVAL] and touches nothing. *)
Lemma reuse_prev_alloc_guard_fails drm h output rq flags :
  reuse_prev_alloc_guard h output = false →
  reuse_prev_alloc drm h output rq flags = (- EINVAL, h, rq).
Proof. unfold reuse_prev_alloc. by intros ->. Qed.

(** C4, as the specification words it, fails: a layer whose [FB_ID] is
    the same non-zero id as in its snapshot, but whose cached
    framebuffer is 100 wide where the snapshot says 200, has no property
    that differs from its snapshot, and yet the guard refuses reuse. *)
Lemma reuse_guard_not_as_specified :
  ¬ (reuse_prev_alloc_guard ex_heap_same_fb_id 0%nat = true ↔
     reuse_permitted_as_specified ex_heap_same_fb_id 0%nat).
Proof.
  intros [_ H].
  assert (reuse_prev_alloc_guard ex_heap_same_fb_id 0%nat = false) as Hg
    by by vm_compute.
  rewrite H in Hg; [done|]. clear H Hg.
  split; [by vm_compute|].
  intros layer Hin.
  assert (output_layers (get_output ex_heap_same_fb_id 0%nat) = [0%nat]) as Ho
    by by vm_compute.
  rewrite Ho in Hin. apply list_elem_of_singleton in Hin as ->.
  assert (get_layer ex_heap_same_fb_id 0%nat = ex_layer_same_fb_id) as ->
    by by vm_compute.
  split; [done|].
  intros prop ->%list_elem_of_singleton.
  intros Hne. by vm_compute in Hne.
Qed.

Lemma reuse_guard_iff_witness :
  reuse_prev_alloc_guard ex_heap_alpha 0%nat = true ∧
  reuse_permitted ex_heap_alpha 0%nat.
Proof.
  assert (reuse_prev_alloc_guard ex_heap_alpha 0%nat = true) as Hg
    by by vm_compute.
  split; [exact Hg|].
  exact (proj1 (reuse_guard_iff ex_heap_alpha 0%nat) Hg).
Defined.

(** ** plane.c: the format pre-filter *)

Lemma list_find_first_such {A} (P : A → Prop) `{!∀ x, Decision (P x)}
    (l : list A) i x :
  list_find P l = Some (i, x) ↔ first_such P l i x.
Proof. unfold first_such. apply list_find_Some. Qed.

Lemma first_such_unique {A} (P : A → Prop) (l : list A) i x j y :
  first_such P l i x → first_such P l j y → i = j ∧ x = y.
Proof.
  intros (Hi & HPi & Hmi) (Hj & HPj & Hmj).
  assert (i = j) as ->.
  { destruct (Nat.lt_trichotomy i j) as [Hlt|[->|Hlt]]; [|done|].
    - by destruct (Hmj _ _ Hi Hlt).
    - by destruct (Hmi _ _ Hj Hlt). }
  split; [done|congruence].
Qed.

Lemma land_shiftl_1_testbit x s :
  0 ≤ s < 64 →
  negb (Z.land x (to_uint64 (Z.shiftl 1 s)) =? 0) = Z.testbit x s.
Proof.
  intros Hs. unfold to_uint64, wrap_unsigned.
  rewrite Z.shiftl_1_l.
  rewrite Z.mod_small by (split; [lia|apply Z.pow_lt_mono_r; lia]).
  destruct (Z.testbit x s) eqn:Hb.
  - apply negb_true_iff, Z.eqb_neq. intros H0.
    assert (Z.testbit (Z.land x (2 ^ s)) s = true) as Ht.
    { rewrite Z.land_spec, Hb, Z.pow2_bits_true by lia. done. }
    rewrite H0 in Ht. by rewrite Z.bits_0 in Ht.
  - apply negb_false_iff, Z.eqb_eq. apply Z.bits_inj'. intros n Hn.
    rewrite Z.land_spec, Z.bits_0.
    destruct (decide (n = s)) as [->|Hne].
    + by rewrite Hb.
    + rewrite Z.pow2_bits_false by lia. apply andb_false_r.
Qed.

Lemma to_int_small x : INT_MIN ≤ x ≤ INT_MAX → to_int x = x.
Proof.
  unfold to_int, wrap_signed, INT_MIN, INT_MAX. intros Hx.
  change (2 ^ (32 - 1)) with 2147483648. change (2 ^ 32) with 4294967296.
  rewrite Z.mod_small by lia. lia.
Qed.

(** The test of [plane_check_layer_fb] once it gets to the blob. *)
Lemma plane_check_layer_fb_first plane layer set :
  fb_check_applies plane layer set →
  blob_offsets_in_range set →
  plane_check_layer_fb plane layer = true ↔
  blob_first_includes set (pixel_format (fb_info layer))
    (modifier (fb_info layer)).
Proof.
  intros (Hfb & Hfl & Hblob) Hoff.
  unfold plane_check_layer_fb, blob_first_includes.
  rewrite Hblob.
  rewrite (proj2 (Z.eqb_neq _ _) Hfb), (proj2 (Z.eqb_neq _ _) Hfl).
  rewrite bool_decide_eq_false_2 by done. simpl.
  destruct (list_find (λ f, f = pixel_format (fb_info layer))
              (blob_formats set)) as [[i f]|] eqn:Ef.
  2:{ split; [done|]. intros (i & m & k & Hi & _).
      apply (proj2 (list_find_first_such _ _ _ _)) in Hi. congruence. }
  apply list_find_first_such in Ef.
  assert (f = pixel_format (fb_info layer)) as -> by by destruct Ef as (_ & ? & _).
  destruct (list_find (λ m, dfm_modifier m = modifier (fb_info layer))
              (blob_modifiers set)) as [[k m]|] eqn:Em.
  2:{ split; [done|]. intros (i' & m & k & _ & Hm & _).
      apply (proj2 (list_find_first_such _ _ _ _)) in Hm. congruence. }
  apply list_find_first_such in Em.
  assert (m ∈ blob_modifiers set) as Hin.
  { destruct Em as (Hk & _). by eapply list_elem_of_lookup_2. }
  specialize (Hoff m Hin).
  rewrite to_int_small by (unfold INT_MIN, INT_MAX in *; lia).
  destruct (Z.ltb_spec (Z.of_nat i) (dfm_offset m)) as [Hlt|Hge]; simpl.
  { split; [done|]. intros (i' & m' & k' & Hi' & Hm' & Hr & _).
    destruct (first_such_unique _ _ _ _ _ _ Ef Hi') as [<- _].
    destruct (first_such_unique _ _ _ _ _ _ Em Hm') as [<- <-]. lia. }
  destruct (Z.geb_spec (Z.of_nat i) (dfm_offset m + 64)) as [Hhi|Hlo]; simpl.
  { split; [done|]. intros (i' & m' & k' & Hi' & Hm' & Hr & _).
    destruct (first_such_unique _ _ _ _ _ _ Ef Hi') as [<- _].
    destruct (first_such_unique _ _ _ _ _ _ Em Hm') as [<- <-]. lia. }
  rewrite land_shiftl_1_testbit by lia.
  split.
  - intros Hb. exists i, m, k. split; [done|]. split; [done|].
    split; [lia|done].
  - intros (i' & m' & k' & Hi' & Hm' & Hr & Hb).
    destruct (first_such_unique _ _ _ _ _ _ Ef Hi') as [<- _].
    by destruct (first_such_unique _ _ _ _ _ _ Em Hm') as [<- <-].
Qed.

(** When no format and no modifier is listed twice, the first entries
    are the only entries. *)
Lemma blob_first_includes_nodup set format modifier :
  NoDup (blob_formats set) →
  NoDup (dfm_modifier <$> blob_modifiers set) →
  blob_first_includes set format modifier ↔ blob_includes set format modifier.
Proof.
  intros Hnf Hnm. unfold blob_first_includes, blob_includes. split.
  - intros (i & m & k & (Hi & _ & _) & (Hk & Hm & _) & Hr & Hb).
    exists i, m. split; [done|]. split; [by eapply list_elem_of_lookup_2|].
    done.
  - intros (i & m & Hi & (k & Hk)%list_elem_of_lookup & Hm & Hr & Hb).
    exists i, m, k. split; [|split; [|done]].
    + split; [done|]. split; [done|]. intros j y Hj Hlt ->.
      assert (j = i); [|lia]. by eapply (NoDup_lookup _ _ _ _ Hnf).
    + split; [done|]. split; [done|]. intros j y Hj Hlt Hy.
      assert (j = k); [|lia].
      eapply (NoDup_lookup _ _ _ _ Hnm).
      * by rewrite list_lookup_fmap, Hj.
      * rewrite list_lookup_fmap, Hk. simpl. congruence.
Qed.

(** C6, as the code has it.  [plane_check_layer_fb] returns true when
    the layer's cached [fb_id] is 0, when its flags lack the modifiers
    bit, and when the plane has no [IN_FORMATS] blob.  Otherwise (for
    modifier offsets that fit the [int] arithmetic) it returns true
    exactly when the first index [i] of the pixel format in the blob's
    format list and the first entry [m] of the modifier in the blob's
    modifier list satisfy [0 ≤ i - offset m < 64] with bit
    [i - offset m] of [m]'s mask set.  When no format and no modifier
    occurs twice in the blob this is what the blob lists, so that a
    false answer means the blob excludes the pair. *)
Theorem plane_check_layer_fb_spec (plane : liftoff_rpi_plane)
    (layer : liftoff_rpi_layer) :
  (fb_id (fb_info layer) = 0 ∨
   Z.land (flags (fb_info layer)) DRM_MODE_FB_MODIFIERS = 0 ∨
   in_formats_blob plane = None →
   plane_check_layer_fb plane layer = true) ∧
  (∀ set,
     fb_check_applies plane layer set → blob_offsets_in_range set →
     (plane_check_layer_fb plane layer = true ↔
      blob_first_includes set (pixel_format (fb_info layer))
        (modifier (fb_info layer))) ∧
     (NoDup (blob_formats set) →
      NoDup (dfm_modifier <$> blob_modifiers set) →
      (plane_check_layer_fb plane layer = true ↔
       blob_includes set (pixel_format (fb_info layer))
         (modifier (fb_info layer))) ∧
      (plane_check_layer_fb plane layer = false →
       ¬ blob_includes set (pixel_format (fb_info layer))
           (modifier (fb_info layer))))).
Proof.
  split.
  - unfold plane_check_layer_fb. intros [H|[H|H]].
    + by rewrite H.
    + rewrite H. simpl. by rewrite orb_true_r.
    + rewrite H. rewrite bool_decide_eq_true_2 by done.
      by rewrite !orb_true_r.
  - intros set Happ Hoff.
    pose proof (plane_check_layer_fb_first plane layer set Happ Hoff) as Hfirst.
    split; [done|]. intros Hnf Hnm.
    rewrite <- (blob_first_includes_nodup set _ _ Hnf Hnm).
    split; [done|]. intros Hf Hinc. apply Hfirst in Hinc. congruence.
Qed.

Lemma plane_check_layer_fb_spec_witness :
  plane_check_layer_fb (ex_plane_with_blob ex_blob_small)
    (ex_layer_with_fb 1002 7) = true ∧
  blob_includes ex_blob_small 1002 7 ∧
  plane_check_layer_fb (ex_plane_with_blob ex_blob_small)
    (ex_layer_with_fb 1002 9) = false ∧
  ¬ blob_includes ex_blob_small 1002 9.
Proof.
  assert (Happ : ∀ f m, fb_check_applies (ex_plane_with_blob ex_blob_small)
                          (ex_layer_with_fb f m) ex_blob_small).
  { intros f m. by split_and!. }
  assert (Hoff : blob_offsets_in_range ex_blob_small).
  { intros m Hm. repeat (apply elem_of_cons in Hm as [->|Hm]); [by vm_compute..|].
    by apply elem_of_nil in Hm. }
  assert (Hnf : NoDup (blob_formats ex_blob_small)).
  { apply (bool_decide_unpack _). by vm_compute. }
  assert (Hnm : NoDup (dfm_modifier <$> blob_modifiers ex_blob_small)).
  { apply (bool_decide_unpack _). by vm_compute. }
  assert (H1 : plane_check_layer_fb (ex_plane_with_blob ex_blob_small)
                 (ex_layer_with_fb 1002 7) = true) by by vm_compute.
  assert (H2 : plane_check_layer_fb (ex_plane_with_blob ex_blob_small)
                 (ex_layer_with_fb 1002 9) = false) by by vm_compute.
  split_and!; [exact H1| |exact H2|].
  - exact (proj1 (proj1 (proj2 (proj2 (plane_check_layer_fb_spec _ _) _
                                 (Happ 1002 7) Hoff) Hnf Hnm)) H1).
  - exact (proj2 (proj2 (proj2 (plane_check_layer_fb_spec _ _) _
                           (Happ 1002 9) Hoff) Hnf Hnm) H2).
Defined.

(** C6, as the specification words it, fails on a blob that describes
    more than 64 formats.  The blob [ex_blob_two_windows] lists format
    1064 (index 64) with modifier 7 through its second entry for that
    modifier, and [plane_check_layer_fb] stops at the first entry, whose
    window ends at index 63, and answers false. *)
Lemma plane_check_layer_fb_not_sound :
  ¬ (plane_check_layer_fb (ex_plane_with_blob ex_blob_two_windows)
       (ex_layer_with_fb 1064 7) = true ↔
     blob_includes ex_blob_two_windows 1064 7).
Proof.
  intros [_ H].
  assert (plane_check_layer_fb (ex_plane_with_blob ex_blob_two_windows)
            (ex_layer_with_fb 1064 7) = false) as Hf by by vm_compute.
  rewrite H in Hf; [done|].
  exists 64%nat, {| dfm_formats := 1; dfm_offset := 64; dfm_modifier := 7 |}.
  split_and!; try done.
  apply elem_of_cons; right. apply elem_of_cons; by left.
Qed.

(** ** plane.c: the order of the device's plane list *)

Lemma list_insert_elem_of {A} (pos : nat) (x y : A) l :
  y ∈ liftoff_rpi_list_insert pos x l ↔ y = x ∨ y ∈ l.
Proof.
  unfold liftoff_rpi_list_insert.
  rewrite elem_of_app, elem_of_cons.
  rewrite <- (take_drop pos l) at 3. rewrite elem_of_app. tauto.
Qed.

Lemma overlay_insert_sorted (x : liftoff_rpi_plane) others :
  Forall (λ p, ¬ plane_is_primary p) others →
  StronglySorted zpos_ge others →
  StronglySorted zpos_ge
    (liftoff_rpi_list_insert (overlay_insert_position x others) x others).
Proof.
  intros Hothers Hsorted. unfold overlay_insert_position.
  induction others as [|o others IH]; simpl.
  { repeat constructor. }
  apply Forall_cons in Hothers as [Ho Hothers].
  apply StronglySorted_inv in Hsorted as [Hs Hall].
  case_decide as Hc; simpl.
  - unfold liftoff_rpi_list_insert; simpl.
    destruct Hc as [_ Hge].
    constructor; [by constructor|].
    constructor; [done|].
    eapply Forall_impl; [exact Hall|]. unfold zpos_ge. intros; simpl in *; lia.
  - assert (zpos o > zpos x) as Hgt.
    { destruct (decide (zpos x >= zpos o)); [|lia].
      destruct Hc. by split. }
    specialize (IH Hothers Hs).
    destruct (list_find _ others) as [[k y]|]; simpl in *.
    all: constructor; [done|].
    all: apply Forall_forall; intros y' Hy.
    all: apply (list_insert_elem_of _ x y' others) in Hy as [->|Hy];
      [unfold zpos_ge; lia|].
    all: rewrite Forall_forall in Hall; by apply Hall.
Qed.

Lemma plane_insert_ordered (x : liftoff_rpi_plane) ps :
  planes_ordered ps →
  ¬ plane_is_primary x →
  planes_ordered (liftoff_rpi_list_insert (overlay_insert_position x ps) x ps).
Proof.
  intros (prims & others & -> & Hprims & Hothers & Hsorted) Hx.
  exists prims, (liftoff_rpi_list_insert (overlay_insert_position x others)
                   x others).
  split_and!; [|done| |by apply overlay_insert_sorted].
  - unfold overlay_insert_position.
    rewrite list_find_app_r.
    2:{ apply list_find_None. eapply Forall_impl; [exact Hprims|].
        intros p Hp [Hn _]. done. }
    assert (∀ k, liftoff_rpi_list_insert (length prims + k) x (prims ++ others)
                 = prims ++ liftoff_rpi_list_insert k x others) as Hins.
    { intros k. unfold liftoff_rpi_list_insert.
      rewrite take_app_add', drop_app_add' by done. by rewrite <- app_assoc. }
    destruct (list_find _ others) as [[k y]|]; simpl.
    + rewrite Nat.add_comm. apply Hins.
    + rewrite length_app. apply Hins.
  - apply Forall_forall. intros y Hy.
    apply list_insert_elem_of in Hy as [->|Hy]; [done|].
    rewrite Forall_forall in Hothers. by apply Hothers.
Qed.

Lemma plane_insert_primary_ordered (x : liftoff_rpi_plane) ps :
  planes_ordered ps →
  plane_is_primary x →
  planes_ordered (liftoff_rpi_list_insert 0 x ps).
Proof.
  intros (prims & others & -> & Hprims & Hothers & Hsorted) Hx.
  exists (x :: prims), others. split_and!; try done. by constructor.
Qed.

(** Linking a new plane into the list keeps the list in order. *)
Lemma plane_register_ordered h plane :
  (∀ q, q ∈ dev_planes (device h) → is_Some (planes h !! q)) →
  planes_ordered (get_plane h <$> dev_planes (device h)) →
  let new : plane_ptr := fresh (dom (planes h)) in
  let h' :=
    {| device :=
         device_with_planes (device h)
           (liftoff_rpi_list_insert (plane_insert_position h plane) new
              (dev_planes (device h)));
       planes := <[new := plane]> (planes h);
       outputs := outputs h; layers := layers h |} in
  (∀ q, q ∈ dev_planes (device h') → is_Some (planes h' !! q)) ∧
  planes_ordered (get_plane h' <$> dev_planes (device h')).
Proof.
  intros Hdom Hord new h'.
  assert (Hfresh : planes h !! new = None).
  { apply not_elem_of_dom. apply is_fresh. }
  assert (Hold : ∀ q, q ∈ dev_planes (device h) →
                 get_plane h' q = get_plane h q).
  { intros q Hq. unfold get_plane, h'; simpl.
    rewrite lookup_total_insert_ne; [done|].
    intros <-. apply Hdom in Hq as [? Hq]. congruence. }
  split.
  - unfold h'; simpl. intros q [->|Hq]%list_insert_elem_of.
    + rewrite lookup_insert_eq. by eexists.
    + rewrite lookup_insert_ne; [by apply Hdom|].
      intros <-. apply Hdom in Hq as [? Hq]. congruence.
  - assert (get_plane h' <$> dev_planes (device h')
            = liftoff_rpi_list_insert (plane_insert_position h plane) plane
                (get_plane h <$> dev_planes (device h))) as ->.
    { unfold h' at 2; simpl. unfold liftoff_rpi_list_insert.
      rewrite fmap_app, fmap_cons, fmap_take, fmap_drop.
      assert (get_plane h' new = plane) as ->.
      { unfold get_plane, h'; simpl. by rewrite lookup_total_insert_eq. }
      assert (get_plane h' <$> dev_planes (device h)
              = get_plane h <$> dev_planes (device h)) as ->; [|done].
      apply list_fmap_ext. intros i q Hq. apply Hold.
      by eapply list_elem_of_lookup_2. }
    unfold plane_insert_position.
    destruct (Z.eqb_spec (plane_type plane) DRM_PLANE_TYPE_PRIMARY) as [Hp|Hp].
    + by apply plane_insert_primary_ordered.
    + by apply plane_insert_ordered.
Qed.

(** One [liftoff_rpi_plane_create] keeps the list in order. *)
Lemma plane_create_ordered drm h id ok1 ok2 ptr h' :
  (∀ q, q ∈ dev_planes (device h) → is_Some (planes h !! q)) →
  planes_ordered (get_plane h <$> dev_planes (device h)) →
  liftoff_rpi_plane_create drm h id ok1 ok2 = Some (ptr, h') →
  (∀ q, q ∈ dev_planes (device h') → is_Some (planes h' !! q)) ∧
  planes_ordered (get_plane h' <$> dev_planes (device h')).
Proof.
  intros Hdom Hord. unfold liftoff_rpi_plane_create.
  repeat case_match; try done; intros [= <- <-];
    by apply plane_register_ordered.
Qed.

Lemma StronglySorted_fmap_inv {A B} (f : A → B) (R : relation B) l :
  StronglySorted R (f <$> l) → StronglySorted (λ a b, R (f a) (f b)) l.
Proof.
  induction l as [|x l IH]; csimpl; [constructor|].
  intros [Hs Hall]%StronglySorted_inv. constructor; [by apply IH|].
  apply Forall_forall. intros y Hy.
  rewrite Forall_forall in Hall. apply Hall.
  apply list_elem_of_fmap. by exists y.
Qed.

Lemma plane_create_seq_ordered drm calls : ∀ h h',
  (∀ q, q ∈ dev_planes (device h) → is_Some (planes h !! q)) →
  planes_ordered (get_plane h <$> dev_planes (device h)) →
  plane_create_seq drm h calls = Some h' →
  planes_ordered (get_plane h' <$> dev_planes (device h')).
Proof.
  induction calls as [|[[id ok1] ok2] calls IH]; intros h h' Hdom Hord; simpl.
  { by intros [= <-]. }
  destruct (liftoff_rpi_plane_create drm h id ok1 ok2) as [[ptr h1]|] eqn:E;
    [|done].
  destruct (plane_create_ordered _ _ _ _ _ _ _ Hdom Hord E) as [Hdom1 Hord1].
  by apply IH.
Qed.

(** C8.  Starting from a device without planes, after any sequence of
    successful [liftoff_rpi_plane_create] calls that leaves exactly one
    primary plane in the list, that plane is the head of the list and
    the planes behind it come in descending order of zpos. *)
Theorem plane_create_order (drm : drm_boundary) (h0 h : heap)
    (calls : list (Z * bool * bool)) :
  dev_planes (device h0) = [] →
  plane_create_seq drm h0 calls = Some h →
  length (filter (λ p, plane_is_primary (get_plane h p))
            (dev_planes (device h))) = 1%nat →
  ∃ primary rest,
    dev_planes (device h) = primary :: rest ∧
    plane_is_primary (get_plane h primary) ∧
    Forall (λ p, ¬ plane_is_primary (get_plane h p)) rest ∧
    StronglySorted
      (λ a b, zpos (get_plane h a) >= zpos (get_plane h b)) rest.
Proof.
  intros Hempty Hseq Hone.
  assert (planes_ordered (get_plane h <$> dev_planes (device h)))
    as (prims & others & Hsplit & Hprims & Hothers & Hsorted).
  { eapply plane_create_seq_ordered; [| |exact Hseq].
    - rewrite Hempty. intros q Hq. by apply elem_of_nil in Hq.
    - rewrite Hempty. exists [], []. split_and!; by constructor. }
  apply fmap_app_inv in Hsplit as (lp & lo & -> & -> & Hl).
  rewrite Hl in *. rewrite filter_app, length_app in Hone.
  assert (Hothers' : Forall (λ p, ¬ plane_is_primary (get_plane h p)) lo).
  { apply Forall_forall. intros y Hy. rewrite Forall_forall in Hothers.
    apply Hothers. apply list_elem_of_fmap. by exists y. }
  assert (Hprims' : Forall (λ p, plane_is_primary (get_plane h p)) lp).
  { apply Forall_forall. intros y Hy. rewrite Forall_forall in Hprims.
    apply Hprims. apply list_elem_of_fmap. by exists y. }
  assert (filter (λ p, plane_is_primary (get_plane h p)) lo = []) as Hlo.
  { clear -Hothers'. induction Hothers' as [|x l Hx _ IH]; [done|].
    by rewrite filter_cons_False. }
  assert (filter (λ p, plane_is_primary (get_plane h p)) lp = lp) as Hlp.
  { clear -Hprims'. induction Hprims' as [|x l Hx _ IH]; [done|].
    rewrite filter_cons_True by done. by rewrite IH. }
  rewrite Hlo, Hlp in Hone. simpl in Hone.
  destruct lp as [|primary [|? ?]]; simpl in Hone; try lia.
  exists primary, lo. split_and!.
  - done.
  - by apply Forall_cons in Hprims' as [? _].
  - done.
  - by apply StronglySorted_fmap_inv in Hsorted.
Qed.

Lemma plane_create_order_witness :
  ∃ h,
    plane_create_seq ex_drm ex_heap_empty ex_calls = Some h ∧
    plane_id ∘ get_plane h <$> dev_planes (device h) = [30; 32; 31] ∧
    ∃ primary rest,
      dev_planes (device h) = primary :: rest ∧
      plane_is_primary (get_plane h primary) ∧
      Forall (λ p, ¬ plane_is_primary (get_plane h p)) rest ∧
      StronglySorted
        (λ a b, zpos (get_plane h a) >= zpos (get_plane h b)) rest.
Proof.
  destruct (plane_create_seq ex_drm ex_heap_empty ex_calls) as [h|] eqn:E;
    [|by vm_compute in E].
  exists h. split; [done|].
  assert (plane_id ∘ get_plane h <$> dev_planes (device h) = [30; 32; 31])
    as Hids.
  { assert ((λ h, plane_id ∘ get_plane h <$> dev_planes (device h))
              <$> plane_create_seq ex_drm ex_heap_empty ex_calls
            = Some [30; 32; 31]) as Hc by by vm_compute.
    rewrite E in Hc. by injection Hc. }
  split; [exact Hids|].
  apply (plane_create_order ex_drm ex_heap_empty h ex_calls); [done|exact E|].
  assert ((λ h, length (filter (λ p, plane_is_primary (get_plane h p))
                          (dev_planes (device h))))
            <$> plane_create_seq ex_drm ex_heap_empty ex_calls
          = Some 1%nat) as Hc by by vm_compute.
  rewrite E in Hc. by injection Hc.
Defined.

Lemma composition_layer_set_frame_witness :
  layer_output (get_layer ex_heap_alpha 0%nat) = 0%nat ∧
  comp_layer (get_output ex_heap_alpha 0%nat) ≠ Some 0%nat ∧
  comp_layer
    (get_output
       (liftoff_rpi_output_composition_layer_set ex_heap_alpha 0%nat 0%nat)
       0%nat) = Some 0%nat ∧
  layers_changed
    (get_output
       (liftoff_rpi_output_composition_layer_set ex_heap_alpha 0%nat 0%nat)
       0%nat) = true.
Proof.
  assert (H1 : layer_output (get_layer ex_heap_alpha 0%nat) = 0%nat)
    by by vm_compute.
  assert (H2 : comp_layer (get_output ex_heap_alpha 0%nat) ≠ Some 0%nat)
    by by vm_compute.
  split; [exact H1|]. split; [exact H2|].
  exact (proj2 (proj2 (composition_layer_set_frame ex_heap_alpha 0%nat 0%nat))
           H1 H2).
Defined.

Lemma layer_property_set_changed_witness :
  layer_property_get ex_layer_alpha LIFTOFF_RPI_PROP_CRTC_ID = None ∧
  layer_property_get ex_layer_alpha LIFTOFF_RPI_PROP_ALPHA
    = Some (1%nat, ex_prop LIFTOFF_RPI_PROP_ALPHA 36864 32768) ∧
  layer_property_get
    (snd (liftoff_rpi_layer_property_set ex_layer_alpha
            LIFTOFF_RPI_PROP_ALPHA 100 true)) LIFTOFF_RPI_PROP_ALPHA
    = Some (1%nat, ex_prop LIFTOFF_RPI_PROP_ALPHA 100 32768) ∧
  changed
    (snd (liftoff_rpi_layer_property_set ex_layer_alpha
            LIFTOFF_RPI_PROP_ALPHA 100 true)) = false.
Proof.
  assert (H1 : layer_property_get ex_layer_alpha LIFTOFF_RPI_PROP_CRTC_ID
               = None) by by vm_compute.
  assert (H2 : layer_property_get ex_layer_alpha LIFTOFF_RPI_PROP_ALPHA
               = Some (1%nat, ex_prop LIFTOFF_RPI_PROP_ALPHA 36864 32768))
    by by vm_compute.
  split; [exact H1|]. split; [exact H2|].
  destruct (proj1 (layer_property_set_changed ex_layer_alpha
                     LIFTOFF_RPI_PROP_ALPHA 100 true H1) _ _ H2)
    as (_ & Hget & _ & Hch & _).
  split; [exact Hget|exact Hch].
Defined.

(** ** plane.c: staging a layer on a plane *)

(** The checks of [plane_prop_set], which [plane_apply] goes through for
    [CRTC_ID] and for the properties of a disabled plane: an immutable
    property or a value that fails the check of the property's kind is
    refused and the request is left as it was. *)
Lemma plane_prop_set_checks drm plane rq index v i prop :
  plane_property_get plane index = Some (i, prop) →
  dprop_immutable (dprop prop) = true ∨ plane_prop_check (dprop prop) v ≠ 0 →
  ∃ ret, plane_prop_set drm plane rq index v = (ret, rq) ∧ ret ≠ 0.
Proof.
  intros Hget Hbad. unfold plane_prop_set. rewrite Hget.
  destruct (dprop_immutable (dprop prop)).
  { exists (- EINVAL). by split. }
  destruct Hbad as [?|Hbad]; [done|].
  exists (plane_prop_check (dprop prop) v).
  by rewrite (proj2 (Z.eqb_neq _ _) Hbad).
Qed.

(** C2 does not hold of the loop of [plane_apply] over the layer's
    properties.  The plane's [alpha] is immutable and ranges over 0 to
    0xFFFF; [plane_prop_set] refuses the value 70000 for it; and
    [plane_apply] stages it all the same and returns 0, because the loop
    calls [plane_property_set], which adds to the request without any
    check. *)
Theorem plane_apply_skips_validation :
  (∃ i pprop,
     plane_property_get ex_plane_overlay LIFTOFF_RPI_PROP_ALPHA
       = Some (i, pprop) ∧
     dprop_immutable (dprop pprop) = true ∧
     plane_prop_check (dprop pprop) 70000 = - EINVAL) ∧
  plane_prop_set ex_drm ex_plane_overlay [] LIFTOFF_RPI_PROP_ALPHA 70000
    = (- EINVAL, []) ∧
  plane_apply_with ex_drm ex_plane_overlay (Some ex_layer_alpha_out_of_range)
    40 []
    = (0, [ex_item 31 3 40; ex_item 31 4 5; ex_item 31 5 70000]).
Proof.
  split; [|split; by vm_compute].
  eexists _, _. split; [by vm_compute|]. split; by vm_compute.
Qed.

(** ** alloc.c: the steps of the search and the validity of an assignment *)

Lemma assignment_places_snoc S c a :
  assignment_places (S ++ [a]) c ↔
  assignment_places S c ∨ (is_Some a ∧ a = c).
Proof.
  unfold assignment_places. split.
  - intros (l & -> & Hin). apply elem_of_app in Hin as [Hin|Hin].
    + left. by exists l.
    + right. apply list_elem_of_singleton in Hin as <-. by split.
  - intros [(l & -> & Hin)|[[l ->] <-]]; exists l; split; try done;
      apply elem_of_app; [by left|right]. by apply list_elem_of_singleton.
Qed.

Lemma assignment_score_snoc S c a :
  assignment_score (S ++ [a]) c =
  assignment_score S c + (if decide (is_Some a ∧ a ≠ c) then 1 else 0).
Proof.
  unfold assignment_score. rewrite filter_app, length_app.
  rewrite Nat2Z.inj_add. f_equal.
  destruct (decide (is_Some a ∧ a ≠ c)).
  - by rewrite filter_cons_True.
  - by rewrite filter_cons_False.
Qed.

(** On every step the search reaches, [composited] says whether the
    assignment places the composition layer, and [score] is the score
    of the assignment. *)
Lemma search_reaches_consistent h output step S :
  output_layers_belong h output →
  search_reaches h output step S →
  length S = pindex step ∧
  (composited step = true ↔
   assignment_places S (comp_layer (get_output h output))) ∧
  score step = assignment_score S (comp_layer (get_output h output)).
Proof.
  intros Hbelong Hreach.
  induction Hreach as [|step pre plane Hreach (Hlen & Hcomp & Hscore) Hplane
                      |step pre plane layer Hreach (Hlen & Hcomp & Hscore)
                         Hplane Hin Hvis Hcompat].
  - split_and!; [done| |done]. split; [done|].
    intros (l & _ & Hin). by apply elem_of_nil in Hin.
  - simpl. rewrite length_app, assignment_places_snoc, assignment_score_snoc.
    simpl. split_and!; [lia| |].
    + rewrite Hcomp. split; [by left|].
      intros [?|[[? ?] _]]; done.
    + lia.
  - simpl. rewrite length_app, assignment_places_snoc, assignment_score_snoc.
    simpl. unfold layer_is_comp_layer. rewrite (Hbelong _ Hin).
    split_and!; [lia| |].
    + case_bool_decide as Hc.
      * split; [|done]. intros _. right. by split.
      * rewrite Hcomp. split; [by left|]. intros [?|[_ ?]]; done.
    + case_bool_decide as Hc; simpl.
      * rewrite decide_False by (intros [_ ?]; done). lia.
      * rewrite decide_True by (split; [done|congruence]). lia.
Qed.

(** The counter of [non_comp_layers_len] is the number of visible
    layers of the output other than its composition layer. *)
Lemma non_comp_layers_len_get_count h output :
  non_comp_layers_len_get h output = visible_non_comp_layers h output.
Proof.
  unfold non_comp_layers_len_get, visible_non_comp_layers.
  generalize (comp_layer (get_output h output)). intros c.
  assert (∀ ls n,
    fold_left
      (λ n layer,
         if layer_visible_get (get_layer h layer)
            && negb (bool_decide (c = Some layer))
         then S n else n) ls n
    = (n + length
             (filter
                (λ layer,
                   layer_visible_get (get_layer h layer) = true ∧
                   Some layer ≠ c) ls))%nat) as Hloop.
  { induction ls as [|l ls IH]; intros n; simpl; [lia|].
    rewrite IH, filter_cons.
    destruct (decide (layer_visible_get (get_layer h l) = true ∧ Some l ≠ c))
      as [[Hv Hc]|Hn].
    - rewrite Hv, bool_decide_eq_false_2 by congruence. simpl. lia.
    - destruct (layer_visible_get (get_layer h l)); [|done].
      rewrite bool_decide_eq_true_2; [done|].
      destruct (decide (c = Some l)) as [|Hne]; [done|].
      exfalso. apply Hn. split; [done|congruence]. }
  by rewrite Hloop.
Qed.

(** C3.  On an assignment [S] the allocator reaches, with [c] the
    output's composition layer and [k] the number of visible layers of
    the output other than [c] (taken to fit an [int]), the result being
    set up as [liftoff_rpi_output_apply] sets it up, with the counter of
    [non_comp_layers_len]:
    [alloc_valid_get] answers false when there is a composition layer,
    [S] does not place it and the score of [S] is not [k]; it answers
    false when [S] places the composition layer and the score of [S] is
    [k]; and it answers true otherwise. *)
Theorem alloc_valid_get_spec (h : heap) (output : output_ptr)
    (result : alloc_result) (step : alloc_step) (S : list (option layer_ptr)) :
  output_layers_belong h output →
  search_reaches h output step S →
  has_comp_layer result
    = bool_decide (comp_layer (get_output h output) ≠ None) →
  non_comp_layers_len result = non_comp_layers_len_get h output →
  Z.of_nat (visible_non_comp_layers h output) ≤ INT_MAX →
  let c := comp_layer (get_output h output) in
  let k := Z.of_nat (visible_non_comp_layers h output) in
  let missing_plane :=
    c ≠ None ∧ ¬ assignment_places S c ∧ assignment_score S c ≠ k in
  let needless_composition :=
    assignment_places S c ∧ assignment_score S c = k in
  score step = assignment_score S c ∧
  (missing_plane → alloc_valid_get result step = false) ∧
  (needless_composition → alloc_valid_get result step = false) ∧
  (¬ missing_plane → ¬ needless_composition →
   alloc_valid_get result step = true).
Proof.
  intros Hbelong Hreach Hhas Hlen Hfit c k missing_plane needless_composition.
  destruct (search_reaches_consistent _ _ _ _ Hbelong Hreach)
    as (_ & Hcomp & Hscore).
  fold c in Hcomp, Hscore.
  unfold alloc_valid_get.
  rewrite Hhas, Hlen, non_comp_layers_len_get_count. fold c k.
  rewrite (to_int_small k) by (unfold k, INT_MIN, INT_MAX in *; lia).
  rewrite Hscore.
  assert (Hpl : composited step = false ↔ ¬ assignment_places S c).
  { rewrite <- Hcomp. by destruct (composited step). }
  unfold missing_plane, needless_composition.
  split; [done|].
  assert (Hc : bool_decide (c ≠ None) = true ↔ c ≠ None)
    by apply bool_decide_eq_true.
  destruct (composited step) eqn:Ec, (bool_decide (c ≠ None)) eqn:Eb,
    (Z.eqb_spec (assignment_score S c) k) as [He|Hne]; simpl;
    (split_and!; [intros (? & ? & ?)|intros [? ?]|intros ? ?]);
    try reflexivity; exfalso; intuition congruence.
Qed.

(** ** alloc.c: what the search reads *)

Lemma layer_sim_fields l1 l2 :
  layer_sim l1 l2 →
  layer_output l1 = layer_output l2 ∧ layer_plane l1 = layer_plane l2 ∧
  layer_props l1 = layer_props l2 ∧ force_comp l1 = force_comp l2 ∧
  fb_info l1 = fb_info l2.
Proof.
  destruct l1, l2. unfold layer_sim, layer_with_candidates; simpl.
  intros [= -> -> -> -> -> -> -> -> ->]. done.
Qed.

Lemma layer_sim_refl l : layer_sim l l.
Proof. done. Qed.

Lemma layer_sim_candidates l c : layer_sim l (layer_with_candidates l c).
Proof. done. Qed.

Lemma layer_candidate_plane_add_sim cap l plane :
  layer_sim l (layer_candidate_plane_add cap l plane).
Proof.
  unfold layer_candidate_plane_add. repeat case_match; done.
Qed.

Lemma layer_visible_get_sim l1 l2 :
  layer_sim l1 l2 → layer_visible_get l1 = layer_visible_get l2.
Proof.
  intros (_ & _ & Hp & Hf & _)%layer_sim_fields.
  unfold layer_visible_get, layer_property_get. by rewrite Hp, Hf.
Qed.

Lemma layer_intersects_sim a1 a2 b1 b2 :
  layer_sim a1 a2 → layer_sim b1 b2 →
  layer_intersects a1 b1 = layer_intersects a2 b2.
Proof.
  intros Ha Hb. unfold layer_intersects.
  rewrite (layer_visible_get_sim _ _ Ha), (layer_visible_get_sim _ _ Hb).
  apply layer_sim_fields in Ha as (_ & _ & Hpa & _).
  apply layer_sim_fields in Hb as (_ & _ & Hpb & _).
  unfold layer_rect_get, prop_int_or_zero, layer_property_get.
  by rewrite Hpa, Hpb.
Qed.

Lemma plane_check_layer_fb_sim plane l1 l2 :
  layer_sim l1 l2 →
  plane_check_layer_fb plane l1 = plane_check_layer_fb plane l2.
Proof.
  intros (_ & _ & _ & _ & Hfb)%layer_sim_fields.
  unfold plane_check_layer_fb. by rewrite Hfb.
Qed.

Lemma heap_sim_refl h : heap_sim h h.
Proof. by split_and!. Qed.

Lemma heap_sim_trans h1 h2 h3 : heap_sim h1 h2 → heap_sim h2 h3 → heap_sim h1 h3.
Proof.
  intros (? & ? & ? & Hp & Ho & Hl) (? & ? & ? & Hp' & Ho' & Hl').
  split_and!; try congruence.
  all: intros x; unfold layer_sim in *; congruence.
Qed.

Lemma heap_sim_sym h1 h2 : heap_sim h1 h2 → heap_sim h2 h1.
Proof.
  intros (? & ? & ? & Hp & Ho & Hl). split_and!; try done.
  intros l. unfold layer_sim in *. by rewrite Hl.
Qed.

Lemma heap_sim_upd_layer h l f :
  (∀ x, layer_sim x (f x)) → heap_sim h (upd_layer h l f).
Proof.
  intros Hf. split_and!; try done.
  intros l'. rewrite get_upd_layer. case_decide; [subst; apply Hf|done].
Qed.

Lemma heap_sim_upd_device h f :
  (∀ d, dev_planes (f d) = dev_planes d ∧ dev_outputs (f d) = dev_outputs d ∧
        planes_cap (f d) = planes_cap d) →
  heap_sim h (upd_device h f).
Proof.
  intros Hf. destruct (Hf (device h)) as (? & ? & ?). by split_and!.
Qed.

Lemma device_test_commit_sim drm h rq fl :
  heap_sim h (snd (device_test_commit drm h rq fl)).
Proof. unfold device_test_commit; simpl. by apply heap_sim_upd_device. Qed.

Lemma device_test_commit_ret drm h1 h2 rq fl :
  fst (device_test_commit drm h1 rq fl) = fst (device_test_commit drm h2 rq fl).
Proof. done. Qed.

Lemma layer_zprop_sim h1 h2 l :
  heap_sim h1 h2 → layer_zprop h1 l = layer_zprop h2 l.
Proof.
  intros (_ & _ & _ & _ & _ & Hl). unfold layer_zprop, layer_property_get.
  destruct (layer_sim_fields _ _ (Hl l)) as (_ & _ & -> & _). done.
Qed.

Lemma layer_is_comp_layer_sim h1 h2 l :
  heap_sim h1 h2 → layer_is_comp_layer h1 l = layer_is_comp_layer h2 l.
Proof.
  intros (_ & _ & _ & _ & Ho & Hl). unfold layer_is_comp_layer.
  destruct (layer_sim_fields _ _ (Hl l)) as (-> & _). by rewrite Ho.
Qed.

Lemma existsb_ext_in {A} (f g : A → bool) l :
  (∀ x, x ∈ l → f x = g x) → existsb f l = existsb g l.
Proof.
  induction l as [|x l IH]; simpl; [done|]. intros H.
  rewrite (H x) by left. rewrite IH; [done|]. intros y Hy. apply H. by right.
Qed.

Lemma layer_allocated_get_sim step a1 a2 l :
  take (pindex step) a1 = take (pindex step) a2 →
  layer_allocated_get step a1 l = layer_allocated_get step a2 l.
Proof. unfold layer_allocated_get. by intros ->. Qed.

Lemma allocated_planes_sim h1 h2 step a1 a2 :
  heap_sim h1 h2 →
  take (pindex step) a1 = take (pindex step) a2 →
  allocated_planes h1 step a1 = allocated_planes h2 step a2.
Proof.
  intros (Hp & _) Ha. unfold allocated_planes.
  rewrite !(zip_with_take pair), Hp, Ha. done.
Qed.

Lemma composited_layer_over_get_sim h1 h2 output step a1 a2 l :
  heap_sim h1 h2 →
  take (pindex step) a1 = take (pindex step) a2 →
  composited_layer_over_get h1 output step a1 l
  = composited_layer_over_get h2 output step a2 l.
Proof.
  intros Hs Ha. unfold composited_layer_over_get.
  rewrite (layer_zprop_sim _ _ _ Hs).
  destruct (layer_zprop h2 l) as [zprop|]; [|done].
  pose proof Hs as (_ & _ & _ & _ & Ho & Hl). rewrite Ho.
  apply existsb_ext_in. intros olayer _.
  rewrite (layer_allocated_get_sim _ _ _ _ Ha).
  rewrite (layer_zprop_sim _ _ _ Hs).
  by rewrite (layer_intersects_sim _ _ _ _ (Hl l) (Hl olayer)).
Qed.

Lemma allocated_layer_over_get_sim h1 h2 step a1 a2 l :
  heap_sim h1 h2 →
  take (pindex step) a1 = take (pindex step) a2 →
  allocated_layer_over_get h1 step a1 l = allocated_layer_over_get h2 step a2 l.
Proof.
  intros Hs Ha. unfold allocated_layer_over_get.
  rewrite (layer_zprop_sim _ _ _ Hs).
  destruct (layer_zprop h2 l) as [zprop|]; [|done].
  rewrite (allocated_planes_sim _ _ _ _ _ Hs Ha).
  apply existsb_ext_in. intros [oplane slot] _.
  pose proof Hs as (_ & _ & _ & Hp & _ & Hl). rewrite Hp.
  destruct slot as [olayer|]; [|done].
  rewrite (layer_zprop_sim _ _ _ Hs).
  by rewrite (layer_intersects_sim _ _ _ _ (Hl l) (Hl olayer)).
Qed.

Lemma allocated_plane_under_get_sim h1 h2 plane step a1 a2 l :
  heap_sim h1 h2 →
  take (pindex step) a1 = take (pindex step) a2 →
  allocated_plane_under_get h1 plane step a1 l
  = allocated_plane_under_get h2 plane step a2 l.
Proof.
  intros Hs Ha. unfold allocated_plane_under_get.
  rewrite (allocated_planes_sim _ _ _ _ _ Hs Ha).
  apply existsb_ext_in. intros [oplane slot] _.
  pose proof Hs as (_ & _ & _ & Hp & _ & Hl). rewrite Hp.
  destruct slot as [olayer|]; [|done].
  by rewrite (layer_intersects_sim _ _ _ _ (Hl l) (Hl olayer)).
Qed.

Lemma layer_plane_compatible_get_sim h1 h2 step a1 a2 l plane :
  heap_sim h1 h2 →
  take (pindex step) a1 = take (pindex step) a2 →
  layer_plane_compatible_get h1 step a1 l plane
  = layer_plane_compatible_get h2 step a2 l plane.
Proof.
  intros Hs Ha. unfold layer_plane_compatible_get.
  rewrite (layer_allocated_get_sim _ _ _ _ Ha).
  rewrite (layer_zprop_sim _ _ _ Hs).
  rewrite (allocated_layer_over_get_sim _ _ _ _ _ _ Hs Ha).
  rewrite (allocated_plane_under_get_sim _ _ _ _ _ _ _ Hs Ha).
  rewrite (layer_is_comp_layer_sim _ _ _ Hs).
  pose proof Hs as (_ & _ & _ & _ & _ & Hl).
  destruct (layer_sim_fields _ _ (Hl l)) as (-> & _).
  by rewrite (composited_layer_over_get_sim _ _ _ _ _ _ _ Hs Ha).
Qed.

Lemma plane_apply_sim drm h1 h2 plane layer rq :
  heap_sim h1 h2 →
  plane_apply drm h1 plane layer rq = plane_apply drm h2 plane layer rq.
Proof.
  intros (_ & _ & _ & Hp & Ho & Hl). unfold plane_apply.
  rewrite Hp. destruct layer as [l|]; simpl; [|done].
  destruct (layer_sim_fields _ _ (Hl l)) as (-> & _ & Hprops & _).
  rewrite Ho. unfold plane_apply_with. by rewrite Hprops.
Qed.

Lemma plane_step_init_next_sim h1 h2 plane step layer a1 a2 :
  heap_sim h1 h2 →
  fst (plane_step_init_next h1 plane step layer a1)
  = fst (plane_step_init_next h2 plane step layer a2).
Proof.
  intros Hs. unfold plane_step_init_next; simpl.
  destruct layer as [l|]; [|done].
  by rewrite (layer_is_comp_layer_sim _ _ _ Hs), (layer_zprop_sim _ _ _ Hs).
Qed.

(** ** What [plane_apply] does to the request *)

Lemma plane_property_set_req drm plane rq pid v ret rq' :
  plane_property_set drm plane rq pid v = (ret, rq') →
  (ret ≠ 0 ∧ rq' = rq) ∨ (ret = 0 ∧ ∃ item, rq' = rq ++ [item]).
Proof.
  unfold plane_property_set, drmModeAtomicAddProperty.
  destruct (Z.ltb_spec (drm_atomic_add_property drm rq (plane_id plane) pid v) 0)
    as [Hlt|Hge].
  - rewrite (proj2 (Z.ltb_lt _ _) Hlt). intros [= <- <-]. left. split; [lia|done].
  - rewrite (proj2 (Z.ltb_ge _ _) Hge). intros [= <- <-]. right.
    split; [done|]. by eexists.
Qed.

Lemma plane_prop_set_req drm plane rq idx v ret rq' :
  plane_prop_set drm plane rq idx v = (ret, rq') →
  (ret ≠ 0 ∧ rq' = rq) ∨ (ret = 0 ∧ ∃ item, rq' = rq ++ [item]).
Proof.
  unfold plane_prop_set.
  destruct (plane_property_get plane idx) as [[i prop]|].
  2:{ intros [= <- <-]. by left. }
  destruct (dprop_immutable _).
  { intros [= <- <-]. by left. }
  destruct (Z.eqb_spec (plane_prop_check (dprop prop) v) 0) as [He|Hne]; simpl.
  - apply plane_property_set_req.
  - intros [= <- <-]. by left.
Qed.

Lemma plane_apply_props_req drm plane c lprops : ∀ rq ret rq',
  (c ≤ length rq)%nat →
  plane_apply_props drm plane c lprops rq = (ret, rq') →
  (ret ≠ 0 → rq' = take c rq) ∧ (ret = 0 → take (length rq) rq' = rq).
Proof.
  induction lprops as [|lprop rest IH]; intros rq ret rq' Hc; simpl.
  { intros [= <- <-]. split; [done|]. intros _. by rewrite take_ge. }
  destruct (index lprop =? LIFTOFF_RPI_PROP_ZPOS); [by apply IH|].
  destruct (plane_property_get plane (index lprop)) as [[i pprop]|].
  - destruct (plane_property_set drm plane rq (id pprop) (value lprop))
      as [ret1 rq1] eqn:E.
    apply plane_property_set_req in E as [[Hne ->]|[-> [item ->]]].
    + rewrite (proj2 (Z.eqb_neq _ _) Hne). simpl. intros [= <- <-].
      split; [done|]. by intros ?.
    + simpl. intros Hrec.
      apply IH in Hrec as [H1 H2]; [|rewrite length_app; lia].
      split.
      * intros Hne. rewrite (H1 Hne). by rewrite take_app_le.
      * intros He. specialize (H2 He).
        assert (take (length rq) rq' = take (length rq) (rq ++ [item])) as ->.
        { rewrite <- H2. rewrite take_take, length_app. f_equal. lia. }
        by rewrite take_app_length.
  - destruct (_ || _); [by apply IH|].
    intros [= <- <-]. split; [done|]. unfold EINVAL. lia.
Qed.

Lemma plane_apply_some_req drm h plane layer rq ret rq' :
  plane_apply drm h plane (Some layer) rq = (ret, rq') →
  (ret ≠ 0 → rq' = rq) ∧ (ret = 0 → take (length rq) rq' = rq).
Proof.
  unfold plane_apply, plane_apply_with; simpl.
  destruct (plane_prop_set drm (get_plane h plane) rq LIFTOFF_RPI_PROP_CRTC_ID _)
    as [ret1 rq1] eqn:E.
  apply plane_prop_set_req in E as [[Hne ->]|[-> [item ->]]].
  - rewrite (proj2 (Z.eqb_neq _ _) Hne). simpl. intros [= <- <-].
    split; [done|]. by intros ?.
  - simpl. unfold drmModeAtomicGetCursor. intros Hrec.
    apply plane_apply_props_req in Hrec as [H1 H2]; [|rewrite length_app; lia].
    split.
    + intros Hne. rewrite (H1 Hne). by rewrite take_app_length.
    + intros He. specialize (H2 He).
      assert (take (length rq) rq' = take (length rq) (rq ++ [item])) as ->.
      { rewrite <- H2. rewrite take_take, length_app. f_equal. lia. }
      by rewrite take_app_length.
Qed.

(** ** alloc.c: one run of the search *)

Lemma same_statics_refl r : same_statics r r.
Proof. by split_and!. Qed.

Lemma same_statics_trans r1 r2 r3 :
  same_statics r1 r2 → same_statics r2 r3 → same_statics r1 r3.
Proof.
  intros (? & ? & ? & ? & ?) (? & ? & ? & ? & ?). split_and!; congruence.
Qed.

Lemma alloc_valid_get_statics r r' step :
  same_statics r r' → alloc_valid_get r' step = alloc_valid_get r step.
Proof.
  intros (_ & _ & Hc & Hn & _). unfold alloc_valid_get. by rewrite Hc, Hn.
Qed.

Lemma search_frame_refl pidx m : search_frame pidx m m.
Proof.
  split_and!; [apply heap_sim_refl|apply same_statics_refl|done..].
Qed.

Lemma search_frame_trans pidx m1 m2 m3 :
  search_frame pidx m1 m2 → search_frame pidx m2 m3 → search_frame pidx m1 m3.
Proof.
  intros (Hh & Hs & Hr & Hl & Ht) (Hh' & Hs' & Hr' & Hl' & Ht').
  split_and!; [by eapply heap_sim_trans|by eapply same_statics_trans
              |congruence..].
Qed.

Lemma search_frame_weaken pidx pidx' m m' :
  (pidx ≤ pidx')%nat → search_frame pidx' m m' → search_frame pidx m m'.
Proof.
  intros Hle (Hh & Hs & Hr & Hl & Ht). split_and!; try done.
  rewrite <- (Nat.min_l pidx pidx') by done.
  by rewrite <- !take_take, Ht.
Qed.

Lemma mem_ok_frame h0 pidx m m' :
  mem_ok h0 m → search_frame pidx m m' → mem_ok h0 m'.
Proof.
  intros (Hh & Hp & Ha & Hb) (Hh' & (_ & Hp' & _ & _ & Hb') & _ & Hl & _).
  split_and!; [by eapply heap_sim_trans|congruence..].
Qed.

Lemma search_progress_refl Inv bound m : search_progress Inv bound m m.
Proof. by left. Qed.

Lemma search_progress_trans Inv b1 b2 bound m1 m2 m3 :
  same_statics (mem_result m1) (mem_result m2) →
  b1 ≤ bound → b2 ≤ bound →
  search_progress Inv b1 m1 m2 → search_progress Inv b2 m2 m3 →
  search_progress Inv bound m1 m3.
Proof.
  intros Hst Hb1 Hb2 [[Hb Hs]|[Hlt (t & Hi & Hsc & Hv)]]
    [[Hb' Hs']|[Hlt' (t' & Hi' & Hsc' & Hv')]].
  - left. split; congruence.
  - right. rewrite <- Hs. split; [lia|]. exists t'. split_and!; try done.
    by rewrite <- (alloc_valid_get_statics _ _ _ Hst).
  - right. rewrite Hb', Hs'. split; [lia|]. by exists t.
  - right. split; [lia|]. exists t'. split_and!; try done.
    by rewrite <- (alloc_valid_get_statics _ _ _ Hst).
Qed.

Lemma list_for_each_continue {A S} (I : S → Prop)
    (body : A → S → loop_state S) (l : list A) :
  (∀ x s s', x ∈ l → I s → body x s = Continue s' → I s') →
  ∀ s s', I s → list_for_each body l s = Continue s' → I s'.
Proof.
  induction l as [|x l IH]; intros Hbody s s' Hs; simpl.
  { by intros [= <-]. }
  destruct (body x s) as [s1|ret s1] eqn:E; [|done].
  apply IH.
  - intros y t t' Hy. apply Hbody. by right.
  - eapply Hbody; [by left|done..].
Qed.

Lemma list_for_each_return {A S} (body : A → S → loop_state S) (l : list A)
    s ret s' :
  list_for_each body l s = Return ret s' →
  ∃ x s0, x ∈ l ∧ body x s0 = Return ret s'.
Proof.
  revert s. induction l as [|x l IH]; intros s; simpl; [done|].
  destruct (body x s) as [s1|ret1 s1] eqn:E.
  - intros (y & s0 & Hy & Hb)%IH. exists y, s0. split; [by right|done].
  - intros [= <- <-]. exists x, s. split; [by left|done].
Qed.

(** The loop body of [output_layers_choose] leaves the function only
    with a non-zero value. *)
Lemma output_layers_choose_layer_return drm choose_next plane step cur layer
    m ret m' :
  output_layers_choose_layer drm choose_next plane step cur layer m
    = Return ret m' →
  ret ≠ 0.
Proof.
  unfold output_layers_choose_layer.
  repeat (case_match; try done); intros [= <- <-];
    repeat match goal with
           | H : negb (_ =? 0) = true |- _ =>
               apply negb_true_iff, Z.eqb_neq in H
           | H : _ && _ = true |- _ => apply andb_prop in H as [? ?]
           end; try done.
  match goal with
  | H : negb (?r =? - EINVAL) = true, H' : (?r =? 0) = false |- _ =>
      by apply Z.eqb_neq in H'
  end.
Qed.

Lemma take_S_insert {A} (l : list A) i x :
  (i < length l)%nat → take (S i) (<[i := x]> l) = take i l ++ [x].
Proof.
  intros Hi. rewrite (take_S_r _ _ x) by by apply list_lookup_insert_eq.
  by rewrite take_insert_ge.
Qed.

#[local] Arguments device_test_commit : simpl never.
#[local] Arguments plane_step_init_next : simpl never.
#[local] Arguments plane_apply : simpl never.
#[local] Arguments layer_plane_compatible_get : simpl never.
#[local] Arguments layer_candidate_plane_add : simpl never.
#[local] Arguments layer_visible_get : simpl never.
#[local] Arguments plane_check_layer_fb : simpl never.
#[local] Arguments upd_layer : simpl never.
#[local] Arguments get_layer : simpl never.
#[local] Arguments get_plane : simpl never.
#[local] Arguments get_output : simpl never.

Section choose_run.

Context (drm : drm_boundary) (h0 : heap) (output : output_ptr).
Context (Inv : alloc_step → list (option layer_ptr) → Prop).

Hypothesis Inv_skip : ∀ step pre plane,
  Inv step pre →
  dev_planes (device h0) !! pindex step = Some plane →
  Inv (fst (plane_step_init_next h0 (get_plane h0 plane) step None pre))
    (pre ++ [None]).

Hypothesis Inv_layer : ∀ step pre plane layer,
  Inv step pre →
  dev_planes (device h0) !! pindex step = Some plane →
  layer ∈ output_layers (get_output h0 output) →
  layer_visible_get (get_layer h0 layer) = true →
  layer_plane_compatible_get h0 step pre layer (get_plane h0 plane) = true →
  Inv (fst (plane_step_init_next h0 (get_plane h0 plane) step (Some layer) pre))
    (pre ++ [Some layer]).

Section level.

Context (choose_next : alloc_step → alloc_mem → Z * alloc_mem).
Context (plane : plane_ptr) (step : alloc_step) (rest : nat).

Hypothesis Hplane : dev_planes (device h0) !! pindex step = Some plane.

Hypothesis Hnext : ∀ nstep m m',
  mem_ok h0 m →
  pindex nstep = S (pindex step) →
  Inv nstep (take (pindex nstep) (mem_alloc m)) →
  choose_next nstep m = (0, m') →
  search_frame (pindex nstep) m m' ∧
  search_progress Inv (score nstep + Z.of_nat rest) m m'.

(** A call of the next level on the array with slot [pindex] written,
    followed by the request being put back at [cur]. *)
Lemma next_run h (result : alloc_result) alloc slot m4 m :
  mem_ok h0 m →
  heap_sim (mem_heap m) h →
  same_statics (mem_result m) result →
  best result = best (mem_result m) →
  best_score result = best_score (mem_result m) →
  take (length (req (mem_result m))) (req result) = req (mem_result m) →
  alloc = mem_alloc m →
  Inv step (take (pindex step) alloc) →
  match slot with
  | Some layer =>
      layer ∈ output_layers (get_output h0 output) ∧
      layer_visible_get (get_layer h0 layer) = true ∧
      layer_plane_compatible_get h0 step (take (pindex step) alloc) layer
        (get_plane h0 plane) = true
  | None => True
  end →
  choose_next (fst (plane_step_init_next h (get_plane h plane) step slot alloc))
    {| mem_heap := h; mem_result := result;
       mem_alloc := snd (plane_step_init_next h (get_plane h plane) step slot
                           alloc) |}
    = (0, m4) →
  let m' :=
    mem_with_req m4
      (drmModeAtomicSetCursor (req (mem_result m4))
         (length (req (mem_result m)))) in
  search_frame (pindex step) m m' ∧
  search_progress Inv (score step + Z.of_nat (S rest)) m m'.
Proof.
  intros Hok Hsim Hst Hbest Hscore Hreq -> Hinv Hslot Hcall m'.
  destruct Hok as (Hh0 & Hplen & Halen & Hblen).
  assert (Hlt : (pindex step < length (mem_alloc m))%nat).
  { apply lookup_lt_Some in Hplane. lia. }
  assert (Hh0' : heap_sim h0 h) by by eapply heap_sim_trans.
  assert (Hpl : get_plane h plane = get_plane h0 plane).
  { by destruct Hh0' as (_ & _ & _ & -> & _). }
  rewrite Hpl in Hcall.
  rewrite (plane_step_init_next_sim h h0 _ _ _ _ (take (pindex step) (mem_alloc m)))
    in Hcall by by apply heap_sim_sym.
  set (nstep := fst (plane_step_init_next h0 (get_plane h0 plane) step slot
                       (take (pindex step) (mem_alloc m)))) in *.
  change (snd (plane_step_init_next h (get_plane h0 plane) step slot
                 (mem_alloc m)))
    with (<[pindex step := slot]> (mem_alloc m)) in Hcall.
  assert (Hscore_next : score nstep ≤ score step + 1).
  { unfold nstep, plane_step_init_next; simpl. destruct (_ && _); lia. }
  assert (Hok1 : mem_ok h0 {| mem_heap := h; mem_result := result;
                              mem_alloc := <[pindex step:=slot]> (mem_alloc m) |}).
  { destruct Hst as (_ & Hp' & _ & _ & Hb').
    split_and!; simpl; [done|congruence|rewrite length_insert; congruence
                       |congruence]. }
  assert (Hinv1 : Inv nstep
                    (take (pindex nstep) (<[pindex step:=slot]> (mem_alloc m)))).
  { change (pindex nstep) with (S (pindex step)).
    rewrite take_S_insert by done.
    destruct slot as [layer|].
    - destruct Hslot as (Hin & Hvis & Hcompat). by apply Inv_layer.
    - by apply Inv_skip. }
  destruct (Hnext nstep _ m4 Hok1 eq_refl Hinv1 Hcall)
    as [(Hf1 & Hf2 & Hf3 & Hf4 & Hf5) Hprog].
  simpl in Hf1, Hf2, Hf3, Hf4, Hf5.
  split.
  - unfold m'. split_and!; simpl.
    + by eapply heap_sim_trans.
    + destruct Hf2 as (? & ? & ? & ? & ?), Hst as (? & ? & ? & ? & ?).
      split_and!; simpl; congruence.
    + unfold drmModeAtomicSetCursor. by rewrite Hf3.
    + by rewrite Hf4, length_insert.
    + assert (take (pindex step) (mem_alloc m4)
              = take (pindex step) (take (S (pindex step)) (mem_alloc m4)))
        as -> by (rewrite take_take; f_equal; lia).
      replace (pindex nstep) with (S (pindex step)) in Hf5 by done.
      rewrite Hf5, take_take, Nat.min_l by lia. by rewrite take_insert_ge.
  - destruct Hprog as [[Hb Hs]|[Hlt' (t & Hi & Hsc & Hv)]]; simpl in *.
    + left. unfold m'; simpl. split; congruence.
    + right. unfold m'; simpl. split; [lia|].
      exists t. split_and!; try done.
      by rewrite <- (alloc_valid_get_statics _ _ _ Hst).
Qed.

Lemma skip_run m m' :
  mem_ok h0 m →
  Inv step (take (pindex step) (mem_alloc m)) →
  output_layers_choose_skip choose_next plane step
    (length (req (mem_result m))) m = (0, m') →
  search_frame (pindex step) m m' ∧
  search_progress Inv (score step + Z.of_nat (S rest)) m m'.
Proof.
  intros Hok Hinv. unfold output_layers_choose_skip.
  rewrite (surjective_pairing (plane_step_init_next _ _ _ _ _)).
  destruct (choose_next _ _) as [ret m4] eqn:Ec.
  destruct (Z.eqb_spec ret 0) as [->|Hne]; simpl; [|by intros [= ? ?]].
  intros [= <-].
  assert (take (length (req (mem_result m))) (req (mem_result m))
          = req (mem_result m)) as Hreq by by rewrite take_ge.
  exact (next_run (mem_heap m) (mem_result m) (mem_alloc m) None m4 m Hok
           (heap_sim_refl _) (same_statics_refl _) eq_refl eq_refl Hreq
           eq_refl Hinv I Ec).
Qed.

Lemma layer_run layer m m' :
  mem_ok h0 m →
  Inv step (take (pindex step) (mem_alloc m)) →
  layer ∈ output_layers (get_output h0 output) →
  output_layers_choose_layer drm choose_next plane step
    (length (req (mem_result m))) layer m = Continue m' →
  search_frame (pindex step) m m' ∧
  search_progress Inv (score step + Z.of_nat (S rest)) m m'.
Proof.
  intros Hok Hinv Hin. unfold output_layers_choose_layer.
  pose proof Hok as (Hh0 & _).
  assert (Hsame : search_frame (pindex step) m m ∧
                  search_progress Inv (score step + Z.of_nat (S rest)) m m).
  { split; [apply search_frame_refl|apply search_progress_refl]. }
  case_bool_decide; [by intros [= <-]|].
  destruct (layer_visible_get (get_layer (mem_heap m) layer)) eqn:Hvis;
    cbn [negb]; [|by intros [= <-]].
  destruct (layer_plane_compatible_get _ _ _ _ _) eqn:Hcompat;
    cbn [negb]; [|by intros [= <-]].
  destruct (plane_apply drm (mem_heap m) plane (Some layer) (req (mem_result m)))
    as [ret req1] eqn:Ea.
  destruct (plane_apply_some_req _ _ _ _ _ _ _ Ea) as [Hne He].
  assert (Hrestore : ∀ h, heap_sim (mem_heap m) h →
            ret = 0 →
            let m2 :=
              mem_with_req (mem_with_heap (mem_with_req m req1) h)
                (drmModeAtomicSetCursor req1 (length (req (mem_result m)))) in
            search_frame (pindex step) m m2 ∧
            search_progress Inv (score step + Z.of_nat (S rest)) m m2).
  { intros h Hsim Hret m2. split.
    - split_and!; simpl; try done; try (by split_and!).
      unfold drmModeAtomicSetCursor. by apply He.
    - by left. }
  destruct (Z.eqb_spec ret (- EINVAL)) as [->|Hne1].
  { intros [= <-]. split.
    - split_and!; simpl; try done; try apply heap_sim_refl;
        try (by split_and!).
      apply Hne. unfold EINVAL. lia.
    - by left. }
  destruct (Z.eqb_spec ret 0) as [->|Hne0]; cbn [negb]; [|done].
  set (h2 := upd_layer (mem_heap m) layer _).
  assert (Hsim2 : heap_sim (mem_heap m) h2).
  { apply heap_sim_upd_layer. intros x. apply layer_candidate_plane_add_sim. }
  destruct (_ || _).
  { intros [= <-]. by apply (Hrestore h2). }
  rewrite (surjective_pairing (device_test_commit _ _ _ _)).
  set (h3 := snd (device_test_commit drm h2 req1 _)).
  assert (Hsim3 : heap_sim (mem_heap m) h3).
  { eapply heap_sim_trans; [exact Hsim2|apply device_test_commit_sim]. }
  destruct (fst (device_test_commit drm h2 req1 _) =? 0).
  - rewrite (surjective_pairing (plane_step_init_next _ _ _ _ _)).
    destruct (choose_next _ _) as [ret4 m4] eqn:Ec.
    destruct (Z.eqb_spec ret4 0) as [->|Hne4]; cbn [negb]; [|done].
    intros [= <-].
    assert (Hst : same_statics (mem_result m)
                    (result_with_req (mem_result m) req1)) by by split_and!.
    assert (Hreq : take (length (req (mem_result m)))
                     (req (result_with_req (mem_result m) req1))
                   = req (mem_result m)) by by apply He.
    assert (Hslot : layer ∈ output_layers (get_output h0 output) ∧
                    layer_visible_get (get_layer h0 layer) = true ∧
                    layer_plane_compatible_get h0 step
                      (take (pindex step) (mem_alloc m)) layer
                      (get_plane h0 plane) = true).
    { split_and!; [done|..].
      * rewrite <- Hvis. apply layer_visible_get_sim.
        by destruct Hh0 as (_ & _ & _ & _ & _ & Hl).
      * rewrite <- Hcompat.
        assert (get_plane h0 plane = get_plane (mem_heap m) plane) as ->.
        { by destruct Hh0 as (_ & _ & _ & -> & _). }
        apply layer_plane_compatible_get_sim; [done|].
        rewrite take_take. f_equal. lia. }
    exact (next_run h3 (result_with_req (mem_result m) req1) (mem_alloc m)
             (Some layer) m4 m Hok Hsim3 Hst eq_refl eq_refl Hreq eq_refl
             Hinv Hslot Ec).
  - destruct (_ && _); [done|].
    intros [= <-]. by apply (Hrestore h3).
Qed.

End level.

(** One run of the search that returns 0: what it leaves alone and what
    it does to the best assignment. *)
Lemma output_layers_choose_run prune plink : ∀ step m m',
  mem_ok h0 m →
  drop (pindex step) (dev_planes (device h0)) = plink →
  Inv step (take (pindex step) (mem_alloc m)) →
  output_layers_choose_gen drm prune output plink step m = (0, m') →
  search_frame (pindex step) m m' ∧
  search_progress Inv (score step + Z.of_nat (length plink)) m m'.
Proof.
  induction plink as [|plane plink IH]; intros step m m' Hok Hdrop Hinv; simpl.
  - pose proof Hok as (Hh0 & Hplen & Halen & Hblen).
    apply drop_nil_inv in Hdrop.
    destruct (_ && _) eqn:Hcond; intros [= <-].
    2:{ split; [apply search_frame_refl|apply search_progress_refl]. }
    apply andb_prop in Hcond as [Hgt Hvalid].
    apply Z.gtb_lt in Hgt.
    assert (take (planes_len (mem_result m)) (mem_alloc m)
              ++ drop (planes_len (mem_result m)) (best (mem_result m))
            = mem_alloc m) as Hbest.
    { rewrite take_ge, drop_ge by lia. apply app_nil_r. }
    split.
    + split_and!; simpl; try done; try apply heap_sim_refl.
      split_and!; simpl; try done. rewrite Hbest. lia.
    + right. simpl. split; [lia|]. exists step. rewrite Hbest.
      split_and!; try done. rewrite take_ge in Hinv by lia. done.
  - assert (Hplane : dev_planes (device h0) !! pindex step = Some plane).
    { rewrite <- (Nat.add_0_r (pindex step)), <- lookup_drop. by rewrite Hdrop. }
    assert (Hdrop' : drop (S (pindex step)) (dev_planes (device h0)) = plink).
    { rewrite (drop_S _ _ _ Hplane) in Hdrop. by injection Hdrop. }
    assert (Hnext : ∀ nstep m m',
      mem_ok h0 m →
      pindex nstep = S (pindex step) →
      Inv nstep (take (pindex nstep) (mem_alloc m)) →
      output_layers_choose_gen drm prune output plink nstep m = (0, m') →
      search_frame (pindex nstep) m m' ∧
      search_progress Inv (score nstep + Z.of_nat (length plink)) m m').
    { intros nstep m1 m1' Hok1 Hp1 Hinv1. apply IH; try done.
      by rewrite Hp1. }
    destruct (prune && _).
    { intros [= <-].
      split; [apply search_frame_refl|apply search_progress_refl]. }
    unfold drmModeAtomicGetCursor.
    pose proof Hok as (Hh0 & _).
    case_bool_decide;
      [exact (skip_run _ _ _ (length plink) Hplane Hnext m m' Hok Hinv)|].
    destruct (_ =? 0);
      [exact (skip_run _ _ _ (length plink) Hplane Hnext m m' Hok Hinv)|].
    destruct (list_for_each _ _ m) as [m1|ret m1] eqn:Eloop.
    2:{ intros [= -> <-].
        apply list_for_each_return in Eloop as (x & s0 & _ & Hb).
        by apply output_layers_choose_layer_return in Hb. }
    assert (mem_ok h0 m1 ∧ search_frame (pindex step) m m1 ∧
            search_progress Inv (score step + Z.of_nat (S (length plink))) m m1)
      as (Hok1 & Hf1 & Hp1).
    { eapply (list_for_each_continue
                (λ s, mem_ok h0 s ∧ search_frame (pindex step) m s ∧
                      search_progress Inv
                        (score step + Z.of_nat (S (length plink))) m s));
        [|split_and!; [done|apply search_frame_refl
                      |apply search_progress_refl]|exact Eloop].
      intros x s s' Hx (Hoks & Hfs & Hps) Hbody.
      assert (req (mem_result s) = req (mem_result m)) as Hreq
        by by destruct Hfs as (_ & _ & ? & _).
      rewrite <- Hreq in Hbody.
      assert (Hinv_s : Inv step (take (pindex step) (mem_alloc s))).
      { destruct Hfs as (_ & _ & _ & _ & ->). done. }
      assert (Hx0 : x ∈ output_layers (get_output h0 output)).
      { destruct Hh0 as (_ & _ & _ & _ & -> & _). done. }
      destruct (layer_run _ _ _ (length plink) Hplane Hnext x s s' Hoks
                  Hinv_s Hx0 Hbody) as [Hf Hp].
      split_and!.
      + by eapply mem_ok_frame.
      + by eapply search_frame_trans.
      + eapply search_progress_trans; [| | |exact Hps|exact Hp];
          [by destruct Hfs as (_ & ? & _)|lia..]. }
    intros Hskip.
    assert (req (mem_result m1) = req (mem_result m)) as Hreq
      by by destruct Hf1 as (_ & _ & ? & _).
    rewrite <- Hreq in Hskip.
    assert (Hinv1 : Inv step (take (pindex step) (mem_alloc m1))).
    { destruct Hf1 as (_ & _ & _ & _ & ->). done. }
    destruct (skip_run _ _ _ (length plink) Hplane Hnext m1 m' Hok1 Hinv1 Hskip)
      as [Hf Hp].
    split; [by eapply search_frame_trans|].
    eapply search_progress_trans; [| | |exact Hp1|exact Hp];
      [by destruct Hf1 as (_ & ? & _)|lia..].
Qed.

End choose_run.

(** ** alloc.c: the search with and without the upper-bound pruning *)

Lemma list_for_each_sim {A S} (R : S → S → Prop)
    (body1 body2 : A → S → loop_state S) (l : list A) :
  (∀ x s1 s2 s2', x ∈ l → R s1 s2 → body2 x s2 = Continue s2' →
     ∃ s1', body1 x s1 = Continue s1' ∧ R s1' s2') →
  ∀ s1 s2 s2', R s1 s2 → list_for_each body2 l s2 = Continue s2' →
    ∃ s1', list_for_each body1 l s1 = Continue s1' ∧ R s1' s2'.
Proof.
  induction l as [|x l IH]; intros Hbody s1 s2 s2' HR; simpl.
  { intros [= <-]. by exists s1. }
  destruct (body2 x s2) as [t2|ret t2] eqn:E2; [|done].
  destruct (Hbody x s1 s2 t2) as (t1 & -> & HR1); [by left|done..|].
  apply IH; [|done]. intros y u1 u2 u2' Hy. apply Hbody. by right.
Qed.

Lemma alloc_result_eq r r' :
  same_statics r r' → req r' = req r → best r' = best r →
  best_score r' = best_score r → r' = r.
Proof.
  destruct r, r'. intros (? & ? & ? & ? & _); simpl in *. congruence.
Qed.

Lemma search_sim_mem_ok h0 pidx m1 m2 :
  search_sim pidx m1 m2 → mem_ok h0 m2 → mem_ok h0 m1.
Proof.
  intros (Hh & Hr & Hl & _) (Hh0 & ? & ? & ?). unfold mem_ok.
  rewrite Hr, Hl. split_and!; try done.
  eapply heap_sim_trans; [exact Hh0|by apply heap_sim_sym].
Qed.

Section prune_sim.

Context (drm : drm_boundary) (h0 : heap) (output : output_ptr).

Section level.

Context (next1 next2 : alloc_step → alloc_mem → Z * alloc_mem).
Context (plane : plane_ptr) (step : alloc_step).

Hypothesis Hplane : dev_planes (device h0) !! pindex step = Some plane.

Hypothesis Hnext : ∀ nstep m1 m2 m2',
  mem_ok h0 m2 →
  pindex nstep = S (pindex step) →
  search_sim (S (pindex step)) m1 m2 →
  next2 nstep m2 = (0, m2') →
  ∃ m1', next1 nstep m1 = (0, m1') ∧ search_sim (S (pindex step)) m1' m2'.

Lemma next_sim h1 h2 result a1 a2 slot m4 cur :
  mem_ok h0 {| mem_heap := h2; mem_result := result; mem_alloc := a2 |} →
  heap_sim h1 h2 →
  length a1 = length a2 →
  take (pindex step) a1 = take (pindex step) a2 →
  next2 (fst (plane_step_init_next h2 (get_plane h2 plane) step slot a2))
    {| mem_heap := h2; mem_result := result;
       mem_alloc := snd (plane_step_init_next h2 (get_plane h2 plane) step
                           slot a2) |} = (0, m4) →
  ∃ m4',
    next1 (fst (plane_step_init_next h1 (get_plane h1 plane) step slot a1))
      {| mem_heap := h1; mem_result := result;
         mem_alloc := snd (plane_step_init_next h1 (get_plane h1 plane) step
                             slot a1) |} = (0, m4') ∧
    search_sim (pindex step)
      (mem_with_req m4' (drmModeAtomicSetCursor (req (mem_result m4')) cur))
      (mem_with_req m4 (drmModeAtomicSetCursor (req (mem_result m4)) cur)).
Proof.
  intros Hok Hh Hl Ht Hcall.
  pose proof Hok as (Hh0 & Hplen & Halen & Hblen).
  simpl in Hh0, Hplen, Halen, Hblen.
  assert (Hlt : (pindex step < length a2)%nat).
  { apply lookup_lt_Some in Hplane. lia. }
  assert (Hpl : get_plane h1 plane = get_plane h2 plane).
  { by destruct Hh as (_ & _ & _ & -> & _). }
  rewrite Hpl.
  rewrite (plane_step_init_next_sim h1 h2 _ _ _ a1 a2) by done.
  change (snd (plane_step_init_next h1 (get_plane h2 plane) step slot a1))
    with (<[pindex step := slot]> a1).
  change (snd (plane_step_init_next h2 (get_plane h2 plane) step slot a2))
    with (<[pindex step := slot]> a2) in Hcall.
  set (nstep := fst (plane_step_init_next h2 (get_plane h2 plane) step slot a2))
    in *.
  assert (Hok1 : mem_ok h0 {| mem_heap := h2; mem_result := result;
                              mem_alloc := <[pindex step := slot]> a2 |}).
  { split_and!; simpl; try done. by rewrite length_insert. }
  assert (Hsim1 : search_sim (S (pindex step))
                    {| mem_heap := h1; mem_result := result;
                       mem_alloc := <[pindex step := slot]> a1 |}
                    {| mem_heap := h2; mem_result := result;
                       mem_alloc := <[pindex step := slot]> a2 |}).
  { split_and!; simpl; try done.
    - by rewrite !length_insert.
    - rewrite !take_S_insert by lia. by rewrite Ht. }
  destruct (Hnext nstep _ _ m4 Hok1 eq_refl Hsim1 Hcall)
    as (m4' & Hcall' & Hh' & Hr' & Hl' & Ht').
  exists m4'. split; [done|].
  split_and!; simpl; try done.
  - by rewrite Hr'.
  - assert (∀ a : list (option layer_ptr),
              take (pindex step) a
              = take (pindex step) (take (S (pindex step)) a)) as Htt.
    { intros a. rewrite take_take. f_equal. lia. }
    by rewrite (Htt (mem_alloc m4')), (Htt (mem_alloc m4)), Ht'.
Qed.

Lemma skip_sim cur m1 m2 m2' :
  mem_ok h0 m2 →
  search_sim (pindex step) m1 m2 →
  output_layers_choose_skip next2 plane step cur m2 = (0, m2') →
  ∃ m1',
    output_layers_choose_skip next1 plane step cur m1 = (0, m1') ∧
    search_sim (pindex step) m1' m2'.
Proof.
  intros Hok (Hh & Hr & Hl & Ht).
  destruct m1 as [h1 r1 a1], m2 as [h2 r a2]; simpl in Hh, Hr, Hl, Ht.
  subst r1. unfold output_layers_choose_skip, mem_with_alloc.
  cbn [mem_heap mem_result mem_alloc].
  rewrite (surjective_pairing
             (plane_step_init_next h1 (get_plane h1 plane) step None a1)).
  rewrite (surjective_pairing
             (plane_step_init_next h2 (get_plane h2 plane) step None a2)).
  destruct (next2 _ _) as [ret m4] eqn:Ec.
  destruct (Z.eqb_spec ret 0) as [->|Hne]; cbn [negb]; [|by intros [= ? ?]].
  intros [= <-].
  destruct (next_sim h1 h2 r a1 a2 None m4 cur Hok Hh Hl Ht Ec)
    as (m4' & -> & Hsim).
  exists (mem_with_req m4' (drmModeAtomicSetCursor (req (mem_result m4')) cur)).
  by rewrite Z.eqb_refl.
Qed.

Lemma layer_sim_run cur layer m1 m2 m2' :
  mem_ok h0 m2 →
  search_sim (pindex step) m1 m2 →
  output_layers_choose_layer drm next2 plane step cur layer m2 = Continue m2' →
  ∃ m1',
    output_layers_choose_layer drm next1 plane step cur layer m1
      = Continue m1' ∧
    search_sim (pindex step) m1' m2'.
Proof.
  intros Hok (Hh & Hr & Hl & Ht).
  destruct m1 as [h1 r1 a1], m2 as [h2 r a2]; simpl in Hh, Hr, Hl, Ht.
  subst r1. unfold output_layers_choose_layer.
  unfold mem_with_alloc, mem_with_heap, mem_with_req, mem_with_result.
  cbn [mem_heap mem_result mem_alloc].
  pose proof Hh as (_ & _ & Hcap & Hpl & Hout & Hlay).
  destruct (layer_sim_fields _ _ (Hlay layer)) as (_ & -> & _).
  rewrite (layer_visible_get_sim _ _ (Hlay layer)).
  rewrite (layer_plane_compatible_get_sim h1 h2 step a1 a2 layer _ Hh Ht).
  rewrite (Hpl plane).
  rewrite (plane_apply_sim drm h1 h2 _ _ _ Hh).
  case_bool_decide.
  { intros [= <-]. eexists. split; [done|]. by split_and!. }
  destruct (layer_visible_get _); cbn [negb].
  2:{ intros [= <-]. eexists. split; [done|]. by split_and!. }
  destruct (layer_plane_compatible_get _ _ _ _ _); cbn [negb].
  2:{ intros [= <-]. eexists. split; [done|]. by split_and!. }
  destruct (plane_apply drm h2 plane (Some layer) (req r)) as [ret req1].
  destruct (ret =? - EINVAL).
  { intros [= <-]. eexists. split; [done|]. by split_and!. }
  destruct (ret =? 0); cbn [negb]; [|done].
  set (h1' := upd_layer h1 layer _). set (h2' := upd_layer h2 layer _).
  assert (Hh' : heap_sim h1' h2').
  { eapply heap_sim_trans; [|eapply heap_sim_trans; [exact Hh|]].
    - apply heap_sim_sym, heap_sim_upd_layer.
      intros x. apply layer_candidate_plane_add_sim.
    - apply heap_sim_upd_layer. intros x. apply layer_candidate_plane_add_sim. }
  pose proof Hh' as (_ & _ & _ & Hpl' & _ & Hlay').
  destruct (layer_sim_fields _ _ (Hlay' layer)) as (_ & _ & _ & -> & _).
  rewrite (plane_check_layer_fb_sim _ _ _ (Hlay' layer)), (Hpl' plane).
  destruct (_ || _).
  { intros [= <-]. eexists. split; [done|]. by split_and!. }
  rewrite (surjective_pairing
             (device_test_commit drm h1' req1
                (result_flags (result_with_req r req1)))).
  rewrite (surjective_pairing
             (device_test_commit drm h2' req1
                (result_flags (result_with_req r req1)))).
  rewrite (device_test_commit_ret drm h1' h2').
  set (h1'' := snd (device_test_commit drm h1' _ _)).
  set (h2'' := snd (device_test_commit drm h2' _ _)).
  assert (Hh'' : heap_sim h1'' h2'').
  { eapply heap_sim_trans; [|eapply heap_sim_trans; [exact Hh'|]].
    - apply heap_sim_sym.
      exact (device_test_commit_sim drm h1' req1
               (result_flags (result_with_req r req1))).
    - exact (device_test_commit_sim drm h2' req1
               (result_flags (result_with_req r req1))). }
  destruct (fst (device_test_commit drm h2' _ _) =? 0).
  - rewrite (surjective_pairing
               (plane_step_init_next h1'' (get_plane h1'' plane) step
                  (Some layer) a1)).
    rewrite (surjective_pairing
               (plane_step_init_next h2'' (get_plane h2'' plane) step
                  (Some layer) a2)).
    destruct (next2 _ _) as [ret4 m4] eqn:Ec.
    destruct (Z.eqb_spec ret4 0) as [->|Hne]; cbn [negb]; [|done].
    intros [= <-].
    assert (Hok'' : mem_ok h0 {| mem_heap := h2'';
                                 mem_result := result_with_req r req1;
                                 mem_alloc := a2 |}).
    { destruct Hok as (Hh0 & ? & ? & ?). split_and!; try done.
      cbn [mem_heap] in *.
      eapply heap_sim_trans; [exact Hh0|].
      eapply (heap_sim_trans _ h2');
        [|exact (device_test_commit_sim drm h2' req1
                   (result_flags (result_with_req r req1)))].
      apply heap_sim_upd_layer. intros x. apply layer_candidate_plane_add_sim. }
    destruct (next_sim h1'' h2'' _ a1 a2 (Some layer) m4 cur Hok'' Hh'' Hl Ht Ec)
      as (m4' & -> & Hsim).
    eexists. rewrite Z.eqb_refl. cbn [negb]. split; [done|]. exact Hsim.
  - destruct (_ && _); [done|].
    intros [= <-]. eexists. split; [done|]. by split_and!.
Qed.

End level.

(** Whatever the search without pruning finds when it runs to the end,
    the search with pruning finds as well. *)
Lemma output_layers_choose_prune_sim plink : ∀ step m1 m2 m2',
  Z.of_nat (length (dev_planes (device h0))) ≤ INT_MAX →
  mem_ok h0 m2 →
  drop (pindex step) (dev_planes (device h0)) = plink →
  search_sim (pindex step) m1 m2 →
  output_layers_choose_unpruned drm output plink step m2 = (0, m2') →
  ∃ m1',
    output_layers_choose drm output plink step m1 = (0, m1') ∧
    search_sim (pindex step) m1' m2'.
Proof.
  unfold output_layers_choose, output_layers_choose_unpruned.
  induction plink as [|plane plink IH]; intros step m1 m2 m2' Hfit Hok Hdrop Hsim.
  - pose proof Hok as (Hh0 & Hplen & Halen & Hblen).
    pose proof Hsim as (Hh & Hr & Hl & Ht).
    apply drop_nil_inv in Hdrop. simpl.
    rewrite !take_ge in Ht by lia.
    rewrite Hr, Ht.
    destruct (_ && _); intros [= <-]; eexists; (split; [done|]);
      split_and!; simpl; try done; by rewrite Ht.
  - assert (Hplane : dev_planes (device h0) !! pindex step = Some plane).
    { rewrite <- (Nat.add_0_r (pindex step)), <- lookup_drop. by rewrite Hdrop. }
    assert (Hdrop' : drop (S (pindex step)) (dev_planes (device h0)) = plink).
    { rewrite (drop_S _ _ _ Hplane) in Hdrop. by injection Hdrop. }
    assert (Hlen : length (dev_planes (device h0))
                   = (pindex step + S (length plink))%nat).
    { rewrite <- (take_drop (pindex step) (dev_planes (device h0))) at 1.
      rewrite length_app, Hdrop, length_take_le; [done|].
      apply lookup_lt_Some in Hplane. lia. }
    assert (Hrun : ∀ nstep m m',
      mem_ok h0 m →
      pindex nstep = S (pindex step) →
      (λ _ _, True) nstep (take (pindex nstep) (mem_alloc m)) →
      output_layers_choose_gen drm false output plink nstep m = (0, m') →
      search_frame (pindex nstep) m m' ∧
      search_progress (λ _ _, True) (score nstep + Z.of_nat (length plink))
        m m').
    { intros nstep m m' Hokm Hp _.
      apply (output_layers_choose_run drm h0 output (λ _ _, True)); try done.
      by rewrite Hp. }
    assert (Hnext : ∀ nstep m1 m2 m2',
      mem_ok h0 m2 →
      pindex nstep = S (pindex step) →
      search_sim (S (pindex step)) m1 m2 →
      output_layers_choose_gen drm false output plink nstep m2 = (0, m2') →
      ∃ m1', output_layers_choose_gen drm true output plink nstep m1 = (0, m1')
             ∧ search_sim (S (pindex step)) m1' m2').
    { intros nstep n1 n2 n2' Hokn Hp Hs Hc.
      rewrite <- Hp in Hs |- *. apply (IH nstep n1 n2 n2'); try done.
      by rewrite Hp. }
    intros Hunpruned.
    destruct (output_layers_choose_run drm h0 output (λ _ _, True)
                ltac:(done) ltac:(done) false (plane :: plink) step m2 m2' Hok
                Hdrop I Hunpruned) as [Hframe Hprog].
    pose proof Hsim as (Hh & Hr & Hl & Ht).
    pose proof Hok as (Hh0 & Hplen & Halen & Hblen).
    simpl in Hunpruned |- *.
    destruct (best_score (mem_result m1)
              >=? score step + to_int (Z.of_nat (planes_len (mem_result m1))
                                       - Z.of_nat (pindex step))) eqn:Hprune.
    + (* the pruning step fires: the search without it changes nothing *)
      exists m1. split; [done|].
      rewrite Hr, Hplen, Hlen in Hprune.
      rewrite to_int_small in Hprune
        by (unfold INT_MIN, INT_MAX in *; lia).
      apply Z.geb_le in Hprune.
      destruct Hframe as (Hfh & Hfs & Hfr & Hfl & Hft).
      assert (mem_result m2' = mem_result m2) as Hres.
      { destruct Hprog as [[Hb Hs]|[Hlt _]].
        - by apply alloc_result_eq.
        - simpl in Hlt. lia. }
      split_and!.
      * by eapply heap_sim_trans.
      * congruence.
      * congruence.
      * congruence.
    + (* no pruning: both searches take the same steps *)
      cbn [andb] in Hunpruned.
      unfold drmModeAtomicGetCursor in *. rewrite Hr.
      pose proof Hh as (_ & _ & _ & Hpl & Hout & _).
      rewrite (Hpl plane), (Hout output).
      revert Hunpruned.
      case_bool_decide; [by apply skip_sim|].
      destruct (_ =? 0); [by apply skip_sim|].
      destruct (list_for_each _ _ m2) as [n2|ret n2] eqn:Eloop.
      2:{ intros [= -> <-].
          apply list_for_each_return in Eloop as (x & s0 & _ & Hb).
          by apply output_layers_choose_layer_return in Hb. }
      intros Hskip.
      destruct (list_for_each_sim
                  (λ s1 s2, search_sim (pindex step) s1 s2 ∧ mem_ok h0 s2 ∧
                            req (mem_result s2) = req (mem_result m2))
                  (output_layers_choose_layer drm
                     (output_layers_choose_gen drm true output plink) plane
                     step (length (req (mem_result m2))))
                  (output_layers_choose_layer drm
                     (output_layers_choose_gen drm false output plink) plane
                     step (length (req (mem_result m2))))
                  (output_layers (get_output (mem_heap m2) output)))
        with (s1 := m1) (s2 := m2) (s2' := n2)
        as (n1 & Eloop1 & Hsim1 & Hok1 & Hreq1); [|done|done|].
      { intros x s1 s2 s2' Hx (Hs & Hoks & Hreq) Hbody.
        destruct (layer_sim_run _ _ plane step Hplane Hnext _ x s1 s2 s2'
                    Hoks Hs Hbody) as (s1' & Hb1 & Hs1).
        exists s1'. split; [done|]. split; [done|].
        rewrite <- Hreq in Hbody.
        assert (Hx0 : x ∈ output_layers (get_output h0 output)).
        { destruct Hh0 as (_ & _ & _ & _ & -> & _). done. }
        destruct (layer_run drm h0 output (λ _ _, True) ltac:(done) ltac:(done)
                    _ plane step (length plink) Hplane Hrun x s2 s2' Hoks I
                    Hx0 Hbody) as [Hf _].
        split; [by eapply mem_ok_frame|].
        destruct Hf as (_ & _ & -> & _). done. }
      rewrite Eloop1.
      exact (skip_sim _ _ plane step Hplane Hnext _ n1 n2 m2' Hok1 Hsim1 Hskip).
Qed.

End prune_sim.

Lemma alloc_mem_first_ok h output rq flags :
  mem_ok h (alloc_mem_first h output rq flags).
Proof.
  unfold alloc_mem_first, liftoff_rpi_list_length.
  split_and!; simpl; try done; try apply heap_sim_refl;
    by rewrite length_replicate.
Qed.

(** C5, as the code has it.  Started as [liftoff_rpi_output_apply]
    starts it on a device whose plane count fits an [int], whenever the
    search without the pruning step runs to its end (returns 0), the
    search with the pruning step returns 0 as well, with the same best
    score and the same best assignment. *)
Theorem pruning_preserves_best (drm : drm_boundary) (h : heap)
    (output : output_ptr) (rq : drmModeAtomicReq) (flags : Z)
    (m_unpruned : alloc_mem) :
  Z.of_nat (length (dev_planes (device h))) ≤ INT_MAX →
  output_layers_choose_unpruned drm output (dev_planes (device h))
    alloc_step_first (alloc_mem_first h output rq flags) = (0, m_unpruned) →
  ∃ m_pruned,
    output_layers_choose drm output (dev_planes (device h))
      alloc_step_first (alloc_mem_first h output rq flags) = (0, m_pruned) ∧
    best_score (mem_result m_pruned) = best_score (mem_result m_unpruned) ∧
    best (mem_result m_pruned) = best (mem_result m_unpruned).
Proof.
  intros Hfit Hrun.
  destruct (output_layers_choose_prune_sim drm h output
              (dev_planes (device h)) alloc_step_first
              (alloc_mem_first h output rq flags)
              (alloc_mem_first h output rq flags) m_unpruned Hfit
              (alloc_mem_first_ok _ _ _ _) eq_refl)
    as (m_pruned & Hp & _ & Hr & _); [|exact Hrun|].
  { by split_and!. }
  exists m_pruned. by rewrite Hr.
Qed.

Lemma pruning_preserves_best_witness :
  ∃ m_unpruned m_pruned,
    output_layers_choose_unpruned ex_drm 0%nat
      (dev_planes (device ex_heap_search)) alloc_step_first
      (alloc_mem_first ex_heap_search 0%nat [] 0) = (0, m_unpruned) ∧
    output_layers_choose ex_drm 0%nat
      (dev_planes (device ex_heap_search)) alloc_step_first
      (alloc_mem_first ex_heap_search 0%nat [] 0) = (0, m_pruned) ∧
    best_score (mem_result m_unpruned) = 3 ∧
    best_score (mem_result m_pruned) = best_score (mem_result m_unpruned) ∧
    best (mem_result m_pruned) = best (mem_result m_unpruned).
Proof.
  pose (m_unpruned :=
          snd (output_layers_choose_unpruned ex_drm 0%nat
                 (dev_planes (device ex_heap_search)) alloc_step_first
                 (alloc_mem_first ex_heap_search 0%nat [] 0))).
  assert (E : output_layers_choose_unpruned ex_drm 0%nat
                (dev_planes (device ex_heap_search)) alloc_step_first
                (alloc_mem_first ex_heap_search 0%nat [] 0)
              = (0, m_unpruned)) by (vm_compute; reflexivity).
  assert (Hfit : Z.of_nat (length (dev_planes (device ex_heap_search)))
                 ≤ INT_MAX) by (vm_compute; discriminate).
  destruct (pruning_preserves_best ex_drm ex_heap_search 0%nat [] 0
              m_unpruned Hfit E) as (m_pruned & Hp & Hs & Hb).
  exists m_unpruned, m_pruned.
  split_and!; [exact E|exact Hp|vm_compute; reflexivity|exact Hs|exact Hb].
Defined.

(** C5, as the specification words it, fails when the kernel answers a
    test commit with a hard error.  With three planes, three layers and
    the kernel [ex_drm_hard_error], the search with pruning never tests
    the configuration that fails with [-EIO] (it lies under a step that
    the pruning cuts), returns 0 and ends with the best score 3; the
    search without pruning tests it, returns -5 and stops with the best
    score 2. *)
Lemma pruning_masks_hard_error :
  fst (output_layers_choose ex_drm_hard_error 0%nat
         (dev_planes (device ex_heap_search)) alloc_step_first
         (alloc_mem_first ex_heap_search 0%nat [] 0)) = 0 ∧
  fst (output_layers_choose_unpruned ex_drm_hard_error 0%nat
         (dev_planes (device ex_heap_search)) alloc_step_first
         (alloc_mem_first ex_heap_search 0%nat [] 0)) = -5 ∧
  ¬ pruning_same_best_score ex_drm_hard_error ex_heap_search 0%nat [] 0.
Proof.
  split; [by vm_compute|]. split; [by vm_compute|].
  unfold pruning_same_best_score. by vm_compute.
Qed.

Lemma ex_heap_comp_layers_belong : output_layers_belong ex_heap_comp 0%nat.
Proof.
  intros l Hl. change (l ∈ [0%nat; 1%nat; 2%nat]) in Hl.
  set_unfold in Hl. destruct Hl as [? | [? | [? | []]]]; subst; by vm_compute.
Qed.

Lemma alloc_valid_get_spec_witness :
  let h := ex_heap_comp in
  let step :=
    fst (plane_step_init_next h (get_plane h 0%nat) alloc_step_first
           (Some 2%nat) []) in
  let result := mem_result (alloc_mem_first h 0%nat [] 0) in
  search_reaches h 0%nat step [Some 2%nat] ∧
  score step = 0 ∧
  alloc_valid_get result step = true.
Proof.
  intros h step result.
  assert (Hreach : search_reaches h 0%nat step ([] ++ [Some 2%nat])).
  { apply (reaches_layer h 0%nat alloc_step_first [] 0%nat 2%nat).
    - apply reaches_first.
    - by vm_compute.
    - change (2%nat ∈ [0%nat; 1%nat; 2%nat]). repeat constructor.
    - by vm_compute.
    - by vm_compute. }
  assert (Hfit : Z.of_nat (visible_non_comp_layers h 0%nat) ≤ INT_MAX).
  { rewrite <- non_comp_layers_len_get_count. vm_compute. discriminate. }
  destruct (alloc_valid_get_spec h 0%nat result step [Some 2%nat]
              ex_heap_comp_layers_belong Hreach eq_refl eq_refl Hfit)
    as (Hscore & _ & _ & Hvalid).
  split; [exact Hreach|]. split; [by vm_compute|].
  apply Hvalid.
  - intros (_ & Hnot & _). apply Hnot. exists 2%nat.
    split; [by vm_compute|constructor].
  - intros [_ Hk]. vm_compute in Hk. discriminate.
Defined.

(** ** alloc.c: marking the layers clean *)

Lemma layer_clean_is_clean layer : layer_is_clean (layer_clean layer).
Proof.
  split; [done|]. unfold layer_clean; simpl.
  apply Forall_forall. intros p Hp. apply list_elem_of_In in Hp.
  apply in_map_iff in Hp as (q & <- & _). done.
Qed.

Lemma layers_clean_fold ls : ∀ h,
  (∀ l, l ∈ ls ∨ layer_is_clean (get_layer h l) →
     layer_is_clean
       (get_layer (fold_left (λ h layer, upd_layer h layer layer_clean) ls h)
          l)) ∧
  outputs (fold_left (λ h layer, upd_layer h layer layer_clean) ls h)
  = outputs h.
Proof.
  induction ls as [|a ls IH]; intros h; simpl.
  { split; [|done]. intros l [Hl|Hl]; [by apply elem_of_nil in Hl|done]. }
  destruct (IH (upd_layer h a layer_clean)) as [IH1 IH2].
  split; [|by rewrite IH2].
  intros l Hl. apply IH1.
  rewrite get_upd_layer. destruct (decide (a = l)) as [->|Hne].
  - right. apply layer_clean_is_clean.
  - destruct Hl as [Hl|Hl]; [|by right].
    apply elem_of_cons in Hl as [->|Hl]; [done|by left].
Qed.

(** After [layers_mark_clean] every layer of the output is clean. *)
Lemma layers_mark_clean_clean h output :
  output_layers_clean (layers_mark_clean h output) output.
Proof.
  unfold output_layers_clean, layers_mark_clean, get_output.
  set (h1 := upd_output h output _).
  change (outputs h !!! output) with (get_output h output).
  destruct (layers_clean_fold
              (output_layers (get_output h output)) h1) as [Hc Ho].
  rewrite Ho. intros l Hl. apply Hc. left.
  revert Hl. unfold h1. fold (get_output (upd_output h output
    (λ o, output_with_layers_changed o false)) output).
  by rewrite get_upd_output, decide_True by done.
Qed.

(** Past the reuse of the previous allocation, an apply that returns 0
    leaves every layer of the output clean. *)
Lemma output_apply_full_path_clean drm h output rq flags malloc_ok h' rq' :
  fst (fst (reuse_prev_alloc drm
              (layers_fb_info_update drm (layers_priority_update h) output)
              output rq flags)) ≠ 0 →
  liftoff_rpi_output_apply drm h output rq flags malloc_ok = (0, h', rq') →
  output_layers_clean h' output.
Proof.
  unfold liftoff_rpi_output_apply.
  destruct (reuse_prev_alloc _ _ _ _ _) as [[ret h3] rq3]; simpl.
  intros Hret. rewrite (proj2 (Z.eqb_neq _ _) Hret).
  destruct (output_disable_planes _ _ _) as [rq8|ret8 rq8] eqn:Ed.
  - destruct malloc_ok; simpl; [|intros [=]].
    destruct (output_layers_choose _ _ _ _ _) as [ret9 m].
    destruct (Z.eqb_spec ret9 0) as [->|Hne]; simpl;
      [|intros [= ? ? ?]; congruence].
    destruct (apply_current _ _ _) as [ret10 rq10].
    destruct (Z.eqb_spec ret10 0) as [->|Hne]; simpl;
      [|intros [= ? ? ?]; congruence].
    intros [= <- <-]. apply layers_mark_clean_clean.
  - intros [= -> <- <-].
    apply list_for_each_return in Ed as (plane & rq0 & _ & Ebody).
    destruct (bool_decide _); [|done].
    destruct (plane_apply _ _ _ _ _) as [r rq1].
    destruct (Z.eqb_spec r 0); simpl in Ebody; [done|].
    injection Ebody as ? ?. congruence.
Qed.

(** C1 fails on the reuse path.  One frame after a successful
    allocation, with the layer's buffer flipped from framebuffer 5 to
    framebuffer 6 of the same layout, [liftoff_rpi_output_apply] reuses
    the previous allocation and returns 0, and the layer's [FB_ID]
    property keeps the snapshot 5 beside the value 6: the layers of the
    output are not clean. *)
Theorem output_apply_reuse_not_clean :
  let r := liftoff_rpi_output_apply ex_drm ex_heap_flipped 0%nat [] 0 true in
  fst (fst r) = 0 ∧
  fst (fst (reuse_prev_alloc ex_drm
              (layers_fb_info_update ex_drm
                 (layers_priority_update ex_heap_flipped) 0%nat)
              0%nat [] 0)) = 0 ∧
  layer_props (get_layer (snd (fst r)) 0%nat)
    = [ex_prop LIFTOFF_RPI_PROP_FB_ID 6 5] ∧
  ¬ output_layers_clean (snd (fst r)) 0%nat.
Proof.
  intros r. split; [by vm_compute|]. split; [by vm_compute|].
  split; [by vm_compute|].
  intros Hclean.
  assert (Hin : 0%nat ∈ output_layers (get_output (snd (fst r)) 0%nat))
    by (vm_compute; constructor).
  destruct (Hclean _ Hin) as [_ Hprops].
  vm_compute in Hprops. inversion Hprops; discriminate.
Qed.

(** ** alloc.c: what an apply leaves of the bindings *)

Ltac frame_split :=
  unfold heap_frame, heap_statics, same_bindings; split_and!.

Lemma heap_statics_refl h : heap_statics h h.
Proof. by split_and!. Qed.

Lemma heap_statics_trans h1 h2 h3 :
  heap_statics h1 h2 → heap_statics h2 h3 → heap_statics h1 h3.
Proof.
  intros (A1 & B1 & C1 & D1) (A2 & B2 & C2 & D2).
  split_and!; intros; congruence.
Qed.

Lemma heap_frame_refl h : heap_frame h h.
Proof. by split_and!. Qed.

Lemma heap_frame_trans h1 h2 h3 :
  heap_frame h1 h2 → heap_frame h2 h3 → heap_frame h1 h3.
Proof.
  intros [S1 [P1 L1]] [S2 [P2 L2]].
  split; [by eapply heap_statics_trans|].
  split; intros; congruence.
Qed.

Lemma heap_frame_upd_layer h l f :
  (∀ x, layer_output (f x) = layer_output x ∧
        layer_plane (f x) = layer_plane x) →
  heap_frame h (upd_layer h l f).
Proof.
  intros Hf. frame_split; try done;
    intros l'; rewrite get_upd_layer; destruct (decide (l = l')) as [->|];
    try done; apply Hf.
Qed.

Lemma heap_frame_upd_output h o f :
  (∀ x, comp_layer (f x) = comp_layer x) →
  heap_frame h (upd_output h o f).
Proof.
  intros Hf. frame_split; try done.
  intros o'; rewrite get_upd_output; destruct (decide (o = o')) as [->|];
    try done; apply Hf.
Qed.

Lemma heap_frame_upd_device h f :
  (∀ d, dev_planes (f d) = dev_planes d) →
  heap_frame h (upd_device h f).
Proof. intros Hf. frame_split; try done. apply Hf. Qed.

Lemma heap_statics_upd_plane h p f :
  (∀ x, plane_type (f x) = plane_type x) →
  heap_statics h (upd_plane h p f).
Proof.
  intros Hf. frame_split; try done.
  intros p'; rewrite get_upd_plane; destruct (decide (p = p')) as [->|];
    try done; apply Hf.
Qed.

Lemma heap_frame_fold {A} (g : heap → A → heap) (xs : list A) :
  (∀ h x, heap_frame h (g h x)) →
  ∀ h, heap_frame h (fold_left g xs h).
Proof.
  intros Hg. induction xs as [|x xs IH]; intros h; simpl.
  - apply heap_frame_refl.
  - eapply heap_frame_trans; [apply Hg|apply IH].
Qed.

Lemma heap_statics_fold {A} (g : heap → A → heap) (xs : list A) :
  (∀ h x, heap_statics h (g h x)) →
  ∀ h, heap_statics h (fold_left g xs h).
Proof.
  intros Hg. induction xs as [|x xs IH]; intros h; simpl.
  - apply heap_statics_refl.
  - eapply heap_statics_trans; [apply Hg|apply IH].
Qed.

Lemma heap_sim_frame h h' : heap_sim h h' → heap_frame h h'.
Proof.
  intros (Hp & _ & _ & Hpl & Ho & Hl).
  frame_split; try done; intros x; try by rewrite ?Hpl, ?Ho.
  - by destruct (layer_sim_fields _ _ (Hl x)) as (-> & _).
  - by destruct (layer_sim_fields _ _ (Hl x)) as (_ & -> & _).
Qed.

Lemma layers_priority_update_frame h :
  heap_frame h (layers_priority_update h).
Proof.
  unfold layers_priority_update; cbv zeta.
  eapply heap_frame_trans; [|apply heap_frame_fold].
  - by apply heap_frame_upd_device.
  - intros h1 o. apply heap_frame_fold. intros h2 l.
    apply heap_frame_upd_layer. intros x.
    unfold layer_priority_update. by repeat case_match.
Qed.

Lemma layers_fb_info_update_frame drm h output :
  heap_frame h (layers_fb_info_update drm h output).
Proof.
  unfold layers_fb_info_update.
  apply heap_frame_fold. intros h1 l.
  apply heap_frame_upd_layer. intros x.
  unfold layer_cache_fb_info. by repeat case_match.
Qed.

Lemma reuse_prev_alloc_frame drm h output rq flags :
  heap_frame h (snd (fst (reuse_prev_alloc drm h output rq flags))).
Proof.
  unfold reuse_prev_alloc.
  destruct (negb _); [apply heap_frame_refl|].
  destruct (apply_current _ _ _) as [ret rq1].
  destruct (negb _); [apply heap_frame_refl|].
  pose proof (device_test_commit_sim drm h rq1 flags) as Hsim.
  destruct (device_test_commit _ _ _ _) as [ret1 h1].
  apply heap_sim_frame in Hsim.
  by destruct (negb _).
Qed.

Lemma log_reuse_frame h output : heap_frame h (log_reuse h output).
Proof. by apply heap_frame_upd_output. Qed.

Lemma log_no_reuse_frame h output : heap_frame h (log_no_reuse h output).
Proof.
  unfold log_no_reuse. destruct (negb _); [|apply heap_frame_refl].
  by apply heap_frame_upd_output.
Qed.

Lemma layers_mark_clean_frame h output :
  heap_frame h (layers_mark_clean h output).
Proof.
  unfold layers_mark_clean.
  eapply heap_frame_trans; [|apply heap_frame_fold].
  - by apply heap_frame_upd_output.
  - intros h1 l. by apply heap_frame_upd_layer.
Qed.

Lemma heap_frame_statics h h' : heap_frame h h' → heap_statics h h'.
Proof. by intros [? _]. Qed.

Lemma heap_statics_upd_layer h l f :
  (∀ x, layer_output (f x) = layer_output x) →
  heap_statics h (upd_layer h l f).
Proof.
  intros Hf. frame_split; try done.
  intros l'; rewrite get_upd_layer; destruct (decide (l = l')) as [->|];
    try done; apply Hf.
Qed.

Lemma comp_on_primary_frame h h' output :
  heap_frame h h' → comp_on_primary h output → comp_on_primary h' output.
Proof.
  intros [(_ & Ht & Hc & _) [_ Hl]] Hcomp c p.
  rewrite Hc, Hl, Ht. apply Hcomp.
Qed.

Lemma outputs_fold {A} (g : heap → A → heap) (xs : list A) :
  (∀ h x, outputs (g h x) = outputs h) →
  ∀ h, outputs (fold_left g xs h) = outputs h.
Proof.
  intros Hg. induction xs as [|x xs IH]; intros h; simpl; [done|].
  by rewrite IH, Hg.
Qed.

Lemma layers_update_outputs drm h output :
  outputs (layers_fb_info_update drm (layers_priority_update h) output)
  = outputs h.
Proof.
  unfold layers_fb_info_update, layers_priority_update; cbv zeta.
  rewrite outputs_fold by done.
  rewrite outputs_fold; [done|].
  intros h1 o. by rewrite outputs_fold.
Qed.

Lemma reuse_prev_alloc_ok_unchanged drm h output rq flags :
  fst (fst (reuse_prev_alloc drm h output rq flags)) = 0 →
  layers_changed (get_output h output) = false.
Proof.
  unfold reuse_prev_alloc, reuse_prev_alloc_guard.
  destruct (layers_changed (get_output h output)); [|done].
  by vm_compute.
Qed.

(** The compatibility check turns down the composition layer on every
    plane that is not PRIMARY. *)
Lemma layer_plane_compatible_get_comp h step alloc layer plane :
  plane_type plane ≠ DRM_PLANE_TYPE_PRIMARY →
  layer_is_comp_layer h layer = true →
  layer_plane_compatible_get h step alloc layer plane = false.
Proof.
  intros Htype Hcomp. unfold layer_plane_compatible_get.
  rewrite Hcomp, (proj2 (Z.eqb_neq _ _) Htype).
  by repeat case_match.
Qed.

Lemma search_reaches_length h output step S :
  search_reaches h output step S → length S = pindex step.
Proof.
  induction 1 as [|step pre plane _ IH _|step pre plane layer _ IH _ _ _ _];
    [done|..]; rewrite length_app; unfold plane_step_init_next; simpl; lia.
Qed.

(** An assignment the search reaches has the composition layer on
    PRIMARY planes only. *)
Lemma search_reaches_comp_primary h output step S :
  comp_layer_belongs h output →
  search_reaches h output step S →
  ∀ i c p,
    comp_layer (get_output h output) = Some c →
    S !! i = Some (Some c) →
    dev_planes (device h) !! i = Some p →
    plane_type (get_plane h p) = DRM_PLANE_TYPE_PRIMARY.
Proof.
  intros Hbel Hreach.
  induction Hreach as [|step pre plane Hreach IH Hplane
                      |step pre plane layer Hreach IH Hplane Hin Hvis Hcompat];
    intros i c p Hc Hi Hp.
  - done.
  - apply lookup_app_Some in Hi as [Hi|[_ Hi]]; [by eapply IH|].
    by destruct (i - length pre)%nat.
  - apply lookup_app_Some in Hi as [Hi|[Hge Hi]]; [by eapply IH|].
    destruct (i - length pre)%nat eqn:Ei; [|done].
    injection Hi as ->.
    assert (i = pindex step) as ->.
    { pose proof (search_reaches_length _ _ _ _ Hreach). lia. }
    rewrite Hplane in Hp. injection Hp as ->.
    destruct (decide (plane_type (get_plane h p) = DRM_PLANE_TYPE_PRIMARY))
      as [|Hne]; [done|].
    rewrite (layer_plane_compatible_get_comp h step pre c _ Hne) in Hcompat;
      [done|].
    unfold layer_is_comp_layer. apply bool_decide_eq_true.
    by rewrite (Hbel c Hc).
Qed.

(** The first loop over the planes of [liftoff_rpi_output_apply] leaves
    a layer of the output unbound when its plane, if it had one, is in
    the list and points back to it. *)
Lemma output_unbind_planes_statics h output :
  heap_statics h (output_unbind_planes h output).
Proof.
  unfold output_unbind_planes. apply heap_statics_fold. intros h1 plane.
  destruct (plane_layer (get_plane h1 plane)) as [layer|];
    [|apply heap_statics_refl].
  case_bool_decide; [|apply heap_statics_refl].
  eapply heap_statics_trans; [|by apply heap_statics_upd_plane].
  by apply heap_statics_upd_layer.
Qed.

Lemma output_unbind_planes_fold output c ps : ∀ h,
  layer_output (get_layer h c) = output →
  layer_plane (get_layer h c) = None ∨
    (∃ p, p ∈ ps ∧ plane_layer (get_plane h p) = Some c) →
  layer_plane
    (get_layer
       (fold_left
          (λ h plane,
             match plane_layer (get_plane h plane) with
             | Some layer =>
                 if bool_decide (layer_output (get_layer h layer) = output)
                 then
                   upd_plane
                     (upd_layer h layer (λ l, layer_with_plane l None))
                     plane (λ p, plane_with_layer p None)
                 else h
             | None => h
             end) ps h) c) = None.
Proof.
  induction ps as [|a ps IH]; intros h Hout Hcase; simpl.
  { destruct Hcase as [|(p & Hp & _)]; [done|by apply elem_of_nil in Hp]. }
  destruct (plane_layer (get_plane h a)) as [l|] eqn:Ea.
  - case_bool_decide as Hl.
    + apply IH.
      * change (layer_output (get_layer (upd_layer h l
                  (λ l0, layer_with_plane l0 None)) c) = output).
        rewrite get_upd_layer. by destruct (decide (l = c)) as [->|].
      * change (get_layer (upd_plane ?hh _ _) c) with (get_layer hh c).
        rewrite get_upd_layer. destruct (decide (l = c)) as [->|Hne];
          [by left|].
        destruct Hcase as [|(p & Hp & Hpl)]; [by left|]. right.
        apply elem_of_cons in Hp as [->|Hp]; [congruence|].
        exists p. split; [done|].
        rewrite get_upd_plane. destruct (decide (a = p)) as [->|];
          [congruence|done].
    + apply IH; [done|].
      destruct Hcase as [|(p & Hp & Hpl)]; [by left|]. right.
      apply elem_of_cons in Hp as [->|Hp]; [congruence|by exists p].
  - apply IH; [done|].
    destruct Hcase as [|(p & Hp & Hpl)]; [by left|]. right.
    apply elem_of_cons in Hp as [->|Hp]; [congruence|by exists p].
Qed.

(** The loop that installs [result.best]: a layer ends bound to a plane
    it was bound to before, or to a plane whose slot in [best] holds
    it. *)
Lemma output_install_best_statics h best :
  heap_statics h (output_install_best h best).
Proof.
  unfold output_install_best. apply heap_statics_fold.
  intros h1 [plane [layer|]]; [|apply heap_statics_refl].
  eapply heap_statics_trans; [|by apply heap_statics_upd_layer].
  by apply heap_statics_upd_plane.
Qed.

Lemma output_install_best_fold c p zs : ∀ h,
  layer_plane
    (get_layer
       (fold_left
          (λ h '(plane, slot),
             match slot with
             | None => h
             | Some layer =>
                 upd_layer
                   (upd_plane h plane (λ p, plane_with_layer p (Some layer)))
                   layer (λ l, layer_with_plane l (Some plane))
             end) zs h) c) = Some p →
  layer_plane (get_layer h c) = Some p ∨ (p, Some c) ∈ zs.
Proof.
  induction zs as [|[q slot] zs IH]; intros h; simpl; [by left|].
  intros [Hp|Hp]%IH; [|by right; right].
  destruct slot as [l|]; [|by left].
  rewrite get_upd_layer in Hp. destruct (decide (l = c)) as [->|Hne].
  - simpl in Hp. injection Hp as ->. right; left.
  - by left.
Qed.

(** C7.  [layer_plane_compatible_get] turns down the composition layer
    of an output on every plane whose type is not PRIMARY.  And on a
    heap where the composition layer of the output is a layer of that
    output, is linked with its plane when it has one, and sits on a
    PRIMARY plane unless [layers_changed] is up, after a
    [liftoff_rpi_output_apply] that returns 0 the composition layer, if
    bound, is bound to a PRIMARY plane. *)
Theorem composition_layer_on_primary (drm : drm_boundary) (h : heap)
    (output : output_ptr) (rq : drmModeAtomicReq) (flags : Z)
    (malloc_ok : bool) (h' : heap) (rq' : drmModeAtomicReq) :
  comp_layer_belongs h output →
  comp_layer_linked h output →
  (layers_changed (get_output h output) = false → comp_on_primary h output) →
  liftoff_rpi_output_apply drm h output rq flags malloc_ok = (0, h', rq') →
  (∀ hh step alloc layer plane,
     plane_type plane ≠ DRM_PLANE_TYPE_PRIMARY →
     layer_is_comp_layer hh layer = true →
     layer_plane_compatible_get hh step alloc layer plane = false) ∧
  comp_on_primary h' output.
Proof.
  intros Hbel Hlink Hinv Happly.
  split; [apply layer_plane_compatible_get_comp|].
  unfold liftoff_rpi_output_apply in Happly.
  pose proof (layers_update_outputs drm h output) as Houts.
  pose proof (heap_frame_trans _ _ _ (layers_priority_update_frame h)
                (layers_fb_info_update_frame drm _ output)) as F2.
  set (h2 := layers_fb_info_update drm (layers_priority_update h) output) in *.
  pose proof (reuse_prev_alloc_frame drm h2 output rq flags) as F3.
  pose proof (reuse_prev_alloc_ok_unchanged drm h2 output rq flags) as Hun.
  destruct (reuse_prev_alloc drm h2 output rq flags) as [[ret h3] rq3].
  simpl in F3, Hun.
  pose proof (heap_frame_trans _ _ _ F2 F3) as F.
  destruct (Z.eqb_spec ret 0) as [->|Hret].
  { (* the previous allocation is reused *)
    injection Happly as <- <-.
    apply (comp_on_primary_frame h);
      [exact (heap_frame_trans _ _ _ F (log_reuse_frame h3 output))|].
    apply Hinv. rewrite <- (Hun eq_refl). unfold get_output. by rewrite Houts. }
  (* a new allocation *)
  set (h4 := log_no_reuse h3 output) in *.
  set (h5 := fold_left _ _ h4) in *.
  set (h6 := upd_device h5 _) in *.
  set (h7 := output_unbind_planes h6 output) in *.
  assert (F6 : heap_frame h h6).
  { eapply heap_frame_trans; [exact F|].
    eapply heap_frame_trans; [apply log_no_reuse_frame|]. fold h4.
    eapply heap_frame_trans; [|by apply heap_frame_upd_device].
    apply heap_frame_fold. intros hh l. by apply heap_frame_upd_layer. }
  pose proof (output_unbind_planes_statics h6 output) as S67. fold h7 in S67.
  pose proof (heap_statics_trans _ _ _ (heap_frame_statics _ _ F6) S67) as S7.
  destruct F6 as [(Hd6 & _ & Hc6 & Ho6) [Hpl6 Hlp6]].
  assert (U7 : ∀ c, comp_layer (get_output h output) = Some c →
                 layer_plane (get_layer h7 c) = None).
  { intros c Hc. apply output_unbind_planes_fold.
    - rewrite Ho6. by apply Hbel.
    - destruct (layer_plane (get_layer h6 c)) as [p|] eqn:Ep; [|by left].
      right. exists p. rewrite Hlp6 in Ep.
      destruct (Hlink c p Hc Ep) as [Hin Hback].
      by rewrite Hd6, Hpl6. }
  destruct S7 as (Hd7 & Ht7 & Hc7 & Ho7).
  destruct (output_disable_planes drm h7 rq3) as [rq8|ret8 rq8] eqn:Ed.
  2:{ exfalso. injection Happly as -> _ _.
      apply list_for_each_return in Ed as (plane & rq0 & _ & Ebody).
      destruct (bool_decide _); [|done].
      destruct (plane_apply _ _ _ _ _) as [r rq1].
      destruct (Z.eqb_spec r 0); simpl in Ebody; [done|].
      injection Ebody as ? ?. congruence. }
  destruct malloc_ok; simpl in Happly; [|done].
  destruct (output_layers_choose _ _ _ _ _) as [ret9 m] eqn:Es.
  destruct (Z.eqb_spec ret9 0) as [->|Hne]; simpl in Happly;
    [|injection Happly as ? _ _; congruence].
  destruct (apply_current _ _ _) as [ret10 rq10].
  destruct (Z.eqb_spec ret10 0) as [->|Hne]; simpl in Happly;
    [|injection Happly as ? _ _; congruence].
  injection Happly as <- <-.
  apply (comp_on_primary_frame _ _ _ (layers_mark_clean_frame _ output)).
  destruct (output_layers_choose_run drm h7 output (search_reaches h7 output)
              (reaches_skip h7 output) (reaches_layer h7 output) true
              (dev_planes (device h7)) alloc_step_first
              (alloc_mem_first h7 output rq8 flags) m
              (alloc_mem_first_ok _ _ _ _) eq_refl (reaches_first _ _) Es)
    as [(Hsim & _) Hprog].
  simpl in Hsim.
  destruct (heap_sim_frame _ _ Hsim) as [(Hd8 & Ht8 & Hc8 & _) [_ Hlp8]].
  destruct (output_install_best_statics (mem_heap m) (best (mem_result m)))
    as (_ & Ht9 & Hc9 & _).
  intros c p Hc Hp.
  rewrite Hc9, Hc8, Hc7 in Hc. rewrite Ht9, Ht8.
  apply output_install_best_fold in Hp as [Hp|Hp].
  { rewrite Hlp8, (U7 c Hc) in Hp. done. }
  apply list_elem_of_lookup in Hp as [i Hi].
  apply lookup_zip_with_Some in Hi as (p0 & slot & [= <- <-] & Hpi & Hbi).
  rewrite Hd8 in Hpi.
  destruct Hprog as [[Hbest _]|(_ & tstep & Hreach & _)].
  - rewrite Hbest in Hbi. simpl in Hbi.
    apply lookup_replicate in Hbi as [? _]. done.
  - refine (search_reaches_comp_primary h7 output tstep _ _ Hreach i c p
              _ Hbi Hpi).
    + intros c0 Hc0. rewrite Ho7. apply Hbel. by rewrite <- Hc7.
    + by rewrite Hc7.
Qed.

Lemma composition_layer_on_primary_witness :
  let r :=
    liftoff_rpi_output_apply ex_drm ex_heap_comp_one_plane 0%nat [] 0 true in
  fst (fst r) = 0 ∧
  comp_layer (get_output (snd (fst r)) 0%nat) = Some 2%nat ∧
  layer_plane (get_layer (snd (fst r)) 2%nat) = Some 0%nat ∧
  comp_on_primary (snd (fst r)) 0%nat.
Proof.
  intros r.
  assert (E : liftoff_rpi_output_apply ex_drm ex_heap_comp_one_plane 0%nat
                [] 0 true = (0, snd (fst r), snd r))
    by (vm_compute; reflexivity).
  split; [by vm_compute|]. split; [by vm_compute|]. split; [by vm_compute|].
  refine (proj2 (composition_layer_on_primary ex_drm ex_heap_comp_one_plane
                   0%nat [] 0 true _ _ _ _ _ E)).
  - intros c Hc. vm_compute in Hc. injection Hc as <-. by vm_compute.
  - intros c p Hc Hp. vm_compute in Hc. injection Hc as <-.
    vm_compute in Hp. discriminate.
  - intros Hch. vm_compute in Hch. discriminate.
Defined.

(** The hypotheses of the law above on the composition layer are kept
    by the setter: a layer of another output is refused, and a new
    composition layer puts [layers_changed] up. *)
Lemma composition_layer_set_keeps_primary h output layer :
  comp_layer_belongs h output →
  (layers_changed (get_output h output) = false → comp_on_primary h output) →
  let h' := liftoff_rpi_output_composition_layer_set h output layer in
  comp_layer_belongs h' output ∧
  (layers_changed (get_output h' output) = false → comp_on_primary h' output).
Proof.
  intros Hbel Hinv. unfold liftoff_rpi_output_composition_layer_set.
  case_bool_decide as Hout; [done|].
  case_bool_decide as Hnew; simpl.
  - split.
    + intros c. rewrite get_upd_output, decide_True by done. simpl.
      by intros [= <-].
    + rewrite get_upd_output, decide_True by done.
      rewrite get_upd_output, decide_True by done. done.
  - assert (Hsame : get_output
                      (upd_output h output
                         (λ o, output_with_comp_layer o (Some layer))) output
                    = get_output h output).
    { rewrite get_upd_output, decide_True by done.
      destruct (get_output h output); simpl in *. by rewrite Hnew. }
    split.
    + intros c. by rewrite Hsame; apply Hbel.
    + rewrite Hsame. intros Hch c p. rewrite Hsame. by apply Hinv.
Qed.

(** * More of the API *)

(** ** layer.c: the property array *)

Lemma list_find_index_elem (l : list liftoff_rpi_property) q e :
  NoDup (index <$> l) →
  snd <$> list_find (λ p, index p = q) l = Some e ↔ e ∈ l ∧ index e = q.
Proof.
  intros Hnd. split.
  - destruct (list_find _ l) as [[i x]|] eqn:E; [|done].
    intros [= <-]. apply list_find_Some in E as (Hi & Hx & _).
    split; [by eapply list_elem_of_lookup_2|done].
  - intros [He Hq].
    destruct (list_find (λ p, index p = q) l) as [[i x]|] eqn:E.
    + apply list_find_Some in E as (Hi & Hx & _). simpl. f_equal.
      apply list_elem_of_lookup in He as [j Hj].
      assert (i = j) as ->; [|congruence].
      eapply (NoDup_lookup _ _ _ _ Hnd); rewrite list_lookup_fmap.
      * by rewrite Hi.
      * rewrite Hj. simpl. congruence.
    + rewrite list_find_None, Forall_forall in E. by destruct (E e He).
Qed.

Lemma list_find_index_perm (l l' : list liftoff_rpi_property) q :
  NoDup (index <$> l) → l ≡ₚ l' →
  snd <$> list_find (λ p, index p = q) l
  = snd <$> list_find (λ p, index p = q) l'.
Proof.
  intros Hnd Hperm.
  assert (Hnd' : NoDup (index <$> l')) by by rewrite <- Hperm.
  apply option_eq. intros e.
  rewrite !list_find_index_elem by done. by rewrite Hperm.
Qed.

(** The array [liftoff_rpi_layer_property_unset] leaves is the old one
    without entry [i], up to the order of the entries. *)
Lemma layer_property_unset_perm (ps : list liftoff_rpi_property) i :
  (i < length ps)%nat →
  take (length ps - 1)
    (if bool_decide (i ≠ (length ps - 1)%nat)
     then <[i := ps !!! (length ps - 1)%nat]> ps else ps)
  ≡ₚ delete i ps.
Proof.
  intros Hi. case_bool_decide as Hlast.
  - destruct (lookup_lt_is_Some_2 ps i Hi) as [x Hx].
    pose proof (take_drop_middle ps i x Hx) as Hsplit.
    destruct (drop (S i) ps) as [|z l2] eqn:Hd using rev_ind.
    { apply (f_equal length) in Hsplit. rewrite length_app in Hsplit.
      simpl in Hsplit. rewrite length_take in Hsplit. lia. }
    set (l1 := take i ps) in *.
    assert (Hl1 : length l1 = i) by (unfold l1; rewrite length_take; lia).
    clear IHl2 Hd Hx Hi. clearbody l1. subst ps i.
    rewrite !length_app. simpl. rewrite length_app. simpl.
    replace (length l1 + S (length l2 + 1) - 1)%nat
      with (length l1 + S (length l2))%nat by lia.
    assert (Hlast' : (l1 ++ x :: l2 ++ [z]) !!! (length l1 + S (length l2))%nat
                     = z).
    { apply list_lookup_total_correct.
      rewrite lookup_app_r by lia.
      replace (length l1 + S (length l2) - length l1)%nat
        with (S (length l2)) by lia.
      simpl. by rewrite lookup_app_r, Nat.sub_diag. }
    rewrite Hlast'.
    rewrite insert_app_r_alt, Nat.sub_diag by lia. simpl.
    rewrite take_app_ge by lia.
    replace (length l1 + S (length l2) - length l1)%nat
      with (S (length l2)) by lia.
    simpl. rewrite take_app_length.
    rewrite delete_take_drop.
    rewrite take_app_length, drop_app_ge by lia.
    replace (S (length l1) - length l1)%nat with 1%nat by lia. simpl.
    apply Permutation_app_head. by rewrite <- Permutation_cons_append.
  - assert (i = (length ps - 1)%nat) as -> by (destruct (decide (i = (length ps - 1)%nat)); [done|by destruct Hlast]).
    rewrite delete_take_drop.
    replace (S (length ps - 1)) with (length ps) by lia.
    by rewrite drop_all, app_nil_r.
Qed.

Lemma layer_property_store_indices l i property v :
  index <$> layer_props (layer_property_store l i property v)
  = index <$> layer_props l.
Proof.
  unfold layer_property_store.
  assert (index <$> alter (λ p, prop_with_value p v) i (layer_props l)
          = index <$> layer_props l) as Halter.
  { rewrite (list_fmap_alter index (λ p, prop_with_value p v) (λ x, x))
      by by apply Forall_true.
    apply list_eq. intros j. destruct (decide (i = j)) as [->|].
    - rewrite list_lookup_alter_eq. by destruct (_ !! j).
    - by rewrite list_lookup_alter_ne. }
  by destruct (_ && _).
Qed.

Lemma layer_property_set_distinct layer property v ok :
  layer_props_distinct layer →
  layer_props_distinct (snd (liftoff_rpi_layer_property_set layer property v ok)).
Proof.
  unfold layer_props_distinct, liftoff_rpi_layer_property_set. intros Hnd.
  destruct (property =? LIFTOFF_RPI_PROP_CRTC_ID); [done|].
  destruct (layer_property_get layer property) as [[i x]|] eqn:E; simpl.
  - by rewrite layer_property_store_indices.
  - destruct ok; simpl; [|done].
    rewrite layer_property_store_indices. simpl. rewrite fmap_app. simpl.
    apply NoDup_app. split_and!; [done| |apply NoDup_singleton].
    intros x Hx ->%list_elem_of_singleton.
    apply list_elem_of_fmap in Hx as (y & Hy & Hin).
    unfold layer_property_get in E.
    rewrite list_find_None, Forall_forall in E. by destruct (E y Hin).
Qed.

Lemma layer_property_unset_distinct layer property :
  layer_props_distinct layer →
  layer_props_distinct (liftoff_rpi_layer_property_unset layer property).
Proof.
  unfold layer_props_distinct, liftoff_rpi_layer_property_unset. intros Hnd.
  destruct (layer_property_get layer property) as [[i x]|] eqn:E; [|done].
  apply list_find_Some in E as (Hi & _ & _). simpl.
  rewrite layer_property_unset_perm by by eapply lookup_lt_Some.
  rewrite list_fmap_delete. exact (sublist_NoDup _ _ Hnd (sublist_delete _ _)).
Qed.

(** The setters keep the property array free of duplicates:
    [liftoff_rpi_layer_property_set], [liftoff_rpi_layer_property_unset]
    and [liftoff_rpi_layer_fb_composited_set] all leave a layer whose
    entries have pairwise different indices when they are given one. *)
Theorem layer_props_distinct_kept (layer : liftoff_rpi_layer) :
  layer_props_distinct layer →
  (∀ property v ok,
     layer_props_distinct
       (snd (liftoff_rpi_layer_property_set layer property v ok))) ∧
  (∀ property,
     layer_props_distinct (liftoff_rpi_layer_property_unset layer property)) ∧
  (∀ ok, layer_props_distinct (liftoff_rpi_layer_fb_composited_set layer ok)).
Proof.
  intros Hnd. split_and!.
  - intros. by apply layer_property_set_distinct.
  - intros. by apply layer_property_unset_distinct.
  - intros ok. unfold liftoff_rpi_layer_fb_composited_set.
    destruct (force_comp layer); [done|].
    by apply (layer_property_set_distinct layer LIFTOFF_RPI_PROP_FB_ID 0 ok).
Qed.

Lemma layer_props_distinct_kept_witness :
  layer_props_distinct ex_layer_alpha ∧
  layer_props_distinct
    (snd (liftoff_rpi_layer_property_set ex_layer_alpha
            LIFTOFF_RPI_PROP_ZPOS 1 true)) ∧
  layer_props_distinct
    (liftoff_rpi_layer_property_unset ex_layer_alpha LIFTOFF_RPI_PROP_ALPHA) ∧
  layer_props_distinct (liftoff_rpi_layer_fb_composited_set ex_layer_alpha true).
Proof.
  assert (H : layer_props_distinct ex_layer_alpha).
  { unfold layer_props_distinct. apply (bool_decide_unpack _). by vm_compute. }
  destruct (layer_props_distinct_kept ex_layer_alpha H) as (Hset & Hunset & Hfb).
  split; [exact H|]. split; [apply Hset|]. split; [apply Hunset|apply Hfb].
Defined.

(** [liftoff_rpi_layer_property_unset] on a layer without duplicate
    entries: the property is gone afterwards, every other property keeps
    its entry (value and snapshot), the array is one shorter and
    [changed] is up; a property the layer does not hold leaves the layer
    as it was, [changed] included. *)
Theorem layer_property_unset_spec (layer : liftoff_rpi_layer) (property : Z) :
  layer_props_distinct layer →
  let l' := liftoff_rpi_layer_property_unset layer property in
  layer_prop_entry l' property = None ∧
  (∀ q, q ≠ property → layer_prop_entry l' q = layer_prop_entry layer q) ∧
  (layer_prop_entry layer property = None → l' = layer) ∧
  (is_Some (layer_prop_entry layer property) →
   S (length (layer_props l')) = length (layer_props layer) ∧
   changed l' = true).
Proof.
  intros Hnd l'. unfold l', layer_prop_entry.
  unfold liftoff_rpi_layer_property_unset.
  destruct (layer_property_get layer property) as [[i x]|] eqn:E; simpl.
  2:{ rewrite E. by split_and!. }
  unfold layer_property_get in *. simpl.
  pose proof E as (Hi & Hx & _)%list_find_Some.
  pose proof (lookup_lt_Some _ _ _ Hi) as Hlt.
  pose proof (layer_property_unset_perm _ _ Hlt) as Hperm.
  assert (Hdel : NoDup (index <$> delete i (layer_props layer))).
  { rewrite list_fmap_delete.
    exact (sublist_NoDup _ _ Hnd (sublist_delete _ _)). }
  assert (Hent : ∀ q e,
    snd <$> list_find (λ p, index p = q) (delete i (layer_props layer)) = Some e
    ↔ q ≠ property ∧
      snd <$> list_find (λ p, index p = q) (layer_props layer) = Some e).
  { intros q e. rewrite !list_find_index_elem by done.
    assert (∃ l1 l2, layer_props layer = l1 ++ x :: l2 ∧ length l1 = i)
      as (l1 & l2 & Hps & Hl1).
    { exists (take i (layer_props layer)), (drop (S i) (layer_props layer)).
      split; [by rewrite take_drop_middle|rewrite length_take; lia]. }
    unfold layer_props_distinct in Hnd. rewrite Hps in Hnd |- *.
    assert (delete i (l1 ++ x :: l2) = l1 ++ l2) as ->.
    { rewrite <- Hl1. clear. by induction l1; f_equal/=. }
    rewrite fmap_app, fmap_cons in Hnd.
    apply NoDup_app in Hnd as (_ & Hfresh1 & Hnd2).
    apply NoDup_cons in Hnd2 as [Hfresh2 _].
    rewrite !elem_of_app, elem_of_cons. split.
    - intros [Hin Hq]. split_and!; [|tauto|done].
      intros ->. destruct Hin as [Hin|Hin].
      + apply (Hfresh1 (index e)); [by apply list_elem_of_fmap_2|].
        rewrite Hq, <- Hx. left.
      + apply Hfresh2. rewrite Hx, <- Hq. by apply list_elem_of_fmap_2.
    - intros (Hne & [Hin|[->|Hin]] & Hq); [tauto|congruence|tauto]. }
  split_and!.
  - rewrite <- (list_find_index_perm _ _ _ Hdel (symmetry Hperm)).
    apply eq_None_not_Some. intros [e He]. apply Hent in He as [? _]. done.
  - intros q Hq.
    rewrite <- (list_find_index_perm _ _ _ Hdel (symmetry Hperm)).
    apply option_eq. intros e. rewrite Hent. naive_solver.
  - done.
  - intros _. split; [|done].
    rewrite Hperm, length_delete by by eexists. lia.
Qed.

Lemma layer_property_unset_spec_witness :
  layer_props_distinct ex_layer_alpha ∧
  layer_prop_entry
    (liftoff_rpi_layer_property_unset ex_layer_alpha LIFTOFF_RPI_PROP_ALPHA)
    LIFTOFF_RPI_PROP_ALPHA = None ∧
  layer_prop_entry
    (liftoff_rpi_layer_property_unset ex_layer_alpha LIFTOFF_RPI_PROP_ALPHA)
    LIFTOFF_RPI_PROP_FB_ID
  = layer_prop_entry ex_layer_alpha LIFTOFF_RPI_PROP_FB_ID.
Proof.
  assert (H : layer_props_distinct ex_layer_alpha).
  { unfold layer_props_distinct. apply (bool_decide_unpack _). by vm_compute. }
  destruct (layer_property_unset_spec ex_layer_alpha LIFTOFF_RPI_PROP_ALPHA H)
    as (Hgone & Hother & _).
  split; [exact H|]. split; [exact Hgone|]. by apply Hother.
Defined.

(** Set then unset: on a layer that does not hold the property, a
    successful [liftoff_rpi_layer_property_set] followed by
    [liftoff_rpi_layer_property_unset] of the same property gives back
    the property array the layer had. *)
Theorem layer_property_set_unset (layer : liftoff_rpi_layer) (property v : Z) :
  property ≠ LIFTOFF_RPI_PROP_CRTC_ID →
  layer_property_get layer property = None →
  fst (liftoff_rpi_layer_property_set layer property v true) = 0 ∧
  layer_props
    (liftoff_rpi_layer_property_unset
       (snd (liftoff_rpi_layer_property_set layer property v true)) property)
  = layer_props layer.
Proof.
  intros Hne Hnone. unfold liftoff_rpi_layer_property_set.
  rewrite (proj2 (Z.eqb_neq _ _) Hne), Hnone. simpl. split; [done|].
  set (fresh := {| index := property; id := 0; dprop := None; value := 0;
                   prev_value := 0 |}).
  assert (Hprops : ∀ l0,
    layer_props l0 = layer_props layer ++ [fresh] →
    layer_props (layer_property_store l0 (length (layer_props layer))
                   property v)
    = layer_props layer ++ [prop_with_value fresh v]).
  { intros l0 Hl0. unfold layer_property_store.
    assert (alter (λ p, prop_with_value p v) (length (layer_props layer))
              (layer_props l0)
            = layer_props layer ++ [prop_with_value fresh v]) as ->.
    { rewrite Hl0. apply list_eq. intros j.
      destruct (decide (j = length (layer_props layer))) as [->|Hj].
      - rewrite list_lookup_alter_eq, !lookup_app_r, Nat.sub_diag by lia.
        done.
      - rewrite list_lookup_alter_ne by done.
        destruct (decide (j < length (layer_props layer))%nat).
        + by rewrite !lookup_app_l by lia.
        + rewrite !lookup_app_r by lia.
          by destruct (j - length (layer_props layer))%nat as [|[|]] eqn:?;
            [lia|..]. }
    by destruct (_ && _). }
  unfold liftoff_rpi_layer_property_unset, layer_property_get.
  rewrite Hprops by done.
  rewrite (list_find_app_fresh _ _ (prop_with_value fresh v)) by done.
  simpl. rewrite length_app. simpl.
  replace (length (layer_props layer) + 1 - 1)%nat
    with (length (layer_props layer)) by lia.
  rewrite bool_decide_eq_false_2 by (intros ?; done).
  by rewrite take_app_length.
Qed.

Lemma layer_property_set_unset_witness :
  LIFTOFF_RPI_PROP_ZPOS ≠ LIFTOFF_RPI_PROP_CRTC_ID ∧
  layer_property_get ex_layer_alpha LIFTOFF_RPI_PROP_ZPOS = None ∧
  layer_props
    (liftoff_rpi_layer_property_unset
       (snd (liftoff_rpi_layer_property_set ex_layer_alpha
               LIFTOFF_RPI_PROP_ZPOS 1 true)) LIFTOFF_RPI_PROP_ZPOS)
  = layer_props ex_layer_alpha.
Proof.
  assert (H1 : LIFTOFF_RPI_PROP_ZPOS ≠ LIFTOFF_RPI_PROP_CRTC_ID) by done.
  assert (H2 : layer_property_get ex_layer_alpha LIFTOFF_RPI_PROP_ZPOS = None)
    by by vm_compute.
  split; [exact H1|]. split; [exact H2|].
  exact (proj2 (layer_property_set_unset ex_layer_alpha
                  LIFTOFF_RPI_PROP_ZPOS 1 H1 H2)).
Defined.

(** ** layer.c: forced composition, intersection, candidate planes *)

Lemma layer_fb_get_store_zero l i x :
  layer_property_get l LIFTOFF_RPI_PROP_FB_ID = Some (i, x) →
  layer_fb_get (layer_property_store l i LIFTOFF_RPI_PROP_FB_ID 0) = false.
Proof.
  intros E. unfold layer_fb_get, layer_property_get in *.
  assert (list_find (λ p, index p = LIFTOFF_RPI_PROP_FB_ID)
            (layer_props (layer_property_store l i LIFTOFF_RPI_PROP_FB_ID 0))
          = Some (i, prop_with_value x 0)) as ->; [|done].
  unfold layer_property_store.
  assert (list_find (λ p, index p = LIFTOFF_RPI_PROP_FB_ID)
            (alter (λ p, prop_with_value p 0) i (layer_props l))
          = Some (i, prop_with_value x 0)) as Ha
    by by apply (list_find_alter_index _ (λ p, prop_with_value p 0)).
  by destruct (_ && _).
Qed.

Lemma list_find_alter_other (l : list liftoff_rpi_property)
    (f : liftoff_rpi_property → liftoff_rpi_property) i q :
  (∀ p, index (f p) = index p) →
  (∀ y, l !! i = Some y → index y ≠ q) →
  list_find (λ p, index p = q) (alter f i l)
  = list_find (λ p, index p = q) l.
Proof.
  intros Hf. revert i. induction l as [|z zs IH]; intros i Hi; [done|].
  destruct i as [|i]; simpl in *.
  - rewrite !decide_False; [done|by apply Hi|rewrite Hf; by apply Hi].
  - destruct (decide (index z = q)); [done|]. f_equal. by apply IH.
Qed.

Lemma list_find_snoc_other (l : list liftoff_rpi_property) x q :
  index x ≠ q →
  list_find (λ p, index p = q) (l ++ [x]) = list_find (λ p, index p = q) l.
Proof.
  intros Hx. destruct (list_find (λ p, index p = q) l) as [[i y]|] eqn:E.
  - by apply list_find_app_l.
  - rewrite list_find_app_r by done. simpl. by rewrite decide_False.
Qed.

(** Setting a property leaves the entry of every other property where
    it was. *)
Lemma layer_property_set_other layer property v ok q :
  q ≠ property →
  layer_property_get
    (snd (liftoff_rpi_layer_property_set layer property v ok)) q
  = layer_property_get layer q.
Proof.
  intros Hq.
  assert (Hstore : ∀ l0 i,
    (∀ y, layer_props l0 !! i = Some y → index y = property) →
    layer_property_get (layer_property_store l0 i property v) q
    = layer_property_get l0 q).
  { intros l0 i Hi. unfold layer_property_store, layer_property_get.
    assert (list_find (λ p, index p = q)
              (alter (λ p, prop_with_value p v) i (layer_props l0))
            = list_find (λ p, index p = q) (layer_props l0)) as Ha.
    { apply list_find_alter_other; [done|].
      intros y Hy. rewrite (Hi y Hy). done. }
    by destruct (_ && _). }
  unfold liftoff_rpi_layer_property_set.
  destruct (property =? LIFTOFF_RPI_PROP_CRTC_ID); [done|].
  destruct (layer_property_get layer property) as [[i x]|] eqn:E; simpl.
  - apply Hstore. apply list_find_Some in E as (Hi & Hx & _).
    intros y Hy. congruence.
  - destruct ok; simpl; [|done].
    rewrite Hstore.
    + unfold layer_property_get. simpl. by apply list_find_snoc_other.
    + simpl. intros y. rewrite lookup_app_r, Nat.sub_diag by done.
      by intros [= <-].
Qed.

(** [liftoff_rpi_layer_fb_composited_set] on a layer that is not yet in
    forced composition: afterwards [force_comp] and [changed] are up and
    the layer has no framebuffer ([layer_fb_get] is false), whether or
    not the array could be grown to hold [FB_ID]; the layer is then
    visible exactly when its [ALPHA], if it has one, is not 0.  On a
    layer already in forced composition the call does nothing. *)
Theorem layer_fb_composited_set_spec (layer : liftoff_rpi_layer) (ok : bool) :
  let l' := liftoff_rpi_layer_fb_composited_set layer ok in
  (force_comp layer = true → l' = layer) ∧
  (force_comp layer = false →
   force_comp l' = true ∧ changed l' = true ∧ layer_fb_get l' = false ∧
   layer_visible_get l'
   = match layer_prop_entry layer LIFTOFF_RPI_PROP_ALPHA with
     | Some alpha => negb (value alpha =? 0)
     | None => true
     end).
Proof.
  intros l'. unfold l', liftoff_rpi_layer_fb_composited_set.
  destruct (force_comp layer) eqn:Ef; split; try done. intros _.
  pose proof (layer_property_set_other layer LIFTOFF_RPI_PROP_FB_ID 0 ok
                LIFTOFF_RPI_PROP_ALPHA ltac:(done)) as Halpha.
  set (l1 := snd (liftoff_rpi_layer_property_set layer LIFTOFF_RPI_PROP_FB_ID
                    0 ok)) in *.
  assert (Hfb : layer_fb_get l1 = false).
  { unfold l1, liftoff_rpi_layer_property_set. simpl.
    destruct (layer_property_get layer LIFTOFF_RPI_PROP_FB_ID)
      as [[i x]|] eqn:E; simpl.
    - by eapply layer_fb_get_store_zero.
    - destruct ok; simpl.
      + set (fresh := {| index := LIFTOFF_RPI_PROP_FB_ID; id := 0;
                         dprop := None; value := 0; prev_value := 0 |}).
        apply (layer_fb_get_store_zero _ _ fresh).
        unfold layer_property_get. simpl.
        by apply list_find_app_fresh.
      + unfold layer_fb_get. by rewrite E. }
  split_and!; try done.
  unfold layer_visible_get, layer_prop_entry. simpl.
  change (layer_property_get
            (layer_with_changed (layer_with_force_comp l1 true) true))
    with (layer_property_get l1).
  rewrite Halpha.
  destruct (layer_property_get layer LIFTOFF_RPI_PROP_ALPHA) as [[j a]|];
    simpl; [|done].
  by destruct (value a =? 0).
Qed.

(** [layer_intersects] does not depend on the order of its arguments,
    and an invisible layer intersects nothing.  A layer whose rectangle
    has its far edges within the range of [int] intersects itself
    exactly when it is visible and the rectangle has a positive width
    and a positive height. *)
Theorem layer_intersects_sym (a b : liftoff_rpi_layer) :
  layer_intersects a b = layer_intersects b a ∧
  (layer_visible_get a = false → layer_intersects a b = false) ∧
  (rect_fits_int (layer_rect_get a) →
   layer_intersects a a
   = layer_visible_get a && (0 <? rw (layer_rect_get a))
     && (0 <? rh (layer_rect_get a))).
Proof.
  unfold layer_intersects. split_and!.
  - destruct (layer_visible_get a), (layer_visible_get b); simpl; try done.
    apply eq_true_iff_eq.
    rewrite !andb_true_iff, !Z.gtb_ltb, !Z.ltb_lt. lia.
  - by intros ->.
  - intros [Hx Hy]. rewrite !to_int_small by done.
    destruct (layer_visible_get a); simpl; [|done].
    apply eq_true_iff_eq.
    rewrite !andb_true_iff, !Z.gtb_ltb, !Z.ltb_lt. lia.
Qed.

Lemma layer_intersects_sym_witness :
  rect_fits_int (layer_rect_get ex_layer_rect) ∧
  layer_intersects ex_layer_rect ex_layer_rect = true.
Proof.
  assert (H : rect_fits_int (layer_rect_get ex_layer_rect)).
  { split; split; vm_compute; discriminate. }
  split; [exact H|].
  destruct (layer_intersects_sym ex_layer_rect ex_layer_rect)
    as (_ & _ & Hself).
  rewrite (Hself H). vm_compute. reflexivity.
Defined.

Lemma existsb_insert_same {A} (f : A → bool) (l : list A) i x y :
  l !! i = Some x → f x = f y → existsb f (<[i := y]> l) = existsb f l.
Proof.
  revert i. induction l as [|z zs IH]; intros i Hi Hf; [done|].
  destruct i as [|i]; simpl in *.
  - injection Hi as ->. by rewrite Hf.
  - f_equal. by apply IH.
Qed.

Lemma existsb_insert_hit {A} (f : A → bool) (l : list A) i y :
  (i < length l)%nat → f y = true → existsb f (<[i := y]> l) = true.
Proof.
  revert i. induction l as [|z zs IH]; intros i Hi Hf; simpl in *; [lia|].
  destruct i as [|i]; simpl.
  - by rewrite Hf.
  - rewrite IH by (done || lia). by rewrite orb_true_r.
Qed.

(** The candidate-plane memo of a layer.  [layer_candidate_plane_add]
    records the plane whenever one of the first [planes_cap] slots is
    free (0); when none is free and the plane is not yet recorded the
    call is dropped.  Adding twice is adding once, adding never removes
    another plane from the memo, and after
    [layer_candidate_planes_reset] no plane with a non-zero id is in
    the memo.  Neither function changes the length of the array. *)
Theorem layer_candidate_planes_spec (cap : nat) (layer : liftoff_rpi_layer)
    (plane : liftoff_rpi_plane) :
  let added := layer_candidate_plane_add cap layer plane in
  let reset := layer_candidate_planes_reset cap layer in
  liftoff_rpi_layer_candidate_plane_get cap added plane
  = liftoff_rpi_layer_candidate_plane_get cap layer plane
    || bool_decide (0 ∈ take cap (candidate_planes layer)) ∧
  layer_candidate_plane_add cap added plane = added ∧
  (∀ q, plane_id q ≠ 0 → plane_id q ≠ plane_id plane →
     liftoff_rpi_layer_candidate_plane_get cap added q
     = liftoff_rpi_layer_candidate_plane_get cap layer q) ∧
  (∀ q, plane_id q ≠ 0 →
     liftoff_rpi_layer_candidate_plane_get cap reset q = false) ∧
  length (candidate_planes added) = length (candidate_planes layer) ∧
  length (candidate_planes reset) = length (candidate_planes layer).
Proof.
  intros added reset.
  assert (Hreset : ∀ q, plane_id q ≠ 0 →
            liftoff_rpi_layer_candidate_plane_get cap reset q = false).
  { intros q Hq. unfold reset, liftoff_rpi_layer_candidate_plane_get,
      layer_candidate_planes_reset. simpl.
    rewrite take_app_ge by (rewrite length_replicate; lia).
    rewrite length_replicate.
    apply not_true_is_false. intros (c & Hc & Heq)%existsb_exists.
    apply Z.eqb_eq in Heq. apply in_app_or in Hc as [Hc|Hc].
    - apply list_elem_of_In, elem_of_replicate in Hc as [-> _]. done.
    - apply list_elem_of_In in Hc.
      destruct (decide (cap ≤ length (candidate_planes layer))%nat).
      + replace (cap - cap `min` length (candidate_planes layer))%nat
          with 0%nat in Hc by lia.
        by apply elem_of_nil in Hc.
      + rewrite drop_ge in Hc by lia. rewrite take_nil in Hc.
        by apply elem_of_nil in Hc. }
  assert (Hlen_reset : length (candidate_planes reset)
                       = length (candidate_planes layer)).
  { unfold reset, layer_candidate_planes_reset. simpl.
    rewrite length_app, length_replicate, length_drop. lia. }
  unfold added, liftoff_rpi_layer_candidate_plane_get,
    layer_candidate_plane_add.
  destruct (existsb (λ c, c =? plane_id plane)
              (take cap (candidate_planes layer))) eqn:Eseen.
  { rewrite ?Eseen. simpl. rewrite ?Eseen.
    split_and!; try done; try exact Hreset; try exact Hlen_reset. }
  destruct (list_find (λ c, c = 0) (take cap (candidate_planes layer)))
    as [[empty z]|] eqn:Efree.
  - apply list_find_Some in Efree as (Hempty & -> & _).
    pose proof (lookup_lt_Some _ _ _ Hempty) as Hlt.
    rewrite length_take in Hlt. simpl.
    rewrite take_insert_lt by lia.
    assert (Hhit : existsb (λ c, c =? plane_id plane)
                     (<[empty:=plane_id plane]>
                        (take cap (candidate_planes layer))) = true).
    { apply existsb_insert_hit; [rewrite length_take; lia|].
      apply Z.eqb_refl. }
    rewrite Hhit. simpl.
    split_and!; try done; try exact Hreset; try exact Hlen_reset.
    + rewrite bool_decide_eq_true_2; [done|].
      by eapply list_elem_of_lookup_2.
    + intros q Hq0 Hqp. apply (existsb_insert_same _ _ _ 0); [done|].
      rewrite (proj2 (Z.eqb_neq 0 (plane_id q))) by done.
      by rewrite (proj2 (Z.eqb_neq (plane_id plane) (plane_id q))).
    + by rewrite length_insert.
  - rewrite ?Eseen, ?Efree. simpl.
    split_and!; try done; try exact Hreset; try exact Hlen_reset.
    rewrite bool_decide_eq_false_2; [done|].
    rewrite list_find_None, Forall_forall in Efree.
    intros Hin. by apply (Efree 0).
Qed.

(** ** list.c *)

Lemma liftoff_rpi_list_remove_elem_of elm l x :
  NoDup l →
  x ∈ liftoff_rpi_list_remove elm l ↔ x ∈ l ∧ x ≠ elm.
Proof.
  intros Hnd. unfold liftoff_rpi_list_remove.
  destruct (list_find (λ y, y = elm) l) as [[i y]|] eqn:E.
  - apply list_find_Some in E as (Hi & -> & _).
    rewrite <- (take_drop_middle _ _ _ Hi) in Hnd |- * at 2.
    rewrite delete_take_drop.
    apply NoDup_app in Hnd as (_ & Hfresh1 & Hnd2).
    apply NoDup_cons in Hnd2 as [Hfresh2 _].
    rewrite !elem_of_app, elem_of_cons. split.
    + intros [Hx|Hx]; (split; [tauto|]); intros ->.
      * apply (Hfresh1 _ Hx). left.
      * done.
    + intros [[Hx|[->|Hx]] Hne]; tauto.
  - rewrite list_find_None, Forall_forall in E. split; [|tauto].
    intros Hx. split; [done|]. intros ->. by apply (E elm).
Qed.

Lemma liftoff_rpi_list_remove_NoDup elm l :
  NoDup l → NoDup (liftoff_rpi_list_remove elm l).
Proof.
  intros Hnd. unfold liftoff_rpi_list_remove.
  destruct (list_find _ l) as [[i y]|]; [|done].
  exact (sublist_NoDup _ _ Hnd (sublist_delete _ _)).
Qed.

(** Linking and unlinking.  [liftoff_rpi_list_insert] puts the element
    in the list once more and makes the list one longer; unlinking an
    element right after linking it, at whatever place, gives the list
    back; and on a list without repetition [liftoff_rpi_list_remove]
    takes out the element and nothing else. *)
Theorem liftoff_rpi_list_insert_remove (pos elm : nat) (l : list nat) :
  length (liftoff_rpi_list_insert pos elm l) = S (length l) ∧
  (∀ x, x ∈ liftoff_rpi_list_insert pos elm l ↔ x = elm ∨ x ∈ l) ∧
  (elm ∉ l →
   liftoff_rpi_list_remove elm (liftoff_rpi_list_insert pos elm l) = l) ∧
  (NoDup l →
   NoDup (liftoff_rpi_list_remove elm l) ∧
   ∀ x, x ∈ liftoff_rpi_list_remove elm l ↔ x ∈ l ∧ x ≠ elm).
Proof.
  unfold liftoff_rpi_list_insert. split_and!.
  - rewrite length_app. simpl. rewrite length_take, length_drop. lia.
  - intros x. rewrite elem_of_app, elem_of_cons.
    assert (x ∈ l ↔ x ∈ take pos l ∨ x ∈ drop pos l) as ->
      by by rewrite <- elem_of_app, take_drop.
    tauto.
  - intros Hfresh. unfold liftoff_rpi_list_remove.
    assert (list_find (λ x, x = elm) (take pos l ++ elm :: drop pos l)
            = Some (length (take pos l), elm)) as ->.
    { apply list_find_Some. split_and!.
      - by rewrite lookup_app_r, Nat.sub_diag.
      - done.
      - intros j y Hj Hlt ->. rewrite lookup_app_l in Hj by done.
        apply Hfresh. apply list_elem_of_lookup_2 in Hj.
        rewrite <- (take_drop pos l). apply elem_of_app. by left. }
    rewrite delete_take_drop.
    rewrite take_app_length, (cons_middle elm), app_assoc.
    rewrite drop_app_length'
      by (rewrite length_app; simpl; lia).
    apply take_drop.
  - intros Hnd. split; [by apply liftoff_rpi_list_remove_NoDup|].
    intros x. by apply liftoff_rpi_list_remove_elem_of.
Qed.

(** ** layer.c, output.c, plane.c: creating and destroying *)

(** [liftoff_rpi_layer_create] returns null exactly when one of its
    allocations fails.  Otherwise the new layer has an address that was
    not in use, belongs to the output, is unbound, has no property and
    [planes_cap] empty candidate slots; it is the last layer of the
    output's list; [layers_changed] is up, so that the next apply does
    not reuse the previous allocation; and the other layers, the other
    outputs, the planes and the device are as they were. *)
Theorem liftoff_rpi_layer_create_spec (h : heap) (output : output_ptr)
    (ok1 ok2 : bool) :
  match liftoff_rpi_layer_create h output ok1 ok2 with
  | None => ok1 && ok2 = false
  | Some (ptr, h') =>
      ok1 && ok2 = true ∧
      layers h !! ptr = None ∧
      output_layers (get_output h' output)
      = output_layers (get_output h output) ++ [ptr] ∧
      layers_changed (get_output h' output) = true ∧
      reuse_prev_alloc_guard h' output = false ∧
      layer_output (get_layer h' ptr) = output ∧
      layer_plane (get_layer h' ptr) = None ∧
      layer_props (get_layer h' ptr) = [] ∧
      candidate_planes (get_layer h' ptr)
      = replicate (planes_cap (device h)) 0 ∧
      (∀ l, l ≠ ptr → get_layer h' l = get_layer h l) ∧
      (∀ o, o ≠ output → get_output h' o = get_output h o) ∧
      (∀ p, get_plane h' p = get_plane h p) ∧
      device h' = device h
  end.
Proof.
  unfold liftoff_rpi_layer_create.
  destruct ok1, ok2; simpl; try done.
  set (ptr := fresh (dom (layers h))).
  assert (Hfresh : layers h !! ptr = None).
  { apply not_elem_of_dom. apply is_fresh. }
  assert (Hout : ∀ f g,
    get_output (upd_output (upd_output
      {| device := device h; planes := planes h; outputs := outputs h;
         layers := <[ptr := f]> (layers h) |} output g)
      output (λ o, output_with_layers_changed o true)) output
    = output_with_layers_changed (g (get_output h output)) true).
  { intros f g. by rewrite !get_upd_output, !decide_True by done. }
  split_and!; try done.
  - rewrite Hout. simpl. unfold liftoff_rpi_list_insert.
    by rewrite take_ge, drop_ge by done.
  - by rewrite Hout.
  - unfold reuse_prev_alloc_guard. by rewrite Hout.
  - unfold get_layer, upd_output. simpl. by rewrite lookup_total_insert_eq.
  - unfold get_layer, upd_output. simpl. by rewrite lookup_total_insert_eq.
  - unfold get_layer, upd_output. simpl. by rewrite lookup_total_insert_eq.
  - unfold get_layer, upd_output. simpl. by rewrite lookup_total_insert_eq.
  - intros l Hl. unfold get_layer, upd_output. simpl.
    by rewrite lookup_total_insert_ne.
  - intros o Ho. by rewrite !get_upd_output, !decide_False by done.
Qed.

(** [liftoff_rpi_layer_destroy] leaves no pointer to the layer behind.
    On a heap where the layer is linked once in its output's list and
    every plane that points to the layer is the plane the layer points
    to, after the call the layer is gone from the heap and from the
    list, no plane is bound to it, it is not the composition layer, and
    [layers_changed] is up; the other layers are as they were and keep
    their place in the list. *)
Theorem liftoff_rpi_layer_destroy_spec (h : heap) (layer : layer_ptr) :
  let output := layer_output (get_layer h layer) in
  let h' := liftoff_rpi_layer_destroy h (Some layer) in
  NoDup (output_layers (get_output h output)) →
  (∀ p, plane_layer (get_plane h p) = Some layer →
     layer_plane (get_layer h layer) = Some p) →
  layers h' !! layer = None ∧
  (∀ l, l ∈ output_layers (get_output h' output) ↔
        l ∈ output_layers (get_output h output) ∧ l ≠ layer) ∧
  (∀ p, plane_layer (get_plane h' p) ≠ Some layer) ∧
  comp_layer (get_output h' output) ≠ Some layer ∧
  layers_changed (get_output h' output) = true ∧
  (∀ l, l ≠ layer → get_layer h' l = get_layer h l) ∧
  (∀ o, o ≠ output → get_output h' o = get_output h o).
Proof.
  intros output h' Hnd Hlinked. unfold h', liftoff_rpi_layer_destroy.
  fold output.
  set (h1 := upd_output h output (λ o, output_with_layers_changed o true)).
  assert (Hl1 : ∀ l, get_layer h1 l = get_layer h l) by done.
  assert (Hp1 : ∀ p, get_plane h1 p = get_plane h p) by done.
  assert (Ho1 : get_output h1 output
                = output_with_layers_changed (get_output h output) true).
  { unfold h1. by rewrite get_upd_output, decide_True. }
  rewrite Hl1.
  set (h2 := match layer_plane (get_layer h layer) with
             | Some plane => upd_plane h1 plane (λ p, plane_with_layer p None)
             | None => h1
             end).
  assert (Hl2 : ∀ l, get_layer h2 l = get_layer h l).
  { intros l. unfold h2. by destruct (layer_plane _). }
  assert (Ho2 : ∀ o, get_output h2 o = get_output h1 o).
  { intros o. unfold h2. by destruct (layer_plane _). }
  assert (Hp2 : ∀ p, plane_layer (get_plane h2 p) ≠ Some layer).
  { intros p Hp. unfold h2 in Hp.
    destruct (layer_plane (get_layer h layer)) as [p0|] eqn:Ep.
    - rewrite get_upd_plane in Hp. destruct (decide (p0 = p)) as [->|Hne];
        [done|].
      rewrite Hp1 in Hp. apply Hlinked in Hp. congruence.
    - rewrite Hp1 in Hp. apply Hlinked in Hp. congruence. }
  set (h3 := if bool_decide (comp_layer (get_output h2 output) = Some layer)
             then upd_output h2 output (λ o, output_with_comp_layer o None)
             else h2).
  assert (Ho3 : output_layers (get_output h3 output)
                = output_layers (get_output h output) ∧
                layers_changed (get_output h3 output) = true ∧
                comp_layer (get_output h3 output) ≠ Some layer).
  { unfold h3. case_bool_decide as Hc.
    - rewrite get_upd_output, decide_True by done. rewrite Ho2, Ho1.
      by split_and!.
    - rewrite Ho2, Ho1 in *. by split_and!. }
  assert (Hl3 : ∀ l, get_layer h3 l = get_layer h l).
  { intros l. unfold h3. destruct (bool_decide _); apply Hl2. }
  assert (Hp3 : ∀ p, get_plane h3 p = get_plane h2 p).
  { intros p. unfold h3. by destruct (bool_decide _). }
  assert (Ho3' : ∀ o, o ≠ output → get_output h3 o = get_output h o).
  { intros o Ho. unfold h3. destruct (bool_decide _).
    - rewrite get_upd_output, decide_False by done. rewrite Ho2.
      unfold h1. by rewrite get_upd_output, decide_False.
    - rewrite Ho2. unfold h1. by rewrite get_upd_output, decide_False. }
  destruct Ho3 as (Hlist & Hchanged & Hcomp).
  set (h4 := upd_output h3 output _).
  assert (Ho4 : get_output h4 output
                = output_with_layers (get_output h3 output)
                    (liftoff_rpi_list_remove layer
                       (output_layers (get_output h3 output)))).
  { unfold h4. by rewrite get_upd_output, decide_True. }
  change (get_output {| device := device h4; planes := planes h4;
                        outputs := outputs h4;
                        layers := delete layer (layers h4) |})
    with (get_output h4).
  change (get_plane {| device := device h4; planes := planes h4;
                       outputs := outputs h4;
                       layers := delete layer (layers h4) |})
    with (get_plane h3).
  rewrite Ho4. simpl. rewrite Hlist.
  split_and!; try done.
  - apply lookup_delete_eq.
  - intros l. by apply liftoff_rpi_list_remove_elem_of.
  - intros p. rewrite Hp3. apply Hp2.
  - intros l Hl. unfold get_layer. simpl. rewrite lookup_total_delete_ne by done.
    apply Hl3.
  - intros o Ho. unfold h4. rewrite get_upd_output, decide_False by done.
    by apply Ho3'.
Qed.

Lemma liftoff_rpi_layer_destroy_spec_witness :
  NoDup (output_layers (get_output ex_heap_alpha 0%nat)) ∧
  (∀ p, plane_layer (get_plane ex_heap_alpha p) = Some 0%nat →
     layer_plane (get_layer ex_heap_alpha 0%nat) = Some p) ∧
  layers (liftoff_rpi_layer_destroy ex_heap_alpha (Some 0%nat)) !! 0%nat
  = None ∧
  layers_changed
    (get_output (liftoff_rpi_layer_destroy ex_heap_alpha (Some 0%nat)) 0%nat)
  = true.
Proof.
  assert (H1 : NoDup (output_layers (get_output ex_heap_alpha 0%nat))).
  { change (NoDup [0%nat]). apply NoDup_singleton. }
  assert (H2 : ∀ p, plane_layer (get_plane ex_heap_alpha p) = Some 0%nat →
                    layer_plane (get_layer ex_heap_alpha 0%nat) = Some p).
  { intros p. unfold get_plane. simpl. by rewrite lookup_total_empty. }
  split; [exact H1|]. split; [exact H2|].
  destruct (liftoff_rpi_layer_destroy_spec ex_heap_alpha 0%nat H1 H2)
    as (Hgone & _ & _ & _ & Hch & _).
  split; [exact Hgone|exact Hch].
Defined.

(** [liftoff_rpi_plane_destroy] leaves no pointer to the plane behind.
    On a heap where every layer bound to the plane is the layer the
    plane points to, after the call the plane is gone from the heap, the
    device's list is the old one without it (in the same order), no
    layer is bound to it, and the other planes, the outputs and the
    layers the plane did not point to are as they were. *)
Theorem liftoff_rpi_plane_destroy_spec (h : heap) (plane : plane_ptr) :
  let h' := liftoff_rpi_plane_destroy h plane in
  NoDup (dev_planes (device h)) →
  (∀ l, layer_plane (get_layer h l) = Some plane →
     plane_layer (get_plane h plane) = Some l) →
  planes h' !! plane = None ∧
  dev_planes (device h') `sublist_of` dev_planes (device h) ∧
  (∀ p, p ∈ dev_planes (device h') ↔ p ∈ dev_planes (device h) ∧ p ≠ plane) ∧
  (∀ l, layer_plane (get_layer h' l) ≠ Some plane) ∧
  (∀ l, plane_layer (get_plane h plane) ≠ Some l →
     get_layer h' l = get_layer h l) ∧
  (∀ p, p ≠ plane → get_plane h' p = get_plane h p) ∧
  outputs h' = outputs h.
Proof.
  intros h' Hnd Hlinked. unfold h', liftoff_rpi_plane_destroy.
  set (h1 := match plane_layer (get_plane h plane) with
             | Some layer => upd_layer h layer (λ l, layer_with_plane l None)
             | None => h
             end).
  assert (Hd1 : device h1 = device h)
    by (unfold h1; by destruct (plane_layer _)).
  assert (Hp1 : planes h1 = planes h)
    by (unfold h1; by destruct (plane_layer _)).
  assert (Ho1 : outputs h1 = outputs h)
    by (unfold h1; by destruct (plane_layer _)).
  rewrite Hd1, Hp1, Ho1. simpl.
  change (get_layer {| device := ?d; planes := ?ps; outputs := ?os;
                       layers := layers h1 |}) with (get_layer h1).
  split_and!; try done.
  - apply lookup_delete_eq.
  - unfold liftoff_rpi_list_remove.
    destruct (list_find _ _) as [[i y]|]; [apply sublist_delete|done].
  - intros p. by apply liftoff_rpi_list_remove_elem_of.
  - intros l Hl. unfold h1 in Hl.
    destruct (plane_layer (get_plane h plane)) as [l0|] eqn:E.
    + rewrite get_upd_layer in Hl. destruct (decide (l0 = l)) as [->|Hne];
        [done|].
      apply Hlinked in Hl. congruence.
    + apply Hlinked in Hl. congruence.
  - intros l Hl. unfold h1.
    destruct (plane_layer (get_plane h plane)) as [l0|]; [|done].
    rewrite get_upd_layer, decide_False; [done|]. intros ->. by apply Hl.
  - intros p Hp. unfold get_plane. simpl.
    by rewrite lookup_total_delete_ne.
Qed.

Lemma liftoff_rpi_plane_destroy_spec_witness :
  NoDup (dev_planes (device ex_heap_planes)) ∧
  (∀ l, layer_plane (get_layer ex_heap_planes l) = Some 1%nat →
     plane_layer (get_plane ex_heap_planes 1%nat) = Some l) ∧
  planes (liftoff_rpi_plane_destroy ex_heap_planes 1%nat) !! 1%nat = None ∧
  dev_planes (device (liftoff_rpi_plane_destroy ex_heap_planes 1%nat))
    `sublist_of` dev_planes (device ex_heap_planes).
Proof.
  assert (H1 : NoDup (dev_planes (device ex_heap_planes))).
  { apply (bool_decide_unpack _). by vm_compute. }
  assert (H2 : ∀ l, layer_plane (get_layer ex_heap_planes l) = Some 1%nat →
                    plane_layer (get_plane ex_heap_planes 1%nat) = Some l).
  { intros l. unfold get_layer. simpl. by rewrite lookup_total_empty. }
  split; [exact H1|]. split; [exact H2|].
  destruct (liftoff_rpi_plane_destroy_spec ex_heap_planes 1%nat H1 H2)
    as (Hgone & Hsub & _).
  split; [exact Hgone|exact Hsub].
Defined.

(** [liftoff_rpi_output_create] returns null exactly when the CRTC id
    is not one of the device's CRTCs or the allocation fails.
    Otherwise the new output has an address that was not in use and is
    at the head of the device's list; its [crtc_index] is the first
    position of the id in the device's CRTC array; it has no layer and
    no composition layer and [layers_changed] is down; the outputs there
    were, the planes and the layers are as they were. *)
Theorem liftoff_rpi_output_create_spec (h : heap) (crtc : Z) (ok : bool) :
  match liftoff_rpi_output_create h crtc ok with
  | None => crtc ∉ crtcs (device h) ∨ ok = false
  | Some (ptr, h') =>
      ok = true ∧
      outputs h !! ptr = None ∧
      dev_outputs (device h') = ptr :: dev_outputs (device h) ∧
      (∃ i, crtc_index (get_output h' ptr) = Z.of_nat i ∧
            crtcs (device h) !! i = Some crtc ∧
            ∀ j, (j < i)%nat → crtcs (device h) !! j ≠ Some crtc) ∧
      crtc_id (get_output h' ptr) = crtc ∧
      output_layers (get_output h' ptr) = [] ∧
      comp_layer (get_output h' ptr) = None ∧
      layers_changed (get_output h' ptr) = false ∧
      (∀ o, o ≠ ptr → get_output h' o = get_output h o) ∧
      dev_planes (device h') = dev_planes (device h) ∧
      planes h' = planes h ∧ layers h' = layers h
  end.
Proof.
  unfold liftoff_rpi_output_create.
  destruct (list_find (λ c, c = crtc) (crtcs (device h))) as [[i c]|] eqn:E.
  2:{ left. rewrite list_find_None, Forall_forall in E.
      intros Hin. by apply (E crtc). }
  destruct ok; simpl; [|by right].
  apply list_find_Some in E as (Hi & -> & Hmin).
  set (ptr := fresh (dom (outputs h))).
  assert (Hfresh : outputs h !! ptr = None).
  { apply not_elem_of_dom. apply is_fresh. }
  unfold get_output. simpl. rewrite !lookup_total_insert_eq. simpl.
  split_and!; try done.
  - exists i. split_and!; try done.
    intros j Hj Hc. by apply (Hmin j crtc).
  - intros o Ho. by rewrite lookup_total_insert_ne.
Qed.

Lemma liftoff_rpi_list_remove_head (a : nat) (l : list nat) :
  liftoff_rpi_list_remove a (a :: l) = l.
Proof. unfold liftoff_rpi_list_remove. simpl. by rewrite decide_True. Qed.

Lemma plane_destroy_fold_gone ps : ∀ h a,
  planes h !! a = None →
  planes (fold_left liftoff_rpi_plane_destroy ps h) !! a = None.
Proof.
  induction ps as [|b ps IH]; intros h a Hgone; [done|]. simpl.
  apply IH. unfold liftoff_rpi_plane_destroy. simpl.
  assert (planes
            match plane_layer (get_plane h b) with
            | Some layer => upd_layer h layer (λ l, layer_with_plane l None)
            | None => h
            end = planes h) as -> by by destruct (plane_layer _).
  destruct (decide (b = a)) as [->|Hne].
  - apply lookup_delete_eq.
  - by rewrite lookup_delete_ne.
Qed.

Lemma device_destroy_fold ps : ∀ h,
  dev_planes (device h) = ps →
  (∀ l p, layer_plane (get_layer h l) = Some p →
     p ∈ ps ∧ plane_layer (get_plane h p) = Some l) →
  let h' := fold_left liftoff_rpi_plane_destroy ps h in
  dev_planes (device h') = [] ∧
  (∀ p, p ∈ ps → planes h' !! p = None) ∧
  (∀ l, layer_plane (get_layer h' l) = None) ∧
  outputs h' = outputs h ∧
  (∀ l, layer_with_plane (get_layer h' l) None
        = layer_with_plane (get_layer h l) None).
Proof.
  induction ps as [|a ps IH]; intros h Hlist Hlinked; simpl.
  { split_and!; try done.
    - intros p Hp. by apply elem_of_nil in Hp.
    - intros l. destruct (layer_plane (get_layer h l)) as [p|] eqn:E; [|done].
      destruct (Hlinked l p E) as [Hp _]. by apply elem_of_nil in Hp. }
  set (h1 := liftoff_rpi_plane_destroy h a).
  assert (Hl1 : ∀ l, get_layer h1 l
                     = if bool_decide (plane_layer (get_plane h a) = Some l)
                       then layer_with_plane (get_layer h l) None
                       else get_layer h l).
  { intros l. unfold h1, liftoff_rpi_plane_destroy.
    destruct (plane_layer (get_plane h a)) as [l0|] eqn:E.
    - change (get_layer {| device := ?d; planes := ?pp; outputs := ?os;
                           layers := layers ?hh |}) with (get_layer hh).
      rewrite get_upd_layer. case_bool_decide as Hb.
      + injection Hb as ->. by rewrite decide_True.
      + rewrite decide_False; [done|]. intros ->. by apply Hb.
    - by rewrite bool_decide_eq_false_2. }
  assert (Hp1 : ∀ p, p ≠ a → get_plane h1 p = get_plane h p).
  { intros p Hp. unfold h1, liftoff_rpi_plane_destroy, get_plane. simpl.
    rewrite lookup_total_delete_ne by done.
    by destruct (plane_layer (planes h !!! a)). }
  assert (Hd1 : dev_planes (device h1) = ps).
  { unfold h1, liftoff_rpi_plane_destroy. simpl.
    assert (dev_planes
              (device
                 match plane_layer (get_plane h a) with
                 | Some layer =>
                     upd_layer h layer (λ l, layer_with_plane l None)
                 | None => h
                 end) = a :: ps) as ->
      by by destruct (plane_layer _).
    apply liftoff_rpi_list_remove_head. }
  assert (Ho1 : outputs h1 = outputs h).
  { unfold h1, liftoff_rpi_plane_destroy. simpl.
    by destruct (plane_layer _). }
  assert (Hgone : planes h1 !! a = None).
  { unfold h1, liftoff_rpi_plane_destroy. simpl. apply lookup_delete_eq. }
  assert (Hlinked1 : ∀ l p, layer_plane (get_layer h1 l) = Some p →
            p ∈ ps ∧ plane_layer (get_plane h1 p) = Some l).
  { intros l p. rewrite Hl1. case_bool_decide as Hb; [done|].
    intros Hl. destruct (Hlinked l p Hl) as [Hin Hback].
    assert (p ≠ a) as Hne by (intros ->; by apply Hb).
    rewrite Hp1 by done. split; [|done].
    apply elem_of_cons in Hin as [->|Hin]; done. }
  destruct (IH h1 Hd1 Hlinked1) as (H1 & H2 & H3 & H4 & H5).
  split_and!; try done.
  - intros p Hp. destruct (decide (p ∈ ps)) as [Hin|Hout]; [by apply H2|].
    apply elem_of_cons in Hp as [->|Hp]; [|done].
    by apply plane_destroy_fold_gone.
  - by rewrite H4.
  - intros l. rewrite H5, Hl1. by destruct (bool_decide _).
Qed.

(** [liftoff_rpi_device_destroy] on a heap where every bound layer
    points to a plane of the device's list that points back: afterwards
    the list is empty, the planes that were in it are gone from the
    heap, every layer is unbound and otherwise as it was, and the
    outputs are as they were (outputs and layers are not destroyed with
    the device). *)
Theorem liftoff_rpi_device_destroy_spec (h : heap) :
  let h' := liftoff_rpi_device_destroy h in
  (∀ l p, layer_plane (get_layer h l) = Some p →
     p ∈ dev_planes (device h) ∧ plane_layer (get_plane h p) = Some l) →
  dev_planes (device h') = [] ∧
  (∀ p, p ∈ dev_planes (device h) → planes h' !! p = None) ∧
  (∀ l, layer_plane (get_layer h' l) = None) ∧
  outputs h' = outputs h ∧
  (∀ l, layer_with_plane (get_layer h' l) None
        = layer_with_plane (get_layer h l) None).
Proof.
  intros h' Hlinked. by apply device_destroy_fold.
Qed.

Lemma liftoff_rpi_device_destroy_spec_witness :
  (∀ l p, layer_plane (get_layer ex_heap_planes l) = Some p →
     p ∈ dev_planes (device ex_heap_planes) ∧
     plane_layer (get_plane ex_heap_planes p) = Some l) ∧
  dev_planes (device (liftoff_rpi_device_destroy ex_heap_planes)) = [] ∧
  planes (liftoff_rpi_device_destroy ex_heap_planes) !! 2%nat = None.
Proof.
  assert (H : ∀ l p, layer_plane (get_layer ex_heap_planes l) = Some p →
                p ∈ dev_planes (device ex_heap_planes) ∧
                plane_layer (get_plane ex_heap_planes p) = Some l).
  { intros l p. unfold get_layer. simpl. by rewrite lookup_total_empty. }
  split; [exact H|].
  destruct (liftoff_rpi_device_destroy_spec ex_heap_planes H)
    as (Hnil & Hgone & _).
  split; [exact Hnil|]. apply Hgone.
  change (2%nat ∈ [0%nat; 1%nat; 2%nat]). by repeat constructor.
Defined.

(** ** plane.c: what [liftoff_rpi_plane_create] builds *)

Lemma plane_create_props_fixed drm dprops : ∀ i sc sc',
  plane_create_props drm i dprops sc = Some sc' →
  plane_id (scan_plane sc') = plane_id (scan_plane sc) ∧
  possible_crtcs (scan_plane sc') = possible_crtcs (scan_plane sc) ∧
  plane_layer (scan_plane sc') = plane_layer (scan_plane sc).
Proof.
  induction dprops as [|[pid pv] rest IH]; intros i sc sc'; simpl.
  { by intros [= <-]. }
  destruct (drm_get_property drm pid) as [dp|]; [|done].
  repeat case_match; try done; intros Hrec; apply IH in Hrec;
    simplify_eq/=; done.
Qed.

(** The heap a successful [liftoff_rpi_plane_create] returns. *)
Lemma plane_create_shape drm h id ok1 ok2 ptr h' :
  liftoff_rpi_plane_create drm h id ok1 ok2 = Some (ptr, h') →
  ∃ plane dplane,
    drm_get_plane drm id = Some dplane ∧
    plane_id plane = dplane_plane_id dplane ∧
    possible_crtcs plane = dplane_possible_crtcs dplane ∧
    plane_layer plane = None ∧
    existsb (λ p, plane_id (get_plane h p) =? id) (dev_planes (device h))
    = false ∧
    ptr = fresh (dom (planes h)) ∧
    h' = {| device :=
              device_with_planes (device h)
                (liftoff_rpi_list_insert (plane_insert_position h plane) ptr
                   (dev_planes (device h)));
            planes := <[ptr := plane]> (planes h);
            outputs := outputs h; layers := layers h |}.
Proof.
  unfold liftoff_rpi_plane_create.
  destruct (existsb _ _) eqn:Edup; [done|].
  destruct ok1; simpl; [|done].
  destruct (drm_get_plane drm id) as [dplane|]; [|done].
  destruct (drm_object_get_properties drm id) as [dprops|]; [|done].
  destruct ok2; simpl; [|done].
  destruct (plane_create_props _ _ _ _) as [sc|] eqn:Eprops; [|done].
  apply plane_create_props_fixed in Eprops as (Hid & Hcrtcs & Hlayer).
  simpl in Hid, Hcrtcs, Hlayer.
  destruct (scan_has_type sc); simpl; [|done].
  intros [= <- <-].
  destruct (scan_has_zpos sc); simpl;
    (eexists _, dplane; split_and!; [| | | | | |reflexivity]; done).
Qed.

(** [liftoff_rpi_plane_create] registers no plane twice.  A plane id
    that a plane of the device's list already has is refused.  And when
    the kernel answers a query for a plane with that plane, a successful
    call keeps the plane ids of the list, and with them the addresses,
    pairwise different; the new plane has the id asked for, is unbound
    and has an address that was not in use; the list is one longer; the
    planes there were, the outputs and the layers are as they were. *)
Theorem liftoff_rpi_plane_create_distinct (drm : drm_boundary) (h : heap)
    (id : Z) (ok1 ok2 : bool) :
  (∀ i dp, drm_get_plane drm i = Some dp → dplane_plane_id dp = i) →
  (∀ q, q ∈ dev_planes (device h) → is_Some (planes h !! q)) →
  NoDup ((λ p, plane_id (get_plane h p)) <$> dev_planes (device h)) →
  match liftoff_rpi_plane_create drm h id ok1 ok2 with
  | None => True
  | Some (ptr, h') =>
      (id ∉ ((λ p, plane_id (get_plane h p)) <$> dev_planes (device h))) ∧
      planes h !! ptr = None ∧
      plane_id (get_plane h' ptr) = id ∧
      plane_layer (get_plane h' ptr) = None ∧
      (∀ q, q ∈ dev_planes (device h') ↔ q = ptr ∨ q ∈ dev_planes (device h)) ∧
      length (dev_planes (device h')) = S (length (dev_planes (device h))) ∧
      (∀ q, q ∈ dev_planes (device h') → is_Some (planes h' !! q)) ∧
      NoDup ((λ p, plane_id (get_plane h' p)) <$> dev_planes (device h')) ∧
      NoDup (dev_planes (device h')) ∧
      (∀ q, q ≠ ptr → get_plane h' q = get_plane h q) ∧
      outputs h' = outputs h ∧ layers h' = layers h
  end ∧
  (id ∈ ((λ p, plane_id (get_plane h p)) <$> dev_planes (device h)) →
   liftoff_rpi_plane_create drm h id ok1 ok2 = None).
Proof.
  intros Hdrm Hdom Hnd. split.
  2:{ intros (q & -> & Hq)%list_elem_of_fmap.
      unfold liftoff_rpi_plane_create.
      assert (existsb (λ p, plane_id (get_plane h p) =? plane_id (get_plane h q))
                (dev_planes (device h)) = true) as ->; [|done].
      apply existsb_exists. exists q. split; [by apply list_elem_of_In|].
      apply Z.eqb_refl. }
  destruct (liftoff_rpi_plane_create drm h id ok1 ok2) as [[ptr h']|] eqn:E;
    [|done].
  apply plane_create_shape in E
    as (plane & dplane & Hget & Hid & _ & Hlayer & Hdup & -> & ->).
  rewrite (Hdrm _ _ Hget) in Hid.
  set (ptr := fresh (dom (planes h))).
  assert (Hfresh : planes h !! ptr = None).
  { apply not_elem_of_dom. apply is_fresh. }
  assert (Hnew : ∀ pp, get_plane {| device := pp; planes := <[ptr := plane]> (planes h);
                              outputs := outputs h; layers := layers h |} ptr
                       = plane).
  { intros pp. unfold get_plane. simpl. by rewrite lookup_total_insert_eq. }
  assert (Hold : ∀ pp q, q ≠ ptr →
            get_plane {| device := pp; planes := <[ptr := plane]> (planes h);
                         outputs := outputs h; layers := layers h |} q
            = get_plane h q).
  { intros pp q Hq. unfold get_plane. simpl.
    by rewrite lookup_total_insert_ne. }
  assert (Hne : ∀ q, q ∈ dev_planes (device h) → q ≠ ptr).
  { intros q Hq ->. apply Hdom in Hq as [? Hq]. congruence. }
  assert (Hnotin : id ∉ ((λ p, plane_id (get_plane h p))
                           <$> dev_planes (device h))).
  { intros (q & -> & Hq)%list_elem_of_fmap.
    apply not_true_iff_false in Hdup. apply Hdup.
    apply existsb_exists. exists q. split; [by apply list_elem_of_In|].
    apply Z.eqb_refl. }
  assert (Hids : (λ p, plane_id
                    (get_plane
                       {| device :=
                            device_with_planes (device h)
                              (liftoff_rpi_list_insert
                                 (plane_insert_position h plane) ptr
                                 (dev_planes (device h)));
                          planes := <[ptr := plane]> (planes h);
                          outputs := outputs h; layers := layers h |} p))
                 <$> liftoff_rpi_list_insert (plane_insert_position h plane)
                       ptr (dev_planes (device h))
                 ≡ₚ id :: ((λ p, plane_id (get_plane h p))
                            <$> dev_planes (device h))).
  { unfold liftoff_rpi_list_insert.
    rewrite fmap_app, fmap_cons, Hnew, Hid.
    rewrite <- Permutation_middle. constructor.
    rewrite <- fmap_app, take_drop.
    match goal with |- ?a ≡ₚ ?b => assert (a = b) as ->; [|done] end.
    apply list_fmap_ext.
    intros i q Hq. simpl. rewrite Hold; [done|].
    apply Hne. by eapply list_elem_of_lookup_2. }
  assert (Hnd' : NoDup ((λ p, plane_id
                    (get_plane
                       {| device :=
                            device_with_planes (device h)
                              (liftoff_rpi_list_insert
                                 (plane_insert_position h plane) ptr
                                 (dev_planes (device h)));
                          planes := <[ptr := plane]> (planes h);
                          outputs := outputs h; layers := layers h |} p))
                 <$> liftoff_rpi_list_insert (plane_insert_position h plane)
                       ptr (dev_planes (device h)))).
  { rewrite Hids. by constructor. }
  simpl. split_and!; try done.
  - by rewrite Hnew.
  - by rewrite Hnew.
  - intros q. apply list_insert_elem_of.
  - unfold liftoff_rpi_list_insert. rewrite length_app. simpl.
    rewrite length_take, length_drop. lia.
  - intros q [->|Hq]%list_insert_elem_of.
    + rewrite lookup_insert_eq. by eexists.
    + rewrite lookup_insert_ne; [by apply Hdom|].
      intros <-. by apply (Hne ptr).
  - by eapply NoDup_fmap_1.
  - intros q Hq. by apply Hold.
Qed.

Lemma liftoff_rpi_plane_create_distinct_witness :
  (∀ i dp, drm_get_plane ex_drm i = Some dp → dplane_plane_id dp = i) ∧
  ∃ ptr h',
    liftoff_rpi_plane_create ex_drm ex_heap_empty 31 true true
    = Some (ptr, h') ∧
    plane_id (get_plane h' ptr) = 31 ∧
    NoDup (dev_planes (device h')).
Proof.
  assert (H1 : ∀ i dp, drm_get_plane ex_drm i = Some dp →
                       dplane_plane_id dp = i).
  { intros i dp. simpl. destruct (_ && _); [|done]. by intros [= <-]. }
  assert (H2 : ∀ q, q ∈ dev_planes (device ex_heap_empty) →
                    is_Some (planes ex_heap_empty !! q)).
  { intros q Hq. by apply elem_of_nil in Hq. }
  assert (H3 : NoDup ((λ p, plane_id (get_plane ex_heap_empty p))
                        <$> dev_planes (device ex_heap_empty)))
    by apply NoDup_nil_2.
  split; [exact H1|].
  destruct (liftoff_rpi_plane_create_distinct ex_drm ex_heap_empty 31
              true true H1 H2 H3) as [Hspec _].
  destruct (liftoff_rpi_plane_create ex_drm ex_heap_empty 31 true true)
    as [[ptr h']|] eqn:E; [|by vm_compute in E].
  exists ptr, h'. split; [done|].
  destruct Hspec as (_ & _ & Hid & _ & _ & _ & _ & _ & Hnd & _).
  split; [exact Hid|exact Hnd].
Defined.

(** ** device.c: registering the planes *)

Lemma list_insert_sublist {A} (pos : nat) (x : A) l :
  l `sublist_of` liftoff_rpi_list_insert pos x l.
Proof.
  unfold liftoff_rpi_list_insert. rewrite <- (take_drop pos l) at 1.
  apply sublist_app; [done|]. by apply sublist_cons.
Qed.

Lemma device_register_planes_loop_spec drm calloc_ok ids : ∀ i h,
  (∀ q, q ∈ dev_planes (device h) → is_Some (planes h !! q)) →
  planes_ordered (get_plane h <$> dev_planes (device h)) →
  let r := device_register_planes_loop drm calloc_ok i ids h in
  planes_ordered (get_plane (snd r) <$> dev_planes (device (snd r))) ∧
  dev_planes (device h) `sublist_of` dev_planes (device (snd r)) ∧
  (length (dev_planes (device (snd r)))
   ≤ length (dev_planes (device h)) + length ids)%nat ∧
  (fst r = true ↔
   length (dev_planes (device (snd r)))
   = (length (dev_planes (device h)) + length ids)%nat) ∧
  (crtcs (device (snd r)) = crtcs (device h) ∧
   planes_cap (device (snd r)) = planes_cap (device h) ∧
   dev_outputs (device (snd r)) = dev_outputs (device h) ∧
   outputs (snd r) = outputs h ∧ layers (snd r) = layers h).
Proof.
  induction ids as [|id ids IH]; intros i h Hdom Hord; simpl.
  { split_and!; try done; lia. }
  destruct (liftoff_rpi_plane_create drm h id _ _) as [[ptr h1]|] eqn:E; simpl.
  2:{ split_and!; try done; lia. }
  destruct (plane_create_ordered _ _ _ _ _ _ _ Hdom Hord E) as [Hdom1 Hord1].
  apply plane_create_shape in E as (plane & dplane & _ & _ & _ & _ & _ & _ & E).
  assert (Hlen : length (dev_planes (device h1))
                 = S (length (dev_planes (device h)))).
  { rewrite E. simpl. unfold liftoff_rpi_list_insert. rewrite length_app.
    simpl. rewrite length_take, length_drop. lia. }
  assert (Hsub : dev_planes (device h) `sublist_of` dev_planes (device h1)).
  { rewrite E. simpl. apply list_insert_sublist. }
  destruct (IH (S i) h1 Hdom1 Hord1)
    as (H1 & H2 & H3 & H4 & H5 & H6 & H7 & H8 & H9).
  split_and!; try done.
  - by etrans.
  - lia.
  - rewrite H4. lia.
  - rewrite H5, E. done.
  - rewrite H6, E. done.
  - rewrite H7, E. done.
  - rewrite H8, E. done.
  - rewrite H9, E. done.
Qed.

(** [liftoff_rpi_device_register_planes] on a device whose plane list
    is in order (primary planes first, then the others by descending
    zpos).  Whatever the outcome the list is in order afterwards and the
    planes that were in it are still there, in the same order: the
    planes created before a failure stay registered.  The return value
    is 0 or [-errno]; when [drmModeGetPlaneResources] fails nothing
    changes; when every plane is created the return value is 0; and
    provided [errno] is not 0 at the failure, a return value of 0 means
    that every plane of the list was created. *)
Theorem liftoff_rpi_device_register_planes_spec (drm : drm_boundary)
    (h : heap) (res : option (list Z)) (calloc_ok : nat → bool * bool)
    (errno : Z) :
  let r := liftoff_rpi_device_register_planes drm h res calloc_ok errno in
  let before := length (dev_planes (device h)) in
  let after := length (dev_planes (device (snd r))) in
  (∀ q, q ∈ dev_planes (device h) → is_Some (planes h !! q)) →
  planes_ordered (get_plane h <$> dev_planes (device h)) →
  planes_ordered (get_plane (snd r) <$> dev_planes (device (snd r))) ∧
  dev_planes (device h) `sublist_of` dev_planes (device (snd r)) ∧
  (fst r = 0 ∨ fst r = - errno) ∧
  (res = None → fst r = - errno ∧ snd r = h) ∧
  (∀ ids, res = Some ids →
     (after ≤ before + length ids)%nat ∧
     (after = (before + length ids)%nat → fst r = 0) ∧
     (errno ≠ 0 → fst r = 0 → after = (before + length ids)%nat)).
Proof.
  intros r before after Hdom Hord. subst after before r.
  unfold liftoff_rpi_device_register_planes.
  destruct res as [ids|]; simpl.
  2:{ split_and!; try done; by right. }
  pose proof (device_register_planes_loop_spec drm calloc_ok ids 0 h Hdom Hord)
    as (H1 & H2 & H3 & H4 & _).
  destruct (device_register_planes_loop drm calloc_ok 0 ids h) as [[|] h1];
    simpl in *.
  - split_and!; try done; [by left|]. intros ? [= <-]. split_and!; try done.
    intros _ _. by apply H4.
  - split_and!; try done; [by right|]. intros ? [= <-]. split_and!; try done.
    + intros Hall. apply H4 in Hall. done.
    + intros Herr Hret. lia.
Qed.

Lemma liftoff_rpi_device_register_planes_spec_witness :
  let r :=
    liftoff_rpi_device_register_planes ex_drm ex_heap_empty
      (Some [31; 32; 30]) (λ _, (true, true)) 12 in
  planes_ordered
    (get_plane ex_heap_empty <$> dev_planes (device ex_heap_empty)) ∧
  planes_ordered (get_plane (snd r) <$> dev_planes (device (snd r))) ∧
  (fst r = 0 ∨ fst r = - 12).
Proof.
  intros r.
  assert (H1 : ∀ q, q ∈ dev_planes (device ex_heap_empty) →
                    is_Some (planes ex_heap_empty !! q)).
  { intros q Hq. by apply elem_of_nil in Hq. }
  assert (H2 : planes_ordered
                 (get_plane ex_heap_empty
                    <$> dev_planes (device ex_heap_empty))).
  { exists [], []. by repeat constructor. }
  split; [exact H2|].
  destruct (liftoff_rpi_device_register_planes_spec ex_drm ex_heap_empty
              (Some [31; 32; 30]) (λ _, (true, true)) 12 H1 H2)
    as (Hord & _ & Hret & _).
  split; [exact Hord|exact Hret].
Defined.

(** A device fresh from [liftoff_rpi_device_create] is a valid place to
    register planes: whatever [liftoff_rpi_device_register_planes] then
    returns, the plane list is in order, holds at most one plane per id
    of the kernel's list, the device keeps the CRTC ids and the plane
    count it was created with, and no output and no layer exists. *)
Theorem liftoff_rpi_device_create_register (drm : drm_boundary)
    (calloc_ok : bool) (dup_fd : Z) (res_crtcs : option (list Z))
    (malloc_ok : bool) (pres : option nat) (h : heap)
    (ids : list Z) (plane_calloc_ok : nat → bool * bool) (errno : Z) :
  liftoff_rpi_device_create calloc_ok dup_fd res_crtcs malloc_ok pres = Some h →
  let r := liftoff_rpi_device_register_planes drm h (Some ids)
             plane_calloc_ok errno in
  calloc_ok = true ∧ 0 ≤ dup_fd ∧ malloc_ok = true ∧
  res_crtcs = Some (crtcs (device (snd r))) ∧
  pres = Some (planes_cap (device (snd r))) ∧
  planes_ordered (get_plane (snd r) <$> dev_planes (device (snd r))) ∧
  (length (dev_planes (device (snd r))) ≤ length ids)%nat ∧
  (fst r = 0 ∨ fst r = - errno) ∧
  dev_outputs (device (snd r)) = [] ∧
  outputs (snd r) = ∅ ∧ layers (snd r) = ∅.
Proof.
  unfold liftoff_rpi_device_create.
  destruct calloc_ok; simpl; [|done].
  destruct (Z.ltb_spec dup_fd 0); [done|].
  destruct res_crtcs as [cs|]; [|done].
  destruct malloc_ok; simpl; [|done].
  destruct pres as [n|]; [|done].
  intros [= <-]. unfold liftoff_rpi_device_register_planes.
  match goal with
  | |- context [device_register_planes_loop drm plane_calloc_ok 0 ids ?h0] =>
      pose proof (device_register_planes_loop_spec drm plane_calloc_ok ids 0 h0)
        as Hloop
  end.
  simpl in Hloop.
  destruct Hloop as (H1 & H2 & H3 & H4 & H5 & H6 & H7 & H8 & H9).
  { intros q Hq. by apply elem_of_nil in Hq. }
  { exists [], []. split_and!; try done; constructor. }
  destruct (device_register_planes_loop _ _ _ _ _) as [[|] h1]; simpl in *;
    split_and!; try done; try (by rewrite ?H5, ?H6); [by left|by right].
Qed.

Lemma liftoff_rpi_device_create_register_witness :
  ∃ h,
    liftoff_rpi_device_create true 3 (Some [40]) true (Some 3%nat) = Some h ∧
    let r :=
      liftoff_rpi_device_register_planes ex_drm h (Some [31; 32; 30])
        (λ _, (true, true)) 12 in
    planes_ordered (get_plane (snd r) <$> dev_planes (device (snd r))) ∧
    (length (dev_planes (device (snd r))) ≤ 3)%nat.
Proof.
  destruct (liftoff_rpi_device_create true 3 (Some [40]) true (Some 3%nat))
    as [h|] eqn:E; [|by vm_compute in E].
  exists h. split; [done|].
  destruct (liftoff_rpi_device_create_register ex_drm true 3 (Some [40]) true
              (Some 3%nat) h [31; 32; 30] (λ _, (true, true)) 12 E)
    as (_ & _ & _ & _ & _ & Hord & Hlen & _).
  split; [exact Hord|exact Hlen].
Defined.

(** ** plane.c: the property array of a new plane *)

Lemma plane_prop_index_of_name_range name :
  plane_prop_index_of_name name = -1 ∨
  1 ≤ plane_prop_index_of_name name ≤ 19.
Proof.
  unfold plane_prop_index_of_name.
  repeat (destruct (String.eqb name _); [right; by vm_compute|]).
  by left.
Qed.

Lemma plane_create_props_cons drm i pid pv rest sc sc' :
  plane_create_props drm i ((pid, pv) :: rest) sc = Some sc' →
  ∃ dp sc1,
    drm_get_property drm pid = Some dp ∧
    plane_create_props drm (S i) rest sc1 = Some sc' ∧
    plane_props (scan_plane sc1)
    = (if plane_prop_recognised dp
       then <[i := plane_prop_of dp]> (plane_props (scan_plane sc))
       else plane_props (scan_plane sc)) ∧
    plane_props_len (scan_plane sc1)
    = (if plane_prop_recognised dp
       then S (plane_props_len (scan_plane sc))
       else plane_props_len (scan_plane sc)).
Proof.
  simpl. destruct (drm_get_property drm pid) as [dp|]; [|done].
  unfold plane_prop_recognised, plane_prop_of.
  destruct (plane_prop_index_of_name (dprop_name dp) <? 0) eqn:Hx; simpl;
    repeat case_match; try done; intros Hrec;
    (eexists dp, _; split_and!; [done|exact Hrec|..]); simplify_eq/=;
    rewrite ?Hx; done.
Qed.

Lemma plane_create_props_array drm dprops : ∀ i sc sc',
  plane_create_props drm i dprops sc = Some sc' →
  (i + length dprops ≤ length (plane_props (scan_plane sc)))%nat →
  ∃ dps,
    Forall2 (λ pv dp, drm_get_property drm pv.1 = Some dp) dprops dps ∧
    length (plane_props (scan_plane sc'))
    = length (plane_props (scan_plane sc)) ∧
    plane_props_len (scan_plane sc')
    = (plane_props_len (scan_plane sc)
       + length (filter (λ dp, plane_prop_recognised dp = true) dps))%nat ∧
    (∀ k, (k < i)%nat →
       plane_props (scan_plane sc') !! k = plane_props (scan_plane sc) !! k) ∧
    (∀ j dp, dps !! j = Some dp →
       plane_props (scan_plane sc') !! (i + j)%nat
       = if plane_prop_recognised dp then Some (plane_prop_of dp)
         else plane_props (scan_plane sc) !! (i + j)%nat).
Proof.
  induction dprops as [|[pid pv] rest IH]; intros i sc sc' Hrun Hlen.
  { simpl in Hrun. injection Hrun as <-.
    exists []. split_and!; try done; try constructor; simpl; lia. }
  apply plane_create_props_cons in Hrun as (dp & sc1 & Hdp & Hrun & Hp1 & Hn1).
  simpl in Hlen.
  assert (Hlen1 : length (plane_props (scan_plane sc1))
                  = length (plane_props (scan_plane sc))).
  { rewrite Hp1. destruct (plane_prop_recognised dp); [|done].
    by rewrite length_insert. }
  destruct (IH (S i) sc1 sc' Hrun) as (dps & Hall & Hl & Hn & Hlow & Hat).
  { lia. }
  exists (dp :: dps). split_and!.
  - by constructor.
  - congruence.
  - rewrite Hn, Hn1, filter_cons. destruct (plane_prop_recognised dp) eqn:Er.
    + rewrite decide_True by done. simpl. lia.
    + rewrite decide_False by (by intros ?). lia.
  - intros k Hk. rewrite Hlow by lia. rewrite Hp1.
    destruct (plane_prop_recognised dp); [|done].
    by rewrite list_lookup_insert_ne by lia.
  - intros [|j] dp' Hj; simpl in Hj.
    + injection Hj as <-. rewrite Nat.add_0_r. rewrite Hlow by lia.
      rewrite Hp1. destruct (plane_prop_recognised dp); [|done].
      by rewrite list_lookup_insert_eq by lia.
    + replace (i + S j)%nat with (S i + j)%nat by lia.
      rewrite (Hat j dp' Hj). destruct (plane_prop_recognised dp'); [done|].
      rewrite Hp1. destruct (plane_prop_recognised dp); [|done].
      by rewrite list_lookup_insert_ne by lia.
Qed.

Lemma plane_create_props_of drm h id ok1 ok2 ptr h' :
  liftoff_rpi_plane_create drm h id ok1 ok2 = Some (ptr, h') →
  ∃ dprops dplane sc,
    drm_object_get_properties drm id = Some dprops ∧
    plane_create_props drm 0 dprops
      {| scan_plane :=
           {| plane_layer := None;
              plane_props := replicate (length dprops) property_zero;
              in_formats_blob := None; plane_props_len := 0;
              plane_id := dplane_plane_id dplane; plane_type := 0;
              possible_crtcs := dplane_possible_crtcs dplane; zpos := 0 |};
         scan_has_type := false; scan_has_zpos := false |} = Some sc ∧
    scan_has_type sc = true ∧
    plane_props (get_plane h' ptr) = plane_props (scan_plane sc) ∧
    plane_props_len (get_plane h' ptr) = plane_props_len (scan_plane sc).
Proof.
  unfold liftoff_rpi_plane_create.
  destruct (existsb _ _); [done|].
  destruct ok1; simpl; [|done].
  destruct (drm_get_plane drm id) as [dplane|]; [|done].
  destruct (drm_object_get_properties drm id) as [dprops|]; [|done].
  destruct ok2; simpl; [|done].
  destruct (plane_create_props _ _ _ _) as [sc|] eqn:Eprops; [|done].
  destruct (scan_has_type sc) eqn:Et; simpl; [|done].
  intros [= <- <-]. exists dprops, dplane, sc.
  unfold get_plane. simpl. rewrite lookup_total_insert_eq.
  by destruct (scan_has_zpos sc).
Qed.

Lemma filter_length_all {A} (P : A → Prop) `{!∀ x, Decision (P x)} (l : list A) :
  length (filter P l) = length l → Forall P l.
Proof.
  induction l as [|x l IH]; [by constructor|].
  rewrite filter_cons. destruct (decide (P x)); simpl.
  - intros [= Hl]. constructor; [done|by apply IH].
  - pose proof (length_filter P l). lia.
Qed.

(** Which properties [plane_property_get] finds on a plane fresh from
    [liftoff_rpi_plane_create].  Let the plane have the DRM properties
    [dps], in the kernel's order, [n] of them with a recognised name.
    The plane's [props_len] is [n], while the entry of a recognised
    property sits at the property's position in [dps].  So a property
    that is found is a recognised property of the plane at a position
    below [n]; when every name is recognised every property is found;
    and a recognised property at position [n] or beyond, with no
    namesake below [n], is not found. *)
Theorem liftoff_rpi_plane_create_props (drm : drm_boundary) (h : heap)
    (id : Z) (ok1 ok2 : bool) (ptr : plane_ptr) (h' : heap) :
  liftoff_rpi_plane_create drm h id ok1 ok2 = Some (ptr, h') →
  ∃ dprops dps,
    drm_object_get_properties drm id = Some dprops ∧
    Forall2 (λ pv dp, drm_get_property drm pv.1 = Some dp) dprops dps ∧
    let plane := get_plane h' ptr in
    let n := length (filter (λ dp, plane_prop_recognised dp = true) dps) in
    plane_props_len plane = n ∧
    (∀ x j e, x ≠ 0 → plane_property_get plane x = Some (j, e) →
       (j < n)%nat ∧
       ∃ dp, dps !! j = Some dp ∧ plane_prop_recognised dp = true ∧
             e = plane_prop_of dp ∧ index e = x) ∧
    (n = length dps →
     ∀ j dp, dps !! j = Some dp →
       ∃ j' e, plane_property_get plane (index (plane_prop_of dp))
               = Some (j', e) ∧
               (j' ≤ j)%nat ∧ index e = index (plane_prop_of dp)) ∧
    (∀ j dp, dps !! j = Some dp → plane_prop_recognised dp = true →
       (n ≤ j)%nat →
       (∀ j' dp', (j' < n)%nat → dps !! j' = Some dp' →
          index (plane_prop_of dp') ≠ index (plane_prop_of dp)) →
       plane_property_get plane (index (plane_prop_of dp)) = None).
Proof.
  intros Hcreate.
  apply plane_create_props_of in Hcreate
    as (dprops & dplane & sc & Hobj & Hrun & _ & Hprops & Hlen).
  apply plane_create_props_array in Hrun
    as (dps & Hall & Hl & Hn & _ & Hat);
    [|simpl; rewrite length_replicate; lia].
  simpl in Hl, Hn, Hat. rewrite length_replicate in Hl.
  pose proof (Forall2_length _ _ _ Hall) as Hlen2.
  exists dprops, dps. split_and!; [done|done|]. cbn zeta.
  set (n := length (filter (λ dp, plane_prop_recognised dp = true) dps)) in *.
  assert (Hslot : ∀ j dp, dps !! j = Some dp →
            plane_props (get_plane h' ptr) !! j
            = Some (if plane_prop_recognised dp then plane_prop_of dp
                    else property_zero)).
  { intros j dp Hj. rewrite Hprops, (Hat j dp Hj).
    destruct (plane_prop_recognised dp); [done|].
    apply lookup_replicate_2. apply lookup_lt_Some in Hj. lia. }
  assert (Hrec : ∀ dp, plane_prop_recognised dp = true →
            1 ≤ index (plane_prop_of dp)).
  { intros dp. unfold plane_prop_recognised. simpl.
    destruct (plane_prop_index_of_name_range (dprop_name dp)) as [->|?];
      [done|lia]. }
  unfold plane_property_get. rewrite Hlen, Hn. simpl. fold n.
  split_and!; [done|..].
  - intros x j e Hx (Hj & He & _)%list_find_Some.
    apply lookup_take_Some in Hj as [Hj Hjn]. split; [done|].
    destruct (dps !! j) as [dp|] eqn:Ed.
    2:{ apply lookup_ge_None in Ed. apply lookup_lt_Some in Hj.
        rewrite Hprops, Hl in Hj. lia. }
    rewrite (Hslot j dp Ed) in Hj. injection Hj as <-.
    exists dp. destruct (plane_prop_recognised dp); [done|].
    simpl in He. congruence.
  - intros Hfull j dp Hj.
    assert (Hr : plane_prop_recognised dp = true).
    { apply filter_length_all in Hfull. rewrite Forall_forall in Hfull.
      apply Hfull. by eapply list_elem_of_lookup_2. }
    pose proof (Hslot j dp Hj) as Hs. rewrite Hr in Hs.
    destruct (list_find (λ p, index p = index (plane_prop_of dp))
                (take n (plane_props (get_plane h' ptr))))
      as [[j' e]|] eqn:Ef.
    + exists j', e. pose proof Ef as (Hj' & He & Hmin)%list_find_Some.
      split_and!; [exact Ef| |exact He].
      destruct (decide (j' ≤ j)%nat); [done|]. exfalso.
      apply (Hmin j (plane_prop_of dp)); [|lia|done].
      rewrite lookup_take_lt; [done|]. apply lookup_lt_Some in Hj. lia.
    + exfalso. rewrite list_find_None, Forall_forall in Ef.
      apply (Ef (plane_prop_of dp)); [|done].
      apply (list_elem_of_lookup_2 _ j).
      rewrite lookup_take_lt; [done|]. apply lookup_lt_Some in Hj. lia.
  - intros j dp Hj Hr Hbeyond Hnames.
    apply list_find_None, Forall_forall. intros e He Hidx.
    apply list_elem_of_lookup in He as [k Hk].
    apply lookup_take_Some in Hk as [Hk Hkn].
    destruct (dps !! k) as [dp'|] eqn:Ed.
    2:{ apply lookup_ge_None in Ed.
        pose proof (length_filter (λ dp, plane_prop_recognised dp = true) dps).
        unfold n in *. lia. }
    rewrite (Hslot k dp' Ed) in Hk. injection Hk as <-.
    destruct (plane_prop_recognised dp') eqn:Er.
    + by apply (Hnames k dp').
    + specialize (Hrec dp Hr). simpl in Hidx, Hrec. lia.
Qed.

Lemma liftoff_rpi_plane_create_props_witness :
  ∃ ptr h',
    liftoff_rpi_plane_create ex_drm ex_heap_empty 31 true true
    = Some (ptr, h') ∧
    ∃ dprops dps,
      drm_object_get_properties ex_drm 31 = Some dprops ∧
      Forall2 (λ pv dp, drm_get_property ex_drm pv.1 = Some dp) dprops dps ∧
      plane_props_len (get_plane h' ptr)
      = length (filter (λ dp, plane_prop_recognised dp = true) dps).
Proof.
  destruct (liftoff_rpi_plane_create ex_drm ex_heap_empty 31 true true)
    as [[ptr h']|] eqn:E; [|by vm_compute in E].
  exists ptr, h'. split; [done|].
  destruct (liftoff_rpi_plane_create_props ex_drm ex_heap_empty 31 true true
              ptr h' E) as (dprops & dps & Hd & Hf & Hlen & _).
  exists dprops, dps. split; [exact Hd|]. split; [exact Hf|exact Hlen].
Defined.

(** ** device.c: the test commit *)

Lemma testbit_uint32_clear_bit0 n :
  0 ≤ n →
  Z.testbit (to_uint32 (Z.lnot DRM_MODE_PAGE_FLIP_EVENT)) n
  = (0 <? n) && (n <? 32).
Proof.
  intros Hn.
  change (to_uint32 (Z.lnot DRM_MODE_PAGE_FLIP_EVENT))
    with (Z.shiftl (Z.ones 31) 1).
  destruct (Z.ltb_spec 0 n) as [Hpos|Hzero]; simpl.
  - rewrite Z.shiftl_spec by lia.
    destruct (Z.ltb_spec n 32).
    + apply Z.ones_spec_low. lia.
    + apply Z.ones_spec_high. lia.
  - assert (n = 0) as -> by lia. done.
Qed.

Lemma commit_transient_test ret :
  (ret =? - EINTR) || (ret =? - EAGAIN) = true ↔ commit_transient ret.
Proof.
  unfold commit_transient. rewrite orb_true_iff, !Z.eqb_eq. done.
Qed.

Lemma drm_commit_retry_first drm rq f fuel : ∀ start n,
  (start ≤ n ≤ start + fuel)%nat →
  (∀ k, (start ≤ k < n)%nat →
     commit_transient (drm_atomic_commit drm rq f k)) →
  ¬ commit_transient (drm_atomic_commit drm rq f n) →
  drm_commit_retry drm rq f fuel start = drm_atomic_commit drm rq f n.
Proof.
  induction fuel as [|fuel IH]; intros start n Hn Hbefore Hlast; simpl.
  { by assert (n = start) as -> by lia. }
  destruct ((_ =? _) || (_ =? _)) eqn:Et.
  - apply commit_transient_test in Et.
    destruct (decide (n = start)) as [->|Hne]; [done|].
    apply IH; [lia| |done]. intros k Hk. apply Hbefore. lia.
  - destruct (decide (n = start)) as [->|Hne]; [done|].
    exfalso. apply not_true_iff_false in Et. apply Et.
    apply commit_transient_test, Hbefore. lia.
Qed.

(** [device_test_commit] counts the commit and asks the kernel with
    flags that always have [DRM_MODE_ATOMIC_TEST_ONLY] and never have
    [DRM_MODE_PAGE_FLIP_EVENT]; every other bit is the caller's.  It
    asks again for as long as the kernel answers [-EINTR] or [-EAGAIN]:
    what it returns is the first other answer (when that comes within
    the repetitions the model follows).  Of the heap only
    [test_commit_counter] changes, by one. *)
Theorem device_test_commit_flags (drm : drm_boundary) (h : heap)
    (rq : drmModeAtomicReq) (fl : Z) :
  0 ≤ fl < 2 ^ 32 →
  let r := device_test_commit drm h rq fl in
  ∃ f,
    Z.land f DRM_MODE_ATOMIC_TEST_ONLY = DRM_MODE_ATOMIC_TEST_ONLY ∧
    Z.land f DRM_MODE_PAGE_FLIP_EVENT = 0 ∧
    (∀ n, 0 < n → n ≠ 8 → Z.testbit f n = Z.testbit fl n) ∧
    (∀ n, (n ≤ drm_commit_retries drm)%nat →
       (∀ k, (k < n)%nat →
          commit_transient (drm_atomic_commit drm rq f k)) →
       ¬ commit_transient (drm_atomic_commit drm rq f n) →
       fst r = drm_atomic_commit drm rq f n) ∧
    test_commit_counter (device (snd r))
    = test_commit_counter (device h) + 1 ∧
    heap_but_test_commit_counter h (snd r).
Proof.
  intros Hfl r. unfold r, device_test_commit. cbn [fst snd].
  set (f := Z.lor _ _). exists f.
  assert (Hbits : ∀ n, 0 ≤ n →
            Z.testbit f n = (n =? 8) || (Z.testbit fl n && (0 <? n))).
  { intros n Hn. unfold f.
    rewrite Z.lor_spec, Z.land_spec, testbit_uint32_clear_bit0 by done.
    change DRM_MODE_ATOMIC_TEST_ONLY with (2 ^ 8).
    rewrite Z.pow2_bits_eqb by lia. rewrite (Z.eqb_sym 8 n). f_equal.
    destruct (Z.ltb_spec n 32); [by rewrite andb_true_r|].
    rewrite andb_false_r, andb_false_r.
    assert (Z.testbit fl n = false) as ->; [|done].
    destruct (decide (fl = 0)) as [->|]; [apply Z.bits_0|].
    apply Z.bits_above_log2; [lia|].
    assert (Z.log2 fl < 32); [|lia]. apply Z.log2_lt_pow2; lia. }
  split_and!.
  - apply Z.bits_inj'. intros n Hn.
    rewrite Z.land_spec, Hbits by done.
    change DRM_MODE_ATOMIC_TEST_ONLY with (2 ^ 8).
    rewrite Z.pow2_bits_eqb by lia. rewrite (Z.eqb_sym 8 n).
    destruct (n =? 8); [done|]. by rewrite andb_false_r.
  - apply Z.bits_inj'. intros n Hn.
    rewrite Z.land_spec, Hbits, Z.bits_0 by done.
    change DRM_MODE_PAGE_FLIP_EVENT with (2 ^ 0).
    rewrite Z.pow2_bits_eqb by lia.
    destruct (Z.eqb_spec 0 n) as [<-|Hne]; [|by rewrite andb_false_r].
    simpl. by rewrite andb_false_r.
  - intros n Hn Hn8. rewrite Hbits by lia.
    rewrite (proj2 (Z.eqb_neq n 8)) by done.
    rewrite (proj2 (Z.ltb_lt 0 n)) by done. simpl. by rewrite andb_true_r.
  - intros n Hn Hbefore Hlast.
    apply drm_commit_retry_first; [lia| |done].
    intros k Hk. apply Hbefore. lia.
  - done.
  - by split_and!.
Qed.

Lemma device_test_commit_flags_witness :
  let r :=
    device_test_commit ex_drm_interrupted ex_heap_empty []
      DRM_MODE_PAGE_FLIP_EVENT in
  0 ≤ DRM_MODE_PAGE_FLIP_EVENT < 2 ^ 32 ∧
  fst r = 0 ∧
  test_commit_counter (device (snd r)) = 1 ∧
  heap_but_test_commit_counter ex_heap_empty (snd r).
Proof.
  assert (H : 0 ≤ DRM_MODE_PAGE_FLIP_EVENT < 2 ^ 32) by by vm_compute.
  intros r.
  destruct (device_test_commit_flags ex_drm_interrupted ex_heap_empty []
              DRM_MODE_PAGE_FLIP_EVENT H)
    as (f & _ & _ & _ & Hret & Hcount & Hframe).
  split; [exact H|]. split; [|split; [exact Hcount|exact Hframe]].
  unfold r. rewrite (Hret 2%nat).
  - reflexivity.
  - vm_compute. lia.
  - intros k Hk. assert (k = 0%nat ∨ k = 1%nat) as [-> | ->] by lia.
    + by left.
    + by right.
  - intros [Ht|Ht]; vm_compute in Ht; discriminate.
Defined.

(** ** plane.c and alloc.c: what is staged in the request *)

Lemma plane_property_set_item drm plane rq pid v rq' :
  plane_property_set drm plane rq pid v = (0, rq') →
  rq' = rq ++ [plane_item plane pid v].
Proof.
  unfold plane_property_set, drmModeAtomicAddProperty.
  destruct (drm_atomic_add_property drm rq (plane_id plane) pid v <? 0) eqn:E.
  - rewrite E. intros [= Hret _]. apply Z.ltb_lt in E. lia.
  - rewrite E. by intros [= <-].
Qed.

Lemma plane_prop_set_item drm plane rq idx v rq' :
  plane_prop_set drm plane rq idx v = (0, rq') →
  ∃ i prop, plane_property_get plane idx = Some (i, prop) ∧
            rq' = rq ++ [plane_item plane (id prop) v].
Proof.
  unfold plane_prop_set.
  destruct (plane_property_get plane idx) as [[i prop]|]; [|done].
  destruct (dprop_immutable _); [done|].
  destruct (Z.eqb_spec (plane_prop_check (dprop prop) v) 0) as [He|Hne]; simpl.
  - intros Hset%plane_property_set_item. by exists i, prop.
  - intros [= Hret _]. done.
Qed.

Lemma plane_apply_props_items drm plane c lprops : ∀ rq rq',
  plane_apply_props drm plane c lprops rq = (0, rq') →
  rq' = rq ++ plane_layer_items plane lprops.
Proof.
  induction lprops as [|lprop rest IH]; intros rq rq'; simpl.
  { intros [= <-]. by rewrite app_nil_r. }
  unfold plane_layer_items. simpl. fold (plane_layer_items plane rest).
  destruct (index lprop =? LIFTOFF_RPI_PROP_ZPOS); [by apply IH|].
  destruct (plane_property_get plane (index lprop)) as [[i pprop]|]; simpl.
  - destruct (plane_property_set drm plane rq (id pprop) (value lprop))
      as [ret1 rq1] eqn:E.
    destruct (Z.eqb_spec ret1 0) as [->|Hne]; simpl.
    + apply plane_property_set_item in E as ->. intros ->%IH.
      by rewrite <- app_assoc.
    + intros [= Hret _]. done.
  - destruct (_ || _); [by apply IH|]. by intros [=].
Qed.

Lemma plane_apply_items (drm : drm_boundary) (plane : liftoff_rpi_plane)
    (layer : option liftoff_rpi_layer) (layer_crtc_id : Z)
    (rq : drmModeAtomicReq) :
  let r := plane_apply_with drm plane layer layer_crtc_id rq in
  (fst r = 0 →
   ∃ items, plane_staged_items plane layer layer_crtc_id = Some items ∧
            snd r = rq ++ items) ∧
  (fst r ≠ 0 → is_Some layer → snd r = rq) ∧
  (fst r ≠ 0 →
   take (length rq) (snd r) = rq ∧ (length (snd r) ≤ S (length rq))%nat).
Proof.
  intros r. unfold r, plane_apply_with, plane_staged_items.
  destruct layer as [layer|].
  - destruct (plane_prop_set drm plane rq LIFTOFF_RPI_PROP_CRTC_ID
                layer_crtc_id) as [ret1 rq1] eqn:E1.
    destruct (Z.eqb_spec ret1 0) as [->|Hne]; simpl.
    + apply plane_prop_set_item in E1 as (i & crtc & -> & ->).
      destruct (plane_apply_props _ _ _ _ _) as [ret2 rq2] eqn:E2. simpl.
      pose proof E2 as [Hfail _]%plane_apply_props_req;
        [|unfold drmModeAtomicGetCursor; rewrite length_app; lia].
      unfold drmModeAtomicGetCursor in Hfail.
      rewrite take_app_length in Hfail.
      split_and!.
      * intros ->. apply plane_apply_props_items in E2 as ->.
        eexists. split; [done|]. by rewrite <- app_assoc.
      * intros Hret _. by apply Hfail.
      * intros Hret. rewrite (Hfail Hret), take_ge by done. split; [done|lia].
    + apply plane_prop_set_req in E1 as [[_ ->]|[? _]]; [|done].
      split_and!; try done. intros _. rewrite take_ge by done. split; [done|lia].
  - destruct (plane_prop_set drm plane rq LIFTOFF_RPI_PROP_FB_ID 0)
      as [ret1 rq1] eqn:E1.
    destruct (Z.eqb_spec ret1 0) as [->|Hne]; simpl.
    + apply plane_prop_set_item in E1 as (i & fb & -> & ->).
      destruct (plane_prop_set drm plane _ LIFTOFF_RPI_PROP_CRTC_ID 0)
        as [ret2 rq2] eqn:E2. simpl.
      split_and!.
      * intros ->. apply plane_prop_set_item in E2 as (j & crtc & -> & ->).
        eexists. split; [done|]. by rewrite <- app_assoc.
      * by intros _ [? ?].
      * intros Hret.
        apply plane_prop_set_req in E2 as [[_ ->]|[? _]]; [|done].
        rewrite take_app_length, length_app. simpl. split; [done|lia].
    + apply plane_prop_set_req in E1 as [[_ ->]|[? _]]; [|done].
      split_and!; try done.
      intros _. rewrite take_ge by done. split; [done|lia].
Qed.

(** [plane_apply] either stages what the plane's properties and the
    layer say and returns 0, or fails and, for a layer, leaves the
    request as it found it; for no layer a failure leaves at most the
    one item it had already added.  It never stages [ZPOS] and never
    touches what the request held. *)
Theorem plane_apply_staged (drm : drm_boundary) (plane : liftoff_rpi_plane)
    (layer : option liftoff_rpi_layer) (layer_crtc_id : Z)
    (rq : drmModeAtomicReq) :
  let r := plane_apply_with drm plane layer layer_crtc_id rq in
  (fst r = 0 →
   ∃ items, plane_staged_items plane layer layer_crtc_id = Some items ∧
            snd r = rq ++ items) ∧
  (fst r ≠ 0 → is_Some layer → snd r = rq) ∧
  (fst r ≠ 0 →
   take (length rq) (snd r) = rq ∧ (length (snd r) ≤ S (length rq))%nat).
Proof.
  intros r. unfold r, plane_apply_with, plane_staged_items.
  destruct layer as [layer|].
  - destruct (plane_prop_set drm plane rq LIFTOFF_RPI_PROP_CRTC_ID
                layer_crtc_id) as [ret1 rq1] eqn:E1.
    destruct (Z.eqb_spec ret1 0) as [->|Hne]; simpl.
    + apply plane_prop_set_item in E1 as (i & crtc & -> & ->).
      destruct (plane_apply_props _ _ _ _ _) as [ret2 rq2] eqn:E2. simpl.
      pose proof E2 as [Hfail _]%plane_apply_props_req;
        [|unfold drmModeAtomicGetCursor; rewrite length_app; lia].
      unfold drmModeAtomicGetCursor in Hfail.
      rewrite take_app_length in Hfail.
      split_and!.
      * intros ->. apply plane_apply_props_items in E2 as ->.
        eexists. split; [done|]. by rewrite <- app_assoc.
      * intros Hret _. by apply Hfail.
      * intros Hret. rewrite (Hfail Hret), take_ge by done. split; [done|lia].
    + apply plane_prop_set_req in E1 as [[_ ->]|[? _]]; [|done].
      split_and!; try done. intros _. rewrite take_ge by done. split; [done|lia].
  - destruct (plane_prop_set drm plane rq LIFTOFF_RPI_PROP_FB_ID 0)
      as [ret1 rq1] eqn:E1.
    destruct (Z.eqb_spec ret1 0) as [->|Hne]; simpl.
    + apply plane_prop_set_item in E1 as (i & fb & -> & ->).
      destruct (plane_prop_set drm plane _ LIFTOFF_RPI_PROP_CRTC_ID 0)
        as [ret2 rq2] eqn:E2. simpl.
      split_and!.
      * intros ->. apply plane_prop_set_item in E2 as (j & crtc & -> & ->).
        eexists. split; [done|]. by rewrite <- app_assoc.
      * by intros _ [? ?].
      * intros Hret.
        apply plane_prop_set_req in E2 as [[_ ->]|[? _]]; [|done].
        rewrite take_app_length, length_app. simpl. split; [done|lia].
    + apply plane_prop_set_req in E1 as [[_ ->]|[? _]]; [|done].
      split_and!; try done.
      intros _. rewrite take_ge by done. split; [done|lia].
Qed.

Lemma plane_apply_heap_staged drm h plane rq :
  let r := plane_apply drm h plane (plane_layer (get_plane h plane)) rq in
  (fst r = 0 →
   ∃ items, heap_staged_items h plane = Some items ∧ snd r = rq ++ items) ∧
  (fst r ≠ 0 → take (length rq) (snd r) = rq).
Proof.
  unfold plane_apply, heap_staged_items. cbn zeta.
  destruct (plane_apply_items drm (get_plane h plane)
              (get_layer h <$> plane_layer (get_plane h plane))
              (match plane_layer (get_plane h plane) with
               | Some l => crtc_id (get_output h (layer_output (get_layer h l)))
               | None => 0
               end) rq) as (Hok & _ & Hfail).
  split; [exact Hok|]. intros Hret. by apply Hfail.
Qed.

Lemma apply_current_loop drm h rq ps : ∀ acc,
  match list_for_each
          (λ plane rq0,
             let '(ret, rq') :=
               plane_apply drm h plane (plane_layer (get_plane h plane)) rq0 in
             if negb (ret =? 0)
             then Return ret (drmModeAtomicSetCursor rq' (length rq))
             else Continue rq')
          ps (rq ++ acc) with
  | Continue rq' =>
      ∃ per, mapM (heap_staged_items h) ps = Some per ∧
             rq' = rq ++ acc ++ concat per
  | Return ret rq' => ret ≠ 0 ∧ rq' = rq
  end.
Proof.
  induction ps as [|a ps IH]; intros acc; simpl.
  { exists []. by rewrite app_nil_r. }
  destruct (plane_apply_heap_staged drm h a (rq ++ acc)) as [Hok Hfail].
  destruct (plane_apply drm h a _ _) as [ret rq1]. simpl in Hok, Hfail.
  destruct (Z.eqb_spec ret 0) as [->|Hne]; simpl.
  - destruct (Hok eq_refl) as (items & Hitems & ->).
    specialize (IH (acc ++ items)). rewrite app_assoc in IH.
    rewrite <- (app_assoc rq) in *.
    destruct (list_for_each _ ps _) as [rq'|ret rq']; [|done].
    destruct IH as (per & Hper & ->).
    exists (items :: per). rewrite Hitems. simpl. rewrite Hper. simpl.
    split; [done|]. by rewrite <- !app_assoc.
  - split; [done|]. unfold drmModeAtomicSetCursor.
    specialize (Hfail Hne).
    assert (take (length rq) rq1
            = take (length rq) (take (length (rq ++ acc)) rq1)) as ->.
    { rewrite take_take, length_app. f_equal. lia. }
    rewrite Hfail. apply take_app_length.
Qed.

Lemma apply_current_items (drm : drm_boundary) (h : heap)
    (rq : drmModeAtomicReq) :
  let r := apply_current drm h rq in
  (fst r = 0 →
   ∃ items, current_items h = Some items ∧ snd r = rq ++ items) ∧
  (fst r ≠ 0 → snd r = rq).
Proof.
  unfold apply_current, current_items, drmModeAtomicGetCursor. cbn zeta.
  pose proof (apply_current_loop drm h rq (dev_planes (device h)) []) as Hloop.
  rewrite app_nil_r in Hloop.
  destruct (list_for_each _ _ rq) as [rq'|ret rq']; simpl.
  - destruct Hloop as (per & -> & ->). split; [|done].
    intros _. by eexists.
  - destruct Hloop as [Hne ->]. done.
Qed.

(** [apply_current] either stages, plane after plane of the device's
    list, what [plane_apply] stages for the layer each plane is bound
    to, and returns 0; or fails and leaves the request as it found
    it. *)
Theorem apply_current_staged (drm : drm_boundary) (h : heap)
    (rq : drmModeAtomicReq) :
  let r := apply_current drm h rq in
  (fst r = 0 →
   ∃ items, current_items h = Some items ∧ snd r = rq ++ items) ∧
  (fst r ≠ 0 → snd r = rq).
Proof.
  unfold apply_current, current_items, drmModeAtomicGetCursor. cbn zeta.
  pose proof (apply_current_loop drm h rq (dev_planes (device h)) []) as Hloop.
  rewrite app_nil_r in Hloop.
  destruct (list_for_each _ _ rq) as [rq'|ret rq']; simpl.
  - destruct Hloop as (per & -> & ->). split; [|done].
    intros _. by eexists.
  - destruct Hloop as [Hne ->]. done.
Qed.

Lemma reuse_prev_alloc_outcome (drm : drm_boundary) (h : heap)
    (output : output_ptr) (rq : drmModeAtomicReq) (fl : Z) :
  let r := reuse_prev_alloc drm h output rq fl in
  heap_sim h (snd (fst r)) ∧
  (reuse_prev_alloc_guard h output = false →
   r = (- EINVAL, h, rq)) ∧
  (fst (fst r) ≠ 0 → snd r = rq) ∧
  (fst (fst r) = 0 →
   reuse_prev_alloc_guard h output = true ∧
   ∃ items, current_items h = Some items ∧ snd r = rq ++ items).
Proof.
  unfold reuse_prev_alloc. cbn zeta.
  destruct (reuse_prev_alloc_guard h output); cbn [negb fst snd].
  2:{ split_and!; try done; apply heap_sim_refl. }
  destruct (apply_current_items drm h rq) as [Hok Hfail].
  destruct (apply_current drm h rq) as [ret rq1]. cbn [fst snd] in Hok, Hfail.
  destruct (Z.eqb_spec ret 0) as [->|Hne]; cbn [negb fst snd].
  2:{ split_and!; try done; try apply heap_sim_refl; intros _; by apply Hfail. }
  destruct (Hok eq_refl) as (items & Hitems & ->).
  pose proof (device_test_commit_sim drm h (rq ++ items) fl) as Hsim.
  destruct (device_test_commit drm h (rq ++ items) fl) as [ret2 h2].
  cbn [fst snd] in Hsim.
  destruct (Z.eqb_spec ret2 0) as [->|Hne]; cbn [negb fst snd].
  - split_and!; try done. intros _. split; [done|]. by exists items.
  - split_and!; try done. intros _. unfold drmModeAtomicGetCursor,
      drmModeAtomicSetCursor. by rewrite take_app_length.
Qed.

Lemma device_test_commit_frame drm h rq fl :
  heap_but_test_commit_counter h (snd (device_test_commit drm h rq fl)) ∧
  test_commit_counter (device (snd (device_test_commit drm h rq fl)))
  = test_commit_counter (device h) + 1.
Proof. unfold device_test_commit. cbn [snd]. by split_and!. Qed.

(** [reuse_prev_alloc] writes nothing to the heap but the device's
    [test_commit_counter], which it leaves as it is or raises by one:
    the planes, the outputs, the layers and every other field of the
    device are the same.  When it fails the request is as it was; it
    fails at once, with the heap untouched, when its guard refuses.
    When it returns 0 the guard holds, one test commit was counted and
    the request has gained exactly what [apply_current] stages for the
    bindings there are. *)
Theorem reuse_prev_alloc_staged (drm : drm_boundary) (h : heap)
    (output : output_ptr) (rq : drmModeAtomicReq) (fl : Z) :
  let r := reuse_prev_alloc drm h output rq fl in
  let h' := snd (fst r) in
  heap_but_test_commit_counter h h' ∧
  (test_commit_counter (device h') = test_commit_counter (device h) ∨
   test_commit_counter (device h') = test_commit_counter (device h) + 1) ∧
  (reuse_prev_alloc_guard h output = false →
   r = (- EINVAL, h, rq)) ∧
  (fst (fst r) ≠ 0 → snd r = rq) ∧
  (fst (fst r) = 0 →
   reuse_prev_alloc_guard h output = true ∧
   test_commit_counter (device h') = test_commit_counter (device h) + 1 ∧
   ∃ items, current_items h = Some items ∧ snd r = rq ++ items).
Proof.
  assert (Hrefl : heap_but_test_commit_counter h h) by by split_and!.
  unfold reuse_prev_alloc. cbn zeta.
  destruct (reuse_prev_alloc_guard h output); cbn [negb fst snd].
  2:{ split_and!; try done. by left. }
  destruct (apply_current_items drm h rq) as [Hok Hfail].
  destruct (apply_current drm h rq) as [ret rq1]. cbn [fst snd] in Hok, Hfail.
  destruct (Z.eqb_spec ret 0) as [->|Hne]; cbn [negb fst snd].
  2:{ split_and!; try done; try (by left); try (intros _; by apply Hfail). }
  destruct (Hok eq_refl) as (items & Hitems & ->).
  pose proof (device_test_commit_frame drm h (rq ++ items) fl)
    as [Hframe Hcount].
  destruct (device_test_commit drm h (rq ++ items) fl) as [ret2 h2].
  cbn [fst snd] in Hframe, Hcount.
  destruct (Z.eqb_spec ret2 0) as [->|Hne]; cbn [negb fst snd].
  - split_and!; try done; try (by right).
    intros _. split_and!; [done|done|]. by exists items.
  - split_and!; try done; try (by right).
    intros _. unfold drmModeAtomicGetCursor, drmModeAtomicSetCursor.
    by rewrite take_app_length.
Qed.

(** ** alloc.c: the two ways [liftoff_rpi_output_apply] returns 0 *)

Lemma output_disable_planes_return drm h rq ret rq' :
  output_disable_planes drm h rq = Return ret rq' → ret ≠ 0.
Proof.
  intros Ed. apply list_for_each_return in Ed as (plane & rq0 & _ & Ebody).
  destruct (bool_decide _); [|done].
  destruct (plane_apply _ _ _ _ _) as [r rq1].
  destruct (Z.eqb_spec r 0); simpl in Ebody; [done|].
  injection Ebody as ? ?. congruence.
Qed.

Lemma output_apply_ok drm h output rq fl malloc_ok h' rq' :
  liftoff_rpi_output_apply drm h output rq fl malloc_ok = (0, h', rq') →
  let h2 := layers_fb_info_update drm (layers_priority_update h) output in
  (∃ h3, reuse_prev_alloc drm h2 output rq fl = (0, h3, rq') ∧
         h' = log_reuse h3 output) ∨
  (∃ ret h3 rq3 rq8 m,
     reuse_prev_alloc drm h2 output rq fl = (ret, h3, rq3) ∧ ret ≠ 0 ∧
     output_disable_planes drm (output_apply_prepared h3 output) rq3
     = Continue rq8 ∧
     malloc_ok = true ∧
     output_layers_choose drm output
       (dev_planes (device (output_apply_prepared h3 output)))
       alloc_step_first
       (alloc_mem_first (output_apply_prepared h3 output) output rq8 fl)
     = (0, m) ∧
     apply_current drm (output_install_best (mem_heap m) (best (mem_result m)))
       (req (mem_result m)) = (0, rq') ∧
     h' = layers_mark_clean
            (output_install_best (mem_heap m) (best (mem_result m))) output).
Proof.
  unfold liftoff_rpi_output_apply. intros Happly.
  set (h2 := layers_fb_info_update drm (layers_priority_update h) output) in *.
  destruct (reuse_prev_alloc drm h2 output rq fl) as [[ret h3] rq3] eqn:Er.
  destruct (Z.eqb_spec ret 0) as [->|Hret].
  { injection Happly as <- <-. left. by exists h3. }
  right. fold (output_apply_prepared h3 output) in Happly.
  destruct (output_disable_planes drm _ rq3) as [rq8|ret8 rq8] eqn:Ed.
  2:{ apply output_disable_planes_return in Ed.
      injection Happly as -> _ _. done. }
  destruct malloc_ok; cbn [negb] in Happly; [|done].
  destruct (output_layers_choose _ _ _ _ _) as [ret9 m] eqn:Es.
  destruct (Z.eqb_spec ret9 0) as [->|Hne]; cbn [negb] in Happly;
    [|injection Happly as ? _ _; congruence].
  destruct (apply_current _ _ _) as [ret10 rq10] eqn:Ec.
  destruct (Z.eqb_spec ret10 0) as [->|Hne]; cbn [negb] in Happly;
    [|injection Happly as ? _ _; congruence].
  injection Happly as <- <-.
  by exists ret, h3, rq3, rq8, m.
Qed.

(** ** alloc.c: the request after a successful apply *)













(** ** alloc.c: applying twice *)

Lemma layer_cache_fresh drm l :
  layer_cache_fb_info drm (layer_with_fb_info l drmModeFB2_zero)
  = layer_with_fb_info l (fb_info_of drm (layer_props l)).
Proof.
  unfold layer_cache_fb_info, fb_info_of, layer_property_get. simpl.
  destruct (list_find _ (layer_props l)) as [[i p]|]; [|done].
  destruct (Z.eqb_spec (value p) 0) as [Hz|Hnz]; [done|].
  destruct (value p); [done| |]; by destruct (drm_get_fb2 drm _).
Qed.

Lemma fold_upd_layer_idem (f : liftoff_rpi_layer → liftoff_rpi_layer) ls :
  (∀ x, f (f x) = f x) →
  ∀ h l,
    get_layer (fold_left (λ h layer, upd_layer h layer f) ls h) l
    = if decide (l ∈ ls) then f (get_layer h l) else get_layer h l.
Proof.
  intros Hidem. induction ls as [|a ls IH]; intros h l; simpl.
  { destruct (decide (l ∈ [])) as [Hin|]; [|done].
    by apply not_elem_of_nil in Hin. }
  rewrite IH, get_upd_layer.
  destruct (decide (l ∈ ls)) as [Hin|Hout],
           (decide (l ∈ a :: ls)) as [Hin'|Hout'],
           (decide (a = l)) as [->|Hne]; try done.
  all: try (by rewrite Hidem).
  all: try (exfalso; apply Hout'; by (left || right)).
  apply elem_of_cons in Hin' as [->|?]; done.
Qed.

Lemma fold_upd_layer_outputs (f : liftoff_rpi_layer → liftoff_rpi_layer) ls :
  ∀ h, outputs (fold_left (λ h layer, upd_layer h layer f) ls h) = outputs h.
Proof. induction ls as [|a ls IH]; intros h; [done|]. simpl. by rewrite IH. Qed.

Lemma layers_fb_info_update_layer drm h output l :
  get_layer (layers_fb_info_update drm h output) l
  = if decide (l ∈ output_layers (get_output h output))
    then layer_with_fb_info (get_layer h l)
           (fb_info_of drm (layer_props (get_layer h l)))
    else get_layer h l.
Proof.
  unfold layers_fb_info_update.
  rewrite (fold_upd_layer_idem
             (λ l, layer_cache_fb_info drm
                     (layer_with_fb_info l drmModeFB2_zero))).
  - by rewrite layer_cache_fresh.
  - intros x. by rewrite !layer_cache_fresh.
Qed.

Lemma layers_fb_info_update_outputs drm h output :
  outputs (layers_fb_info_update drm h output) = outputs h.
Proof. apply fold_upd_layer_outputs. Qed.

Lemma guard_same_refl h : guard_same h h.
Proof. by split. Qed.

Lemma guard_same_trans h1 h2 h3 :
  guard_same h1 h2 → guard_same h2 h3 → guard_same h1 h3.
Proof.
  intros [A1 B1] [A2 B2]. split.
  - intros o. by rewrite A1.
  - intros l. by rewrite B1.
Qed.

Lemma guard_same_upd_layer h l f :
  (∀ x, layer_guard_view (f x) = layer_guard_view x) →
  guard_same h (upd_layer h l f).
Proof.
  intros Hf. split; [done|]. intros l'. rewrite get_upd_layer.
  destruct (decide (l = l')) as [->|]; by rewrite ?Hf.
Qed.

Lemma guard_same_upd_output h o f :
  (∀ x, output_layers (f x) = output_layers x) →
  guard_same h (upd_output h o f).
Proof.
  intros Hf. split; [|done]. intros o'. rewrite get_upd_output.
  destruct (decide (o = o')) as [->|]; by rewrite ?Hf.
Qed.

Lemma guard_same_upd_device h f : guard_same h (upd_device h f).
Proof. by split. Qed.

Lemma guard_same_upd_plane h p f : guard_same h (upd_plane h p f).
Proof. by split. Qed.

Lemma guard_same_fold {A} (g : heap → A → heap) (xs : list A) :
  (∀ h x, guard_same h (g h x)) →
  ∀ h, guard_same h (fold_left g xs h).
Proof.
  intros Hg. induction xs as [|x xs IH]; intros h; simpl.
  - apply guard_same_refl.
  - eapply guard_same_trans; [apply Hg|apply IH].
Qed.

Lemma heap_sim_guard_same h1 h2 : heap_sim h1 h2 → guard_same h1 h2.
Proof.
  intros (_ & _ & _ & _ & Ho & Hl). split.
  - intros o. by rewrite Ho.
  - intros l. specialize (Hl l). unfold layer_sim, layer_guard_view in *.
    destruct (get_layer h1 l), (get_layer h2 l). simpl in *.
    by injection Hl as -> -> -> -> -> -> -> -> ->.
Qed.

Lemma layers_priority_update_guard_same h :
  guard_same h (layers_priority_update h).
Proof.
  unfold layers_priority_update; cbv zeta.
  eapply guard_same_trans; [apply guard_same_upd_device|].
  apply guard_same_fold.
  intros h1 o. apply guard_same_fold. intros h2 l.
  apply guard_same_upd_layer. intros x.
  unfold layer_priority_update. by repeat case_match.
Qed.

Lemma log_no_reuse_guard_same h output :
  guard_same h (log_no_reuse h output).
Proof.
  unfold log_no_reuse.
  destruct (negb (alloc_reused_counter (get_output h output) =? 0));
    [|apply guard_same_refl].
  by apply guard_same_upd_output.
Qed.

Lemma output_unbind_planes_guard_same h output :
  guard_same h (output_unbind_planes h output).
Proof.
  unfold output_unbind_planes. apply guard_same_fold. intros h1 plane.
  destruct (plane_layer (get_plane h1 plane)) as [l|];
    [|apply guard_same_refl].
  case_bool_decide; [|apply guard_same_refl].
  eapply guard_same_trans; [|apply guard_same_upd_plane].
  by apply guard_same_upd_layer.
Qed.

Lemma output_apply_prepared_guard_same h output :
  guard_same h (output_apply_prepared h output).
Proof.
  unfold output_apply_prepared. cbv zeta.
  eapply guard_same_trans; [|apply output_unbind_planes_guard_same].
  eapply guard_same_trans; [|apply guard_same_upd_device].
  eapply guard_same_trans; [apply log_no_reuse_guard_same|].
  apply guard_same_fold.
  intros h1 l. by apply guard_same_upd_layer.
Qed.

Lemma output_install_best_guard_same h best :
  guard_same h (output_install_best h best).
Proof.
  unfold output_install_best. apply guard_same_fold.
  intros h1 [plane [l|]]; [|apply guard_same_refl].
  eapply guard_same_trans; [apply guard_same_upd_plane|].
  by apply guard_same_upd_layer.
Qed.

Lemma layer_realloc_props_view l1 l2 props :
  fb_info l1 = fb_info l2 → prev_fb_info l1 = prev_fb_info l2 →
  layer_realloc_props l1 props = layer_realloc_props l2 props.
Proof.
  intros Hf Hp. induction props as [|p ps IH]; [done|]. simpl.
  by rewrite Hf, Hp, IH.
Qed.

Lemma layer_realloc_get_view l1 l2 :
  layer_guard_view l1 = layer_guard_view l2 →
  layer_realloc_get l1 = layer_realloc_get l2.
Proof.
  unfold layer_guard_view, layer_realloc_get. intros [= -> -> Hf Hp].
  by rewrite (layer_realloc_props_view l1 l2).
Qed.

Lemma layer_realloc_props_clean layer props :
  fb_info layer = prev_fb_info layer →
  Forall (λ p, prev_value p = value p) props →
  layer_realloc_props layer props = false.
Proof.
  intros Hfb. induction 1 as [|p ps Hp _ IH]; [done|]. simpl.
  rewrite Hp, IH, Hfb.
  destruct (index p =? LIFTOFF_RPI_PROP_FB_ID).
  - destruct (value p =? 0); simpl; [done|].
    assert (layer_fb_info_needs_realloc (prev_fb_info layer)
              (prev_fb_info layer) = false) as ->; [|done].
    unfold layer_fb_info_needs_realloc. by rewrite !Z.eqb_refl.
  - by rewrite Z.eqb_refl.
Qed.

Lemma fb_info_of_view drm ps1 : ∀ ps2,
  staging_view ps1 = staging_view ps2 →
  fb_info_of drm ps1 = fb_info_of drm ps2.
Proof.
  unfold staging_view, fb_info_of.
  induction ps1 as [|p1 ps1 IH]; intros [|p2 ps2]; try done.
  rewrite !fmap_cons. intros [= Hi Hv Hrest]. simpl.
  rewrite Hi. destruct (decide (index p2 = LIFTOFF_RPI_PROP_FB_ID)).
  - simpl. by rewrite Hv.
  - specialize (IH ps2 Hrest).
    destruct (list_find _ ps1) as [[i x]|], (list_find _ ps2) as [[j y]|];
      simpl in *; done.
Qed.

Lemma tuple4_inv {A B C D} (a a' : A) (b b' : B) (c c' : C) (d d' : D) :
  (a, b, c, d) = (a', b', c', d') → a = a' ∧ b = b' ∧ c = c' ∧ d = d'.
Proof. by intros [= -> -> -> ->]. Qed.

Lemma next_apply_view drm g output l :
  l ∈ output_layers (get_output g output) →
  let x := get_layer g l in
  layer_guard_view
    (get_layer (layers_fb_info_update drm (layers_priority_update g) output) l)
  = (changed x, layer_props x, fb_info_of drm (layer_props x),
     prev_fb_info x).
Proof.
  intros Hl x. subst x.
  destruct (layers_priority_update_guard_same g) as [Ho Hv].
  rewrite layers_fb_info_update_layer, <- Ho, decide_True by done.
  specialize (Hv l). unfold layer_guard_view in *. simpl.
  by injection Hv as -> -> _ ->.
Qed.

Lemma layer_clean_idem x : layer_clean (layer_clean x) = layer_clean x.
Proof.
  unfold layer_clean. destruct x; simpl. f_equal.
  rewrite map_map. by apply map_ext.
Qed.

Lemma layer_clean_fields x :
  changed (layer_clean x) = false ∧
  layer_props (layer_clean x)
  = (λ p, prop_with_prev_value p (value p)) <$> layer_props x ∧
  prev_fb_info (layer_clean x) = fb_info x.
Proof. done. Qed.

Lemma layers_mark_clean_layer h output l :
  l ∈ output_layers (get_output h output) →
  get_layer (layers_mark_clean h output) l = layer_clean (get_layer h l).
Proof.
  intros Hl. unfold layers_mark_clean.
  rewrite (fold_upd_layer_idem layer_clean) by apply layer_clean_idem.
  by rewrite decide_True.
Qed.

Lemma layers_mark_clean_output h output :
  output_layers (get_output (layers_mark_clean h output) output)
  = output_layers (get_output h output) ∧
  layers_changed (get_output (layers_mark_clean h output) output) = false.
Proof.
  unfold layers_mark_clean, get_output. rewrite fold_upd_layer_outputs.
  fold (get_output (upd_output h output
          (λ o, output_with_layers_changed o false)) output).
  by rewrite get_upd_output, decide_True.
Qed.

(** After a successful [liftoff_rpi_output_apply] the guard of
    [reuse_prev_alloc] holds on the next call. *)
Lemma output_apply_guard_again (drm : drm_boundary) (h : heap)
    (output : output_ptr) (rq : drmModeAtomicReq) (fl : Z)
    (malloc_ok : bool) (h' : heap) (rq' : drmModeAtomicReq) :
  liftoff_rpi_output_apply drm h output rq fl malloc_ok = (0, h', rq') →
  reuse_prev_alloc_guard
    (layers_fb_info_update drm (layers_priority_update h') output) output
  = true.
Proof.
  intros Happly. apply output_apply_ok in Happly. cbn zeta in Happly.
  set (h2 := layers_fb_info_update drm (layers_priority_update h) output) in *.
  assert (Hh2 : ∀ l, l ∈ output_layers (get_output h output) →
            fb_info (get_layer h2 l)
            = fb_info_of drm (layer_props (get_layer h2 l))).
  { intros l Hl. pose proof (next_apply_view drm h output l Hl) as Hv.
    cbn zeta in Hv. fold h2 in Hv. unfold layer_guard_view in Hv.
    by injection Hv as _ -> -> _. }
  assert (Ho2 : get_output h2 output = get_output h output).
  { unfold get_output, h2. by rewrite layers_update_outputs. }
  assert (Hgoal : ∀ g,
    layers_changed (get_output g output) = false →
    (∀ l, l ∈ output_layers (get_output g output) →
          layer_realloc_get
            (get_layer
               (layers_fb_info_update drm (layers_priority_update g) output)
               l) = false) →
    reuse_prev_alloc_guard
      (layers_fb_info_update drm (layers_priority_update g) output) output
    = true).
  { intros g Hch Hall. unfold reuse_prev_alloc_guard.
    assert (get_output
              (layers_fb_info_update drm (layers_priority_update g) output)
              output = get_output g output) as ->.
    { unfold get_output. by rewrite layers_update_outputs. }
    rewrite Hch. apply negb_true_iff.
    destruct (existsb _ _) eqn:He; [|done].
    apply existsb_exists in He as (l & Hl%list_elem_of_In & Hr).
    by rewrite Hall in Hr. }
  destruct Happly as [(h3 & Er & ->)|
                      (ret & h3 & rq3 & rq8 & m & Er & Hret & Ed & _ & Es
                       & Ec & ->)].
  - pose proof (reuse_prev_alloc_outcome drm h2 output rq fl)
      as (Hsim & _ & _ & Hok).
    rewrite Er in Hsim, Hok. cbn [fst snd] in Hsim, Hok.
    destruct (Hok eq_refl) as [Hguard _].
    pose proof (heap_sim_guard_same _ _ Hsim) as [Hlay Hview].
    destruct Hsim as (_ & _ & _ & _ & Ho & _).
    assert (Hout : get_output (log_reuse h3 output) output
                   = output_with_alloc_reused_counter (get_output h2 output)
                       (alloc_reused_counter (get_output h2 output) + 1)).
    { unfold log_reuse. by rewrite get_upd_output, decide_True, Ho. }
    unfold reuse_prev_alloc_guard in Hguard.
    destruct (layers_changed (get_output h2 output)) eqn:Hch; [done|].
    apply negb_true_iff in Hguard.
    apply Hgoal; rewrite Hout; simpl; [done|].
    intros l Hl.
    assert (Hl' : l ∈ output_layers (get_output h output))
      by by rewrite <- Ho2.
    assert (layer_realloc_get (get_layer h2 l) = false) as <-.
    { destruct (layer_realloc_get (get_layer h2 l)) eqn:Hr; [|done].
      rewrite <- Hguard. symmetry. apply existsb_exists.
      exists l. split; [by apply list_elem_of_In|done]. }
    apply layer_realloc_get_view.
    rewrite next_apply_view by by rewrite Hout.
    assert (layer_guard_view (get_layer (log_reuse h3 output) l)
            = layer_guard_view (get_layer h2 l)) as Hv by by rewrite Hview.
    unfold layer_guard_view in *. injection Hv as -> -> _ ->.
    by rewrite <- Hh2.
  - set (h7 := output_apply_prepared h3 output) in *.
    set (h9 := output_install_best (mem_heap m) (best (mem_result m))) in *.
    assert (Hsame : guard_same h2 h9).
    { eapply guard_same_trans; [|apply output_install_best_guard_same].
      destruct (output_layers_choose_run drm h7 output (λ _ _, True)
                  (λ _ _ _ _ _, I) (λ _ _ _ _ _ _ _ _ _, I) true
                  (dev_planes (device h7)) alloc_step_first
                  (alloc_mem_first h7 output rq8 fl) m
                  (alloc_mem_first_ok _ _ _ _) eq_refl I Es)
        as [(Hs & _) _].
      eapply guard_same_trans; [|apply heap_sim_guard_same, Hs].
      simpl.
      eapply guard_same_trans; [|apply output_apply_prepared_guard_same].
      apply heap_sim_guard_same.
      pose proof (reuse_prev_alloc_outcome drm h2 output rq fl)
        as (Hsim & _).
      by rewrite Er in Hsim. }
    destruct Hsame as [Hlay Hview].
    destruct (layers_mark_clean_output h9 output) as [Hlc Hch].
    apply Hgoal; [done|]. rewrite Hlc, <- Hlay, Ho2.
    intros l Hl.
    pose proof (next_apply_view drm (layers_mark_clean h9 output) output l)
      as Hv.
    rewrite Hlc, <- Hlay, Ho2 in Hv. specialize (Hv Hl). cbn zeta in Hv.
    rewrite layers_mark_clean_layer in Hv by by rewrite <- Hlay, Ho2.
    specialize (Hview l). specialize (Hh2 l Hl).
    destruct (layer_clean_fields (get_layer h9 l)) as (Ec1 & Ec2 & Ec3).
    rewrite Ec1, Ec2, Ec3 in Hv. clear Ec1 Ec2 Ec3.
    unfold layer_guard_view in Hv, Hview.
    apply tuple4_inv in Hview as (Hc & Hp & Hf & Hpf).
    apply tuple4_inv in Hv as (Hc' & Hp' & Hf' & Hpf').
    unfold layer_realloc_get. rewrite Hc', Hp'.
    apply layer_realloc_props_clean.
    + rewrite Hf', Hpf', <- Hf, Hh2, Hp.
      apply fb_info_of_view. unfold staging_view.
      rewrite <- list_fmap_compose. by apply list_fmap_ext.
    + apply Forall_forall.
      intros p (q & -> & _)%list_elem_of_fmap. done.
Qed.

(** A successful [liftoff_rpi_output_apply] leaves the output in a
    steady state.  When it is applied again with no change to the layers
    in between, the guard of [reuse_prev_alloc] holds; so
    [reuse_prev_alloc] succeeds exactly when restaging the bindings
    ([apply_current]) and the test commit succeed, and then the second
    call returns 0 on the reuse path: without a search, whether or not
    the search arrays could be allocated, with the bindings as they
    were, one more reuse counted and the restaged request. *)
Theorem output_apply_then_reuse (drm : drm_boundary) (h : heap)
    (output : output_ptr) (rq : drmModeAtomicReq) (fl : Z)
    (malloc_ok : bool) (h' : heap) (rq' : drmModeAtomicReq) :
  liftoff_rpi_output_apply drm h output rq fl malloc_ok = (0, h', rq') →
  let h2 := layers_fb_info_update drm (layers_priority_update h') output in
  reuse_prev_alloc_guard h2 output = true ∧
  ∀ rq2 fl2 malloc_ok2,
    let staged := apply_current drm h2 rq2 in
    let tested := device_test_commit drm h2 (snd staged) fl2 in
    let again := liftoff_rpi_output_apply drm h' output rq2 fl2 malloc_ok2 in
    (fst (fst (reuse_prev_alloc drm h2 output rq2 fl2)) = 0 ↔
     fst staged = 0 ∧ fst tested = 0) ∧
    (fst staged = 0 → fst tested = 0 →
     again = (0, log_reuse (snd tested) output, snd staged) ∧
     same_bindings h' (snd (fst again)) ∧
     alloc_reused_counter (get_output (snd (fst again)) output)
     = alloc_reused_counter (get_output h' output) + 1).
Proof.
  intros Happly h2.
  pose proof (output_apply_guard_again _ _ _ _ _ _ _ _ Happly) as Hguard.
  fold h2 in Hguard. split; [exact Hguard|].
  intros rq2 fl2 malloc_ok2 staged tested again.
  assert (Er : reuse_prev_alloc drm h2 output rq2 fl2
               = if negb (fst staged =? 0) then (fst staged, h2, snd staged)
                 else if negb (fst tested =? 0)
                      then (fst tested, snd tested,
                            drmModeAtomicSetCursor (snd staged)
                              (drmModeAtomicGetCursor rq2))
                      else (fst tested, snd tested, snd staged)).
  { unfold reuse_prev_alloc. rewrite Hguard. cbn [negb]. cbv zeta.
    unfold tested, staged.
    destruct (apply_current drm h2 rq2) as [ret1 rq3]. cbn [fst snd].
    destruct (negb (ret1 =? 0)); [done|].
    by destruct (device_test_commit drm h2 rq3 fl2) as [ret2 h3]. }
  split.
  - rewrite Er.
    destruct (Z.eqb_spec (fst staged) 0) as [E1|E1]; cbn [negb fst snd].
    2:{ split; [done|]. by intros [? _]. }
    destruct (Z.eqb_spec (fst tested) 0) as [E2|E2]; cbn [negb fst snd].
    + done.
    + split; [done|]. by intros [_ ?].
  - intros E1 E2.
    assert (Ea : again = (0, log_reuse (snd tested) output, snd staged)).
    { unfold again, liftoff_rpi_output_apply. cbv zeta. fold h2.
      rewrite Er. clear Er. clearbody tested. clearbody staged.
      destruct staged as [ret1 rq3], tested as [ret2 h3].
      cbn [fst snd] in *. subst ret1 ret2. done. }
    rewrite Ea. cbn [fst snd]. split; [done|].
    assert (F : heap_frame h' (log_reuse (snd tested) output)).
    { eapply heap_frame_trans; [apply layers_priority_update_frame|].
      eapply heap_frame_trans;
        [apply (layers_fb_info_update_frame drm _ output)|].
      fold h2.
      eapply heap_frame_trans; [|apply log_reuse_frame].
      apply heap_sim_frame, device_test_commit_sim. }
    split; [by destruct F|].
    unfold log_reuse. rewrite get_upd_output, decide_True by done.
    cbn [alloc_reused_counter output_with_alloc_reused_counter].
    destruct (device_test_commit_sim drm h2 (snd staged) fl2)
      as (_ & _ & _ & _ & Ho & _).
    fold tested in Ho. rewrite <- Ho.
    assert (get_output h2 output = get_output h' output) as ->; [|done].
    unfold get_output, h2. by rewrite layers_update_outputs.
Qed.

Lemma output_apply_then_reuse_witness :
  let r := liftoff_rpi_output_apply ex_drm ex_heap_search 0%nat [] 0 true in
  let again :=
    liftoff_rpi_output_apply ex_drm (snd (fst r)) 0%nat [] 0 false in
  fst (fst r) = 0 ∧
  reuse_prev_alloc_guard
    (layers_fb_info_update ex_drm (layers_priority_update (snd (fst r)))
       0%nat) 0%nat
  = true ∧
  fst (fst again) = 0 ∧
  alloc_reused_counter (get_output (snd (fst again)) 0%nat) = 1.
Proof.
  intros r again.
  assert (E : liftoff_rpi_output_apply ex_drm ex_heap_search 0%nat [] 0 true
              = (0, snd (fst r), snd r))
    by (vm_compute; reflexivity).
  destruct (output_apply_then_reuse ex_drm ex_heap_search 0%nat [] 0 true
              _ _ E) as [Hguard Hnext].
  split; [vm_compute; reflexivity|]. split; [exact Hguard|].
  destruct (Hnext [] 0 false) as [_ Hgo].
  destruct Hgo as (Ea & _ & Hcount).
  - vm_compute. reflexivity.
  - vm_compute. reflexivity.
  - fold again in Ea, Hcount. split.
    + rewrite Ea. reflexivity.
    + rewrite Hcount. vm_compute. reflexivity.
Defined.

(** ** alloc.c: the bindings after an apply *)

Lemma output_unbind_planes_steps h output :
  output_unbind_planes h output
  = fold_left (unbind_step output) (dev_planes (device h)) h.
Proof. done. Qed.

Lemma output_install_best_steps h best :
  output_install_best h best
  = fold_left install_step (zip (dev_planes (device h)) best) h.
Proof.
  unfold output_install_best.
  generalize (zip (dev_planes (device h)) best). intros zs. revert h.
  induction zs as [|[p slot] zs IH]; intros h; [done|]. simpl. apply IH.
Qed.

Lemma unbind_step_spec output h a :
  let h1 := unbind_step output h a in
  (∀ l, layer_output (get_layer h1 l) = layer_output (get_layer h l)) ∧
  (∀ p l, plane_layer (get_plane h1 p) = Some l →
     plane_layer (get_plane h p) = Some l ∧
     (p = a → layer_output (get_layer h l) ≠ output)) ∧
  (∀ l, layer_output (get_layer h l) ≠ output →
     layer_plane (get_layer h1 l) = layer_plane (get_layer h l)).
Proof.
  unfold unbind_step.
  destruct (plane_layer (get_plane h a)) as [l0|] eqn:Ea.
  2:{ split_and!; try done. intros p l Hp. split; [done|].
      intros ->. congruence. }
  case_bool_decide as Hout.
  2:{ split_and!; try done. intros p l Hp. split; [done|].
      intros ->. congruence. }
  cbn zeta. split_and!.
  - intros l.
    change (get_layer (upd_plane ?hh _ _) l) with (get_layer hh l).
    rewrite get_upd_layer. by destruct (decide (l0 = l)) as [->|].
  - intros p l. rewrite get_upd_plane.
    destruct (decide (a = p)) as [->|Hne]; [done|].
    change (get_plane (upd_layer ?hh _ _) p) with (get_plane hh p).
    intros Hp. split; [done|]. intros ->. done.
  - intros l Hl.
    change (get_layer (upd_plane ?hh _ _) l) with (get_layer hh l).
    rewrite get_upd_layer. destruct (decide (l0 = l)) as [->|]; done.
Qed.

Lemma unbind_fold_spec output ps : ∀ h,
  let h1 := fold_left (unbind_step output) ps h in
  (∀ l, layer_output (get_layer h1 l) = layer_output (get_layer h l)) ∧
  (∀ p l, plane_layer (get_plane h1 p) = Some l →
     plane_layer (get_plane h p) = Some l ∧
     (p ∈ ps → layer_output (get_layer h l) ≠ output)) ∧
  (∀ l, layer_output (get_layer h l) ≠ output →
     layer_plane (get_layer h1 l) = layer_plane (get_layer h l)).
Proof.
  induction ps as [|a ps IH]; intros h; simpl.
  { split_and!; try done. intros p l Hp. split; [done|].
    intros Hin. by apply elem_of_nil in Hin. }
  destruct (unbind_step_spec output h a) as (Ho1 & Hp1 & Hl1).
  destruct (IH (unbind_step output h a)) as (Ho2 & Hp2 & Hl2).
  split_and!.
  - intros l. by rewrite Ho2.
  - intros p l Hp. destruct (Hp2 p l Hp) as [Hp' Hps].
    destruct (Hp1 p l Hp') as [Hp'' Ha]. split; [done|].
    intros [->|Hin]%elem_of_cons; [by apply Ha|].
    rewrite <- Ho1. by apply Hps.
  - intros l Hl. rewrite Hl2 by by rewrite Ho1. by apply Hl1.
Qed.

Lemma install_step_layer_output h z l :
  layer_output (get_layer (install_step h z) l) = layer_output (get_layer h l).
Proof.
  unfold install_step. destruct z as [p [l0|]]; [|done]. simpl.
  rewrite get_upd_layer. by destruct (decide (l0 = l)) as [->|].
Qed.

Lemma install_fold_plane zs : ∀ h,
  NoDup zs.*1 →
  (∀ p slot, (p, slot) ∈ zs →
     plane_layer (get_plane (fold_left install_step zs h) p)
     = match slot with
       | Some l => Some l
       | None => plane_layer (get_plane h p)
       end) ∧
  (∀ p, p ∉ zs.*1 →
     plane_layer (get_plane (fold_left install_step zs h) p)
     = plane_layer (get_plane h p)).
Proof.
  induction zs as [|[q s] zs IH]; intros h Hnd; simpl.
  { split; [|done]. intros p slot Hin. by apply elem_of_nil in Hin. }
  rewrite fmap_cons in Hnd. apply NoDup_cons in Hnd as [Hq Hnd].
  destruct (IH (install_step h (q, s)) Hnd) as [Hin Hout].
  assert (Hq1 : plane_layer (get_plane (install_step h (q, s)) q)
                = match s with
                  | Some l => Some l
                  | None => plane_layer (get_plane h q)
                  end).
  { unfold install_step. destruct s as [l0|]; [|done]. simpl.
    change (get_plane (upd_layer ?hh _ _) q) with (get_plane hh q).
    by rewrite get_upd_plane, decide_True. }
  assert (Hother : ∀ p, p ≠ q →
            plane_layer (get_plane (install_step h (q, s)) p)
            = plane_layer (get_plane h p)).
  { intros p Hne. unfold install_step. destruct s as [l0|]; [|done]. simpl.
    change (get_plane (upd_layer ?hh _ _) p) with (get_plane hh p).
    by rewrite get_upd_plane, decide_False. }
  split.
  - intros p slot [[= -> ->]|Hp]%elem_of_cons.
    + by rewrite Hout.
    + rewrite (Hin p slot Hp). destruct slot as [l|]; [done|].
      apply Hother. intros ->. apply Hq.
      apply list_elem_of_fmap. by exists (q, None).
  - intros p Hp. apply not_elem_of_cons in Hp as [Hne Hp].
    rewrite (Hout p Hp). by apply Hother.
Qed.

Lemma install_fold_layer zs : ∀ h l,
  (∀ p, (p, Some l) ∈ zs →
     (∀ q, (q, Some l) ∈ zs → q = p) →
     layer_plane (get_layer (fold_left install_step zs h) l) = Some p) ∧
  ((∀ q, (q, Some l) ∉ zs) →
     layer_plane (get_layer (fold_left install_step zs h) l)
     = layer_plane (get_layer h l)).
Proof.
  induction zs as [|[q s] zs IH]; intros h l; simpl.
  { split; [|done]. intros p Hin. by apply elem_of_nil in Hin. }
  destruct (IH (install_step h (q, s)) l) as [Hin Hout].
  split.
  - intros p Hp Huniq.
    destruct (decide ((p, Some l) ∈ zs)) as [Hp'|Hp'].
    { apply Hin; [done|]. intros q' Hq'. apply Huniq. by right. }
    apply elem_of_cons in Hp as [[= <- <-]|Hp]; [|done].
    rewrite Hout.
    + unfold install_step. simpl. by rewrite get_upd_layer, decide_True.
    + intros q' Hq'. apply Hp'.
      rewrite <- (Huniq q'); [done|by right].
  - intros Hnone. rewrite Hout.
    + unfold install_step. destruct s as [l0|]; [|done]. simpl.
      rewrite get_upd_layer. destruct (decide (l0 = l)) as [->|]; [|done].
      exfalso. apply (Hnone q). by left.
    + intros q' Hq'. apply (Hnone q'). by right.
Qed.

Lemma search_reaches_slots h output step S :
  search_reaches h output step S →
  (∀ i l, S !! i = Some (Some l) →
     l ∈ output_layers (get_output h output) ∧
     layer_visible_get (get_layer h l) = true) ∧
  (∀ i j l, S !! i = Some (Some l) → S !! j = Some (Some l) → i = j).
Proof.
  induction 1 as [|step pre plane Hreach [IH1 IH2] Hplane
                  |step pre plane layer Hreach [IH1 IH2] Hplane Hin Hvis
                     Hcompat].
  - split; intros; done.
  - split.
    + intros i l [Hi|[_ Hi]]%lookup_app_Some; [by eapply IH1|].
      by destruct (i - length pre)%nat.
    + intros i j l [Hi|[_ Hi]]%lookup_app_Some; [|by destruct (i - _)%nat].
      intros [Hj|[_ Hj]]%lookup_app_Some; [by eapply IH2|].
      by destruct (j - _)%nat.
  - assert (Hfresh : Some layer ∉ pre).
    { unfold layer_plane_compatible_get in Hcompat.
      destruct (layer_allocated_get step pre layer) eqn:Ha; [done|].
      unfold layer_allocated_get in Ha.
      rewrite <- (search_reaches_length _ _ _ _ Hreach), firstn_all in Ha.
      intros Hpre. rewrite <- not_true_iff_false in Ha. apply Ha.
      apply existsb_exists. exists (Some layer).
      split; [by apply list_elem_of_In|]. by apply bool_decide_eq_true. }
    assert (Hlast : ∀ i l, (pre ++ [Some layer]) !! i = Some (Some l) →
              pre !! i = Some (Some l) ∨ (i = length pre ∧ l = layer)).
    { intros i l [Hi|[Hge Hi]]%lookup_app_Some; [by left|]. right.
      destruct (i - length pre)%nat as [|k] eqn:Ek; [|done].
      injection Hi as <-. split; [lia|done]. }
    split.
    + intros i l [Hi|[_ ->]]%Hlast; [by eapply IH1|done].
    + intros i j l [Hi|[-> ->]]%Hlast [Hj|[-> Hl]]%Hlast.
      * by eapply IH2.
      * subst l. exfalso. apply Hfresh. by eapply list_elem_of_lookup_2.
      * exfalso. apply Hfresh. by eapply list_elem_of_lookup_2.
      * done.
Qed.

Lemma planes_point_back_frame h h' :
  heap_frame h h' → planes_point_back h → planes_point_back h'.
Proof.
  intros [(Hd & _) [Hpl Hlp]] Hback p l Hp Hl.
  rewrite Hd in Hp. rewrite Hpl in Hl. rewrite Hlp. by apply Hback.
Qed.

Lemma layer_visible_get_clean x :
  layer_visible_get (layer_clean x) = layer_visible_get x.
Proof.
  assert (∀ prop,
    (λ r, value r.2) <$> layer_property_get (layer_clean x) prop
    = (λ r, value r.2) <$> layer_property_get x prop) as Hget.
  { intros prop. unfold layer_property_get, layer_clean. simpl.
    induction (layer_props x) as [|a ps IH]; [done|]. simpl.
    destruct (decide (index a = prop)); [done|].
    destruct (list_find _ (map _ ps)) as [[i1 q1]|],
             (list_find _ ps) as [[i2 q2]|]; simpl in *; done. }
  unfold layer_visible_get.
  pose proof (Hget LIFTOFF_RPI_PROP_ALPHA) as Ha.
  pose proof (Hget LIFTOFF_RPI_PROP_FB_ID) as Hf.
  change (force_comp (layer_clean x)) with (force_comp x).
  destruct (layer_property_get (layer_clean x) LIFTOFF_RPI_PROP_ALPHA)
    as [[i1 a1]|],
    (layer_property_get x LIFTOFF_RPI_PROP_ALPHA) as [[i2 a2]|];
    simpl in Ha; try done;
  destruct (layer_property_get (layer_clean x) LIFTOFF_RPI_PROP_FB_ID)
    as [[j1 f1]|],
    (layer_property_get x LIFTOFF_RPI_PROP_FB_ID) as [[j2 f2]|];
    simpl in Hf; try done;
  repeat match goal with
         | H : Some _ = Some _ |- _ => injection H as ->
         end; done.
Qed.

Lemma install_fold_layer_view zs : ∀ h l,
  layer_with_plane (get_layer (fold_left install_step zs h) l) None
  = layer_with_plane (get_layer h l) None.
Proof.
  induction zs as [|[q s] zs IH]; intros h l; [done|]. simpl.
  rewrite IH. unfold install_step. destruct s as [l0|]; [|done]. simpl.
  rewrite get_upd_layer. destruct (decide (l0 = l)) as [->|]; done.
Qed.

(** The bindings after a successful [liftoff_rpi_output_apply], on a
    device whose plane list has no repetition, for an output whose
    layers point back to it.  When every bound plane is the plane its
    layer points to before the call, the same holds after it; so no
    layer is on two planes.  And when the previous allocation is not
    reused, every plane then bound to a layer of the output got a
    visible layer of the output's list. *)
Theorem output_apply_bindings (drm : drm_boundary) (h : heap)
    (output : output_ptr) (rq : drmModeAtomicReq) (fl : Z)
    (malloc_ok : bool) (h' : heap) (rq' : drmModeAtomicReq) :
  NoDup (dev_planes (device h)) →
  output_layers_belong h output →
  planes_point_back h →
  liftoff_rpi_output_apply drm h output rq fl malloc_ok = (0, h', rq') →
  planes_point_back h' ∧
  (∀ p q l,
     p ∈ dev_planes (device h') → q ∈ dev_planes (device h') →
     plane_layer (get_plane h' p) = Some l →
     plane_layer (get_plane h' q) = Some l → p = q) ∧
  (fst (fst (reuse_prev_alloc drm
               (layers_fb_info_update drm (layers_priority_update h) output)
               output rq fl)) ≠ 0 →
   ∀ p l,
     p ∈ dev_planes (device h') →
     plane_layer (get_plane h' p) = Some l →
     layer_output (get_layer h' l) = output →
     l ∈ output_layers (get_output h' output) ∧
     layer_visible_get (get_layer h' l) = true).
Proof.
  intros Hnd Hbel Hback Happly.
  assert (Hinj : ∀ g, planes_point_back g →
            ∀ p q l, p ∈ dev_planes (device g) → q ∈ dev_planes (device g) →
              plane_layer (get_plane g p) = Some l →
              plane_layer (get_plane g q) = Some l → p = q).
  { intros g Hg p q l Hp Hq Hpl Hql.
    pose proof (Hg p l Hp Hpl) as E1. pose proof (Hg q l Hq Hql) as E2.
    congruence. }
  apply output_apply_ok in Happly. cbn zeta in Happly.
  pose proof (heap_frame_trans _ _ _ (layers_priority_update_frame h)
                (layers_fb_info_update_frame drm _ output)) as F2.
  set (h2 := layers_fb_info_update drm (layers_priority_update h) output) in *.
  assert (Ho2 : get_output h2 output = get_output h output).
  { unfold get_output, h2. by rewrite layers_update_outputs. }
  pose proof (reuse_prev_alloc_outcome drm h2 output rq fl) as (Hsim3 & _).
  destruct Happly as [(h3 & Er & ->)|
                      (ret & h3 & rq3 & rq8 & m & Er & Hret & Ed & _ & Es
                       & Ec & ->)];
    rewrite Er in Hsim3 |- *; cbn [fst snd] in Hsim3 |- *.
  { (* the previous allocation is reused *)
    assert (Hb : planes_point_back (log_reuse h3 output)).
    { apply (planes_point_back_frame h); [|done].
      eapply heap_frame_trans; [exact F2|].
      eapply heap_frame_trans; [by apply heap_sim_frame|].
      apply log_reuse_frame. }
    split_and!; [done|by apply Hinj|done]. }
  (* a new allocation *)
  pose proof (heap_frame_trans _ _ _ F2 (heap_sim_frame _ _ Hsim3)) as F3.
  pose proof (guard_same_trans _ _ _ (heap_sim_guard_same _ _ Hsim3)
                (output_apply_prepared_guard_same h3 output)) as [G7 _].
  unfold output_apply_prepared in *. cbv zeta in *.
  set (h4 := log_no_reuse h3 output) in *.
  set (h5 := fold_left _ _ h4) in *.
  set (h6 := upd_device h5 _) in *.
  set (h7 := output_unbind_planes h6 output) in *.
  assert (F6 : heap_frame h h6).
  { eapply heap_frame_trans; [exact F3|].
    eapply heap_frame_trans; [apply log_no_reuse_frame|]. fold h4.
    eapply heap_frame_trans; [|by apply heap_frame_upd_device].
    apply heap_frame_fold. intros hh l. by apply heap_frame_upd_layer. }
  destruct F6 as [(Hd6 & _ & _ & Ho6) [Hpl6 Hlp6]].
  pose proof (unbind_fold_spec output (dev_planes (device h6)) h6)
    as (Ho7 & Hp7 & Hl7).
  cbn zeta in Ho7, Hp7, Hl7.
  rewrite <- (output_unbind_planes_steps h6 output) in Ho7, Hp7, Hl7.
  fold h7 in Ho7, Hp7, Hl7.
  destruct (output_unbind_planes_statics h6 output) as (Hd7 & _).
  fold h7 in Hd7.
  (* the bound planes of h7 *)
  assert (B7 : ∀ p l, p ∈ dev_planes (device h7) →
            plane_layer (get_plane h7 p) = Some l →
            layer_output (get_layer h7 l) ≠ output ∧
            layer_plane (get_layer h7 l) = Some p).
  { intros p l Hp Hl. rewrite Hd7 in Hp.
    destruct (Hp7 p l Hl) as [Hl6 Hout]. specialize (Hout Hp).
    split; [by rewrite Ho7|].
    rewrite (Hl7 l Hout), Hlp6. apply Hback; [by rewrite <- Hd6|].
    by rewrite <- Hpl6. }
  assert (Hbel7 : ∀ l, l ∈ output_layers (get_output h7 output) →
            layer_output (get_layer h7 l) = output).
  { intros l Hl. rewrite Ho7, Ho6. apply Hbel.
    by rewrite <- Ho2, (G7 output). }
  (* the search *)
  destruct (output_layers_choose_run drm h7 output (search_reaches h7 output)
              (reaches_skip h7 output) (reaches_layer h7 output) true
              (dev_planes (device h7)) alloc_step_first
              (alloc_mem_first h7 output rq8 fl) m
              (alloc_mem_first_ok _ _ _ _) eq_refl (reaches_first _ _) Es)
    as [(Hsim & (_ & _ & _ & _ & Hblen) & _) Hprog].
  simpl in Hsim, Hblen. rewrite length_replicate in Hblen.
  unfold liftoff_rpi_list_length in Hblen.
  set (bst := best (mem_result m)) in *.
  assert (Hbest :
    (∀ i l, bst !! i = Some (Some l) →
       l ∈ output_layers (get_output h7 output) ∧
       layer_visible_get (get_layer h7 l) = true) ∧
    (∀ i j l, bst !! i = Some (Some l) → bst !! j = Some (Some l) → i = j)).
  { destruct Hprog as [[Hb _]|(_ & tstep & Hreach & _)].
    - fold bst in Hb. simpl in Hb. rewrite Hb.
      split; intros i; intros; by apply lookup_replicate in H as [? _].
    - by apply search_reaches_slots in Hreach. }
  destruct Hbest as [Hslot Huniq].
  destruct (heap_sim_frame _ _ Hsim) as [(Hd8 & _ & _ & Ho8) [Hpl8 Hlp8]].
  pose proof (heap_sim_guard_same _ _ Hsim) as [G8 _].
  set (hm := mem_heap m) in *.
  set (zs := zip (dev_planes (device hm)) bst).
  assert (Hzs : ∀ p slot, (p, slot) ∈ zs ↔
            ∃ i, dev_planes (device hm) !! i = Some p ∧ bst !! i = Some slot).
  { intros p slot. unfold zs. rewrite list_elem_of_lookup. split.
    - intros [i Hi]. exists i.
      by apply lookup_zip_with_Some in Hi as (? & ? & [= <- <-] & ? & ?).
    - intros (i & Hp & Hb). exists i. apply lookup_zip_with_Some.
      by exists p, slot. }
  assert (Hfst : zs.*1 = dev_planes (device hm)).
  { unfold zs. apply fst_zip. rewrite Hblen, Hd8. done. }
  assert (Hnd8 : NoDup (dev_planes (device hm))) by by rewrite Hd8, Hd7, Hd6.
  destruct (install_fold_plane zs hm) as [Hin9 _]; [by rewrite Hfst|].
  pose proof (output_install_best_steps hm bst) as E9. fold zs in E9.
  rewrite <- E9 in Hin9.
  set (h9 := output_install_best hm bst) in *.
  destruct (output_install_best_statics hm bst) as (Hd9 & _ & _ & Ho9).
  fold h9 in Hd9, Ho9.
  pose proof (output_install_best_guard_same hm bst) as [G9 _]. fold h9 in G9.
  (* the bound planes of h9 *)
  assert (B9 : ∀ p l, p ∈ dev_planes (device h9) →
            plane_layer (get_plane h9 p) = Some l →
            layer_plane (get_layer h9 l) = Some p ∧
            (layer_output (get_layer h9 l) = output →
             l ∈ output_layers (get_output h9 output) ∧
             layer_visible_get (get_layer h9 l) = true)).
  { intros p l Hp Hl. rewrite Hd9 in Hp.
    pose proof Hp as [i Hi]%list_elem_of_lookup.
    assert (is_Some (bst !! i)) as [slot Hb].
    { apply lookup_lt_is_Some. rewrite Hblen, <- Hd8.
      by apply lookup_lt_Some in Hi. }
    rewrite (Hin9 p slot) in Hl by (apply Hzs; by exists i).
    destruct slot as [l0|].
    - injection Hl as ->.
      destruct (Hslot i l Hb) as [Hl7' Hvis]. split.
      + rewrite E9.
        apply (proj1 (install_fold_layer zs hm l)).
        * apply Hzs. by exists i.
        * intros q (j & Hq & Hj)%Hzs.
          rewrite (Huniq j i l Hj Hb) in Hq. congruence.
      + intros _. split; [by rewrite <- (G9 output), <- (G8 output)|].
        change (layer_visible_get (layer_with_plane (get_layer h9 l) None)
                = true).
        rewrite E9, install_fold_layer_view.
        change (layer_visible_get (get_layer hm l) = true).
        rewrite <- Hvis. symmetry. apply layer_visible_get_sim.
        by destruct Hsim as (_ & _ & _ & _ & _ & Hls).
    - rewrite Hpl8 in Hl.
      destruct (B7 p l) as [Hout Hlp]; [by rewrite <- Hd8|done|].
      split.
      + rewrite E9.
        rewrite (proj2 (install_fold_layer zs hm l)); [by rewrite Hlp8|].
        intros q (j & _ & Hj)%Hzs.
        destruct (Hslot j l Hj) as [Hl7' _]. by apply Hout, Hbel7.
      + intros Hout9. exfalso. apply Hout. by rewrite <- Ho8, <- Ho9. }
  (* the heap on return *)
  pose proof (layers_mark_clean_frame h9 output) as [(Hd10 & _ & _ & Ho10)
                                                      [Hpl10 Hlp10]].
  destruct (layers_mark_clean_output h9 output) as [Hlc _].
  assert (Hb : planes_point_back (layers_mark_clean h9 output)).
  { intros p l Hp Hl. rewrite Hd10 in Hp. rewrite Hpl10 in Hl.
    rewrite Hlp10. by apply B9. }
  split_and!; [done|by apply Hinj|].
  intros _ p l Hp Hl Hout.
  rewrite Hd10 in Hp. rewrite Hpl10 in Hl. rewrite Ho10 in Hout.
  destruct (B9 p l Hp Hl) as [_ Hnew].
  destruct (Hnew Hout) as [Hl9 Hvis]. rewrite Hlc. split; [done|].
  rewrite layers_mark_clean_layer by done.
  by rewrite layer_visible_get_clean.
Qed.

Lemma output_apply_bindings_witness :
  let r := liftoff_rpi_output_apply ex_drm ex_heap_search 0%nat [] 0 true in
  fst (fst r) = 0 ∧
  NoDup (dev_planes (device ex_heap_search)) ∧
  output_layers_belong ex_heap_search 0%nat ∧
  planes_point_back ex_heap_search ∧
  planes_point_back (snd (fst r)) ∧
  plane_layer (get_plane (snd (fst r)) 0%nat) = Some 0%nat.
Proof.
  assert (H1 : NoDup (dev_planes (device ex_heap_search))).
  { apply (bool_decide_unpack _). vm_compute. exact I. }
  assert (H2 : output_layers_belong ex_heap_search 0%nat).
  { intros l Hl. change (l ∈ [0%nat; 1%nat; 2%nat]) in Hl.
    apply elem_of_cons in Hl as [->|Hl]; [vm_compute; reflexivity|].
    apply elem_of_cons in Hl as [->|Hl]; [vm_compute; reflexivity|].
    apply elem_of_cons in Hl as [->|Hl]; [vm_compute; reflexivity|].
    by apply elem_of_nil in Hl. }
  assert (H3 : planes_point_back ex_heap_search).
  { intros p l Hp. change (p ∈ [0%nat; 1%nat; 2%nat]) in Hp.
    apply elem_of_cons in Hp as [->|Hp];
      [intros Hl; vm_compute in Hl; discriminate|].
    apply elem_of_cons in Hp as [->|Hp];
      [intros Hl; vm_compute in Hl; discriminate|].
    apply elem_of_cons in Hp as [->|Hp];
      [intros Hl; vm_compute in Hl; discriminate|].
    by apply elem_of_nil in Hp. }
  intros r.
  assert (E : liftoff_rpi_output_apply ex_drm ex_heap_search 0%nat [] 0 true
              = (0, snd (fst r), snd r))
    by (vm_compute; reflexivity).
  split; [vm_compute; reflexivity|]. split; [exact H1|]. split; [exact H2|].
  split; [exact H3|].
  split; [|vm_compute; reflexivity].
  destruct (output_apply_bindings ex_drm ex_heap_search 0%nat [] 0 true
              _ _ H1 H2 H3 E) as [Hb _].
  exact Hb.
Defined.
